(** * Auto-ranged put meta request of aws-c-s3: a shallow embedding

    The definitions below follow [source/s3_auto_ranged_put.c].  Every C
    function of that file that is verified here is a Rocq function of the
    same name; the state that the C code keeps in
    [struct aws_s3_auto_ranged_put] and in the base
    [struct aws_s3_meta_request] is passed explicitly.  What the file calls
    in aws-c-common (array lists, JSON values, HTTP headers) is given by its
    library behaviour; what it calls in other files of aws-c-s3 is either an
    input of the function that needs it or marked as modelled.

    Integers: [uint32_t] counters are [Z] with the wrap-around of [++]
    written out ([incr_u32]); [size_t] and [uint64_t] are [Z] on an LP64
    platform; [double] is IEEE 754 binary64, as [spec_float] of the standard
    library, with the conversions from and to the integer types written
    out.  A function whose C text can abort the process
    ([AWS_FATAL_ASSERT]), dereference a null pointer or convert a double
    that the target type cannot hold returns [option]: [None] stands for
    "no defined result". *)

From Stdlib Require Import ZArith List Bool String Ascii Lia.
From Stdlib Require Import Floats.SpecFloat.
From Stdlib.Strings Require Byte.
From stdpp Require Import base list strings.
Import ListNotations.

Local Open Scope Z_scope.

(** ** Error codes, enumerations and flags *)

(** The error codes the file names, plus [AWS_ERROR_OTHER] for any other
    (non-zero) code handed through from the HTTP and retry layers. *)
Inductive aws_error :=
| AWS_ERROR_SUCCESS
| AWS_ERROR_INVALID_ARGUMENT
| AWS_ERROR_S3_MISSING_UPLOAD_ID
| AWS_ERROR_S3_LIST_PARTS_PARSE_FAILED
| AWS_ERROR_S3_RESUMED_PART_CHECKSUM_MISMATCH
| AWS_ERROR_S3_RESUME_FAILED
| AWS_ERROR_S3_PAUSED
| AWS_ERROR_S3_CANCELED
| AWS_ERROR_OTHER (code : Z).

#[global] Instance aws_error_eq_dec : EqDecision aws_error.
Proof. solve_decision. Defined.

#[global] Instance byte_eq_decision : EqDecision Byte.byte := Byte.byte_eq_dec.

Definition is_success (e : aws_error) : bool :=
  match e with AWS_ERROR_SUCCESS => true | _ => false end.

Inductive aws_s3_checksum_algorithm :=
| AWS_SCA_NONE | AWS_SCA_CRC32C | AWS_SCA_CRC32 | AWS_SCA_SHA1 | AWS_SCA_SHA256.

#[global] Instance aws_s3_checksum_algorithm_eq_dec : EqDecision aws_s3_checksum_algorithm.
Proof. solve_decision. Defined.

Inductive aws_s3_auto_ranged_put_request_tag :=
| AWS_S3_AUTO_RANGED_PUT_REQUEST_TAG_LIST_PARTS
| AWS_S3_AUTO_RANGED_PUT_REQUEST_TAG_CREATE_MULTIPART_UPLOAD
| AWS_S3_AUTO_RANGED_PUT_REQUEST_TAG_PART
| AWS_S3_AUTO_RANGED_PUT_REQUEST_TAG_COMPLETE_MULTIPART_UPLOAD
| AWS_S3_AUTO_RANGED_PUT_REQUEST_TAG_ABORT_MULTIPART_UPLOAD.

#[global] Instance request_tag_eq_dec : EqDecision aws_s3_auto_ranged_put_request_tag.
Proof. solve_decision. Defined.

(** Bit flags.  The enumerations live in headers of the library
    ([s3_request.h], [s3_meta_request_impl.h]); each names one bit. *)
Definition AWS_S3_REQUEST_FLAG_RECORD_RESPONSE_HEADERS : Z := 1.
Definition AWS_S3_REQUEST_FLAG_PART_SIZE_RESPONSE_BODY : Z := 2.
Definition AWS_S3_REQUEST_FLAG_ALWAYS_SEND : Z := 4.
Definition AWS_S3_META_REQUEST_UPDATE_FLAG_CONSERVATIVE : Z := 2.

Definition UINT32_MODULUS : Z := 2 ^ 32.
Definition SIZE_MODULUS : Z := 2 ^ 64.

(** [++x] on a [uint32_t]. *)
Definition incr_u32 (x : Z) : Z := (x + 1) mod UINT32_MODULUS.

(** [x - 1] on a [uint32_t]. *)
Definition decr_u32 (x : Z) : Z := (x - 1) mod UINT32_MODULUS.

(** ** Strings and headers *)

Definition ascii_tolower (c : ascii) : ascii :=
  let n := nat_of_ascii c in
  if (Nat.leb 65 n && Nat.leb n 90)%bool then ascii_of_nat (n + 32) else c.

Fixpoint string_tolower (s : string) : string :=
  match s with
  | EmptyString => EmptyString
  | String c rest => String (ascii_tolower c) (string_tolower rest)
  end.

Definition eq_ignore_case (a b : string) : bool :=
  String.eqb (string_tolower a) (string_tolower b).

(** [struct aws_http_headers]: an ordered list of name/value pairs, names
    compared without regard to case. *)
Definition aws_http_headers := list (string * string).

Definition aws_http_headers_new : aws_http_headers := [].

Fixpoint aws_http_headers_get (h : aws_http_headers) (name : string) : option string :=
  match h with
  | [] => None
  | (n, v) :: rest => if eq_ignore_case n name then Some v else aws_http_headers_get rest name
  end.

Definition aws_http_headers_erase (h : aws_http_headers) (name : string) : aws_http_headers :=
  List.filter (fun nv => negb (eq_ignore_case (fst nv) name)) h.

Definition aws_http_headers_set (h : aws_http_headers) (name value : string)
  : aws_http_headers :=
  aws_http_headers_erase h name ++ [(name, value)].

(** Modelled from the spec: [copy_http_headers] of [s3_util.c] is not among
    the sources; the final headers are made "by merging the raw response
    headers with [needed_response_headers]": every header of [src] is set
    in [dest]. *)
Definition copy_http_headers (src dest : aws_http_headers) : aws_http_headers :=
  fold_left (fun acc nv => aws_http_headers_set acc (fst nv) (snd nv)) src dest.

Definition g_etag_header_name : string := "ETag".

Definition s_create_multipart_upload_copy_headers : list string :=
  [ "x-amz-server-side-encryption-customer-algorithm";
    "x-amz-server-side-encryption-customer-key-MD5";
    "x-amz-server-side-encryption-context" ]%string.

Definition double_quote : ascii := ascii_of_nat 34.

(** Modelled from the spec: [aws_strip_quotes] of [s3_util.c] is not among
    the sources; "ETag header values arrive quoted; the core strips
    surrounding double quotes before storing".  The result is never null. *)
Definition aws_strip_quotes (s : string) : string :=
  let n := String.length s in
  if (Nat.leb 2 n
      && Ascii.eqb (default double_quote (String.get 0 s)) double_quote
      && Ascii.eqb (default double_quote (String.get (n - 1) s)) double_quote)%bool
  then String.substring 1 (n - 2) s
  else s.

(** ** [struct aws_array_list] holding [struct aws_string *]

    The ETag list is created by [aws_array_list_init_static] over a zeroed
    C array of [num_parts] pointers: the storage never grows, every slot
    starts null ([None]) and the list's length starts at 0. *)
Record aws_array_list := {
  al_data : list (option string);
  al_length : nat;
}.

Definition aws_array_list_init_static (item_count : Z) : aws_array_list :=
  {| al_data := replicate (Z.to_nat item_count) None; al_length := 0 |}.

Definition aws_array_list_length (l : aws_array_list) : Z := Z.of_nat (al_length l).

(** [aws_array_list_get_at]: [None] is the error return (index not below
    the length); the caller's out-variable is then left as it was. *)
Definition aws_array_list_get_at (l : aws_array_list) (index : Z) : option (option string) :=
  if (0 <=? index) && (index <? aws_array_list_length l)
  then al_data l !! Z.to_nat index
  else None.

(** [aws_array_list_set_at]: a static list cannot grow, so an index outside
    the storage is an error (which every caller here ignores) and the list
    stays as it is; inside the storage the slot is written and the length
    becomes at least [index + 1]. *)
Definition aws_array_list_set_at (l : aws_array_list) (val : option string) (index : Z)
  : aws_array_list :=
  if (0 <=? index) && (index <? Z.of_nat (length (al_data l)))
  then {| al_data := <[Z.to_nat index := val]> (al_data l);
          al_length := Nat.max (al_length l) (S (Z.to_nat index)) |}
  else l.

(** ** C doubles

    A [double] is a binary64 number: 53 bits of precision, exponents below
    1024. *)
Definition double : Type := spec_float.

(** [(double)n] for [n] of type [size_t] or [uint32_t]: the nearest double,
    ties to even.  It is [n] itself up to [2 ^ 53]. *)
Definition size_t_to_double (n : Z) : double := binary_normalize 53 1024 n 0 false.
Definition uint32_to_double (n : Z) : double := binary_normalize 53 1024 n 0 false.

(** The integral part of a double, the fraction dropped (towards zero);
    an infinity and a NaN have none. *)
Definition double_truncate (d : double) : option Z :=
  match d with
  | S754_zero _ => Some 0
  | S754_finite s m e => Some (cond_Zopp s (Z.shiftl (Zpos m) e))
  | S754_infinity _ | S754_nan => None
  end.

(** [(size_t)d] and [(uint32_t)d]: the integral part of [d] when the target
    type can hold it; C leaves every other conversion undefined ([None]). *)
Definition double_to_size_t (d : double) : option Z :=
  match double_truncate d with
  | Some z => if (0 <=? z) && (z <? SIZE_MODULUS) then Some z else None
  | None => None
  end.

Definition double_to_uint32 (d : double) : option Z :=
  match double_truncate d with
  | Some z => if (0 <=? z) && (z <? UINT32_MODULUS) then Some z else None
  | None => None
  end.

(** ** JSON values

    The resume token is read and written through the JSON helpers of
    aws-c-common.  A token is kept here as the parsed tree; a number is a
    C double, as in [aws_json_value_new_number] and
    [aws_json_value_get_number]. *)
#[local] Unset Elimination Schemes.
Inductive aws_json_value :=
| JNull
| JBool (b : bool)
| JNumber (n : double)
| JString (s : string)
| JArray (items : list aws_json_value)
| JObject (members : list (string * aws_json_value)).
#[local] Set Elimination Schemes.

Definition aws_json_value_new_object : aws_json_value := JObject [].
Definition aws_json_value_new_string (s : string) : aws_json_value := JString s.
Definition aws_json_value_new_number (n : double) : aws_json_value := JNumber n.

(** Member lookup of cJSON ([cJSON_GetObjectItem]): the first member whose
    key matches, letter case ignored. *)
Fixpoint json_members_get (members : list (string * aws_json_value)) (key : string)
  : option aws_json_value :=
  match members with
  | [] => None
  | (k, v) :: rest => if eq_ignore_case k key then Some v else json_members_get rest key
  end.

(** [aws_json_value_add_to_object]: appends the member; a key that is
    already present is refused and the object keeps its members. *)
Definition aws_json_value_add_to_object (object : aws_json_value) (key : string)
  (value : aws_json_value) : aws_json_value :=
  match object with
  | JObject members =>
      match json_members_get members key with
      | Some _ => object
      | None => JObject (members ++ [(key, value)])
      end
  | _ => object
  end.

(** [aws_json_value_get_from_object]: null ([None]) when the root is null,
    is not an object or has no such member. *)
Definition aws_json_value_get_from_object (object : option aws_json_value) (key : string)
  : option aws_json_value :=
  match object with
  | Some (JObject members) => json_members_get members key
  | _ => None
  end.

(** [aws_json_value_get_number] and [aws_json_value_get_string]: [None] is
    the error return. *)
Definition aws_json_value_get_number (node : aws_json_value) : option double :=
  match node with JNumber n => Some n | _ => None end.

Definition aws_json_value_get_string (node : aws_json_value) : option string :=
  match node with JString s => Some s | _ => None end.

(** ** Parts reported by ListParts *)

(** [struct aws_s3_part_info], as handed to the [on_part] callback. *)
Record aws_s3_part_info := {
  part_info_part_number : Z;
  e_tag : string;
  checksumCRC32 : list Byte.byte;
  checksumCRC32C : list Byte.byte;
  checksumSHA1 : list Byte.byte;
  checksumSHA256 : list Byte.byte;
}.

(** ** Requests *)

(** [struct aws_s3_request], the part that [aws_s3_request_new] fills in. *)
Record aws_s3_request := {
  request_tag : aws_s3_auto_ranged_put_request_tag;
  part_number : Z;
  request_flags : Z;
}.

#[global] Instance aws_s3_request_eq_dec : EqDecision aws_s3_request.
Proof. solve_decision. Defined.

(** Modelled from the spec: [aws_s3_request_new] of [s3_request.c] is not
    among the sources; a request has a "tag (one of a closed enum per
    meta-request variant), part number (1-based; 0 if N/A)" and flags. *)
Definition aws_s3_request_new (tag : aws_s3_auto_ranged_put_request_tag)
  (part_number : Z) (flags : Z) : aws_s3_request :=
  {| request_tag := tag; part_number := part_number; request_flags := flags |}.

(** What the parser of [s3_paginated.c] / [s3_list_parts.c] (not among the
    sources) makes of a ListParts response body: the parts it hands to the
    [on_part] callback, whether it returned an error, and its two
    out-parameters. *)
Record paginated_response := {
  parse_failed : bool;
  parts : list aws_s3_part_info;
  next_continuation_token : option string;
  has_more_results : bool;
}.

(** [request->send_data] once the HTTP layer is done with the request.  The
    response body is kept as what the XML helpers extract from it:
    [get_top_level_xml_tag_value] for [UploadId] and for [ETag], and the
    paginated parser for a ListParts page. *)
Record aws_s3_request_send_data := {
  response_headers : aws_http_headers;
  response_status : Z;
  response_body_upload_id : option string;
  response_body_etag : option string;
  response_body_list_parts : paginated_response;
}.

(** ** The meta request *)

Record aws_s3_meta_request_result := {
  error_code : aws_error;
  result_response_status : Z;
}.

(** [struct aws_s3_meta_request], the fields this file reads or writes.
    [finish_result] is [synced_data.finish_result] together with its
    [finish_result_set] flag; the two callbacks are kept as "is non-null". *)
Record aws_s3_meta_request := {
  part_size : Z;
  checksum_algorithm : aws_s3_checksum_algorithm;
  progress_callback : bool;
  headers_callback : bool;
  finish_result : option aws_s3_meta_request_result;
}.

Definition set_finish_result (r : option aws_s3_meta_request_result)
  (m : aws_s3_meta_request) : aws_s3_meta_request :=
  {| part_size := part_size m; checksum_algorithm := checksum_algorithm m;
     progress_callback := progress_callback m; headers_callback := headers_callback m;
     finish_result := r |}.

Definition set_headers_callback (b : bool) (m : aws_s3_meta_request) : aws_s3_meta_request :=
  {| part_size := part_size m; checksum_algorithm := checksum_algorithm m;
     progress_callback := progress_callback m; headers_callback := b;
     finish_result := finish_result m |}.

(** Modelled from the spec: [aws_s3_meta_request_has_finish_result_synced]
    of [s3_meta_request.c] is not among the sources; "the meta-request
    already has a finish result". *)
Definition aws_s3_meta_request_has_finish_result_synced (m : aws_s3_meta_request) : bool :=
  match finish_result m with Some _ => true | None => false end.

Definition AWS_S3_RESPONSE_STATUS_SUCCESS : Z := 200.

(** Modelled from the spec: [aws_s3_meta_request_set_fail_synced] and
    [aws_s3_meta_request_set_success_synced] of [s3_meta_request.c] are not
    among the sources.  "Meta-request-terminal errors are captured once in
    [synced_data.finish_result] (error, failed request, response status) and
    never overwritten": the first call sets the finish result, later calls
    leave it alone.  The response status is that of the failed request when
    there is one. *)
Definition aws_s3_meta_request_set_fail_synced (m : aws_s3_meta_request)
  (failed_request_status : option Z) (e : aws_error) : aws_s3_meta_request :=
  match finish_result m with
  | Some _ => m
  | None =>
      set_finish_result
        (Some {| error_code := e; result_response_status := default 0 failed_request_status |})
        m
  end.

Definition aws_s3_meta_request_set_success_synced (m : aws_s3_meta_request)
  (response_status : Z) : aws_s3_meta_request :=
  match finish_result m with
  | Some _ => m
  | None =>
      set_finish_result
        (Some {| error_code := AWS_ERROR_SUCCESS; result_response_status := response_status |})
        m
  end.

Record auto_ranged_put_synced_data := {
  etag_list : aws_array_list;
  list_parts_continuation_token : option string;
  total_num_parts : Z;
  num_parts_sent : Z;
  num_parts_completed : Z;
  num_parts_successful : Z;
  num_parts_failed : Z;
  needed_response_headers : option aws_http_headers;
  list_parts_error_code : aws_error;
  create_multipart_upload_error_code : aws_error;
  complete_multipart_upload_error_code : aws_error;
  abort_multipart_upload_error_code : aws_error;
  list_parts_sent : bool;
  list_parts_completed : bool;
  create_multipart_upload_sent : bool;
  create_multipart_upload_completed : bool;
  complete_multipart_upload_sent : bool;
  complete_multipart_upload_completed : bool;
  abort_multipart_upload_sent : bool;
  abort_multipart_upload_completed : bool;
}.

Definition set_etag_list (v : aws_array_list) (d : auto_ranged_put_synced_data)
  : auto_ranged_put_synced_data :=
  {| etag_list := v; list_parts_continuation_token := list_parts_continuation_token d;
     total_num_parts := total_num_parts d; num_parts_sent := num_parts_sent d;
     num_parts_completed := num_parts_completed d;
     num_parts_successful := num_parts_successful d; num_parts_failed := num_parts_failed d;
     needed_response_headers := needed_response_headers d;
     list_parts_error_code := list_parts_error_code d;
     create_multipart_upload_error_code := create_multipart_upload_error_code d;
     complete_multipart_upload_error_code := complete_multipart_upload_error_code d;
     abort_multipart_upload_error_code := abort_multipart_upload_error_code d;
     list_parts_sent := list_parts_sent d; list_parts_completed := list_parts_completed d;
     create_multipart_upload_sent := create_multipart_upload_sent d;
     create_multipart_upload_completed := create_multipart_upload_completed d;
     complete_multipart_upload_sent := complete_multipart_upload_sent d;
     complete_multipart_upload_completed := complete_multipart_upload_completed d;
     abort_multipart_upload_sent := abort_multipart_upload_sent d;
     abort_multipart_upload_completed := abort_multipart_upload_completed d |}.

Definition set_list_parts_continuation_token (v : option string) (d : auto_ranged_put_synced_data)
  : auto_ranged_put_synced_data :=
  {| etag_list := etag_list d; list_parts_continuation_token := v;
     total_num_parts := total_num_parts d; num_parts_sent := num_parts_sent d;
     num_parts_completed := num_parts_completed d;
     num_parts_successful := num_parts_successful d; num_parts_failed := num_parts_failed d;
     needed_response_headers := needed_response_headers d;
     list_parts_error_code := list_parts_error_code d;
     create_multipart_upload_error_code := create_multipart_upload_error_code d;
     complete_multipart_upload_error_code := complete_multipart_upload_error_code d;
     abort_multipart_upload_error_code := abort_multipart_upload_error_code d;
     list_parts_sent := list_parts_sent d; list_parts_completed := list_parts_completed d;
     create_multipart_upload_sent := create_multipart_upload_sent d;
     create_multipart_upload_completed := create_multipart_upload_completed d;
     complete_multipart_upload_sent := complete_multipart_upload_sent d;
     complete_multipart_upload_completed := complete_multipart_upload_completed d;
     abort_multipart_upload_sent := abort_multipart_upload_sent d;
     abort_multipart_upload_completed := abort_multipart_upload_completed d |}.

Definition set_num_parts_sent (v : Z) (d : auto_ranged_put_synced_data)
  : auto_ranged_put_synced_data :=
  {| etag_list := etag_list d;
     list_parts_continuation_token := list_parts_continuation_token d;
     total_num_parts := total_num_parts d; num_parts_sent := v;
     num_parts_completed := num_parts_completed d;
     num_parts_successful := num_parts_successful d; num_parts_failed := num_parts_failed d;
     needed_response_headers := needed_response_headers d;
     list_parts_error_code := list_parts_error_code d;
     create_multipart_upload_error_code := create_multipart_upload_error_code d;
     complete_multipart_upload_error_code := complete_multipart_upload_error_code d;
     abort_multipart_upload_error_code := abort_multipart_upload_error_code d;
     list_parts_sent := list_parts_sent d; list_parts_completed := list_parts_completed d;
     create_multipart_upload_sent := create_multipart_upload_sent d;
     create_multipart_upload_completed := create_multipart_upload_completed d;
     complete_multipart_upload_sent := complete_multipart_upload_sent d;
     complete_multipart_upload_completed := complete_multipart_upload_completed d;
     abort_multipart_upload_sent := abort_multipart_upload_sent d;
     abort_multipart_upload_completed := abort_multipart_upload_completed d |}.

Definition set_num_parts_completed (v : Z) (d : auto_ranged_put_synced_data)
  : auto_ranged_put_synced_data :=
  {| etag_list := etag_list d;
     list_parts_continuation_token := list_parts_continuation_token d;
     total_num_parts := total_num_parts d; num_parts_sent := num_parts_sent d;
     num_parts_completed := v; num_parts_successful := num_parts_successful d;
     num_parts_failed := num_parts_failed d;
     needed_response_headers := needed_response_headers d;
     list_parts_error_code := list_parts_error_code d;
     create_multipart_upload_error_code := create_multipart_upload_error_code d;
     complete_multipart_upload_error_code := complete_multipart_upload_error_code d;
     abort_multipart_upload_error_code := abort_multipart_upload_error_code d;
     list_parts_sent := list_parts_sent d; list_parts_completed := list_parts_completed d;
     create_multipart_upload_sent := create_multipart_upload_sent d;
     create_multipart_upload_completed := create_multipart_upload_completed d;
     complete_multipart_upload_sent := complete_multipart_upload_sent d;
     complete_multipart_upload_completed := complete_multipart_upload_completed d;
     abort_multipart_upload_sent := abort_multipart_upload_sent d;
     abort_multipart_upload_completed := abort_multipart_upload_completed d |}.

Definition set_num_parts_successful (v : Z) (d : auto_ranged_put_synced_data)
  : auto_ranged_put_synced_data :=
  {| etag_list := etag_list d;
     list_parts_continuation_token := list_parts_continuation_token d;
     total_num_parts := total_num_parts d; num_parts_sent := num_parts_sent d;
     num_parts_completed := num_parts_completed d; num_parts_successful := v;
     num_parts_failed := num_parts_failed d;
     needed_response_headers := needed_response_headers d;
     list_parts_error_code := list_parts_error_code d;
     create_multipart_upload_error_code := create_multipart_upload_error_code d;
     complete_multipart_upload_error_code := complete_multipart_upload_error_code d;
     abort_multipart_upload_error_code := abort_multipart_upload_error_code d;
     list_parts_sent := list_parts_sent d; list_parts_completed := list_parts_completed d;
     create_multipart_upload_sent := create_multipart_upload_sent d;
     create_multipart_upload_completed := create_multipart_upload_completed d;
     complete_multipart_upload_sent := complete_multipart_upload_sent d;
     complete_multipart_upload_completed := complete_multipart_upload_completed d;
     abort_multipart_upload_sent := abort_multipart_upload_sent d;
     abort_multipart_upload_completed := abort_multipart_upload_completed d |}.

Definition set_num_parts_failed (v : Z) (d : auto_ranged_put_synced_data)
  : auto_ranged_put_synced_data :=
  {| etag_list := etag_list d;
     list_parts_continuation_token := list_parts_continuation_token d;
     total_num_parts := total_num_parts d; num_parts_sent := num_parts_sent d;
     num_parts_completed := num_parts_completed d;
     num_parts_successful := num_parts_successful d; num_parts_failed := v;
     needed_response_headers := needed_response_headers d;
     list_parts_error_code := list_parts_error_code d;
     create_multipart_upload_error_code := create_multipart_upload_error_code d;
     complete_multipart_upload_error_code := complete_multipart_upload_error_code d;
     abort_multipart_upload_error_code := abort_multipart_upload_error_code d;
     list_parts_sent := list_parts_sent d; list_parts_completed := list_parts_completed d;
     create_multipart_upload_sent := create_multipart_upload_sent d;
     create_multipart_upload_completed := create_multipart_upload_completed d;
     complete_multipart_upload_sent := complete_multipart_upload_sent d;
     complete_multipart_upload_completed := complete_multipart_upload_completed d;
     abort_multipart_upload_sent := abort_multipart_upload_sent d;
     abort_multipart_upload_completed := abort_multipart_upload_completed d |}.

Definition set_needed_response_headers (v : option aws_http_headers) (d : auto_ranged_put_synced_data)
  : auto_ranged_put_synced_data :=
  {| etag_list := etag_list d;
     list_parts_continuation_token := list_parts_continuation_token d;
     total_num_parts := total_num_parts d; num_parts_sent := num_parts_sent d;
     num_parts_completed := num_parts_completed d;
     num_parts_successful := num_parts_successful d; num_parts_failed := num_parts_failed d;
     needed_response_headers := v; list_parts_error_code := list_parts_error_code d;
     create_multipart_upload_error_code := create_multipart_upload_error_code d;
     complete_multipart_upload_error_code := complete_multipart_upload_error_code d;
     abort_multipart_upload_error_code := abort_multipart_upload_error_code d;
     list_parts_sent := list_parts_sent d; list_parts_completed := list_parts_completed d;
     create_multipart_upload_sent := create_multipart_upload_sent d;
     create_multipart_upload_completed := create_multipart_upload_completed d;
     complete_multipart_upload_sent := complete_multipart_upload_sent d;
     complete_multipart_upload_completed := complete_multipart_upload_completed d;
     abort_multipart_upload_sent := abort_multipart_upload_sent d;
     abort_multipart_upload_completed := abort_multipart_upload_completed d |}.

Definition set_list_parts_error_code (v : aws_error) (d : auto_ranged_put_synced_data)
  : auto_ranged_put_synced_data :=
  {| etag_list := etag_list d;
     list_parts_continuation_token := list_parts_continuation_token d;
     total_num_parts := total_num_parts d; num_parts_sent := num_parts_sent d;
     num_parts_completed := num_parts_completed d;
     num_parts_successful := num_parts_successful d; num_parts_failed := num_parts_failed d;
     needed_response_headers := needed_response_headers d; list_parts_error_code := v;
     create_multipart_upload_error_code := create_multipart_upload_error_code d;
     complete_multipart_upload_error_code := complete_multipart_upload_error_code d;
     abort_multipart_upload_error_code := abort_multipart_upload_error_code d;
     list_parts_sent := list_parts_sent d; list_parts_completed := list_parts_completed d;
     create_multipart_upload_sent := create_multipart_upload_sent d;
     create_multipart_upload_completed := create_multipart_upload_completed d;
     complete_multipart_upload_sent := complete_multipart_upload_sent d;
     complete_multipart_upload_completed := complete_multipart_upload_completed d;
     abort_multipart_upload_sent := abort_multipart_upload_sent d;
     abort_multipart_upload_completed := abort_multipart_upload_completed d |}.

Definition set_create_multipart_upload_error_code (v : aws_error) (d : auto_ranged_put_synced_data)
  : auto_ranged_put_synced_data :=
  {| etag_list := etag_list d;
     list_parts_continuation_token := list_parts_continuation_token d;
     total_num_parts := total_num_parts d; num_parts_sent := num_parts_sent d;
     num_parts_completed := num_parts_completed d;
     num_parts_successful := num_parts_successful d; num_parts_failed := num_parts_failed d;
     needed_response_headers := needed_response_headers d;
     list_parts_error_code := list_parts_error_code d; create_multipart_upload_error_code := v;
     complete_multipart_upload_error_code := complete_multipart_upload_error_code d;
     abort_multipart_upload_error_code := abort_multipart_upload_error_code d;
     list_parts_sent := list_parts_sent d; list_parts_completed := list_parts_completed d;
     create_multipart_upload_sent := create_multipart_upload_sent d;
     create_multipart_upload_completed := create_multipart_upload_completed d;
     complete_multipart_upload_sent := complete_multipart_upload_sent d;
     complete_multipart_upload_completed := complete_multipart_upload_completed d;
     abort_multipart_upload_sent := abort_multipart_upload_sent d;
     abort_multipart_upload_completed := abort_multipart_upload_completed d |}.

Definition set_complete_multipart_upload_error_code (v : aws_error) (d : auto_ranged_put_synced_data)
  : auto_ranged_put_synced_data :=
  {| etag_list := etag_list d;
     list_parts_continuation_token := list_parts_continuation_token d;
     total_num_parts := total_num_parts d; num_parts_sent := num_parts_sent d;
     num_parts_completed := num_parts_completed d;
     num_parts_successful := num_parts_successful d; num_parts_failed := num_parts_failed d;
     needed_response_headers := needed_response_headers d;
     list_parts_error_code := list_parts_error_code d;
     create_multipart_upload_error_code := create_multipart_upload_error_code d;
     complete_multipart_upload_error_code := v;
     abort_multipart_upload_error_code := abort_multipart_upload_error_code d;
     list_parts_sent := list_parts_sent d; list_parts_completed := list_parts_completed d;
     create_multipart_upload_sent := create_multipart_upload_sent d;
     create_multipart_upload_completed := create_multipart_upload_completed d;
     complete_multipart_upload_sent := complete_multipart_upload_sent d;
     complete_multipart_upload_completed := complete_multipart_upload_completed d;
     abort_multipart_upload_sent := abort_multipart_upload_sent d;
     abort_multipart_upload_completed := abort_multipart_upload_completed d |}.

Definition set_abort_multipart_upload_error_code (v : aws_error) (d : auto_ranged_put_synced_data)
  : auto_ranged_put_synced_data :=
  {| etag_list := etag_list d;
     list_parts_continuation_token := list_parts_continuation_token d;
     total_num_parts := total_num_parts d; num_parts_sent := num_parts_sent d;
     num_parts_completed := num_parts_completed d;
     num_parts_successful := num_parts_successful d; num_parts_failed := num_parts_failed d;
     needed_response_headers := needed_response_headers d;
     list_parts_error_code := list_parts_error_code d;
     create_multipart_upload_error_code := create_multipart_upload_error_code d;
     complete_multipart_upload_error_code := complete_multipart_upload_error_code d;
     abort_multipart_upload_error_code := v; list_parts_sent := list_parts_sent d;
     list_parts_completed := list_parts_completed d;
     create_multipart_upload_sent := create_multipart_upload_sent d;
     create_multipart_upload_completed := create_multipart_upload_completed d;
     complete_multipart_upload_sent := complete_multipart_upload_sent d;
     complete_multipart_upload_completed := complete_multipart_upload_completed d;
     abort_multipart_upload_sent := abort_multipart_upload_sent d;
     abort_multipart_upload_completed := abort_multipart_upload_completed d |}.

Definition set_list_parts_sent (v : bool) (d : auto_ranged_put_synced_data)
  : auto_ranged_put_synced_data :=
  {| etag_list := etag_list d;
     list_parts_continuation_token := list_parts_continuation_token d;
     total_num_parts := total_num_parts d; num_parts_sent := num_parts_sent d;
     num_parts_completed := num_parts_completed d;
     num_parts_successful := num_parts_successful d; num_parts_failed := num_parts_failed d;
     needed_response_headers := needed_response_headers d;
     list_parts_error_code := list_parts_error_code d;
     create_multipart_upload_error_code := create_multipart_upload_error_code d;
     complete_multipart_upload_error_code := complete_multipart_upload_error_code d;
     abort_multipart_upload_error_code := abort_multipart_upload_error_code d;
     list_parts_sent := v; list_parts_completed := list_parts_completed d;
     create_multipart_upload_sent := create_multipart_upload_sent d;
     create_multipart_upload_completed := create_multipart_upload_completed d;
     complete_multipart_upload_sent := complete_multipart_upload_sent d;
     complete_multipart_upload_completed := complete_multipart_upload_completed d;
     abort_multipart_upload_sent := abort_multipart_upload_sent d;
     abort_multipart_upload_completed := abort_multipart_upload_completed d |}.

Definition set_list_parts_completed (v : bool) (d : auto_ranged_put_synced_data)
  : auto_ranged_put_synced_data :=
  {| etag_list := etag_list d;
     list_parts_continuation_token := list_parts_continuation_token d;
     total_num_parts := total_num_parts d; num_parts_sent := num_parts_sent d;
     num_parts_completed := num_parts_completed d;
     num_parts_successful := num_parts_successful d; num_parts_failed := num_parts_failed d;
     needed_response_headers := needed_response_headers d;
     list_parts_error_code := list_parts_error_code d;
     create_multipart_upload_error_code := create_multipart_upload_error_code d;
     complete_multipart_upload_error_code := complete_multipart_upload_error_code d;
     abort_multipart_upload_error_code := abort_multipart_upload_error_code d;
     list_parts_sent := list_parts_sent d; list_parts_completed := v;
     create_multipart_upload_sent := create_multipart_upload_sent d;
     create_multipart_upload_completed := create_multipart_upload_completed d;
     complete_multipart_upload_sent := complete_multipart_upload_sent d;
     complete_multipart_upload_completed := complete_multipart_upload_completed d;
     abort_multipart_upload_sent := abort_multipart_upload_sent d;
     abort_multipart_upload_completed := abort_multipart_upload_completed d |}.

Definition set_create_multipart_upload_sent (v : bool) (d : auto_ranged_put_synced_data)
  : auto_ranged_put_synced_data :=
  {| etag_list := etag_list d;
     list_parts_continuation_token := list_parts_continuation_token d;
     total_num_parts := total_num_parts d; num_parts_sent := num_parts_sent d;
     num_parts_completed := num_parts_completed d;
     num_parts_successful := num_parts_successful d; num_parts_failed := num_parts_failed d;
     needed_response_headers := needed_response_headers d;
     list_parts_error_code := list_parts_error_code d;
     create_multipart_upload_error_code := create_multipart_upload_error_code d;
     complete_multipart_upload_error_code := complete_multipart_upload_error_code d;
     abort_multipart_upload_error_code := abort_multipart_upload_error_code d;
     list_parts_sent := list_parts_sent d; list_parts_completed := list_parts_completed d;
     create_multipart_upload_sent := v;
     create_multipart_upload_completed := create_multipart_upload_completed d;
     complete_multipart_upload_sent := complete_multipart_upload_sent d;
     complete_multipart_upload_completed := complete_multipart_upload_completed d;
     abort_multipart_upload_sent := abort_multipart_upload_sent d;
     abort_multipart_upload_completed := abort_multipart_upload_completed d |}.

Definition set_create_multipart_upload_completed (v : bool) (d : auto_ranged_put_synced_data)
  : auto_ranged_put_synced_data :=
  {| etag_list := etag_list d;
     list_parts_continuation_token := list_parts_continuation_token d;
     total_num_parts := total_num_parts d; num_parts_sent := num_parts_sent d;
     num_parts_completed := num_parts_completed d;
     num_parts_successful := num_parts_successful d; num_parts_failed := num_parts_failed d;
     needed_response_headers := needed_response_headers d;
     list_parts_error_code := list_parts_error_code d;
     create_multipart_upload_error_code := create_multipart_upload_error_code d;
     complete_multipart_upload_error_code := complete_multipart_upload_error_code d;
     abort_multipart_upload_error_code := abort_multipart_upload_error_code d;
     list_parts_sent := list_parts_sent d; list_parts_completed := list_parts_completed d;
     create_multipart_upload_sent := create_multipart_upload_sent d;
     create_multipart_upload_completed := v;
     complete_multipart_upload_sent := complete_multipart_upload_sent d;
     complete_multipart_upload_completed := complete_multipart_upload_completed d;
     abort_multipart_upload_sent := abort_multipart_upload_sent d;
     abort_multipart_upload_completed := abort_multipart_upload_completed d |}.

Definition set_complete_multipart_upload_sent (v : bool) (d : auto_ranged_put_synced_data)
  : auto_ranged_put_synced_data :=
  {| etag_list := etag_list d;
     list_parts_continuation_token := list_parts_continuation_token d;
     total_num_parts := total_num_parts d; num_parts_sent := num_parts_sent d;
     num_parts_completed := num_parts_completed d;
     num_parts_successful := num_parts_successful d; num_parts_failed := num_parts_failed d;
     needed_response_headers := needed_response_headers d;
     list_parts_error_code := list_parts_error_code d;
     create_multipart_upload_error_code := create_multipart_upload_error_code d;
     complete_multipart_upload_error_code := complete_multipart_upload_error_code d;
     abort_multipart_upload_error_code := abort_multipart_upload_error_code d;
     list_parts_sent := list_parts_sent d; list_parts_completed := list_parts_completed d;
     create_multipart_upload_sent := create_multipart_upload_sent d;
     create_multipart_upload_completed := create_multipart_upload_completed d;
     complete_multipart_upload_sent := v;
     complete_multipart_upload_completed := complete_multipart_upload_completed d;
     abort_multipart_upload_sent := abort_multipart_upload_sent d;
     abort_multipart_upload_completed := abort_multipart_upload_completed d |}.

Definition set_complete_multipart_upload_completed (v : bool) (d : auto_ranged_put_synced_data)
  : auto_ranged_put_synced_data :=
  {| etag_list := etag_list d;
     list_parts_continuation_token := list_parts_continuation_token d;
     total_num_parts := total_num_parts d; num_parts_sent := num_parts_sent d;
     num_parts_completed := num_parts_completed d;
     num_parts_successful := num_parts_successful d; num_parts_failed := num_parts_failed d;
     needed_response_headers := needed_response_headers d;
     list_parts_error_code := list_parts_error_code d;
     create_multipart_upload_error_code := create_multipart_upload_error_code d;
     complete_multipart_upload_error_code := complete_multipart_upload_error_code d;
     abort_multipart_upload_error_code := abort_multipart_upload_error_code d;
     list_parts_sent := list_parts_sent d; list_parts_completed := list_parts_completed d;
     create_multipart_upload_sent := create_multipart_upload_sent d;
     create_multipart_upload_completed := create_multipart_upload_completed d;
     complete_multipart_upload_sent := complete_multipart_upload_sent d;
     complete_multipart_upload_completed := v;
     abort_multipart_upload_sent := abort_multipart_upload_sent d;
     abort_multipart_upload_completed := abort_multipart_upload_completed d |}.

Definition set_abort_multipart_upload_sent (v : bool) (d : auto_ranged_put_synced_data)
  : auto_ranged_put_synced_data :=
  {| etag_list := etag_list d;
     list_parts_continuation_token := list_parts_continuation_token d;
     total_num_parts := total_num_parts d; num_parts_sent := num_parts_sent d;
     num_parts_completed := num_parts_completed d;
     num_parts_successful := num_parts_successful d; num_parts_failed := num_parts_failed d;
     needed_response_headers := needed_response_headers d;
     list_parts_error_code := list_parts_error_code d;
     create_multipart_upload_error_code := create_multipart_upload_error_code d;
     complete_multipart_upload_error_code := complete_multipart_upload_error_code d;
     abort_multipart_upload_error_code := abort_multipart_upload_error_code d;
     list_parts_sent := list_parts_sent d; list_parts_completed := list_parts_completed d;
     create_multipart_upload_sent := create_multipart_upload_sent d;
     create_multipart_upload_completed := create_multipart_upload_completed d;
     complete_multipart_upload_sent := complete_multipart_upload_sent d;
     complete_multipart_upload_completed := complete_multipart_upload_completed d;
     abort_multipart_upload_sent := v;
     abort_multipart_upload_completed := abort_multipart_upload_completed d |}.

Definition set_abort_multipart_upload_completed (v : bool) (d : auto_ranged_put_synced_data)
  : auto_ranged_put_synced_data :=
  {| etag_list := etag_list d;
     list_parts_continuation_token := list_parts_continuation_token d;
     total_num_parts := total_num_parts d; num_parts_sent := num_parts_sent d;
     num_parts_completed := num_parts_completed d;
     num_parts_successful := num_parts_successful d; num_parts_failed := num_parts_failed d;
     needed_response_headers := needed_response_headers d;
     list_parts_error_code := list_parts_error_code d;
     create_multipart_upload_error_code := create_multipart_upload_error_code d;
     complete_multipart_upload_error_code := complete_multipart_upload_error_code d;
     abort_multipart_upload_error_code := abort_multipart_upload_error_code d;
     list_parts_sent := list_parts_sent d; list_parts_completed := list_parts_completed d;
     create_multipart_upload_sent := create_multipart_upload_sent d;
     create_multipart_upload_completed := create_multipart_upload_completed d;
     complete_multipart_upload_sent := complete_multipart_upload_sent d;
     complete_multipart_upload_completed := complete_multipart_upload_completed d;
     abort_multipart_upload_sent := abort_multipart_upload_sent d;
     abort_multipart_upload_completed := v |}.

(** [struct aws_s3_auto_ranged_put].  [next_part_number] is
    [threaded_update_data.next_part_number] and
    [num_parts_read_from_stream] is [prepare_data.num_parts_read_from_stream].
    The paginated ListParts operation object is opaque to this file and is
    left out. *)
Record aws_s3_auto_ranged_put := {
  base : aws_s3_meta_request;
  content_length : Z;
  upload_id : option string;
  checksums_list : list (list Byte.byte);
  next_part_number : Z;
  num_parts_read_from_stream : Z;
  synced_data : auto_ranged_put_synced_data;
}.

Definition set_base (v : aws_s3_meta_request) (a : aws_s3_auto_ranged_put) :=
  {| base := v; content_length := content_length a; upload_id := upload_id a;
     checksums_list := checksums_list a; next_part_number := next_part_number a;
     num_parts_read_from_stream := num_parts_read_from_stream a;
     synced_data := synced_data a |}.

Definition set_upload_id (v : option string) (a : aws_s3_auto_ranged_put) :=
  {| base := base a; content_length := content_length a; upload_id := v;
     checksums_list := checksums_list a; next_part_number := next_part_number a;
     num_parts_read_from_stream := num_parts_read_from_stream a;
     synced_data := synced_data a |}.

Definition set_checksums_list (v : list (list Byte.byte)) (a : aws_s3_auto_ranged_put) :=
  {| base := base a; content_length := content_length a; upload_id := upload_id a;
     checksums_list := v; next_part_number := next_part_number a;
     num_parts_read_from_stream := num_parts_read_from_stream a;
     synced_data := synced_data a |}.

Definition set_next_part_number (v : Z) (a : aws_s3_auto_ranged_put) :=
  {| base := base a; content_length := content_length a; upload_id := upload_id a;
     checksums_list := checksums_list a; next_part_number := v;
     num_parts_read_from_stream := num_parts_read_from_stream a;
     synced_data := synced_data a |}.

Definition set_synced_data (v : auto_ranged_put_synced_data) (a : aws_s3_auto_ranged_put) :=
  {| base := base a; content_length := content_length a; upload_id := upload_id a;
     checksums_list := checksums_list a; next_part_number := next_part_number a;
     num_parts_read_from_stream := num_parts_read_from_stream a;
     synced_data := v |}.

(** Applies a change to [synced_data]. *)
Definition synced (f : auto_ranged_put_synced_data -> auto_ranged_put_synced_data)
  (a : aws_s3_auto_ranged_put) : aws_s3_auto_ranged_put :=
  set_synced_data (f (synced_data a)) a.

(** The block that [aws_mem_calloc] hands out: every field zero. *)
Definition zeroed_synced_data : auto_ranged_put_synced_data :=
  {| etag_list := {| al_data := []; al_length := 0 |};
     list_parts_continuation_token := None;
     total_num_parts := 0; num_parts_sent := 0; num_parts_completed := 0;
     num_parts_successful := 0; num_parts_failed := 0;
     needed_response_headers := None;
     list_parts_error_code := AWS_ERROR_SUCCESS;
     create_multipart_upload_error_code := AWS_ERROR_SUCCESS;
     complete_multipart_upload_error_code := AWS_ERROR_SUCCESS;
     abort_multipart_upload_error_code := AWS_ERROR_SUCCESS;
     list_parts_sent := false; list_parts_completed := false;
     create_multipart_upload_sent := false; create_multipart_upload_completed := false;
     complete_multipart_upload_sent := false; complete_multipart_upload_completed := false;
     abort_multipart_upload_sent := false; abort_multipart_upload_completed := false |}.

(** ** [s_process_part_info]

    The [on_part] callback of the ListParts operation.  [info->part_number - 1]
    is computed on [uint32_t].  The checksum is written into the C array
    [checksums_list] without a bounds check: an index outside the array has
    no defined result. *)
Definition s_process_part_info (info : aws_s3_part_info) (a : aws_s3_auto_ranged_put)
  : option aws_s3_auto_ranged_put :=
  let etag := aws_strip_quotes (e_tag info) in
  let checksum_cur :=
    match checksum_algorithm (base a) with
    | AWS_SCA_CRC32 => Some (checksumCRC32 info)
    | AWS_SCA_CRC32C => Some (checksumCRC32C info)
    | AWS_SCA_SHA1 => Some (checksumSHA1 info)
    | AWS_SCA_SHA256 => Some (checksumSHA256 info)
    | AWS_SCA_NONE => None
    end in
  let index := decr_u32 (part_info_part_number info) in
  let stored :=
    match checksum_cur with
    | Some c =>
        if index <? Z.of_nat (length (checksums_list a))
        then Some (set_checksums_list (<[Z.to_nat index := c]> (checksums_list a)) a)
        else None
    | None => Some a
    end in
  match stored with
  | Some a' =>
      Some (synced (fun d => set_etag_list (aws_array_list_set_at (etag_list d) (Some etag) index) d) a')
  | None => None
  end.

(** The parser calls [on_part] on the parts of the page, in order. *)
Fixpoint process_parts (infos : list aws_s3_part_info) (a : aws_s3_auto_ranged_put)
  : option aws_s3_auto_ranged_put :=
  match infos with
  | [] => Some a
  | info :: rest =>
      match s_process_part_info info a with
      | Some a' => process_parts rest a'
      | None => None
      end
  end.

(** ** Construction and the resume token *)

(** [struct aws_s3_meta_request_options], as far as the constructor looks at
    it, with the outcome of the two calls it makes into code outside this
    file.  [resume_token]: [None] is a null token, [Some None] a token that
    [aws_json_value_new_from_string] cannot parse, [Some (Some v)] a token
    that parses to [v]. *)
Record aws_s3_meta_request_options := {
  resume_token : option (option aws_json_value);
  options_checksum_algorithm : aws_s3_checksum_algorithm;
  options_progress_callback : bool;
  options_headers_callback : bool;
  message_headers : aws_http_headers;
  (* aws_http_message_get_request_path succeeds on the message *)
  request_path_readable : bool;
  (* the error aws_s3_meta_request_init_base fails with, if it fails *)
  init_base_error : option aws_error;
}.

Definition PUT_OBJECT_TOKEN_TYPE : string := "AWS_S3_META_REQUEST_TYPE_PUT_OBJECT".

Section Construction.

(** [g_s3_min_upload_part_size] and [g_s3_max_num_upload_parts] are
    defined outside the sources at hand. *)
Variable g_s3_min_upload_part_size : Z.
Variable g_s3_max_num_upload_parts : Z.

(** [s_parse_resume_info_from_token].  The three out-parameters come in
    with the caller's values and are returned; [inl] is the error raised.
    The two numbers of the token are doubles, converted by the casts
    [(size_t)partition_size_value] and [(uint32_t)total_num_parts_value]:
    there is no defined result ([None]) when a cast that is reached is
    undefined. *)
Definition s_parse_resume_info_from_token
  (resume_token : option (option aws_json_value))
  (upload_id_out : option string) (part_size_out : Z) (total_num_parts_out : Z)
  : option (aws_error + (option string * Z * Z)) :=
  match resume_token with
  | None => Some (inr (upload_id_out, part_size_out, total_num_parts_out))
  | Some root =>
      let type_node := aws_json_value_get_from_object root "type" in
      let multipart_upload_id_node :=
        aws_json_value_get_from_object root "multipart_upload_id" in
      let partition_size_node := aws_json_value_get_from_object root "partition_size" in
      let total_num_parts_node := aws_json_value_get_from_object root "total_num_parts" in
      match multipart_upload_id_node, partition_size_node, total_num_parts_node, type_node with
      | Some mn, Some pn, Some tn, Some yn =>
          match aws_json_value_get_number pn, aws_json_value_get_number tn,
                aws_json_value_get_string mn, aws_json_value_get_string yn with
          | Some partition_size_value, Some total_num_parts_value,
            Some multipart_upload_id_value, Some type_value =>
              if negb (String.eqb type_value PUT_OBJECT_TOKEN_TYPE)
              then Some (inl AWS_ERROR_INVALID_ARGUMENT)
              else
                match double_to_size_t partition_size_value with
                | None => None
                | Some partition_size =>
                    if partition_size <? g_s3_min_upload_part_size
                    then Some (inl AWS_ERROR_INVALID_ARGUMENT)
                    else
                      match double_to_uint32 total_num_parts_value with
                      | None => None
                      | Some total_num_parts =>
                          if total_num_parts >? g_s3_max_num_upload_parts
                          then Some (inl AWS_ERROR_INVALID_ARGUMENT)
                          else Some (inr (Some multipart_upload_id_value,
                                          partition_size, total_num_parts))
                      end
                end
          | _, _, _, _ => Some (inl AWS_ERROR_INVALID_ARGUMENT)
          end
      | _, _, _, _ => Some (inl AWS_ERROR_INVALID_ARGUMENT)
      end
  end.

(** The loop of [s_load_persistable_state] and of the create-multipart
    branch of the finish hook: copies the headers named in
    [s_create_multipart_upload_copy_headers] that [from] has. *)
Definition copy_needed_headers (from : aws_http_headers) : aws_http_headers :=
  fold_left
    (fun needed header_name =>
       match aws_http_headers_get from header_name with
       | Some header_value => aws_http_headers_set needed header_name header_value
       | None => needed
       end)
    s_create_multipart_upload_copy_headers aws_http_headers_new.

(** [s_load_persistable_state].  [content_length / part_size] is a
    division of [uint64_t] values cast to [uint32_t]; the callers reach it
    with [part_size] at least [g_s3_min_upload_part_size]. *)
Definition s_load_persistable_state (options : aws_s3_meta_request_options)
  (a : aws_s3_auto_ranged_put) (content_length : Z) (upload_id : option string)
  (part_size : Z) (total_num_parts : Z) : aws_error + aws_s3_auto_ranged_put :=
  let num_parts := (content_length / part_size) mod UINT32_MODULUS in
  let num_parts :=
    if content_length mod part_size >? 0 then incr_u32 num_parts else num_parts in
  if negb (total_num_parts =? num_parts) then inl AWS_ERROR_INVALID_ARGUMENT
  else if negb (request_path_readable options) then inl AWS_ERROR_INVALID_ARGUMENT
  else
    inr (synced
           (fun d =>
              set_needed_response_headers
                (Some (copy_needed_headers (message_headers options)))
                (set_create_multipart_upload_completed true
                   (set_create_multipart_upload_sent true
                      (set_num_parts_completed 0 (set_num_parts_sent 0 d)))))
           (set_upload_id upload_id a)).

(** [aws_s3_meta_request_auto_ranged_put_new]; [inl] is the error left by
    a construction that returns null, [None] stands for no defined result
    (of the token's casts). *)
Definition aws_s3_meta_request_auto_ranged_put_new
  (part_size : Z) (content_length : Z) (num_parts : Z)
  (options : aws_s3_meta_request_options)
  : option (aws_error + aws_s3_auto_ranged_put) :=
  match s_parse_resume_info_from_token (resume_token options) None part_size num_parts with
  | None => None
  | Some (inl e) => Some (inl e)
  | Some (inr (multipart_upload_id, part_size, num_parts)) =>
      match init_base_error options with
      | Some e => Some (inl e)
      | None =>
          let a :=
            {| base := {| part_size := part_size;
                          checksum_algorithm := options_checksum_algorithm options;
                          progress_callback := options_progress_callback options;
                          headers_callback := options_headers_callback options;
                          finish_result := None |};
               content_length := content_length;
               upload_id := None;
               checksums_list := [];
               next_part_number := 1;
               num_parts_read_from_stream := 0;
               synced_data :=
                 {| etag_list := etag_list zeroed_synced_data;
                    list_parts_continuation_token := None;
                    total_num_parts := num_parts; num_parts_sent := 0;
                    num_parts_completed := 0; num_parts_successful := 0;
                    num_parts_failed := 0; needed_response_headers := None;
                    list_parts_error_code := AWS_ERROR_SUCCESS;
                    create_multipart_upload_error_code := AWS_ERROR_SUCCESS;
                    complete_multipart_upload_error_code := AWS_ERROR_SUCCESS;
                    abort_multipart_upload_error_code := AWS_ERROR_SUCCESS;
                    list_parts_sent := false; list_parts_completed := false;
                    create_multipart_upload_sent := false;
                    create_multipart_upload_completed := false;
                    complete_multipart_upload_sent := false;
                    complete_multipart_upload_completed := false;
                    abort_multipart_upload_sent := false;
                    abort_multipart_upload_completed := false |} |} in
          let loaded :=
            match resume_token options with
            | Some _ =>
                s_load_persistable_state options a content_length multipart_upload_id
                  part_size num_parts
            | None =>
                inr (synced
                       (fun d => set_list_parts_completed true (set_list_parts_sent true d))
                       a)
            end in
          match loaded with
          | inl e => Some (inl e)
          | inr a =>
              Some (inr (set_checksums_list (replicate (Z.to_nat num_parts) [])
                           (synced (set_etag_list (aws_array_list_init_static num_parts)) a)))
          end
      end
  end.

End Construction.

(** ** [s_s3_auto_ranged_put_update] *)

(** Conversion of a [uint32_t] to [int], then of that [int] to [size_t]. *)
Definition uint32_to_int (x : Z) : Z := if x <? 2 ^ 31 then x else x - UINT32_MODULUS.
Definition int_to_size_t (x : Z) : Z := x mod SIZE_MODULUS.

(** The loop that steps [next_part_number] over the parts whose ETag is
    already known.  [remaining] is [length - etag_index], the number of
    indices the loop condition still lets through; the loop leaves early at
    the first slot that is null. *)
Fixpoint skip_known_etags (remaining : nat) (l : aws_array_list) (etag_index : Z)
  (next_part_number : Z) : Z :=
  match remaining with
  | O => next_part_number
  | S remaining' =>
      match aws_array_list_get_at l etag_index with
      | Some (Some _) =>
          skip_known_etags remaining' l (etag_index + 1) (incr_u32 next_part_number)
      | _ => next_part_number
      end
  end.

Definition has_work_remaining (request : option aws_s3_request) (a : aws_s3_auto_ranged_put)
  : option (bool * option aws_s3_request * aws_s3_auto_ranged_put) :=
  Some (true, request, a).

(** The [no_work_remaining] exit: the success is recorded (unless a finish
    result is there already) and the meta request is handed to
    [aws_s3_meta_request_finish]. *)
Definition no_work_remaining (a : aws_s3_auto_ranged_put)
  : option (bool * option aws_s3_request * aws_s3_auto_ranged_put) :=
  Some (false, None,
        set_base (aws_s3_meta_request_set_success_synced (base a) AWS_S3_RESPONSE_STATUS_SUCCESS) a).

(** Returns [work_remaining], [*out_request] and the state left behind;
    [None] when the [AWS_FATAL_ASSERT] on [next_part_number] fires. *)
Definition s_s3_auto_ranged_put_update (a : aws_s3_auto_ranged_put) (flags : Z)
  : option (bool * option aws_s3_request * aws_s3_auto_ranged_put) :=
  let d := synced_data a in
  if negb (aws_s3_meta_request_has_finish_result_synced (base a)) then
    if negb (list_parts_sent d) then
      has_work_remaining
        (Some (aws_s3_request_new AWS_S3_AUTO_RANGED_PUT_REQUEST_TAG_LIST_PARTS 0
                 AWS_S3_REQUEST_FLAG_RECORD_RESPONSE_HEADERS))
        (synced (set_list_parts_sent true) a)
    else if negb (list_parts_completed d) then has_work_remaining None a
    else if negb (create_multipart_upload_sent d) then
      has_work_remaining
        (Some (aws_s3_request_new AWS_S3_AUTO_RANGED_PUT_REQUEST_TAG_CREATE_MULTIPART_UPLOAD 0
                 AWS_S3_REQUEST_FLAG_RECORD_RESPONSE_HEADERS))
        (synced (set_create_multipart_upload_sent true) a)
    else if negb (create_multipart_upload_completed d) then has_work_remaining None a
    else if num_parts_sent d <? total_num_parts d then
      let part_index := uint32_to_int (decr_u32 (next_part_number a)) in
      let etag_index := int_to_size_t part_index in
      let a :=
        set_next_part_number
          (skip_known_etags (Z.to_nat (aws_array_list_length (etag_list d) - etag_index))
             (etag_list d) etag_index (next_part_number a))
          a in
      if negb (next_part_number a <=? total_num_parts d) then None
      else if negb (Z.land flags AWS_S3_META_REQUEST_UPDATE_FLAG_CONSERVATIVE =? 0)
              && (0 <? (num_parts_sent d - num_parts_completed d) mod UINT32_MODULUS)
      then has_work_remaining None a
      else
        let request :=
          aws_s3_request_new AWS_S3_AUTO_RANGED_PUT_REQUEST_TAG_PART (next_part_number a)
            AWS_S3_REQUEST_FLAG_RECORD_RESPONSE_HEADERS in
        has_work_remaining (Some request)
          (synced (fun d => set_num_parts_sent (incr_u32 (num_parts_sent d)) d)
             (set_next_part_number (incr_u32 (next_part_number a)) a))
    else if negb (num_parts_completed d =? total_num_parts d) then has_work_remaining None a
    else if negb (complete_multipart_upload_sent d) then
      has_work_remaining
        (Some (aws_s3_request_new AWS_S3_AUTO_RANGED_PUT_REQUEST_TAG_COMPLETE_MULTIPART_UPLOAD 0
                 AWS_S3_REQUEST_FLAG_RECORD_RESPONSE_HEADERS))
        (synced (set_complete_multipart_upload_sent true) a)
    else if negb (complete_multipart_upload_completed d) then has_work_remaining None a
    else no_work_remaining a
  else
    let finish_error :=
      match finish_result (base a) with
      | Some r => error_code r
      | None => AWS_ERROR_SUCCESS
      end in
    if negb (create_multipart_upload_sent d) then no_work_remaining a
    else if negb (create_multipart_upload_completed d) then has_work_remaining None a
    else if num_parts_completed d <? num_parts_sent d then has_work_remaining None a
    else if complete_multipart_upload_sent d && negb (complete_multipart_upload_completed d)
    then has_work_remaining None a
    else if bool_decide (finish_error = AWS_ERROR_S3_PAUSED)
            || bool_decide (finish_error = AWS_ERROR_S3_RESUME_FAILED)
    then no_work_remaining a
    else if complete_multipart_upload_completed d
            && is_success (complete_multipart_upload_error_code d)
    then no_work_remaining a
    else if negb (abort_multipart_upload_sent d) then
      match upload_id a with
      | None => no_work_remaining a
      | Some _ =>
          has_work_remaining
            (Some (aws_s3_request_new AWS_S3_AUTO_RANGED_PUT_REQUEST_TAG_ABORT_MULTIPART_UPLOAD 0
                     (Z.lor AWS_S3_REQUEST_FLAG_RECORD_RESPONSE_HEADERS
                        AWS_S3_REQUEST_FLAG_ALWAYS_SEND)))
            (synced (set_abort_multipart_upload_sent true) a)
      end
    else if negb (abort_multipart_upload_completed d) then has_work_remaining None a
    else no_work_remaining a.

(** ** [s_s3_auto_ranged_put_request_finished] *)

(** [struct aws_s3_meta_request_progress]. *)
Module Progress.
Record aws_s3_meta_request_progress := {
  bytes_transferred : Z;
  content_length : Z;
}.
End Progress.

(** The user callbacks that the finish hook invokes, in order. *)
Inductive callback_event :=
| progress_callback_invoked (progress : Progress.aws_s3_meta_request_progress)
| headers_callback_invoked (headers : aws_http_headers) (response_status : Z).

Fixpoint string_drop (n : nat) (s : string) : string :=
  match n, s with
  | O, _ => s
  | S n', EmptyString => EmptyString
  | S n', String _ rest => string_drop n' rest
  end.

(** Modelled from the spec: [replace_quote_entities] of [s3_util.c] is not
    among the sources; "XML-entity-encoded quotes ([&quot;]) in body-embedded
    ETags must be decoded back to the double quote". *)
Fixpoint replace_quote_entities (s : string) : string :=
  match s with
  | EmptyString => EmptyString
  | String c rest =>
      let replaced := replace_quote_entities rest in
      if Ascii.eqb c "&"%char && String.prefix "quot;" rest
      then String double_quote (string_drop 5 replaced)
      else String c replaced
  end.

(** The sweep over the ETag list once the last ListParts page is in:
    [remaining] counts the indices from [etag_index] up to the length. *)
Fixpoint count_resumed_parts (remaining : nat) (etag_index : Z)
  (d : auto_ranged_put_synced_data) : auto_ranged_put_synced_data :=
  match remaining with
  | O => d
  | S remaining' =>
      let d' :=
        match aws_array_list_get_at (etag_list d) etag_index with
        | Some (Some _) =>
            set_num_parts_completed (incr_u32 (num_parts_completed d))
              (set_num_parts_sent (incr_u32 (num_parts_sent d)) d)
        | _ => d
        end in
      count_resumed_parts remaining' (etag_index + 1) d'
  end.

(** Sets the failure on the base meta request; the failed request's
    response status goes with it. *)
Definition fail_with (send_data : aws_s3_request_send_data) (e : aws_error)
  (a : aws_s3_auto_ranged_put) : aws_s3_auto_ranged_put :=
  set_base (aws_s3_meta_request_set_fail_synced (base a) (Some (response_status send_data)) e) a.

Definition fail_if_error (send_data : aws_s3_request_send_data) (e : aws_error)
  (a : aws_s3_auto_ranged_put) : aws_s3_auto_ranged_put :=
  if is_success e then a else fail_with send_data e a.

(** The finish hook.  [error_code] is the code the request finished with;
    [headers_callback_error] is what the user's headers callback answers
    when it is called ([AWS_ERROR_SUCCESS] for a zero return, else the last
    error).  The result is the state left behind and the callbacks made;
    [None] where the C text has no defined result (the fatal assertion on
    the part number, a null [needed_response_headers] handed to
    [copy_http_headers], a checksum written outside [checksums_list]). *)
Definition s_s3_auto_ranged_put_request_finished (a : aws_s3_auto_ranged_put)
  (request : aws_s3_request) (send_data : aws_s3_request_send_data)
  (error_code : aws_error) (headers_callback_error : aws_error)
  : option (aws_s3_auto_ranged_put * list callback_event) :=
  match request_tag request with
  | AWS_S3_AUTO_RANGED_PUT_REQUEST_TAG_LIST_PARTS =>
      let page := response_body_list_parts send_data in
      let parsed :=
        if is_success error_code then
          match process_parts (parts page) a with
          | Some a =>
              let a :=
                synced (set_list_parts_continuation_token (next_continuation_token page)) a in
              if parse_failed page
              then Some (AWS_ERROR_S3_LIST_PARTS_PARSE_FAILED, a, has_more_results page)
              else if negb (has_more_results page)
              then
                Some (error_code,
                      synced
                        (fun d =>
                           count_resumed_parts
                             (Z.to_nat (aws_array_list_length (etag_list d))) 0 d)
                        a,
                      false)
              else Some (error_code, a, true)
          | None => None
          end
        else Some (error_code, a, false) in
      match parsed with
      | Some (error_code, a, has_more_results) =>
          let a :=
            synced
              (fun d =>
                 set_create_multipart_upload_error_code error_code
                   (set_list_parts_completed (negb has_more_results) d))
              a in
          Some (fail_if_error send_data error_code a, [])
      | None => None
      end
  | AWS_S3_AUTO_RANGED_PUT_REQUEST_TAG_CREATE_MULTIPART_UPLOAD =>
      let '(needed_response_headers, error_code, a) :=
        if is_success error_code then
          let needed := Some (copy_needed_headers (response_headers send_data)) in
          match response_body_upload_id send_data with
          | None => (needed, AWS_ERROR_S3_MISSING_UPLOAD_ID, a)
          | Some upload_id => (needed, error_code, set_upload_id (Some upload_id) a)
          end
        else (None, error_code, a) in
      let a :=
        synced
          (fun d =>
             set_list_parts_error_code error_code
               (set_create_multipart_upload_completed true
                  (set_needed_response_headers needed_response_headers d)))
          a in
      Some (fail_if_error send_data error_code a, [])
  | AWS_S3_AUTO_RANGED_PUT_REQUEST_TAG_PART =>
      if negb (0 <? part_number request) then None
      else
        let part_index := part_number request - 1 in
        let '(etag, error_code) :=
          if is_success error_code then
            match aws_http_headers_get (response_headers send_data) g_etag_header_name with
            | None => (None, AWS_ERROR_S3_MISSING_UPLOAD_ID)
            | Some etag_within_quotes => (Some (aws_strip_quotes etag_within_quotes), error_code)
            end
          else (None, error_code) in
        let events :=
          if is_success error_code && progress_callback (base a)
          then [progress_callback_invoked
                  {| Progress.bytes_transferred := part_size (base a);
                     Progress.content_length := content_length a |}]
          else [] in
        let a :=
          synced (fun d => set_num_parts_completed (incr_u32 (num_parts_completed d)) d) a in
        let a :=
          if is_success error_code then
            synced
              (fun d =>
                 set_etag_list (aws_array_list_set_at (etag_list d) etag part_index)
                   (set_num_parts_successful (incr_u32 (num_parts_successful d)) d))
              a
          else
            fail_with send_data error_code
              (synced (fun d => set_num_parts_failed (incr_u32 (num_parts_failed d)) d) a) in
        Some (a, events)
  | AWS_S3_AUTO_RANGED_PUT_REQUEST_TAG_COMPLETE_MULTIPART_UPLOAD =>
      let called :=
        if is_success error_code && headers_callback (base a) then
          match needed_response_headers (synced_data a) with
          | None => None
          | Some needed =>
              let final_response_headers :=
                copy_http_headers needed
                  (copy_http_headers (response_headers send_data) aws_http_headers_new) in
              let final_response_headers :=
                match response_body_etag send_data with
                | Some etag_header_value =>
                    aws_http_headers_set final_response_headers g_etag_header_name
                      (replace_quote_entities etag_header_value)
                | None => final_response_headers
                end in
              Some (headers_callback_error,
                    set_base (set_headers_callback false (base a)) a,
                    [headers_callback_invoked final_response_headers
                       (response_status send_data)])
          end
        else Some (error_code, a, []) in
      match called with
      | Some (error_code, a, events) =>
          let a :=
            synced
              (fun d =>
                 set_complete_multipart_upload_error_code error_code
                   (set_complete_multipart_upload_completed true d))
              a in
          Some (fail_if_error send_data error_code a, events)
      | None => None
      end
  | AWS_S3_AUTO_RANGED_PUT_REQUEST_TAG_ABORT_MULTIPART_UPLOAD =>
      Some (synced
              (fun d =>
                 set_abort_multipart_upload_completed true
                   (set_abort_multipart_upload_error_code error_code d))
              a,
            [])
  end.

(** ** [s_s3_auto_ranged_put_pause] *)

(** Returns the resume token written to [*out_resume_token] (as the JSON
    object handed to [aws_byte_buf_append_json_string], which is taken not
    to fail, so that the C function returns [AWS_OP_SUCCESS]; [None] is a
    null token) and the state left behind.  [aws_byte_cursor_from_string]
    reads through [upload_id]: with a null [upload_id] there is no defined
    result ([None]). *)
Definition s_s3_auto_ranged_put_pause (a : aws_s3_auto_ranged_put)
  : option (option aws_json_value * aws_s3_auto_ranged_put) :=
  let paused :=
    set_base (aws_s3_meta_request_set_fail_synced (base a) None AWS_ERROR_S3_PAUSED) a in
  if create_multipart_upload_completed (synced_data a) then
    match upload_id a with
    | None => None
    | Some id =>
        let root := aws_json_value_new_object in
        let root :=
          aws_json_value_add_to_object root "type"
            (aws_json_value_new_string PUT_OBJECT_TOKEN_TYPE) in
        let root :=
          aws_json_value_add_to_object root "multipart_upload_id"
            (aws_json_value_new_string id) in
        let root :=
          aws_json_value_add_to_object root "partition_size"
            (aws_json_value_new_number (size_t_to_double (part_size (base a)))) in
        let root :=
          aws_json_value_add_to_object root "total_num_parts"
            (aws_json_value_new_number
               (uint32_to_double (total_num_parts (synced_data a)))) in
        Some (Some root, paused)
    end
  else Some (None, paused).

(** ** Request body sizes and skipping over uploaded parts *)

(** [s_compute_request_body_size]; [size_t] is 64 bits wide, so the cast of
    the remainder loses nothing.  For the last part the C function divides
    by [part_size]: the definition is that function for a positive part
    size, and the theorems that need its result to be defined assume one. *)
Definition s_compute_request_body_size (a : aws_s3_auto_ranged_put) (part_number : Z) : Z :=
  let request_body_size := part_size (base a) in
  if part_number =? total_num_parts (synced_data a) then
    let content_remainder := content_length a mod part_size (base a) in
    if 0 <? content_remainder then content_remainder else request_body_size
  else request_body_size.

Section Skipping.

(** The body stream of the initial message, with
    [aws_s3_meta_request_read_body] of [s3_meta_request.c]: reading into a
    buffer of the given capacity yields the bytes read and the stream
    after them, or fails.  [aws_checksum_compute] of [s3_checksums.c]
    yields the digest of a byte range, or fails. *)
Variable body_stream : Type.
Variable aws_s3_meta_request_read_body :
  body_stream -> Z -> option (list Byte.byte * body_stream).
Variable aws_checksum_compute :
  aws_s3_checksum_algorithm -> list Byte.byte -> option (list Byte.byte).

(** Outcome of skipping: the stream after the skipped parts, or the error
    ([None] for the plain [AWS_OP_ERR] of a failed read, which raises no
    code of its own here). *)
Inductive skip_result :=
| skip_ok (stream : body_stream)
| skip_failed (raised : option aws_error).

(** One turn of the loop of [s_skip_parts_from_stream], for the part with
    index [part_index] (part number [part_index + 1]). *)
Definition skip_one_part (a : aws_s3_auto_ranged_put) (stream : body_stream)
  (part_index : Z) : skip_result :=
  let request_body_size := s_compute_request_body_size a (part_index + 1) in
  match aws_s3_meta_request_read_body stream request_body_size with
  | None => skip_failed None
  | Some (temp_body_buf, stream') =>
      let stored := default [] (checksums_list a !! Z.to_nat part_index) in
      if negb (bool_decide (checksum_algorithm (base a) = AWS_SCA_NONE))
         && (0 <? Z.of_nat (length stored))
      then
        match aws_checksum_compute (checksum_algorithm (base a)) temp_body_buf with
        | None => skip_failed (Some AWS_ERROR_S3_RESUME_FAILED)
        | Some checksum =>
            if negb (bool_decide (checksum = stored))
            then skip_failed (Some AWS_ERROR_S3_RESUMED_PART_CHECKSUM_MISMATCH)
            else skip_ok stream'
        end
      else skip_ok stream'
  end.

(** The loop, [count] parts from [part_index] on. *)
Fixpoint skip_parts_loop (count : nat) (a : aws_s3_auto_ranged_put) (stream : body_stream)
  (part_index : Z) : skip_result :=
  match count with
  | O => skip_ok stream
  | S count' =>
      match skip_one_part a stream part_index with
      | skip_ok stream' => skip_parts_loop count' a stream' (part_index + 1)
      | skip_failed e => skip_failed e
      end
  end.

(** [s_skip_parts_from_stream]. *)
Definition s_skip_parts_from_stream (a : aws_s3_auto_ranged_put) (stream : body_stream)
  (num_parts_read_from_stream : Z) (skip_until_part_number : Z) : skip_result :=
  if num_parts_read_from_stream =? skip_until_part_number then skip_ok stream
  else
    skip_parts_loop (Z.to_nat (skip_until_part_number - num_parts_read_from_stream))
      a stream num_parts_read_from_stream.

End Skipping.

Arguments skip_ok {body_stream} _.
Arguments skip_failed {body_stream} _.

(** ** The meta request driven by the client

    The client calls [update] to obtain requests, sends them, and calls the
    finish hook once for each request it obtained; the user may pause or
    cancel at any time.  A [driven] meta request pairs the state with the
    requests that have been handed out and not yet finished, and records
    every request handed out and every callback made. *)
Record driven := {
  meta_request : aws_s3_auto_ranged_put;
  in_flight : list aws_s3_request;
  handed_out : list aws_s3_request;
  callbacks : list callback_event;
}.

Inductive action :=
| call_update (flags : Z)
| call_request_finished (request : aws_s3_request) (send_data : aws_s3_request_send_data)
    (error_code : aws_error) (headers_callback_error : aws_error)
| call_pause
| call_cancel.

Fixpoint remove_first (request : aws_s3_request) (l : list aws_s3_request)
  : option (list aws_s3_request) :=
  match l with
  | [] => None
  | r :: rest =>
      if bool_decide (r = request) then Some rest
      else match remove_first request rest with
           | Some rest' => Some (r :: rest')
           | None => None
           end
  end.

Definition start (a : aws_s3_auto_ranged_put) : driven :=
  {| meta_request := a; in_flight := []; handed_out := []; callbacks := [] |}.

(** Modelled from the spec: [aws_s3_meta_request_cancel] of
    [s3_meta_request.c] is not among the sources; "a meta-request is
    cancelled by calling the public cancel/pause entry which sets the finish
    result under the meta-request lock". *)
Definition aws_s3_meta_request_cancel (a : aws_s3_auto_ranged_put) : aws_s3_auto_ranged_put :=
  set_base (aws_s3_meta_request_set_fail_synced (base a) None AWS_ERROR_S3_CANCELED) a.

(** One call.  [None]: the call is not possible (the request is not in
    flight) or has no defined result. *)
Definition step (s : driven) (act : action) : option driven :=
  match act with
  | call_update flags =>
      match s_s3_auto_ranged_put_update (meta_request s) flags with
      | Some (_, out_request, a) =>
          let new := match out_request with Some r => [r] | None => [] end in
          Some {| meta_request := a; in_flight := in_flight s ++ new;
                  handed_out := handed_out s ++ new; callbacks := callbacks s |}
      | None => None
      end
  | call_request_finished request send_data error_code headers_callback_error =>
      match remove_first request (in_flight s) with
      | Some rest =>
          match s_s3_auto_ranged_put_request_finished (meta_request s) request send_data
                  error_code headers_callback_error with
          | Some (a, events) =>
              Some {| meta_request := a; in_flight := rest;
                      handed_out := handed_out s; callbacks := callbacks s ++ events |}
          | None => None
          end
      | None => None
      end
  | call_pause =>
      match s_s3_auto_ranged_put_pause (meta_request s) with
      | Some (_, a) =>
          Some {| meta_request := a; in_flight := in_flight s;
                  handed_out := handed_out s; callbacks := callbacks s |}
      | None => None
      end
  | call_cancel =>
      Some {| meta_request := aws_s3_meta_request_cancel (meta_request s);
              in_flight := in_flight s; handed_out := handed_out s;
              callbacks := callbacks s |}
  end.

Fixpoint run (s : driven) (acts : list action) : option driven :=
  match acts with
  | [] => Some s
  | act :: rest =>
      match step s act with
      | Some s' => run s' rest
      | None => None
      end
  end.

(** Number of requests with a given tag in a list. *)
Definition count_tag (tag : aws_s3_auto_ranged_put_request_tag) (l : list aws_s3_request) : Z :=
  Z.of_nat (length (List.filter (fun r => bool_decide (request_tag r = tag)) l)).

(** Number of non-null slots of the ETag array. *)
Definition populated_slots (l : aws_array_list) : Z :=
  Z.of_nat (length (List.filter (fun slot => bool_decide (slot <> None)) (al_data l))).

(** ** Vocabulary of the properties *)

(** A well-formed ETag list over a storage of [capacity] slots: the length
    stays within the storage, and every slot at or beyond the length is
    null. *)
Record etag_list_ok (l : aws_array_list) (capacity : Z) : Prop := {
  storage_size : Z.of_nat (length (al_data l)) = capacity;
  length_in_storage : (al_length l <= length (al_data l))%nat;
  null_beyond_length :
    forall (i : nat) (etag : string),
      al_data l !! i = Some (Some etag) -> (i < al_length l)%nat;
}.

(** Number of non-null slots that the sweep of the finish hook sees from
    [etag_index] on. *)
Fixpoint resumed_between (l : aws_array_list) (etag_index : Z) (remaining : nat) : nat :=
  match remaining with
  | O => O
  | S remaining' =>
      (match aws_array_list_get_at l etag_index with
       | Some (Some _) => 1
       | _ => 0
       end + resumed_between l (etag_index + 1) remaining')%nat
  end.

(** What holds of the counters of a driven meta request.  [fresh] tells an
    upload constructed without a resume token; [flying] are the requests in
    flight. *)
Record counters_ok (fresh : bool) (d : auto_ranged_put_synced_data)
  (flying : list aws_s3_request) : Prop := {
  total_range : 0 <= total_num_parts d < UINT32_MODULUS;
  etags_ok : etag_list_ok (etag_list d) (total_num_parts d);
  completed_nonneg : 0 <= num_parts_completed d;
  parts_in_flight :
    num_parts_completed d + count_tag AWS_S3_AUTO_RANGED_PUT_REQUEST_TAG_PART flying
    = num_parts_sent d;
  sent_le_total : num_parts_sent d <= total_num_parts d;
  successful_nonneg : 0 <= num_parts_successful d;
  failed_nonneg : 0 <= num_parts_failed d;
  outcomes_le_completed : num_parts_successful d + num_parts_failed d <= num_parts_completed d;
  fresh_outcomes :
    fresh = true ->
    num_parts_successful d + num_parts_failed d = num_parts_completed d /\
    count_tag AWS_S3_AUTO_RANGED_PUT_REQUEST_TAG_LIST_PARTS flying = 0 /\
    list_parts_sent d = true;
  resumed_created :
    fresh = false ->
    create_multipart_upload_sent d = true /\ create_multipart_upload_completed d = true;
  list_parts_once : count_tag AWS_S3_AUTO_RANGED_PUT_REQUEST_TAG_LIST_PARTS flying <= 1;
  list_parts_unsent :
    list_parts_sent d = false ->
    count_tag AWS_S3_AUTO_RANGED_PUT_REQUEST_TAG_LIST_PARTS flying = 0 /\
    list_parts_completed d = false;
  list_parts_flying :
    0 < count_tag AWS_S3_AUTO_RANGED_PUT_REQUEST_TAG_LIST_PARTS flying ->
    list_parts_completed d = false;
  before_list_parts :
    list_parts_completed d = false -> num_parts_sent d = 0 /\ num_parts_completed d = 0;
}.

(** The four fields of a resume token, when the token is a JSON object that
    has them with the right types: [type] and [multipart_upload_id] strings,
    [partition_size] and [total_num_parts] numbers. *)
Definition resume_token_fields (root : option aws_json_value)
  : option (string * string * double * double) :=
  match root with
  | Some (JObject members) =>
      match json_members_get members "type", json_members_get members "multipart_upload_id",
            json_members_get members "partition_size",
            json_members_get members "total_num_parts" with
      | Some (JString type), Some (JString multipart_upload_id),
        Some (JNumber partition_size), Some (JNumber total_num_parts) =>
          Some (type, multipart_upload_id, partition_size, total_num_parts)
      | _, _, _, _ => None
      end
  | _ => None
  end.

(** The number of parts that a content length and a part size imply. *)
Definition implied_num_parts (content_length partition_size : Z) : Z :=
  content_length / partition_size + (if content_length mod partition_size =? 0 then 0 else 1).

(** The conditions on a resume token, in the spec's words, for the two
    numbers of the token converted to [size_t] and [uint32_t]. *)
Definition token_acceptable (g_s3_min_upload_part_size g_s3_max_num_upload_parts : Z)
  (content_length : Z) (root : option aws_json_value) : Prop :=
  exists multipart_upload_id partition_size_value total_num_parts_value
         partition_size total_num_parts,
    resume_token_fields root
    = Some (PUT_OBJECT_TOKEN_TYPE, multipart_upload_id,
            partition_size_value, total_num_parts_value) /\
    double_to_size_t partition_size_value = Some partition_size /\
    double_to_uint32 total_num_parts_value = Some total_num_parts /\
    g_s3_min_upload_part_size <= partition_size /\
    total_num_parts <= g_s3_max_num_upload_parts /\
    implied_num_parts content_length partition_size = total_num_parts.

(** The checksum kept for the part with index [part_index]. *)
Definition stored_checksum (a : aws_s3_auto_ranged_put) (part_index : Z) : list Byte.byte :=
  default [] (checksums_list a !! Z.to_nat part_index).

(** The bytes of [count] successive parts, from the part with index
    [part_index] on, as [aws_s3_meta_request_read_body] hands them over when
    it is asked for each part in turn, and the stream after them; [None]
    when one of the reads fails. *)
Fixpoint read_parts {body_stream : Type}
  (aws_s3_meta_request_read_body : body_stream -> Z -> option (list Byte.byte * body_stream))
  (a : aws_s3_auto_ranged_put) (count : nat) (stream : body_stream) (part_index : Z)
  : option (list (list Byte.byte) * body_stream) :=
  match count with
  | O => Some ([], stream)
  | S count' =>
      match aws_s3_meta_request_read_body stream
              (s_compute_request_body_size a (part_index + 1)) with
      | None => None
      | Some (part, stream') =>
          match read_parts aws_s3_meta_request_read_body a count' stream' (part_index + 1) with
          | None => None
          | Some (parts, stream'') => Some (part :: parts, stream'')
          end
      end
  end.

(** The invariant of a driven meta request. *)
Definition driven_ok (fresh : bool) (s : driven) : Prop :=
  counters_ok fresh (synced_data (meta_request s)) (in_flight s) /\
  Z.of_nat (length (checksums_list (meta_request s)))
  = total_num_parts (synced_data (meta_request s)).

(** An upload constructed without a resume token. *)
Definition is_fresh (options : aws_s3_meta_request_options) : bool :=
  match resume_token options with None => true | Some _ => false end.

(** The error code of the finish result, when one is set. *)
Definition finish_error (m : aws_s3_meta_request) : option aws_error :=
  match finish_result m with Some r => Some (error_code r) | None => None end.

(** The one request that the abort branch of [update] creates. *)
Definition abort_request : aws_s3_request :=
  aws_s3_request_new AWS_S3_AUTO_RANGED_PUT_REQUEST_TAG_ABORT_MULTIPART_UPLOAD 0
    (Z.lor AWS_S3_REQUEST_FLAG_RECORD_RESPONSE_HEADERS AWS_S3_REQUEST_FLAG_ALWAYS_SEND).

(** ** Concrete inputs *)

Definition MiB : Z := 1048576.
Definition sample_min_upload_part_size : Z := 5 * MiB.
Definition sample_max_num_upload_parts : Z := 10000.

(** The token of a paused upload of four parts of 8 MiB. *)
Definition sample_token : aws_json_value :=
  JObject [("type"%string, JString PUT_OBJECT_TOKEN_TYPE);
           ("multipart_upload_id"%string, JString "abc");
           ("partition_size"%string, JNumber (size_t_to_double (8 * MiB)));
           ("total_num_parts"%string, JNumber (uint32_to_double 4))].

(** The same token with the upload id left out. *)
Definition sample_token_without_upload_id : aws_json_value :=
  JObject [("type"%string, JString PUT_OBJECT_TOKEN_TYPE);
           ("partition_size"%string, JNumber (size_t_to_double (8 * MiB)));
           ("total_num_parts"%string, JNumber (uint32_to_double 4))].

(** The same token with a part count of four and a half. *)
Definition sample_token_with_fraction : aws_json_value :=
  JObject [("type"%string, JString PUT_OBJECT_TOKEN_TYPE);
           ("multipart_upload_id"%string, JString "abc");
           ("partition_size"%string, JNumber (size_t_to_double (8 * MiB)));
           ("total_num_parts"%string, JNumber (binary_normalize 53 1024 9 (-1) false))].

Definition sample_options (token : option (option aws_json_value))
  (algorithm : aws_s3_checksum_algorithm) : aws_s3_meta_request_options :=
  {| resume_token := token;
     options_checksum_algorithm := algorithm;
     options_progress_callback := true;
     options_headers_callback := true;
     message_headers := [];
     request_path_readable := true;
     init_base_error := None |}.

(** A put of 25 MiB in parts of 8 MiB, fresh and resumed. *)
Definition sample_fresh_put : option (aws_error + aws_s3_auto_ranged_put) :=
  aws_s3_meta_request_auto_ranged_put_new sample_min_upload_part_size
    sample_max_num_upload_parts (8 * MiB) (25 * MiB) 4 (sample_options None AWS_SCA_NONE).

Definition sample_resumed_put : option (aws_error + aws_s3_auto_ranged_put) :=
  aws_s3_meta_request_auto_ranged_put_new sample_min_upload_part_size
    sample_max_num_upload_parts (8 * MiB) (25 * MiB) 4
    (sample_options (Some (Some sample_token)) AWS_SCA_NONE).

Definition list_parts_request : aws_s3_request :=
  aws_s3_request_new AWS_S3_AUTO_RANGED_PUT_REQUEST_TAG_LIST_PARTS 0
    AWS_S3_REQUEST_FLAG_RECORD_RESPONSE_HEADERS.

Definition create_multipart_upload_request : aws_s3_request :=
  aws_s3_request_new AWS_S3_AUTO_RANGED_PUT_REQUEST_TAG_CREATE_MULTIPART_UPLOAD 0
    AWS_S3_REQUEST_FLAG_RECORD_RESPONSE_HEADERS.

Definition part_request (part_number : Z) : aws_s3_request :=
  aws_s3_request_new AWS_S3_AUTO_RANGED_PUT_REQUEST_TAG_PART part_number
    AWS_S3_REQUEST_FLAG_RECORD_RESPONSE_HEADERS.

Definition empty_page : paginated_response :=
  {| parse_failed := false; parts := []; next_continuation_token := None;
     has_more_results := false |}.

(** A response with the given status and headers and nothing in its body. *)
Definition plain_response (status : Z) (headers : aws_http_headers)
  : aws_s3_request_send_data :=
  {| response_headers := headers; response_status := status;
     response_body_upload_id := None; response_body_etag := None;
     response_body_list_parts := empty_page |}.

(** The answer to CreateMultipartUpload that names upload [id]. *)
Definition created_response (id : string) : aws_s3_request_send_data :=
  {| response_headers := []; response_status := 200;
     response_body_upload_id := Some id; response_body_etag := None;
     response_body_list_parts := empty_page |}.

(** The last ListParts page, reporting part 1 with ETag [e1]. *)
Definition listed_part_1 : aws_s3_part_info :=
  {| part_info_part_number := 1; e_tag := "e1";
     checksumCRC32 := []; checksumCRC32C := []; checksumSHA1 := []; checksumSHA256 := [] |}.

Definition last_page_response : aws_s3_request_send_data :=
  {| response_headers := []; response_status := 200;
     response_body_upload_id := None; response_body_etag := None;
     response_body_list_parts :=
       {| parse_failed := false; parts := [listed_part_1];
          next_continuation_token := None; has_more_results := false |} |}.

(** A body stream held in memory: a read fills the buffer from the front. *)
Definition memory_stream_read (stream : list Byte.byte) (capacity : Z)
  : option (list Byte.byte * list Byte.byte) :=
  Some (take (Z.to_nat capacity) stream, drop (Z.to_nat capacity) stream).

(** A stand-in digest for examples: the first byte of the range. *)
Definition first_byte_digest (algorithm : aws_s3_checksum_algorithm) (range : list Byte.byte)
  : option (list Byte.byte) :=
  Some (take 1 range).

(** Calls on the fresh put: create the upload, hand out parts 1 and 2, part 2
    succeeds and part 1 fails. *)
Definition sample_fresh_calls : list action :=
  [call_update 0;
   call_request_finished create_multipart_upload_request (created_response "abc")
     AWS_ERROR_SUCCESS AWS_ERROR_SUCCESS;
   call_update 0; call_update 0;
   call_request_finished (part_request 2)
     (plain_response 200 [("ETag"%string, "e2"%string)])
     AWS_ERROR_SUCCESS AWS_ERROR_SUCCESS;
   call_request_finished (part_request 1) (plain_response 500 [])
     (AWS_ERROR_OTHER 500) AWS_ERROR_SUCCESS].

(** Calls on the resumed put: ListParts is sent and its only page comes in. *)
Definition sample_resumed_calls : list action :=
  [call_update 0;
   call_request_finished list_parts_request last_page_response
     AWS_ERROR_SUCCESS AWS_ERROR_SUCCESS].

(** Calls on the fresh put: the upload is created, then cancelled. *)
Definition sample_cancelled_calls : list action :=
  [call_update 0;
   call_request_finished create_multipart_upload_request (created_response "abc")
     AWS_ERROR_SUCCESS AWS_ERROR_SUCCESS;
   call_cancel].

(** Calls on the fresh put: CreateMultipartUpload fails with a server error. *)
Definition sample_failed_create_calls : list action :=
  [call_update 0;
   call_request_finished create_multipart_upload_request (plain_response 500 [])
     (AWS_ERROR_OTHER 500) AWS_ERROR_SUCCESS].

(** Calls on the fresh put: the upload is created and part 1 handed out. *)
Definition sample_first_part_calls : list action :=
  [call_update 0;
   call_request_finished create_multipart_upload_request (created_response "abc")
     AWS_ERROR_SUCCESS AWS_ERROR_SUCCESS;
   call_update 0].

(** A resumed put of 10 bytes in parts of 4 with CRC32 checksums, of which
    the service lists part 1 with checksum [x61]. *)
Definition tiny_token : aws_json_value :=
  JObject [("type"%string, JString PUT_OBJECT_TOKEN_TYPE);
           ("multipart_upload_id"%string, JString "abc");
           ("partition_size"%string, JNumber (size_t_to_double 4));
           ("total_num_parts"%string, JNumber (uint32_to_double 3))].

Definition tiny_resumed_put : option (aws_error + aws_s3_auto_ranged_put) :=
  aws_s3_meta_request_auto_ranged_put_new 1 sample_max_num_upload_parts 4 10 3
    (sample_options (Some (Some tiny_token)) AWS_SCA_CRC32).

Definition tiny_listed_calls : list action :=
  [call_update 0;
   call_request_finished list_parts_request
     {| response_headers := []; response_status := 200;
        response_body_upload_id := None; response_body_etag := None;
        response_body_list_parts :=
          {| parse_failed := false;
             parts := [{| part_info_part_number := 1; e_tag := "e1";
                          checksumCRC32 := [Byte.x61]; checksumCRC32C := [];
                          checksumSHA1 := []; checksumSHA256 := [] |}];
             next_continuation_token := None; has_more_results := false |} |}
     AWS_ERROR_SUCCESS AWS_ERROR_SUCCESS].

(** Ten bytes [a] to [j], and the same with the first byte changed. *)
Definition tiny_body : list Byte.byte :=
  [Byte.x61; Byte.x62; Byte.x63; Byte.x64; Byte.x65;
   Byte.x66; Byte.x67; Byte.x68; Byte.x69; Byte.x6a].

Definition tiny_body_changed : list Byte.byte :=
  [Byte.x7a; Byte.x62; Byte.x63; Byte.x64; Byte.x65;
   Byte.x66; Byte.x67; Byte.x68; Byte.x69; Byte.x6a].

(** ** Vocabulary of the further properties *)

(** Number of non-null slots of the ETag array at index [i] and beyond. *)
Definition populated_from (l : aws_array_list) (i : nat) : Z :=
  Z.of_nat (length (List.filter (fun slot => bool_decide (slot <> None)) (drop i (al_data l)))).

(** The part numbers of the part requests of a list, in order. *)
Definition part_numbers (l : list aws_s3_request) : list Z :=
  map part_number
    (List.filter
       (fun r => bool_decide (request_tag r = AWS_S3_AUTO_RANGED_PUT_REQUEST_TAG_PART)) l).

(** The value that the loop of [update] over the known ETags leaves in
    [next_part_number]. *)
Definition scanned_part_number (a : aws_s3_auto_ranged_put) : Z :=
  let etag_index := int_to_size_t (uint32_to_int (decr_u32 (next_part_number a))) in
  skip_known_etags
    (Z.to_nat (aws_array_list_length (etag_list (synced_data a)) - etag_index))
    (etag_list (synced_data a)) etag_index (next_part_number a).

(** [a'] differs from [a] in nothing that the progress of the parts depends
    on. *)
Record same_parts (a a' : aws_s3_auto_ranged_put) : Prop := {
  same_next_part_number : next_part_number a' = next_part_number a;
  same_etag_list : etag_list (synced_data a') = etag_list (synced_data a);
  same_total : total_num_parts (synced_data a') = total_num_parts (synced_data a);
  same_sent : num_parts_sent (synced_data a') = num_parts_sent (synced_data a);
  same_completed : num_parts_completed (synced_data a') = num_parts_completed (synced_data a);
  same_successful :
    num_parts_successful (synced_data a') = num_parts_successful (synced_data a);
  same_failed : num_parts_failed (synced_data a') = num_parts_failed (synced_data a);
  same_list_parts_completed :
    list_parts_completed (synced_data a') = list_parts_completed (synced_data a);
}.

(** A list of part numbers in which a later entry is larger. *)
Definition increasing (l : list Z) : Prop :=
  forall (i j : nat) (x y : Z), (i < j)%nat -> l !! i = Some x -> l !! j = Some y -> x < y.

(** What holds of the part numbers of a driven meta request: [flying] are
    the requests in flight, [handed] all requests handed out so far. *)
Record parts_ok (a : aws_s3_auto_ranged_put) (flying handed : list aws_s3_request)
  : Prop := {
  total_fits_int : total_num_parts (synced_data a) < 2 ^ 31;
  next_part_number_range :
    1 <= next_part_number a <= total_num_parts (synced_data a) + 1;
  handed_out_below_next :
    forall r, In r handed ->
      request_tag r = AWS_S3_AUTO_RANGED_PUT_REQUEST_TAG_PART ->
      1 <= part_number r < next_part_number a;
  handed_out_increasing : increasing (part_numbers handed);
  in_flight_handed_out : forall r, In r flying -> In r handed;
  in_flight_distinct : List.NoDup (part_numbers flying);
  first_part_after_list :
    list_parts_completed (synced_data a) = false -> next_part_number a = 1;
  no_etags_before_list :
    list_parts_sent (synced_data a) = false \/
    0 < count_tag AWS_S3_AUTO_RANGED_PUT_REQUEST_TAG_LIST_PARTS flying ->
    populated_slots (etag_list (synced_data a)) = 0;
}.

(** What holds in addition as long as no finish result is set. *)
Record running_ok (a : aws_s3_auto_ranged_put) (flying : list aws_s3_request) : Prop := {
  sent_accounts :
    list_parts_completed (synced_data a) = true ->
    num_parts_sent (synced_data a)
    = next_part_number a - 1
      + populated_from (etag_list (synced_data a)) (Z.to_nat (next_part_number a - 1));
  completed_have_etags :
    list_parts_completed (synced_data a) = true ->
    populated_slots (etag_list (synced_data a)) = num_parts_completed (synced_data a);
  in_flight_slots_null :
    forall r, In r flying ->
      request_tag r = AWS_S3_AUTO_RANGED_PUT_REQUEST_TAG_PART ->
      al_data (etag_list (synced_data a)) !! Z.to_nat (part_number r - 1) = Some None;
  upload_id_known :
    create_multipart_upload_completed (synced_data a) = true -> upload_id a <> None;
  complete_succeeded :
    complete_multipart_upload_completed (synced_data a) = true ->
    complete_multipart_upload_error_code (synced_data a) = AWS_ERROR_SUCCESS;
}.

(** The invariant of a driven meta request, with the part numbers. *)
Definition upload_ok (fresh : bool) (s : driven) : Prop :=
  driven_ok fresh s /\
  parts_ok (meta_request s) (in_flight s) (handed_out s) /\
  (finish_result (base (meta_request s)) = None ->
   running_ok (meta_request s) (in_flight s)).

(** What holds of the requests around the parts: each of them is handed out
    at most once, and only after the flag that records it is set; a request
    that needs the upload id is handed out only when the upload id is there;
    a finish result of success is set only after CompleteMultipartUpload
    has succeeded. *)
Record phases_ok (fresh : bool) (a : aws_s3_auto_ranged_put)
  (flying handed : list aws_s3_request) : Prop := {
  list_parts_handed_once :
    count_tag AWS_S3_AUTO_RANGED_PUT_REQUEST_TAG_LIST_PARTS handed <= 1;
  list_parts_not_handed :
    list_parts_sent (synced_data a) = false ->
    count_tag AWS_S3_AUTO_RANGED_PUT_REQUEST_TAG_LIST_PARTS handed = 0;
  list_parts_not_when_fresh :
    fresh = true -> count_tag AWS_S3_AUTO_RANGED_PUT_REQUEST_TAG_LIST_PARTS handed = 0;
  create_handed_once :
    count_tag AWS_S3_AUTO_RANGED_PUT_REQUEST_TAG_CREATE_MULTIPART_UPLOAD handed <= 1;
  create_not_handed :
    create_multipart_upload_sent (synced_data a) = false ->
    count_tag AWS_S3_AUTO_RANGED_PUT_REQUEST_TAG_CREATE_MULTIPART_UPLOAD handed = 0;
  create_not_when_resumed :
    fresh = false ->
    count_tag AWS_S3_AUTO_RANGED_PUT_REQUEST_TAG_CREATE_MULTIPART_UPLOAD handed = 0;
  complete_handed_once :
    count_tag AWS_S3_AUTO_RANGED_PUT_REQUEST_TAG_COMPLETE_MULTIPART_UPLOAD handed <= 1;
  complete_not_handed :
    complete_multipart_upload_sent (synced_data a) = false ->
    count_tag AWS_S3_AUTO_RANGED_PUT_REQUEST_TAG_COMPLETE_MULTIPART_UPLOAD handed = 0;
  complete_in_flight :
    count_tag AWS_S3_AUTO_RANGED_PUT_REQUEST_TAG_COMPLETE_MULTIPART_UPLOAD flying
    <= count_tag AWS_S3_AUTO_RANGED_PUT_REQUEST_TAG_COMPLETE_MULTIPART_UPLOAD handed;
  complete_not_in_flight :
    complete_multipart_upload_completed (synced_data a) = true ->
    complete_multipart_upload_sent (synced_data a) = true /\
    count_tag AWS_S3_AUTO_RANGED_PUT_REQUEST_TAG_COMPLETE_MULTIPART_UPLOAD flying = 0;
  abort_handed_once :
    count_tag AWS_S3_AUTO_RANGED_PUT_REQUEST_TAG_ABORT_MULTIPART_UPLOAD handed <= 1;
  abort_not_handed :
    abort_multipart_upload_sent (synced_data a) = false ->
    count_tag AWS_S3_AUTO_RANGED_PUT_REQUEST_TAG_ABORT_MULTIPART_UPLOAD handed = 0;
  upload_id_handed :
    0 < count_tag AWS_S3_AUTO_RANGED_PUT_REQUEST_TAG_PART handed
        + count_tag AWS_S3_AUTO_RANGED_PUT_REQUEST_TAG_COMPLETE_MULTIPART_UPLOAD handed
        + count_tag AWS_S3_AUTO_RANGED_PUT_REQUEST_TAG_ABORT_MULTIPART_UPLOAD handed ->
    upload_id a <> None;
  success_after_complete :
    finish_error (base a) = Some AWS_ERROR_SUCCESS ->
    complete_multipart_upload_completed (synced_data a) = true /\
    complete_multipart_upload_error_code (synced_data a) = AWS_ERROR_SUCCESS /\
    num_parts_completed (synced_data a) = total_num_parts (synced_data a);
  complete_handed_when_sent :
    complete_multipart_upload_sent (synced_data a) = true ->
    0 < count_tag AWS_S3_AUTO_RANGED_PUT_REQUEST_TAG_COMPLETE_MULTIPART_UPLOAD handed;
}.

(** The invariant of a driven meta request, with the part numbers and the
    requests around the parts. *)
Definition requests_ok (fresh : bool) (s : driven) : Prop :=
  upload_ok fresh s /\
  phases_ok fresh (meta_request s) (in_flight s) (handed_out s).

(** What holds of the response headers kept for the final response: they
    are there whenever the CompleteMultipartUpload request has been handed
    out, and the CreateMultipartUpload request, which writes them, is no
    longer in flight once it has completed. *)
Record headers_ok (a : aws_s3_auto_ranged_put) (flying handed : list aws_s3_request)
  : Prop := {
  create_in_flight :
    count_tag AWS_S3_AUTO_RANGED_PUT_REQUEST_TAG_CREATE_MULTIPART_UPLOAD flying
    <= count_tag AWS_S3_AUTO_RANGED_PUT_REQUEST_TAG_CREATE_MULTIPART_UPLOAD handed;
  create_not_in_flight :
    create_multipart_upload_completed (synced_data a) = true ->
    create_multipart_upload_sent (synced_data a) = true /\
    count_tag AWS_S3_AUTO_RANGED_PUT_REQUEST_TAG_CREATE_MULTIPART_UPLOAD flying = 0;
  needed_for_complete :
    0 < count_tag AWS_S3_AUTO_RANGED_PUT_REQUEST_TAG_COMPLETE_MULTIPART_UPLOAD handed ->
    needed_response_headers (synced_data a) <> None /\
    create_multipart_upload_completed (synced_data a) = true;
  needed_when_running :
    finish_result (base a) = None ->
    create_multipart_upload_completed (synced_data a) = true ->
    needed_response_headers (synced_data a) <> None;
}.

(** The invariant of a driven meta request, with the headers. *)
Definition finishing_ok (fresh : bool) (s : driven) : Prop :=
  requests_ok fresh s /\
  headers_ok (meta_request s) (in_flight s) (handed_out s).

(** The bytes that the progress callbacks have reported, and the number of
    calls of the headers callback. *)
Definition reported_bytes (events : list callback_event) : Z :=
  foldr
    (fun event sum =>
       match event with
       | progress_callback_invoked progress => Progress.bytes_transferred progress + sum
       | headers_callback_invoked _ _ => sum
       end)
    0 events.

Definition headers_calls (events : list callback_event) : Z :=
  foldr
    (fun event calls =>
       match event with
       | progress_callback_invoked _ => calls
       | headers_callback_invoked _ _ => 1 + calls
       end)
    0 events.

(** What holds of the callbacks made for a meta request that started out
    as [a0]. *)
Record callbacks_ok (a0 : aws_s3_auto_ranged_put) (s : driven) : Prop := {
  same_part_size : part_size (base (meta_request s)) = part_size (base a0);
  same_progress_callback :
    progress_callback (base (meta_request s)) = progress_callback (base a0);
  reported_successful_parts :
    reported_bytes (callbacks s)
    = (if progress_callback (base a0)
       then num_parts_successful (synced_data (meta_request s)) else 0)
      * part_size (base a0);
  headers_called_once : 0 <= headers_calls (callbacks s) <= 1;
  headers_callback_cleared :
    0 < headers_calls (callbacks s) -> headers_callback (base (meta_request s)) = false;
}.

(** A call that is not an [update] without the conservative flag. *)
Definition is_conservative (act : action) : bool :=
  match act with
  | call_update flags =>
      negb (Z.land flags AWS_S3_META_REQUEST_UPDATE_FLAG_CONSERVATIVE =? 0)
  | _ => true
  end.

(** A run of [update] calls, one for each entry of [flags]. *)
Definition updates (flags : list Z) : list action := map call_update flags.

(** ** [s_s3_auto_ranged_put_prepare_request] *)

Definition set_num_parts_read_from_stream (v : Z) (a : aws_s3_auto_ranged_put) :=
  {| base := base a; content_length := content_length a; upload_id := upload_id a;
     checksums_list := checksums_list a; next_part_number := next_part_number a;
     num_parts_read_from_stream := v;
     synced_data := synced_data a |}.

Section Preparing.

(** The body stream and the checksum function are as for the skipping.  The
    HTTP messages and the functions that build them ([s3_request_messages.c],
    [s3_paginated.c], [s3_util.c]) are outside the sources at hand.  What
    they read beside the arguments written out here (the allocator, the
    initial request message, the ListParts operation, the MD5 setting) stays
    the same for a meta request.  A builder that returns a null message
    returns [None].  [aws_s3_upload_part_message_new] is handed the buffer
    of [checksums_list] that belongs to the part and returns what it leaves
    in it; [aws_s3_complete_multipart_message_new] returns what it writes
    into the request body. *)
Variable body_stream : Type.
Variable aws_s3_meta_request_read_body :
  body_stream -> Z -> option (list Byte.byte * body_stream).
Variable aws_checksum_compute :
  aws_s3_checksum_algorithm -> list Byte.byte -> option (list Byte.byte).
Variable aws_http_message : Type.
Variable g_s3_list_parts_excluded_headers : list string.
Variable g_s3_list_parts_with_checksum_excluded_headers : list string.
Variable aws_s3_construct_next_paginated_request_http_message :
  option string -> option aws_http_message.
Variable aws_s3_message_util_copy_headers : list string -> aws_http_message -> aws_http_message.
Variable aws_s3_create_multipart_upload_message_new :
  aws_s3_checksum_algorithm -> option aws_http_message.
Variable aws_s3_upload_part_message_new :
  list Byte.byte -> Z -> option string -> aws_s3_checksum_algorithm -> list Byte.byte ->
  option aws_http_message * list Byte.byte.
Variable aws_s3_complete_multipart_message_new :
  string -> aws_array_list -> list (list Byte.byte) -> aws_s3_checksum_algorithm ->
  option aws_http_message * list Byte.byte.
Variable aws_s3_abort_multipart_upload_message_new : string -> option aws_http_message.

(** Outcome of a preparation.  [prepare_ok]: [AWS_OP_SUCCESS], with the
    state, the stream and the request body left behind and the message
    handed to [aws_s3_request_setup_send_data].  [prepare_err]:
    [AWS_OP_ERR], with the state left behind, the stream and the request
    body where they are known (after a failed read they are not), and the
    error code where this file raises one. *)
Inductive prepare_result :=
| prepare_ok (a : aws_s3_auto_ranged_put) (stream : body_stream)
    (request_body : list Byte.byte) (message : aws_http_message)
| prepare_err (a : aws_s3_auto_ranged_put) (stream : option body_stream)
    (request_body : option (list Byte.byte)) (raised : option aws_error).

(** The end of the function: a null message is an error. *)
Definition message_created (a : aws_s3_auto_ranged_put) (stream : body_stream)
  (request_body : list Byte.byte) (message : option aws_http_message) : prepare_result :=
  match message with
  | Some message => prepare_ok a stream request_body message
  | None => prepare_err a (Some stream) (Some request_body) None
  end.

(** [request->num_times_prepared] and [request->request_body] are passed
    beside the request.  [request->part_number - 1] is computed on
    [uint32_t].  [None]: no defined result (the fatal assertions on
    [upload_id], a buffer outside [checksums_list]). *)
Definition s_s3_auto_ranged_put_prepare_request (a : aws_s3_auto_ranged_put)
  (stream : body_stream) (request : aws_s3_request) (num_times_prepared : Z)
  (request_body : list Byte.byte) : option prepare_result :=
  match request_tag request with
  | AWS_S3_AUTO_RANGED_PUT_REQUEST_TAG_LIST_PARTS =>
      match aws_s3_construct_next_paginated_request_http_message
              (list_parts_continuation_token (synced_data a)) with
      | None => Some (prepare_err a (Some stream) (Some request_body) None)
      | Some message =>
          let excluded :=
            if bool_decide (checksum_algorithm (base a) = AWS_SCA_NONE)
            then g_s3_list_parts_excluded_headers
            else g_s3_list_parts_with_checksum_excluded_headers in
          Some (message_created a stream request_body
                  (Some (aws_s3_message_util_copy_headers excluded message)))
      end
  | AWS_S3_AUTO_RANGED_PUT_REQUEST_TAG_CREATE_MULTIPART_UPLOAD =>
      Some (message_created a stream request_body
              (aws_s3_create_multipart_upload_message_new (checksum_algorithm (base a))))
  | AWS_S3_AUTO_RANGED_PUT_REQUEST_TAG_PART =>
      let request_body_size := s_compute_request_body_size a (part_number request) in
      let read :=
        if num_times_prepared =? 0 then
          match s_skip_parts_from_stream body_stream aws_s3_meta_request_read_body
                  aws_checksum_compute a stream (num_parts_read_from_stream a)
                  (decr_u32 (part_number request)) with
          | skip_failed raised => inl (prepare_err a None (Some request_body) raised)
          | skip_ok stream =>
              let a := set_num_parts_read_from_stream (decr_u32 (part_number request)) a in
              match aws_s3_meta_request_read_body stream request_body_size with
              | None => inl (prepare_err a None None None)
              | Some (request_body, stream) =>
                  inr (set_num_parts_read_from_stream
                         (incr_u32 (num_parts_read_from_stream a)) a,
                       stream, request_body)
              end
          end
        else inr (a, stream, request_body) in
      match read with
      | inl failed => Some failed
      | inr (a, stream, request_body) =>
          let index := Z.to_nat (decr_u32 (part_number request)) in
          match checksums_list a !! index with
          | None => None
          | Some encoded_checksum =>
              let '(message, encoded_checksum_output) :=
                aws_s3_upload_part_message_new request_body (part_number request)
                  (upload_id a) (checksum_algorithm (base a)) encoded_checksum in
              let a :=
                set_checksums_list (<[index := encoded_checksum_output]> (checksums_list a))
                  a in
              Some (message_created a stream request_body message)
          end
      end
  | AWS_S3_AUTO_RANGED_PUT_REQUEST_TAG_COMPLETE_MULTIPART_UPLOAD =>
      let skipped :=
        if num_times_prepared =? 0 then
          match s_skip_parts_from_stream body_stream aws_s3_meta_request_read_body
                  aws_checksum_compute a stream (num_parts_read_from_stream a)
                  (total_num_parts (synced_data a)) with
          | skip_failed raised => inl (prepare_err a None (Some request_body) raised)
          | skip_ok stream =>
              inr (set_num_parts_read_from_stream (total_num_parts (synced_data a)) a,
                   stream)
          end
        else inr (a, stream) in
      match skipped with
      | inl failed => Some failed
      | inr (a, stream) =>
          match upload_id a with
          | None => None
          | Some id =>
              let '(message, request_body) :=
                aws_s3_complete_multipart_message_new id (etag_list (synced_data a))
                  (checksums_list a) (checksum_algorithm (base a)) in
              Some (message_created a stream request_body message)
          end
      end
  | AWS_S3_AUTO_RANGED_PUT_REQUEST_TAG_ABORT_MULTIPART_UPLOAD =>
      match upload_id a with
      | None => None
      | Some id =>
          Some (message_created a stream [] (aws_s3_abort_multipart_upload_message_new id))
      end
  end.

End Preparing.

Arguments prepare_ok {body_stream aws_http_message} _ _ _ _.
Arguments prepare_err {body_stream aws_http_message} _ _ _ _.

(** ** Further concrete inputs *)

Definition complete_multipart_upload_request : aws_s3_request :=
  aws_s3_request_new AWS_S3_AUTO_RANGED_PUT_REQUEST_TAG_COMPLETE_MULTIPART_UPLOAD 0
    AWS_S3_REQUEST_FLAG_RECORD_RESPONSE_HEADERS.

(** The answer to UploadPart with the given ETag. *)
Definition uploaded_response (etag : string) : aws_s3_request_send_data :=
  plain_response 200 [("ETag"%string, etag)].

(** Calls on the fresh put: the upload is created, the four parts are
    handed out and all of them succeed. *)
Definition sample_all_parts_calls : list action :=
  [call_update 0;
   call_request_finished create_multipart_upload_request (created_response "abc")
     AWS_ERROR_SUCCESS AWS_ERROR_SUCCESS;
   call_update 0; call_update 0; call_update 0; call_update 0;
   call_request_finished (part_request 1) (uploaded_response "e1")
     AWS_ERROR_SUCCESS AWS_ERROR_SUCCESS;
   call_request_finished (part_request 2) (uploaded_response "e2")
     AWS_ERROR_SUCCESS AWS_ERROR_SUCCESS;
   call_request_finished (part_request 3) (uploaded_response "e3")
     AWS_ERROR_SUCCESS AWS_ERROR_SUCCESS;
   call_request_finished (part_request 4) (uploaded_response "e4")
     AWS_ERROR_SUCCESS AWS_ERROR_SUCCESS].

(** The same, followed by the CompleteMultipartUpload request and the
    [update] that ends the meta request. *)
Definition sample_completed_calls : list action :=
  sample_all_parts_calls
  ++ [call_update 0;
      call_request_finished complete_multipart_upload_request (plain_response 200 [])
        AWS_ERROR_SUCCESS AWS_ERROR_SUCCESS;
      call_update 0].

(** Calls on the fresh put with the conservative flag. *)
Definition sample_conservative_calls : list action :=
  [call_update AWS_S3_META_REQUEST_UPDATE_FLAG_CONSERVATIVE;
   call_request_finished create_multipart_upload_request (created_response "abc")
     AWS_ERROR_SUCCESS AWS_ERROR_SUCCESS;
   call_update AWS_S3_META_REQUEST_UPDATE_FLAG_CONSERVATIVE;
   call_update AWS_S3_META_REQUEST_UPDATE_FLAG_CONSERVATIVE].

(** What follows a pause of the fresh put with part 1 in flight. *)
Definition sample_calls_after_pause : list action :=
  [call_update 0;
   call_request_finished (part_request 1) (uploaded_response "e1")
     AWS_ERROR_SUCCESS AWS_ERROR_SUCCESS;
   call_update 0].

(** A ListParts page that reports part 1 and announces a further page. *)
Definition first_page_response : aws_s3_request_send_data :=
  {| response_headers := []; response_status := 200;
     response_body_upload_id := None; response_body_etag := None;
     response_body_list_parts :=
       {| parse_failed := false; parts := [listed_part_1];
          next_continuation_token := Some "next"%string; has_more_results := true |} |}.

(** A listed part with part number 0. *)
Definition listed_part_0 : aws_s3_part_info :=
  {| part_info_part_number := 0; e_tag := "e0";
     checksumCRC32 := [Byte.x61]; checksumCRC32C := []; checksumSHA1 := [];
     checksumSHA256 := [] |}.

(** Stand-ins for the message builders: a message is the name of its
    operation with its body. *)
Definition sample_http_message : Type := string * list Byte.byte.

Definition sample_construct_next (continuation_token : option string)
  : option sample_http_message :=
  Some ("ListParts"%string, []).

Definition sample_copy_headers (excluded : list string) (message : sample_http_message)
  : sample_http_message :=
  message.

Definition sample_create_message (algorithm : aws_s3_checksum_algorithm)
  : option sample_http_message :=
  Some ("CreateMultipartUpload"%string, []).

Definition sample_upload_part_message (body : list Byte.byte) (part_number : Z)
  (upload_id : option string) (algorithm : aws_s3_checksum_algorithm)
  (encoded_checksum : list Byte.byte) : option sample_http_message * list Byte.byte :=
  (Some ("UploadPart"%string, body), encoded_checksum).

Definition sample_complete_message (upload_id : string) (etags : aws_array_list)
  (checksums : list (list Byte.byte)) (algorithm : aws_s3_checksum_algorithm)
  : option sample_http_message * list Byte.byte :=
  (Some ("CompleteMultipartUpload"%string, []), []).

Definition sample_abort_message (upload_id : string) : option sample_http_message :=
  Some ("AbortMultipartUpload"%string, []).

(** The preparation with the body held in memory and the stand-ins. *)
Definition sample_prepare_request (a : aws_s3_auto_ranged_put) (stream : list Byte.byte)
  (request : aws_s3_request) (num_times_prepared : Z) (request_body : list Byte.byte)
  : option (prepare_result (list Byte.byte) sample_http_message) :=
  s_s3_auto_ranged_put_prepare_request (list Byte.byte) memory_stream_read first_byte_digest
    sample_http_message [] [] sample_construct_next sample_copy_headers
    sample_create_message sample_upload_part_message sample_complete_message
    sample_abort_message a stream request num_times_prepared request_body.

(** * Properties *)

(** ** Finish results *)

Lemma set_fail_synced_sets (m : aws_s3_meta_request) (status : option Z) (e : aws_error) :
  finish_result (aws_s3_meta_request_set_fail_synced m status e) <> None /\
  (finish_result m = None ->
   finish_error (aws_s3_meta_request_set_fail_synced m status e) = Some e) /\
  (finish_result m <> None ->
   aws_s3_meta_request_set_fail_synced m status e = m).
Proof.
  unfold aws_s3_meta_request_set_fail_synced, finish_error.
  destruct (finish_result m) eqn:E; simpl; rewrite ?E; repeat split; try done.
Qed.

(** ** The ETag list and the request counts *)

Lemma count_tag_nonneg tag l : 0 <= count_tag tag l.
Proof. unfold count_tag. lia. Qed.

Lemma count_tag_snoc tag l r :
  count_tag tag (l ++ [r]) =
  count_tag tag l + (if bool_decide (request_tag r = tag) then 1 else 0).
Proof.
  unfold count_tag. rewrite List.filter_app, length_app. simpl.
  destruct (bool_decide (request_tag r = tag)); simpl; lia.
Qed.

Lemma remove_first_count request l rest tag :
  remove_first request l = Some rest ->
  count_tag tag l =
  count_tag tag rest + (if bool_decide (request_tag request = tag) then 1 else 0).
Proof.
  revert rest. induction l as [|r l IH]; intros rest; simpl; [done|].
  destruct (decide (r = request)) as [Heq|Hne].
  - rewrite bool_decide_eq_true_2 by done.
    intros [= ?]. subst. unfold count_tag. simpl.
    destruct (bool_decide (request_tag request = tag)); simpl; lia.
  - rewrite bool_decide_eq_false_2 by done.
    destruct (remove_first request l) as [rest'|]; [|done].
    intros [= ?]. subst. specialize (IH _ eq_refl). unfold count_tag in *. simpl.
    destruct (bool_decide (request_tag r = tag)); simpl; lia.
Qed.

Lemma etag_list_ok_init n : 0 <= n -> etag_list_ok (aws_array_list_init_static n) n.
Proof.
  intros Hn. unfold aws_array_list_init_static.
  constructor; simpl; rewrite ?length_replicate; [lia|lia|].
  intros i etag Hi. apply lookup_replicate in Hi as [? _]. done.
Qed.

Lemma etag_list_ok_set_at l capacity val index :
  etag_list_ok l capacity -> etag_list_ok (aws_array_list_set_at l val index) capacity.
Proof.
  intros [Hcap Hlen Hnull]. unfold aws_array_list_set_at.
  destruct (_ && _) eqn:Hin; [|done].
  apply andb_true_iff in Hin as [H0 H1]. apply Z.leb_le in H0. apply Z.ltb_lt in H1.
  constructor; simpl; rewrite ?length_insert; [done|lia|].
  intros i etag Hi.
  destruct (decide (i = Z.to_nat index)) as [->|Hne]; [lia|].
  rewrite list_lookup_insert_ne in Hi by done. apply Hnull in Hi. lia.
Qed.

Lemma get_at_nat l (i : nat) :
  aws_array_list_get_at l (Z.of_nat i) =
  if decide (i < al_length l)%nat then al_data l !! i else None.
Proof.
  unfold aws_array_list_get_at, aws_array_list_length.
  destruct (Z.leb_spec 0 (Z.of_nat i)); [|lia]. simpl.
  destruct (Z.ltb_spec (Z.of_nat i) (Z.of_nat (al_length l))); case_decide; try lia;
    rewrite ?Nat2Z.id; done.
Qed.

Lemma resumed_between_filter l (i n : nat) :
  (i + n <= al_length l)%nat -> (al_length l <= length (al_data l))%nat ->
  resumed_between l (Z.of_nat i) n =
  length (List.filter (fun slot => bool_decide (slot <> None)) (take n (drop i (al_data l)))).
Proof.
  revert i. induction n as [|n IH]; intros i Hi Hlen; simpl; [done|].
  rewrite get_at_nat. case_decide; [|lia].
  destruct (al_data l !! i) as [slot|] eqn:Hslot.
  2:{ apply lookup_ge_None in Hslot. lia. }
  rewrite (drop_S _ _ _ Hslot). simpl.
  replace (Z.of_nat i + 1) with (Z.of_nat (S i)) by lia.
  rewrite IH by lia.
  destruct slot; simpl; done.
Qed.

Lemma filter_all_null (l : list (option string)) :
  (forall i etag, l !! i = Some (Some etag) -> False) ->
  List.filter (fun slot => bool_decide (slot <> None)) l = [].
Proof.
  induction l as [|x l IH]; intros Hnull; simpl; [done|].
  destruct x as [etag|]; simpl.
  - exfalso. apply (Hnull O etag). done.
  - apply IH. intros i etag Hi. apply (Hnull (S i) etag). done.
Qed.

Lemma resumed_is_populated l capacity :
  etag_list_ok l capacity ->
  Z.of_nat (resumed_between l 0 (al_length l)) = populated_slots l /\
  populated_slots l <= capacity.
Proof.
  intros [Hcap Hlen Hnull].
  change 0 with (Z.of_nat 0). rewrite resumed_between_filter by lia.
  unfold populated_slots. rewrite drop_0.
  rewrite <- (take_drop (al_length l) (al_data l)) at 2 3.
  rewrite List.filter_app, length_app.
  rewrite (filter_all_null (drop _ _)).
  2:{ intros i etag Hi. rewrite lookup_drop in Hi. apply Hnull in Hi. lia. }
  simpl. split; [lia|].
  pose proof (List.filter_length_le (fun slot : option string => bool_decide (slot <> None))
                (take (al_length l) (al_data l))) as Hle.
  rewrite length_take in Hle. lia.
Qed.

Lemma iter_incr_u32 (k : nat) (x : Z) :
  0 <= x -> x + Z.of_nat k < UINT32_MODULUS -> Nat.iter k incr_u32 x = x + Z.of_nat k.
Proof.
  induction k as [|k IH]; intros Hx Hk; simpl; [lia|].
  rewrite IH by lia. unfold incr_u32. rewrite Z.mod_small; lia.
Qed.

Lemma count_resumed_parts_spec (n : nat) (i : Z) (d : auto_ranged_put_synced_data) :
  count_resumed_parts n i d =
  set_num_parts_completed
    (Nat.iter (resumed_between (etag_list d) i n) incr_u32 (num_parts_completed d))
    (set_num_parts_sent
       (Nat.iter (resumed_between (etag_list d) i n) incr_u32 (num_parts_sent d)) d).
Proof.
  revert i d. induction n as [|n IH]; intros i d; simpl.
  - destruct d; reflexivity.
  - rewrite IH. destruct (aws_array_list_get_at (etag_list d) i) as [[etag|]|]; simpl.
    + rewrite <- !Nat.iter_succ_r. destruct d; reflexivity.
    + destruct d; reflexivity.
    + destruct d; reflexivity.
Qed.

(** ** The counters under [update] and the finish hook *)

Lemma incr_u32_small (x : Z) : 0 <= x -> x + 1 < UINT32_MODULUS -> incr_u32 x = x + 1.
Proof. intros. unfold incr_u32. apply Z.mod_small. lia. Qed.

Ltac bool_hyps :=
  repeat match goal with
    | H : negb _ = true |- _ => apply negb_true_iff in H
    | H : negb _ = false |- _ => apply negb_false_iff in H
    | H : (_ && _)%bool = true |- _ => apply andb_true_iff in H as [? ?]
    | H : (_ <? _) = true |- _ => apply Z.ltb_lt in H
    | H : (_ <? _) = false |- _ => apply Z.ltb_ge in H
    | H : (_ <=? _) = true |- _ => apply Z.leb_le in H
    | H : (_ <=? _) = false |- _ => apply Z.leb_gt in H
    | H : (_ =? _) = true |- _ => apply Z.eqb_eq in H
    | H : (_ =? _) = false |- _ => apply Z.eqb_neq in H
    end.

Ltac saturate :=
  repeat match goal with
    | H : _ /\ _ |- _ => destruct H
    | H : ?P -> _ |- _ =>
        let HP := fresh in
        assert P as HP by (first [assumption | congruence | lia]);
        specialize (H HP); clear HP
    end.

Ltac counters_field :=
  simpl in *;
  rewrite ?count_tag_snoc, ?app_nil_r; simpl;
  try assumption;
  try (apply etag_list_ok_set_at; assumption);
  intros; saturate;
  rewrite ?incr_u32_small by lia;
  repeat split; try first [done | congruence | lia].

Lemma update_preserves_counters fresh a flying flags work request a' :
  counters_ok fresh (synced_data a) flying ->
  s_s3_auto_ranged_put_update a flags = Some (work, request, a') ->
  counters_ok fresh (synced_data a')
    (flying ++ match request with Some r => [r] | None => [] end).
Proof.
  intros [Htotal Hetags Hcompleted_nonneg Hflight Hsent_le Hsuccessful Hfailed
          Houtcomes Hfresh Hresumed_created Honce Hunsent Hflying Hbefore]
    Hupdate.
  pose proof (count_tag_nonneg AWS_S3_AUTO_RANGED_PUT_REQUEST_TAG_PART flying).
  pose proof (count_tag_nonneg AWS_S3_AUTO_RANGED_PUT_REQUEST_TAG_LIST_PARTS flying).
  unfold s_s3_auto_ranged_put_update, has_work_remaining, no_work_remaining in Hupdate.
  repeat case_match; simplify_eq; bool_hyps.
  all: constructor; counters_field.
Qed.

Lemma process_part_info_frame info a a' :
  s_process_part_info info a = Some a' ->
  base a' = base a /\ content_length a' = content_length a /\
  upload_id a' = upload_id a /\
  length (checksums_list a') = length (checksums_list a) /\
  exists etags,
    synced_data a' = set_etag_list etags (synced_data a) /\
    forall capacity,
      etag_list_ok (etag_list (synced_data a)) capacity -> etag_list_ok etags capacity.
Proof.
  unfold s_process_part_info. intros Hinfo.
  repeat case_match; simplify_eq; simpl; rewrite ?length_insert;
    repeat split; try done;
    eexists; (split; [reflexivity|]); intros capacity Hok;
    apply etag_list_ok_set_at; assumption.
Qed.

Lemma process_parts_frame infos a a' :
  process_parts infos a = Some a' ->
  base a' = base a /\ content_length a' = content_length a /\
  upload_id a' = upload_id a /\
  length (checksums_list a') = length (checksums_list a) /\
  exists etags,
    synced_data a' = set_etag_list etags (synced_data a) /\
    forall capacity,
      etag_list_ok (etag_list (synced_data a)) capacity -> etag_list_ok etags capacity.
Proof.
  revert a. induction infos as [|info infos IH]; intros a; simpl.
  - intros [= <-]. repeat split; try done.
    exists (etag_list (synced_data a)). split; [|done]. destruct (synced_data a); done.
  - destruct (s_process_part_info info a) as [a1|] eqn:Hinfo; [|done].
    intros Hrest. apply IH in Hrest as (Hb & Hc & Hu & Hl & etags & Hd & Hok).
    apply process_part_info_frame in Hinfo as (Hb1 & Hc1 & Hu1 & Hl1 & etags1 & Hd1 & Hok1).
    repeat split; try congruence.
    exists etags. split.
    + rewrite Hd, Hd1. destruct (synced_data a); done.
    + intros capacity Hcap. apply Hok. rewrite Hd1. simpl. apply Hok1, Hcap.
Qed.

Lemma length_to_nat l : Z.to_nat (aws_array_list_length l) = al_length l.
Proof. unfold aws_array_list_length. apply Nat2Z.id. Qed.

Lemma request_finished_preserves_counters fresh a flying request rest send_data
  error_code headers_callback_error a' events :
  counters_ok fresh (synced_data a) flying ->
  remove_first request flying = Some rest ->
  s_s3_auto_ranged_put_request_finished a request send_data error_code
    headers_callback_error = Some (a', events) ->
  counters_ok fresh (synced_data a') rest.
Proof.
  intros [Htotal Hetags Hcompleted_nonneg Hflight Hsent_le Hsuccessful Hfailed
          Houtcomes Hfresh Hresumed_created Honce Hunsent Hflying Hbefore]
    Hremove Hfinished.
  pose proof (remove_first_count _ _ _ AWS_S3_AUTO_RANGED_PUT_REQUEST_TAG_PART Hremove)
    as Hparts.
  pose proof (remove_first_count _ _ _ AWS_S3_AUTO_RANGED_PUT_REQUEST_TAG_LIST_PARTS Hremove)
    as Hlist.
  pose proof (count_tag_nonneg AWS_S3_AUTO_RANGED_PUT_REQUEST_TAG_PART rest).
  pose proof (count_tag_nonneg AWS_S3_AUTO_RANGED_PUT_REQUEST_TAG_LIST_PARTS rest).
  unfold s_s3_auto_ranged_put_request_finished in Hfinished.
  destruct (request_tag request) eqn:Htag; simpl in Hparts, Hlist.
  - (* ListParts *)
    assert (list_parts_completed (synced_data a) = false) as Hwaiting
      by (apply Hflying; lia).
    destruct (Hbefore Hwaiting) as [Hsent Hcompleted].
    assert (fresh = false) as ->.
    { destruct fresh; [|done]. destruct (Hfresh eq_refl) as (_ & ? & _). lia. }
    destruct (is_success error_code) eqn:Hsuccess.
    + destruct (process_parts _ a) as [a1|] eqn:Hparse; [|done].
      apply process_parts_frame in Hparse as (Hb & Hc & Hu & Hl & etags & Hd & Hok).
      specialize (Hok _ Hetags).
      destruct (resumed_is_populated _ _ Hok) as [Hresumed Hbound].
      unfold fail_if_error, fail_with in Hfinished.
      repeat case_match; simplify_eq; bool_hyps.
      all: constructor; simpl; rewrite ?Hd; simpl;
        rewrite ?count_resumed_parts_spec; simpl;
        rewrite ?length_to_nat, ?Hsent, ?Hcompleted;
        rewrite ?iter_incr_u32 by lia; counters_field.
    + unfold fail_if_error, fail_with in Hfinished.
      rewrite Hsuccess in Hfinished. simplify_eq.
      constructor; counters_field.
  - unfold fail_if_error, fail_with in Hfinished.
    repeat case_match; simplify_eq; bool_hyps.
    all: constructor; counters_field.
  - assert (list_parts_completed (synced_data a) = true) as Hlisted.
    { destruct (list_parts_completed (synced_data a)) eqn:E; [done|].
      destruct (Hbefore eq_refl). lia. }
    unfold fail_if_error, fail_with in Hfinished.
    repeat case_match; simplify_eq; bool_hyps.
    all: constructor; counters_field.
  - unfold fail_if_error, fail_with in Hfinished.
    repeat case_match; simplify_eq; bool_hyps.
    all: constructor; counters_field.
  - simplify_eq. constructor; counters_field.
Qed.

(** ** Conversions between integers and doubles *)

Lemma digits2_pos_size (p : positive) : digits2_pos p = Pos.size p.
Proof. induction p; simpl; congruence. Qed.

Lemma iter_xO_shiftl (p k : positive) : Zpos (Pos.iter xO p k) = Z.shiftl (Zpos p) (Zpos k).
Proof. apply (Pos.iter_swap_gen _ _ Zpos xO (Z.mul 2)). reflexivity. Qed.

Lemma iter_succ_add (p k : positive) : Pos.iter Pos.succ p k = (p + k)%positive.
Proof.
  induction k as [|k IH] using Pos.peano_ind.
  - simpl. lia.
  - rewrite Pos.iter_succ, IH. lia.
Qed.

Lemma digits2_pos_iter_xO (p k : positive) :
  digits2_pos (Pos.iter xO p k) = (digits2_pos p + k)%positive.
Proof.
  rewrite <- iter_succ_add.
  apply (Pos.iter_swap_gen _ _ digits2_pos xO Pos.succ). reflexivity.
Qed.

Lemma digits2_pos_bound (p : positive) (n : Z) :
  0 <= n -> Zpos p < 2 ^ n -> Zpos (digits2_pos p) <= n.
Proof.
  intros Hn Hp. rewrite digits2_pos_size.
  pose proof (Pos.size_le p) as Hle.
  destruct (Z.le_gt_cases (Zpos (Pos.size p)) n) as [|Hgt]; [done|].
  exfalso.
  assert (2 ^ (n + 1) <= 2 ^ Zpos (Pos.size p)) by (apply Z.pow_le_mono_r; lia).
  rewrite Z.pow_add_r in * by lia.
  assert (2 ^ Z.pos (Pos.size p) <= 2 * Zpos p).
  { change 2 with (Zpos 2) at 1. rewrite <- Pos2Z.inj_pow.
    change (2 * Zpos p) with (Zpos (p~0)). apply Pos2Z.pos_le_pos. exact Hle. }
  lia.
Qed.

(** Rounding to binary64 leaves an integer below [2 ^ 53] as it is: the
    mantissa is the integer shifted to 53 bits. *)
Lemma binary64_of_small_integer (p : positive) :
  Zpos p < 2 ^ 53 ->
  exists m e,
    binary_normalize 53 1024 (Zpos p) 0 false = S754_finite false m e /\
    -52 <= e <= 0 /\ Zpos m = Zpos p * 2 ^ (- e).
Proof.
  intros Hp. unfold binary_normalize, binary_round.
  pose proof (digits2_pos_bound p 53 ltac:(lia) Hp) as Hd.
  assert (1 <= Zpos (digits2_pos p)) by lia.
  assert (fexp 53 1024 (Zpos (digits2_pos p) + 0) = Zpos (digits2_pos p) - 53) as ->.
  { unfold fexp, emin. lia. }
  unfold shl_align.
  destruct (Zpos (digits2_pos p) - 53 - 0) as [|d|d] eqn:Hshift; [|lia|].
  - assert (Zpos (digits2_pos p) = 53) as Hd53 by lia.
    unfold binary_round_aux, shr_fexp. simpl Zdigits2.
    rewrite Z.add_0_r.
    assert (fexp 53 1024 (Zpos (digits2_pos p)) - 0 = 0) as ->.
    { unfold fexp, emin. lia. }
    simpl. rewrite Z.add_0_r.
    assert (fexp 53 1024 (Zpos (digits2_pos p)) - 0 = 0) as ->.
    { unfold fexp, emin. lia. }
    simpl. exists p, 0. split; [done|]. split; [lia|]. simpl. lia.
  - assert (Zpos d = 53 - Zpos (digits2_pos p)) as Hdv by lia.
    unfold binary_round_aux, shr_fexp. simpl Zdigits2.
    rewrite digits2_pos_iter_xO.
    assert (fexp 53 1024 (Zpos (digits2_pos p + d) + (Zpos (digits2_pos p) - 53))
            - (Zpos (digits2_pos p) - 53) = 0) as ->.
    { unfold fexp, emin. lia. }
    simpl shr. cbn [shr_record_of_loc shr_m loc_of_shr_record round_nearest_even Zdigits2].
    rewrite digits2_pos_iter_xO.
    assert (fexp 53 1024 (Zpos (digits2_pos p + d) + (Zpos (digits2_pos p) - 53))
            - (Zpos (digits2_pos p) - 53) = 0) as ->.
    { unfold fexp, emin. lia. }
    simpl shr. cbn [shr_m].
    destruct (Z.leb_spec (Zpos (digits2_pos p) - 53) (1024 - 53)); [|lia].
    eexists _, _. split; [reflexivity|]. split; [lia|].
    rewrite iter_xO_shiftl, Z.shiftl_mul_pow2 by lia. f_equal. f_equal. lia.
Qed.

Lemma double_truncate_of_small_integer (n : Z) :
  0 <= n < 2 ^ 53 -> double_truncate (binary_normalize 53 1024 n 0 false) = Some n.
Proof.
  intros Hn. destruct n as [|p|p]; [done| |lia].
  destruct (binary64_of_small_integer p) as (m & e & -> & He & Hm); [lia|].
  unfold double_truncate, cond_Zopp. f_equal.
  rewrite Hm. rewrite <- (Z.opp_involutive e) at 2. rewrite Z.shiftl_opp_r.
  rewrite Z.shiftr_div_pow2 by lia. apply Z.div_mul.
  apply Z.pow_nonzero; lia.
Qed.

(** A [size_t] below [2 ^ 53] and every [uint32_t] come back from a double
    as they went in. *)
Lemma double_to_size_t_of_size_t (n : Z) :
  0 <= n < 2 ^ 53 -> double_to_size_t (size_t_to_double n) = Some n.
Proof.
  intros Hn. unfold double_to_size_t, size_t_to_double.
  rewrite double_truncate_of_small_integer by done. unfold SIZE_MODULUS.
  destruct (Z.leb_spec 0 n); [|lia]. destruct (Z.ltb_spec n (2 ^ 64)); [done|lia].
Qed.

Lemma double_to_uint32_of_uint32 (n : Z) :
  0 <= n < UINT32_MODULUS -> double_to_uint32 (uint32_to_double n) = Some n.
Proof.
  unfold UINT32_MODULUS. intros Hn. unfold double_to_uint32, uint32_to_double.
  rewrite double_truncate_of_small_integer by lia. unfold UINT32_MODULUS.
  destruct (Z.leb_spec 0 n); [|lia]. destruct (Z.ltb_spec n (2 ^ 32)); [done|lia].
Qed.

Lemma double_to_size_t_range (d : double) (z : Z) :
  double_to_size_t d = Some z -> 0 <= z < SIZE_MODULUS.
Proof.
  unfold double_to_size_t. destruct (double_truncate d) as [t|]; [|done].
  destruct (Z.leb_spec 0 t), (Z.ltb_spec t SIZE_MODULUS); simpl; intros; simplify_eq. lia.
Qed.

Lemma double_to_uint32_range (d : double) (z : Z) :
  double_to_uint32 d = Some z -> 0 <= z < UINT32_MODULUS.
Proof.
  unfold double_to_uint32. destruct (double_truncate d) as [t|]; [|done].
  destruct (Z.leb_spec 0 t), (Z.ltb_spec t UINT32_MODULUS); simpl; intros; simplify_eq. lia.
Qed.

(** ** Resume tokens *)

Lemma parse_resume_info_spec min max root upload_id_out part_size_out total_num_parts_out :
  s_parse_resume_info_from_token min max (Some root) upload_id_out part_size_out
    total_num_parts_out =
  match resume_token_fields root with
  | Some (type, multipart_upload_id, partition_size_value, total_num_parts_value) =>
      if negb (String.eqb type PUT_OBJECT_TOKEN_TYPE)
      then Some (inl AWS_ERROR_INVALID_ARGUMENT)
      else
        match double_to_size_t partition_size_value with
        | None => None
        | Some partition_size =>
            if partition_size <? min then Some (inl AWS_ERROR_INVALID_ARGUMENT)
            else
              match double_to_uint32 total_num_parts_value with
              | None => None
              | Some total_num_parts =>
                  if total_num_parts >? max then Some (inl AWS_ERROR_INVALID_ARGUMENT)
                  else Some (inr (Some multipart_upload_id, partition_size, total_num_parts))
              end
        end
  | None => Some (inl AWS_ERROR_INVALID_ARGUMENT)
  end.
Proof.
  unfold s_parse_resume_info_from_token, resume_token_fields, aws_json_value_get_from_object.
  destruct root as [[| | | | |members]|]; try reflexivity.
  destruct (json_members_get members "type") as [[]|];
    destruct (json_members_get members "multipart_upload_id") as [[]|];
    destruct (json_members_get members "partition_size") as [[]|];
    destruct (json_members_get members "total_num_parts") as [[]|]; reflexivity.
Qed.

Lemma load_num_parts_is_implied content_length part_size :
  0 <= content_length -> 0 < part_size ->
  implied_num_parts content_length part_size < UINT32_MODULUS ->
  (let num_parts := (content_length / part_size) mod UINT32_MODULUS in
   if content_length mod part_size >? 0 then incr_u32 num_parts else num_parts)
  = implied_num_parts content_length part_size.
Proof.
  intros Hcl Hps Hfit. unfold implied_num_parts in *. simpl.
  pose proof (Z.mod_pos_bound content_length part_size Hps) as Hrem.
  assert (0 <= content_length / part_size) by (apply Z.div_pos; lia).
  destruct (Z.eqb_spec (content_length mod part_size) 0) as [Hz|Hnz].
  - rewrite Hz. simpl. rewrite Z.mod_small; lia.
  - destruct (Z.gtb_spec (content_length mod part_size) 0); [|lia].
    rewrite Z.mod_small by lia. rewrite incr_u32_small; lia.
Qed.

(** Claim C2, as amended.  The two numbers of a resume token are doubles,
    which the constructor converts to [size_t] and [uint32_t], the fraction
    dropped.  For a token whose numbers, so converted, fit their C types,
    with the base initialisation succeeding and the request path readable:
    when the token is a JSON object with string fields [type] and
    [multipart_upload_id] and number fields [partition_size] and
    [total_num_parts], [type] is exactly the put literal, the converted
    [partition_size] is at least the minimum part size, the converted
    [total_num_parts] is at most the maximum number of parts and the part
    count implied by the content length and the converted [partition_size]
    equals the converted [total_num_parts], construction succeeds and adopts
    the token's upload id and the converted partition size and part count;
    in every other case construction fails with
    [AWS_ERROR_INVALID_ARGUMENT].  (The implied part count is taken to fit
    in 32 bits.) *)
Theorem resume_token_validation
  (g_s3_min_upload_part_size g_s3_max_num_upload_parts : Z)
  (client_part_size body_length client_num_parts : Z)
  (options : aws_s3_meta_request_options) (root : option aws_json_value) :
  0 < g_s3_min_upload_part_size ->
  0 <= body_length ->
  resume_token options = Some root ->
  init_base_error options = None ->
  request_path_readable options = true ->
  (forall type multipart_upload_id partition_size_value total_num_parts_value,
      resume_token_fields root
      = Some (type, multipart_upload_id, partition_size_value, total_num_parts_value) ->
      exists partition_size token_num_parts,
        double_to_size_t partition_size_value = Some partition_size /\
        double_to_uint32 total_num_parts_value = Some token_num_parts /\
        (g_s3_min_upload_part_size <= partition_size ->
         implied_num_parts body_length partition_size < UINT32_MODULUS)) ->
  (forall multipart_upload_id partition_size_value total_num_parts_value
          partition_size token_num_parts,
      resume_token_fields root
      = Some (PUT_OBJECT_TOKEN_TYPE, multipart_upload_id,
              partition_size_value, total_num_parts_value) ->
      double_to_size_t partition_size_value = Some partition_size ->
      double_to_uint32 total_num_parts_value = Some token_num_parts ->
      g_s3_min_upload_part_size <= partition_size ->
      token_num_parts <= g_s3_max_num_upload_parts ->
      implied_num_parts body_length partition_size = token_num_parts ->
      exists a,
        aws_s3_meta_request_auto_ranged_put_new g_s3_min_upload_part_size
          g_s3_max_num_upload_parts client_part_size body_length client_num_parts options
        = Some (inr a) /\
        upload_id a = Some multipart_upload_id /\
        part_size (base a) = partition_size /\
        total_num_parts (synced_data a) = token_num_parts) /\
  (~ token_acceptable g_s3_min_upload_part_size g_s3_max_num_upload_parts body_length root ->
   aws_s3_meta_request_auto_ranged_put_new g_s3_min_upload_part_size
     g_s3_max_num_upload_parts client_part_size body_length client_num_parts options
   = Some (inl AWS_ERROR_INVALID_ARGUMENT)).
Proof.
  intros Hmin Hcl Htoken Hbase Hpath Hrange.
  unfold aws_s3_meta_request_auto_ranged_put_new.
  rewrite Htoken, parse_resume_info_spec, Hbase.
  destruct (resume_token_fields root) as [[[[type id] psv] tnv]|] eqn:Hfields.
  2:{ split; [intros; discriminate|]. reflexivity. }
  destruct (Hrange _ _ _ _ eq_refl) as (ps & tn & Hps & Htn & Hfit).
  rewrite Hps, Htn.
  split.
  - intros id' psv' tnv' ps' tn' [= -> <- <- <-] Hps' Htn' Hge Hle Himplied.
    simplify_eq.
    rewrite String.eqb_refl. simpl.
    destruct (Z.ltb_spec ps g_s3_min_upload_part_size); [lia|].
    destruct (Z.gtb_spec (implied_num_parts body_length ps) g_s3_max_num_upload_parts);
      [lia|].
    unfold s_load_persistable_state.
    rewrite load_num_parts_is_implied by (try apply Hfit; lia).
    rewrite Z.eqb_refl, Hpath. simpl.
    eexists. split; [reflexivity|]. simpl. done.
  - intros Hrefused.
    destruct (String.eqb_spec type PUT_OBJECT_TOKEN_TYPE) as [->|]; [|reflexivity].
    simpl.
    destruct (Z.ltb_spec ps g_s3_min_upload_part_size); [reflexivity|].
    destruct (Z.gtb_spec tn g_s3_max_num_upload_parts); [reflexivity|].
    unfold s_load_persistable_state.
    rewrite load_num_parts_is_implied by (try apply Hfit; lia).
    destruct (Z.eqb_spec tn (implied_num_parts body_length ps)) as [Heq|]; [|reflexivity].
    exfalso. apply Hrefused. exists id, psv, tnv, ps, tn. repeat split; try done; lia.
Qed.

(** [implied_num_parts] is the ceiling of the quotient. *)
Lemma implied_num_parts_is_ceiling (body_length partition_size : Z) :
  0 <= body_length -> 0 < partition_size ->
  implied_num_parts body_length partition_size
  = (body_length + partition_size - 1) / partition_size.
Proof.
  intros Hlength Hsize. unfold implied_num_parts.
  pose proof (Z.div_mod body_length partition_size ltac:(lia)) as Hdiv.
  pose proof (Z.mod_pos_bound body_length partition_size Hsize) as Hrem.
  destruct (Z.eqb_spec (body_length mod partition_size) 0) as [Hzero|Hnonzero].
  - apply (Z.div_unique _ _ _ (partition_size - 1)); [lia|]. lia.
  - apply (Z.div_unique _ _ _ (body_length mod partition_size - 1)); [lia|]. lia.
Qed.

(** ** Reachable states *)

Lemma constructed_ok min max client_part_size body_length client_num_parts options a :
  0 <= client_num_parts < UINT32_MODULUS ->
  aws_s3_meta_request_auto_ranged_put_new min max client_part_size body_length
    client_num_parts options = Some (inr a) ->
  driven_ok (is_fresh options) (start a) /\ finish_result (base a) = None /\
  num_parts_sent (synced_data a) = 0 /\ num_parts_completed (synced_data a) = 0.
Proof.
  intros Hrange Hnew. unfold aws_s3_meta_request_auto_ranged_put_new in Hnew.
  unfold is_fresh, driven_ok.
  destruct (resume_token options) as [root|] eqn:Htoken.
  - rewrite parse_resume_info_spec in Hnew.
    unfold s_load_persistable_state in Hnew.
    repeat case_match; simplify_eq.
    all: match goal with
         | H : double_to_uint32 _ = Some _ |- _ => pose proof (double_to_uint32_range _ _ H)
         end.
    all: simpl; repeat split; simpl; rewrite ?length_replicate; try lia; try done.
    all: apply etag_list_ok_init; lia.
  - simpl in Hnew. repeat case_match; simplify_eq.
    all: simpl; repeat split; simpl; rewrite ?length_replicate; try lia; try done.
    all: apply etag_list_ok_init; lia.
Qed.

Lemma update_frame a flags work request a' :
  s_s3_auto_ranged_put_update a flags = Some (work, request, a') ->
  total_num_parts (synced_data a') = total_num_parts (synced_data a) /\
  checksums_list a' = checksums_list a.
Proof.
  unfold s_s3_auto_ranged_put_update, has_work_remaining, no_work_remaining.
  intros Hupdate. repeat case_match; simplify_eq; done.
Qed.

Lemma request_finished_frame a request send_data error_code headers_callback_error a' events :
  s_s3_auto_ranged_put_request_finished a request send_data error_code
    headers_callback_error = Some (a', events) ->
  total_num_parts (synced_data a') = total_num_parts (synced_data a) /\
  length (checksums_list a') = length (checksums_list a).
Proof.
  unfold s_s3_auto_ranged_put_request_finished, fail_if_error, fail_with.
  intros Hfinished. destruct (request_tag request).
  - destruct (is_success error_code).
    + destruct (process_parts _ a) as [a1|] eqn:Hparse; [|done].
      apply process_parts_frame in Hparse as (Hb & Hc & Hu & Hl & etags & Hd & Hok).
      repeat case_match; simplify_eq; simpl; rewrite ?count_resumed_parts_spec, ?Hd; done.
    + repeat case_match; simplify_eq; done.
  - repeat case_match; simplify_eq; done.
  - repeat case_match; simplify_eq; done.
  - repeat case_match; simplify_eq; done.
  - simplify_eq. done.
Qed.

Lemma pause_frame a token a' :
  s_s3_auto_ranged_put_pause a = Some (token, a') ->
  synced_data a' = synced_data a /\ checksums_list a' = checksums_list a /\
  upload_id a' = upload_id a /\
  base a' = aws_s3_meta_request_set_fail_synced (base a) None AWS_ERROR_S3_PAUSED.
Proof.
  unfold s_s3_auto_ranged_put_pause. intros Hpause.
  repeat case_match; simplify_eq; done.
Qed.

Lemma step_preserves fresh s act s' :
  driven_ok fresh s -> step s act = Some s' -> driven_ok fresh s'.
Proof.
  intros [Hcounters Hchecksums] Hstep. unfold driven_ok.
  destruct act as [flags|request send_data error_code headers_callback_error| |];
    simpl in Hstep.
  - destruct (s_s3_auto_ranged_put_update _ _) as [[[work request] a']|] eqn:Hupdate;
      [|done].
    simplify_eq. simpl.
    destruct (update_frame _ _ _ _ _ Hupdate) as [-> ->].
    split; [|done]. eapply update_preserves_counters; eassumption.
  - destruct (remove_first _ _) as [rest|] eqn:Hremove; [|done].
    destruct (s_s3_auto_ranged_put_request_finished _ _ _ _ _) as [[a' events]|]
      eqn:Hfinished; [|done].
    simplify_eq. simpl.
    destruct (request_finished_frame _ _ _ _ _ _ _ Hfinished) as [-> ->].
    split; [|done]. eapply request_finished_preserves_counters; eassumption.
  - destruct (s_s3_auto_ranged_put_pause _) as [[token a']|] eqn:Hpause; [|done].
    simplify_eq. simpl.
    destruct (pause_frame _ _ _ Hpause) as (-> & -> & _). done.
  - simplify_eq. simpl. done.
Qed.

Lemma run_preserves fresh acts s s' :
  driven_ok fresh s -> run s acts = Some s' -> driven_ok fresh s'.
Proof.
  revert s. induction acts as [|act acts IH]; intros s Hok; simpl.
  - intros [= <-]. done.
  - destruct (step s act) as [s1|] eqn:Hstep; [|done].
    apply IH. eapply step_preserves; eassumption.
Qed.

(** Claim C1, as amended.  In every state that a constructed meta request
    reaches through calls of [update], of the finish hook for a request in
    flight, of [pause] and of cancel,
    [0 <= num_parts_completed <= num_parts_sent <= total_num_parts] and
    [num_parts_successful + num_parts_failed <= num_parts_completed]; the
    two sides are equal when the upload was constructed without a resume
    token. *)
Theorem counters_invariant (min max client_part_size body_length client_num_parts : Z)
  (options : aws_s3_meta_request_options) (a : aws_s3_auto_ranged_put)
  (acts : list action) (s : driven) :
  0 <= client_num_parts < UINT32_MODULUS ->
  aws_s3_meta_request_auto_ranged_put_new min max client_part_size body_length
    client_num_parts options = Some (inr a) ->
  run (start a) acts = Some s ->
  let d := synced_data (meta_request s) in
  0 <= num_parts_completed d /\
  num_parts_completed d <= num_parts_sent d /\
  num_parts_sent d <= total_num_parts d /\
  num_parts_successful d + num_parts_failed d <= num_parts_completed d /\
  (resume_token options = None ->
   num_parts_successful d + num_parts_failed d = num_parts_completed d).
Proof.
  intros Hrange Hnew Hrun.
  destruct (constructed_ok _ _ _ _ _ _ _ Hrange Hnew) as [Hstart _].
  destruct (run_preserves _ _ _ _ Hstart Hrun)
    as [[Htotal Hetags Hcompleted_nonneg Hflight Hsent_le Hsuccessful Hfailed
          Houtcomes Hfresh Hresumed_created Honce Hunsent Hflying Hbefore] _].
  pose proof (count_tag_nonneg AWS_S3_AUTO_RANGED_PUT_REQUEST_TAG_PART (in_flight s)).
  simpl. repeat split; try lia.
  intros Htoken. unfold is_fresh in *. rewrite Htoken in *.
  destruct Hfresh as [? _]; done.
Qed.

Lemma remove_first_in request l : In request l -> exists rest, remove_first request l = Some rest.
Proof.
  induction l as [|r l IH]; simpl; [done|].
  intros Hin. destruct (decide (r = request)) as [Heq|Hne].
  - rewrite bool_decide_eq_true_2 by done. eauto.
  - rewrite bool_decide_eq_false_2 by done.
    destruct Hin as [?|Hin]; [done|]. destruct (IH Hin) as [rest ->]. eauto.
Qed.

Lemma decr_u32_small (x : Z) : 1 <= x <= UINT32_MODULUS -> decr_u32 x = x - 1.
Proof. intros. unfold decr_u32. apply Z.mod_small. lia. Qed.

Lemma process_parts_defined infos a :
  Z.of_nat (length (checksums_list a)) < UINT32_MODULUS ->
  (forall info, In info infos ->
     1 <= part_info_part_number info <= Z.of_nat (length (checksums_list a))) ->
  exists a', process_parts infos a = Some a'.
Proof.
  revert a. induction infos as [|info infos IH]; intros a Hfit Hparts; simpl; [eauto|].
  assert (exists a1, s_process_part_info info a = Some a1) as [a1 Hinfo].
  { unfold s_process_part_info.
    specialize (Hparts info (or_introl eq_refl)).
    rewrite decr_u32_small by lia.
    destruct (Z.ltb_spec (part_info_part_number info - 1)
                (Z.of_nat (length (checksums_list a)))); [|lia].
    destruct (checksum_algorithm (base a)); eauto. }
  rewrite Hinfo.
  apply process_part_info_frame in Hinfo as (_ & _ & _ & Hl & _).
  apply IH; rewrite Hl; [done|]. intros info' Hin. apply Hparts. right. done.
Qed.

(** Claim C6.  On a resumed upload, [num_parts_sent] and
    [num_parts_completed] are zero and the two create-multipart-upload flags
    are true after construction; when the ListParts request in flight
    finishes successfully with no more results, both counters equal the
    number of populated slots of the ETag list, [list_parts_completed] is
    true and the create-multipart-upload flags are still true. *)
Theorem list_parts_sweep_counts (min max client_part_size body_length client_num_parts : Z)
  (options : aws_s3_meta_request_options) (a : aws_s3_auto_ranged_put)
  (acts : list action) (s : driven)
  (request : aws_s3_request) (send_data : aws_s3_request_send_data)
  (headers_callback_error : aws_error) :
  0 <= client_num_parts < UINT32_MODULUS ->
  aws_s3_meta_request_auto_ranged_put_new min max client_part_size body_length
    client_num_parts options = Some (inr a) ->
  run (start a) acts = Some s ->
  In request (in_flight s) ->
  request_tag request = AWS_S3_AUTO_RANGED_PUT_REQUEST_TAG_LIST_PARTS ->
  parse_failed (response_body_list_parts send_data) = false ->
  has_more_results (response_body_list_parts send_data) = false ->
  (forall info, In info (parts (response_body_list_parts send_data)) ->
     1 <= part_info_part_number info <= total_num_parts (synced_data (meta_request s))) ->
  (num_parts_sent (synced_data a) = 0 /\ num_parts_completed (synced_data a) = 0 /\
   create_multipart_upload_sent (synced_data a) = true /\
   create_multipart_upload_completed (synced_data a) = true) /\
  exists a',
    s_s3_auto_ranged_put_request_finished (meta_request s) request send_data
      AWS_ERROR_SUCCESS headers_callback_error = Some (a', []) /\
    num_parts_sent (synced_data a') = populated_slots (etag_list (synced_data a')) /\
    num_parts_completed (synced_data a') = populated_slots (etag_list (synced_data a')) /\
    list_parts_completed (synced_data a') = true /\
    create_multipart_upload_sent (synced_data a') = true /\
    create_multipart_upload_completed (synced_data a') = true.
Proof.
  intros Hrange Hnew Hrun Hin Htag Hparsed Hlast Hparts.
  destruct (constructed_ok _ _ _ _ _ _ _ Hrange Hnew) as (Hstart & _ & Hsent0 & Hcompleted0).
  pose proof Hstart as [Hstart_counters _].
  destruct (run_preserves _ _ _ _ Hstart Hrun)
    as [[Htotal Hetags Hcompleted_nonneg Hflight Hsent_le Hsuccessful Hfailed
          Houtcomes Hfresh Hresumed_created Honce Hunsent Hflying Hbefore] Hchecksums].
  destruct (remove_first_in _ _ Hin) as [rest Hremove].
  pose proof (remove_first_count _ _ _ AWS_S3_AUTO_RANGED_PUT_REQUEST_TAG_LIST_PARTS Hremove)
    as Hlist.
  pose proof (count_tag_nonneg AWS_S3_AUTO_RANGED_PUT_REQUEST_TAG_LIST_PARTS rest).
  rewrite Htag in Hlist. simpl in Hlist.
  assert (is_fresh options = false) as Hresumed.
  { destruct (is_fresh options); [|done].
    destruct (Hfresh eq_refl) as (_ & ? & _). lia. }
  rewrite Hresumed in *.
  destruct (Hresumed_created eq_refl) as [Hcreate_sent Hcreate_completed].
  assert (list_parts_completed (synced_data (meta_request s)) = false) as Hwaiting
    by (apply Hflying; lia).
  destruct (Hbefore Hwaiting) as [Hsent Hcompleted].
  split.
  { destruct Hstart_counters as [_ _ _ _ _ _ _ _ _ Hloaded _ _ _ _]. simpl in *.
    destruct (Hloaded eq_refl). done. }
  destruct (process_parts_defined (parts (response_body_list_parts send_data))
              (meta_request s)) as [a1 Hparse].
  { rewrite Hchecksums. lia. }
  { intros info Hinfo. rewrite Hchecksums. apply Hparts, Hinfo. }
  unfold s_s3_auto_ranged_put_request_finished. rewrite Htag. simpl.
  rewrite Hparse, Hparsed, Hlast. simpl.
  apply process_parts_frame in Hparse as (Hb & Hc & Hu & Hl & etags & Hd & Hok).
  specialize (Hok _ Hetags).
  destruct (resumed_is_populated _ _ Hok) as [Hpopulated Hbound].
  eexists. split; [reflexivity|].
  simpl. rewrite Hd. simpl. rewrite count_resumed_parts_spec. simpl.
  rewrite length_to_nat, Hsent, Hcompleted.
  rewrite iter_incr_u32 by lia.
  repeat split; try done; lia.
Qed.

(** ** The abort branch *)

Lemma update_after_abort_sent a flags work request a' :
  abort_multipart_upload_sent (synced_data a) = true ->
  s_s3_auto_ranged_put_update a flags = Some (work, request, a') ->
  abort_multipart_upload_sent (synced_data a') = true /\
  forall r, request = Some r ->
    request_tag r <> AWS_S3_AUTO_RANGED_PUT_REQUEST_TAG_ABORT_MULTIPART_UPLOAD.
Proof.
  intros Hsent Hupdate.
  unfold s_s3_auto_ranged_put_update, has_work_remaining, no_work_remaining in Hupdate.
  repeat case_match; simplify_eq; simpl in *; bool_hyps; try congruence;
    (split; [done|]); intros r0 ?; by simplify_eq.
Qed.

Lemma request_finished_keeps_abort_sent a request send_data error_code
  headers_callback_error a' events :
  abort_multipart_upload_sent (synced_data a) = true ->
  s_s3_auto_ranged_put_request_finished a request send_data error_code
    headers_callback_error = Some (a', events) ->
  abort_multipart_upload_sent (synced_data a') = true.
Proof.
  unfold s_s3_auto_ranged_put_request_finished, fail_if_error, fail_with.
  intros Hsent Hfinished. destruct (request_tag request).
  - destruct (is_success error_code).
    + destruct (process_parts _ a) as [a1|] eqn:Hparse; [|done].
      apply process_parts_frame in Hparse as (Hb & Hc & Hu & Hl & etags & Hd & Hok).
      repeat case_match; simplify_eq; simpl; rewrite ?count_resumed_parts_spec, ?Hd; done.
    + repeat case_match; simplify_eq; done.
  - repeat case_match; simplify_eq; done.
  - repeat case_match; simplify_eq; done.
  - repeat case_match; simplify_eq; done.
  - simplify_eq. done.
Qed.

Lemma no_abort_after_abort_sent acts s s' :
  abort_multipart_upload_sent (synced_data (meta_request s)) = true ->
  run s acts = Some s' ->
  abort_multipart_upload_sent (synced_data (meta_request s')) = true /\
  count_tag AWS_S3_AUTO_RANGED_PUT_REQUEST_TAG_ABORT_MULTIPART_UPLOAD (handed_out s')
  = count_tag AWS_S3_AUTO_RANGED_PUT_REQUEST_TAG_ABORT_MULTIPART_UPLOAD (handed_out s).
Proof.
  revert s. induction acts as [|act acts IH]; intros s Hsent; simpl.
  - intros [= <-]. done.
  - destruct (step s act) as [s1|] eqn:Hstep; [|done].
    intros Hrun.
    assert (abort_multipart_upload_sent (synced_data (meta_request s1)) = true /\
            count_tag AWS_S3_AUTO_RANGED_PUT_REQUEST_TAG_ABORT_MULTIPART_UPLOAD (handed_out s1)
            = count_tag AWS_S3_AUTO_RANGED_PUT_REQUEST_TAG_ABORT_MULTIPART_UPLOAD
                (handed_out s)) as [Hsent1 Hcount1].
    { destruct act as [flags|request send_data error_code headers_callback_error| |];
        simpl in Hstep.
      - destruct (s_s3_auto_ranged_put_update _ _) as [[[work request] a']|] eqn:Hupdate;
          [|done].
        simplify_eq. simpl.
        destruct (update_after_abort_sent _ _ _ _ _ Hsent Hupdate) as [Hsent' Htag].
        split; [done|]. destruct request as [r|]; [|by rewrite app_nil_r].
        rewrite count_tag_snoc. specialize (Htag r eq_refl).
        rewrite bool_decide_eq_false_2 by done. lia.
      - destruct (remove_first _ _) as [rest|]; [|done].
        destruct (s_s3_auto_ranged_put_request_finished _ _ _ _ _) as [[a' events]|]
          eqn:Hfinished; [|done].
        simplify_eq. simpl. split; [|done].
        eapply request_finished_keeps_abort_sent; eassumption.
      - destruct (s_s3_auto_ranged_put_pause _) as [[token a']|] eqn:Hpause; [|done].
        simplify_eq. simpl. destruct (pause_frame _ _ _ Hpause) as (-> & _). done.
      - simplify_eq. done. }
    destruct (IH s1 Hsent1 Hrun) as [? ?]. split; [done|lia].
Qed.

(** Claim C3.  With a finish result set, [update] hands out nothing while
    create-multipart-upload is in flight or parts are in flight, and the only
    request it ever hands out is the abort request, which carries
    [AWS_S3_REQUEST_FLAG_ALWAYS_SEND].  An abort request is handed out only
    with a finish result set whose error is neither [AWS_ERROR_S3_PAUSED] nor
    [AWS_ERROR_S3_RESUME_FAILED], with complete-multipart-upload not
    completed successfully, with a non-null upload id and with no abort sent
    before; once it is handed out, no sequence of calls hands out another. *)
Theorem abort_branch (a : aws_s3_auto_ranged_put) (flags : Z) (work : bool)
  (request : option aws_s3_request) (a' : aws_s3_auto_ranged_put) :
  s_s3_auto_ranged_put_update a flags = Some (work, request, a') ->
  let d := synced_data a in
  (finish_result (base a) <> None ->
   create_multipart_upload_sent d = true ->
   create_multipart_upload_completed d = false \/ num_parts_completed d < num_parts_sent d ->
   work = true /\ request = None /\ a' = a) /\
  (finish_result (base a) <> None ->
   forall r, request = Some r -> r = abort_request) /\
  (forall r,
      request = Some r ->
      request_tag r = AWS_S3_AUTO_RANGED_PUT_REQUEST_TAG_ABORT_MULTIPART_UPLOAD ->
      Z.land (request_flags r) AWS_S3_REQUEST_FLAG_ALWAYS_SEND <> 0 /\
      finish_result (base a) <> None /\
      finish_error (base a) <> Some AWS_ERROR_S3_PAUSED /\
      finish_error (base a) <> Some AWS_ERROR_S3_RESUME_FAILED /\
      ~ (complete_multipart_upload_completed d = true /\
         complete_multipart_upload_error_code d = AWS_ERROR_SUCCESS) /\
      upload_id a <> None /\
      create_multipart_upload_completed d = true /\
      num_parts_sent d <= num_parts_completed d /\
      abort_multipart_upload_sent d = false /\
      abort_multipart_upload_sent (synced_data a') = true) /\
  (forall r flying acts s',
      request = Some r ->
      request_tag r = AWS_S3_AUTO_RANGED_PUT_REQUEST_TAG_ABORT_MULTIPART_UPLOAD ->
      run {| meta_request := a'; in_flight := flying; handed_out := []; callbacks := [] |}
        acts = Some s' ->
      count_tag AWS_S3_AUTO_RANGED_PUT_REQUEST_TAG_ABORT_MULTIPART_UPLOAD (handed_out s') = 0).
Proof.
  intros Hupdate d.
  assert (forall r,
      request = Some r ->
      request_tag r = AWS_S3_AUTO_RANGED_PUT_REQUEST_TAG_ABORT_MULTIPART_UPLOAD ->
      Z.land (request_flags r) AWS_S3_REQUEST_FLAG_ALWAYS_SEND <> 0 /\
      finish_result (base a) <> None /\
      finish_error (base a) <> Some AWS_ERROR_S3_PAUSED /\
      finish_error (base a) <> Some AWS_ERROR_S3_RESUME_FAILED /\
      ~ (complete_multipart_upload_completed d = true /\
         complete_multipart_upload_error_code d = AWS_ERROR_SUCCESS) /\
      upload_id a <> None /\
      create_multipart_upload_completed d = true /\
      num_parts_sent d <= num_parts_completed d /\
      abort_multipart_upload_sent d = false /\
      abort_multipart_upload_sent (synced_data a') = true) as Hemitted.
  { intros r -> Htag. subst d. revert Hupdate.
    unfold s_s3_auto_ranged_put_update, has_work_remaining, no_work_remaining,
      aws_s3_meta_request_has_finish_result_synced, finish_error.
    intros Hupdate.
    repeat case_match; simplify_eq; try discriminate; bool_hyps.
    all: repeat match goal with
           | H : (_ || _)%bool = false |- _ => apply orb_false_iff in H as [? ?]
           | H : bool_decide _ = false |- _ => apply bool_decide_eq_false in H
           | H : (_ && _)%bool = false |- _ => apply andb_false_iff in H
           end.
    all: simpl; repeat split; try done; try lia; try congruence.
    all: intros [? Hcode]; rewrite Hcode in *; simpl in *;
      repeat match goal with H : _ \/ _ |- _ => destruct H end; congruence. }
  split; [|split; [|split; [exact Hemitted|]]].
  - subst d. intros Hset Hcreate Hwait.
    unfold s_s3_auto_ranged_put_update, has_work_remaining, no_work_remaining,
      aws_s3_meta_request_has_finish_result_synced in Hupdate.
    destruct (finish_result (base a)); [|done]. simpl in Hupdate.
    rewrite Hcreate in Hupdate. simpl in Hupdate.
    destruct Hwait as [Hwait|Hwait].
    + rewrite Hwait in Hupdate. simpl in Hupdate. by simplify_eq.
    + destruct (create_multipart_upload_completed _); simpl in Hupdate; [|by simplify_eq].
      destruct (Z.ltb_spec (num_parts_completed (synced_data a))
                  (num_parts_sent (synced_data a))); [|lia].
      by simplify_eq.
  - intros Hset r ->.
    unfold s_s3_auto_ranged_put_update, has_work_remaining, no_work_remaining,
      aws_s3_meta_request_has_finish_result_synced in Hupdate.
    destruct (finish_result (base a)); [|done]. simpl in Hupdate.
    repeat case_match; simplify_eq; done.
  - intros r flying acts s' -> Htag Hrun.
    destruct (Hemitted r eq_refl Htag) as (_ & _ & _ & _ & _ & _ & _ & _ & _ & Hsent).
    apply no_abort_after_abort_sent in Hrun as [_ Hcount]; [|done].
    rewrite Hcount. done.
Qed.

(** Claim C9.  When a part request finishes with success and its response
    has no ETag header, the finish hook passes
    [AWS_ERROR_S3_MISSING_UPLOAD_ID] to [aws_s3_meta_request_set_fail_synced]
    (so a finish result is set, with this code unless one was set before),
    increments [num_parts_failed] and not [num_parts_successful], makes no
    progress callback and leaves the ETag list as it was. *)
Theorem part_without_etag_fails_with_missing_upload_id
  (a : aws_s3_auto_ranged_put) (request : aws_s3_request)
  (send_data : aws_s3_request_send_data) (headers_callback_error : aws_error) :
  request_tag request = AWS_S3_AUTO_RANGED_PUT_REQUEST_TAG_PART ->
  0 < part_number request ->
  aws_http_headers_get (response_headers send_data) g_etag_header_name = None ->
  exists a',
    s_s3_auto_ranged_put_request_finished a request send_data AWS_ERROR_SUCCESS
      headers_callback_error = Some (a', []) /\
    base a' =
      aws_s3_meta_request_set_fail_synced (base a) (Some (response_status send_data))
        AWS_ERROR_S3_MISSING_UPLOAD_ID /\
    finish_result (base a') <> None /\
    (finish_result (base a) = None ->
     finish_error (base a') = Some AWS_ERROR_S3_MISSING_UPLOAD_ID) /\
    num_parts_failed (synced_data a') = incr_u32 (num_parts_failed (synced_data a)) /\
    num_parts_successful (synced_data a') = num_parts_successful (synced_data a) /\
    num_parts_completed (synced_data a') = incr_u32 (num_parts_completed (synced_data a)) /\
    etag_list (synced_data a') = etag_list (synced_data a).
Proof.
  intros Htag Hpart Hetag.
  unfold s_s3_auto_ranged_put_request_finished.
  rewrite Htag, Hetag.
  destruct (Z.ltb_spec 0 (part_number request)) as [_|]; [|lia].
  cbn [negb is_success andb].
  eexists. split; [reflexivity|].
  destruct (set_fail_synced_sets (base a) (Some (response_status send_data))
              AWS_ERROR_S3_MISSING_UPLOAD_ID) as (Hset & Hfirst & _).
  cbn. repeat split; done.
Qed.

(** Claim C10.  When a part request finishes with success and an ETag
    header, on a meta request with a progress callback, the callback is
    invoked once, with [bytes_transferred] equal to [part_size] and
    [content_length] equal to the content length, whatever the part
    number. *)
Theorem part_progress_reports_part_size
  (a : aws_s3_auto_ranged_put) (request : aws_s3_request)
  (send_data : aws_s3_request_send_data) (headers_callback_error : aws_error)
  (etag_within_quotes : string) :
  request_tag request = AWS_S3_AUTO_RANGED_PUT_REQUEST_TAG_PART ->
  0 < part_number request ->
  aws_http_headers_get (response_headers send_data) g_etag_header_name
    = Some etag_within_quotes ->
  progress_callback (base a) = true ->
  exists a',
    s_s3_auto_ranged_put_request_finished a request send_data AWS_ERROR_SUCCESS
      headers_callback_error
    = Some (a', [progress_callback_invoked
                   {| Progress.bytes_transferred := part_size (base a);
                      Progress.content_length := content_length a |}]).
Proof.
  intros Htag Hpart Hetag Hcb.
  unfold s_s3_auto_ranged_put_request_finished.
  rewrite Htag, Hetag, Hcb.
  destruct (Z.ltb_spec 0 (part_number request)) as [_|]; [|lia].
  cbn [negb is_success andb]. eexists. reflexivity.
Qed.


(** The loop of [s_skip_parts_from_stream] over parts that can all be read,
    with a checksum function that yields a checksum for each part that has
    a stored one: either the loop stops with the checksum mismatch of one
    of the parts, or it gets to the end and every checksum that was
    compared is the stored one. *)
Lemma skip_parts_loop_checks (body_stream : Type)
  (read_body : body_stream -> Z -> option (list Byte.byte * body_stream))
  (checksum_compute : aws_s3_checksum_algorithm -> list Byte.byte -> option (list Byte.byte))
  (a : aws_s3_auto_ranged_put) (count : nat) (stream stream_end : body_stream)
  (part_index : Z) (parts : list (list Byte.byte)) :
  read_parts read_body a count stream part_index = Some (parts, stream_end) ->
  (forall (k : nat) (part : list Byte.byte),
      parts !! k = Some part ->
      checksum_algorithm (base a) <> AWS_SCA_NONE ->
      stored_checksum a (part_index + Z.of_nat k) <> [] ->
      is_Some (checksum_compute (checksum_algorithm (base a)) part)) ->
  (skip_parts_loop body_stream read_body checksum_compute count a stream part_index
   = skip_failed (Some AWS_ERROR_S3_RESUMED_PART_CHECKSUM_MISMATCH) /\
   exists (k : nat) (part checksum : list Byte.byte),
     parts !! k = Some part /\
     checksum_algorithm (base a) <> AWS_SCA_NONE /\
     stored_checksum a (part_index + Z.of_nat k) <> [] /\
     checksum_compute (checksum_algorithm (base a)) part = Some checksum /\
     checksum <> stored_checksum a (part_index + Z.of_nat k)) \/
  (skip_parts_loop body_stream read_body checksum_compute count a stream part_index
   = skip_ok stream_end /\
   forall (k : nat) (part : list Byte.byte),
     parts !! k = Some part ->
     checksum_algorithm (base a) <> AWS_SCA_NONE ->
     stored_checksum a (part_index + Z.of_nat k) <> [] ->
     checksum_compute (checksum_algorithm (base a)) part
     = Some (stored_checksum a (part_index + Z.of_nat k))).
Proof.
  revert stream part_index parts.
  induction count as [|count IH]; intros stream part_index parts Hread Hcompute.
  - simpl in *. injection Hread as <- <-. right. split; [done|].
    intros k part Hk. by rewrite lookup_nil in Hk.
  - simpl in Hread.
    destruct (read_body stream (s_compute_request_body_size a (part_index + 1)))
      as [[part stream']|] eqn:Hpart; [|done].
    destruct (read_parts read_body a count stream' (part_index + 1))
      as [[parts' stream'']|] eqn:Hrest; [|done].
    injection Hread as <- ->.
    assert (forall k : nat, part_index + 1 + Z.of_nat k = part_index + Z.of_nat (S k))
      as Hshift by (intros; lia).
    specialize (IH stream' (part_index + 1) parts' Hrest).
    assert (skip_one_part body_stream read_body checksum_compute a stream part_index
            = skip_ok stream' ->
            (checksum_algorithm (base a) <> AWS_SCA_NONE ->
             stored_checksum a part_index <> [] ->
             checksum_compute (checksum_algorithm (base a)) part
             = Some (stored_checksum a part_index)) ->
            (skip_parts_loop body_stream read_body checksum_compute (S count) a stream
               part_index
             = skip_failed (Some AWS_ERROR_S3_RESUMED_PART_CHECKSUM_MISMATCH) /\
             exists (k : nat) (part0 checksum : list Byte.byte),
               (part :: parts') !! k = Some part0 /\
               checksum_algorithm (base a) <> AWS_SCA_NONE /\
               stored_checksum a (part_index + Z.of_nat k) <> [] /\
               checksum_compute (checksum_algorithm (base a)) part0 = Some checksum /\
               checksum <> stored_checksum a (part_index + Z.of_nat k)) \/
            (skip_parts_loop body_stream read_body checksum_compute (S count) a stream
               part_index
             = skip_ok stream_end /\
             forall (k : nat) (part0 : list Byte.byte),
               (part :: parts') !! k = Some part0 ->
               checksum_algorithm (base a) <> AWS_SCA_NONE ->
               stored_checksum a (part_index + Z.of_nat k) <> [] ->
               checksum_compute (checksum_algorithm (base a)) part0
               = Some (stored_checksum a (part_index + Z.of_nat k)))) as Hgoes_on.
    { intros Hone Hfirst. simpl. rewrite Hone.
      destruct IH as [(Hloop & k & part0 & checksum & Hk & Halgorithm & Hstored & Hsum & Hne)
                     |(Hloop & Hall)].
      - intros k part0 Hk. rewrite Hshift. apply (Hcompute (S k) part0 Hk).
      - left. split; [done|]. exists (S k), part0, checksum. rewrite <- Hshift. done.
      - right. split; [done|]. intros [|k] part0 Hk.
        + injection Hk as <-. rewrite Z.add_0_r. exact Hfirst.
        + rewrite <- Hshift. by apply Hall. }
    assert (skip_one_part body_stream read_body checksum_compute a stream part_index
            = match (if negb (bool_decide (checksum_algorithm (base a) = AWS_SCA_NONE))
                        && (0 <? Z.of_nat (length (stored_checksum a part_index)))
                     then checksum_compute (checksum_algorithm (base a)) part
                     else Some (stored_checksum a part_index)) with
              | None => skip_failed (Some AWS_ERROR_S3_RESUME_FAILED)
              | Some checksum =>
                  if negb (bool_decide (checksum = stored_checksum a part_index))
                  then skip_failed (Some AWS_ERROR_S3_RESUMED_PART_CHECKSUM_MISMATCH)
                  else skip_ok stream'
              end) as Hone.
    { unfold skip_one_part, stored_checksum. rewrite Hpart.
      destruct (negb _ && _); [done|]. by rewrite bool_decide_eq_true_2. }
    destruct (decide (checksum_algorithm (base a) = AWS_SCA_NONE)) as [Hnone|Halgorithm].
    { apply Hgoes_on; [|done].
      rewrite Hone, (bool_decide_eq_true_2 _ Hnone). simpl.
      by rewrite bool_decide_eq_true_2. }
    destruct (stored_checksum a part_index) as [|b stored'] eqn:Hstored.
    { apply Hgoes_on; [|done].
      rewrite Hone, ?Hstored. simpl. rewrite andb_false_r. by rewrite bool_decide_eq_true_2. }
    destruct (Hcompute O part eq_refl Halgorithm) as [checksum Hsum].
    { rewrite Z.add_0_r, ?Hstored. done. }
    rewrite (bool_decide_eq_false_2 _ Halgorithm) in Hone.
    cbn [negb length andb] in Hone. rewrite Hsum in Hone.
    destruct (Z.ltb_spec 0 (Z.of_nat (S (length stored')))); [|lia].
    destruct (decide (checksum = b :: stored')) as [->|Hne].
    + apply Hgoes_on; [|done]. rewrite Hone. by rewrite bool_decide_eq_true_2.
    + left. rewrite (bool_decide_eq_false_2 _ Hne) in Hone. split.
      * simpl. rewrite Hone. done.
      * exists O, part, checksum. rewrite Z.add_0_r, ?Hstored. done.
Qed.

(** Claim C5.  [s_skip_parts_from_stream] reads the parts from
    [num_parts_read_from_stream] up to [skip_until_part_number] off the body
    stream.  For a positive part size and parts that have their buffers in
    [checksums_list], when these reads succeed and the checksum function
    yields a checksum for each part that is verified: skipping fails with
    [AWS_ERROR_S3_RESUMED_PART_CHECKSUM_MISMATCH] exactly when, for one of
    the parts, the checksum algorithm is not [AWS_SCA_NONE], the stored
    checksum is not empty and the checksum of the bytes read differs from
    it; in every other case skipping succeeds and leaves the stream behind
    the parts; with [AWS_SCA_NONE], or with stored checksums that are all
    empty, skipping succeeds whatever the checksum function would say. *)
Theorem skipped_part_checksum_is_verified (body_stream : Type)
  (read_body : body_stream -> Z -> option (list Byte.byte * body_stream))
  (checksum_compute : aws_s3_checksum_algorithm -> list Byte.byte -> option (list Byte.byte))
  (a : aws_s3_auto_ranged_put) (stream stream_end : body_stream)
  (num_parts_read skip_until_part_number : Z) (parts : list (list Byte.byte)) :
  0 < part_size (base a) ->
  0 <= num_parts_read <= skip_until_part_number ->
  skip_until_part_number <= Z.of_nat (length (checksums_list a)) ->
  read_parts read_body a (Z.to_nat (skip_until_part_number - num_parts_read)) stream
    num_parts_read
  = Some (parts, stream_end) ->
  (forall (k : nat) (part : list Byte.byte),
      parts !! k = Some part ->
      checksum_algorithm (base a) <> AWS_SCA_NONE ->
      stored_checksum a (num_parts_read + Z.of_nat k) <> [] ->
      is_Some (checksum_compute (checksum_algorithm (base a)) part)) ->
  let skipped :=
    s_skip_parts_from_stream body_stream read_body checksum_compute a stream
      num_parts_read skip_until_part_number in
  (skipped = skip_failed (Some AWS_ERROR_S3_RESUMED_PART_CHECKSUM_MISMATCH) <->
   exists (k : nat) (part checksum : list Byte.byte),
     parts !! k = Some part /\
     checksum_algorithm (base a) <> AWS_SCA_NONE /\
     stored_checksum a (num_parts_read + Z.of_nat k) <> [] /\
     checksum_compute (checksum_algorithm (base a)) part = Some checksum /\
     checksum <> stored_checksum a (num_parts_read + Z.of_nat k)) /\
  (skipped <> skip_failed (Some AWS_ERROR_S3_RESUMED_PART_CHECKSUM_MISMATCH) ->
   skipped = skip_ok stream_end) /\
  (checksum_algorithm (base a) = AWS_SCA_NONE \/
   (forall k : nat,
       (k < length parts)%nat -> stored_checksum a (num_parts_read + Z.of_nat k) = []) ->
   skipped = skip_ok stream_end).
Proof.
  intros Hsize Hrange Hbuffers Hread Hcompute skipped.
  assert (skipped
          = skip_parts_loop body_stream read_body checksum_compute
              (Z.to_nat (skip_until_part_number - num_parts_read)) a stream num_parts_read)
    as Hloop.
  { subst skipped. unfold s_skip_parts_from_stream.
    destruct (Z.eqb_spec num_parts_read skip_until_part_number) as [->|]; [|done].
    by rewrite Z.sub_diag. }
  rewrite Hloop. clear Hloop skipped.
  destruct (skip_parts_loop_checks body_stream read_body checksum_compute a _ _ _ _ _
              Hread Hcompute)
    as [(-> & k & part & checksum & Hk & Halgorithm & Hstored & Hsum & Hne)|(-> & Hall)].
  - split; [|split].
    + split; [|done]. intros _. by exists k, part, checksum.
    + done.
    + intros [Hnone|Hempty]; [done|]. destruct Hstored. apply Hempty.
      by apply lookup_lt_Some in Hk.
  - split; [|split].
    + split; [done|]. intros (k & part & checksum & Hk & Halgorithm & Hstored & Hsum & Hne).
      rewrite (Hall k part Hk Halgorithm Hstored) in Hsum. by injection Hsum as <-.
    + done.
    + done.
Qed.

(** The loop fails exactly with the failure of the first part that cannot be
    skipped. *)
Lemma skip_parts_loop_failure (body_stream : Type)
  (read_body : body_stream -> Z -> option (list Byte.byte * body_stream))
  (checksum_compute : aws_s3_checksum_algorithm -> list Byte.byte -> option (list Byte.byte))
  (a : aws_s3_auto_ranged_put) (count : nat) (stream : body_stream) (part_index : Z)
  (raised : option aws_error) :
  skip_parts_loop body_stream read_body checksum_compute count a stream part_index
  = skip_failed raised <->
  exists (skipped : nat) (stream_at : body_stream),
    (skipped < count)%nat /\
    skip_parts_loop body_stream read_body checksum_compute skipped a stream part_index
    = skip_ok stream_at /\
    skip_one_part body_stream read_body checksum_compute a stream_at
      (part_index + Z.of_nat skipped) = skip_failed raised.
Proof.
  revert stream part_index. induction count as [|count IH]; intros stream part_index; simpl.
  - split; [discriminate|]. intros (skipped & _ & Hlt & _). lia.
  - destruct (skip_one_part _ _ _ a stream part_index) as [stream1|e] eqn:Hone.
    + rewrite IH. split.
      * intros (skipped & stream_at & Hlt & Hloop & Hfail).
        exists (S skipped), stream_at. simpl. rewrite Hone.
        repeat split; [lia|done|].
        replace (part_index + Z.of_nat (S skipped)) with (part_index + 1 + Z.of_nat skipped)
          by lia. done.
      * intros (skipped & stream_at & Hlt & Hloop & Hfail).
        destruct skipped as [|skipped]; simpl in *.
        { simplify_eq. rewrite Z.add_0_r in Hfail. congruence. }
        rewrite Hone in Hloop. exists skipped, stream_at.
        repeat split; [lia|done|].
        replace (part_index + 1 + Z.of_nat skipped) with (part_index + Z.of_nat (S skipped))
          by lia. done.
    + split.
      * intros [= <-]. exists O, stream. simpl. rewrite Z.add_0_r. repeat split; [lia|done].
      * intros (skipped & stream_at & Hlt & Hloop & Hfail).
        destruct skipped as [|skipped]; simpl in *.
        { simplify_eq. rewrite Z.add_0_r in Hfail. congruence. }
        rewrite Hone in Hloop. discriminate.
Qed.

(** [pause] on a meta request that has its upload id. *)
Lemma pause_with_upload_id (a : aws_s3_auto_ranged_put) (id : string) :
  upload_id a = Some id ->
  exists token,
    s_s3_auto_ranged_put_pause a
    = Some (token,
            set_base (aws_s3_meta_request_set_fail_synced (base a) None AWS_ERROR_S3_PAUSED) a) /\
    (create_multipart_upload_completed (synced_data a) = true ->
     token = Some (JObject [("type"%string, JString PUT_OBJECT_TOKEN_TYPE);
                            ("multipart_upload_id"%string, JString id);
                            ("partition_size"%string,
                             JNumber (size_t_to_double (part_size (base a))));
                            ("total_num_parts"%string,
                             JNumber (uint32_to_double
                                        (total_num_parts (synced_data a))))])) /\
    (create_multipart_upload_completed (synced_data a) = false -> token = None).
Proof.
  intros Hid. unfold s_s3_auto_ranged_put_pause. rewrite Hid.
  destruct (create_multipart_upload_completed (synced_data a)).
  - eexists. split; [reflexivity|]. split; [|done]. intros _. reflexivity.
  - eexists. split; [reflexivity|]. split; [done|]. done.
Qed.

(** Without a completed create-multipart-upload, [pause] writes no token. *)
Lemma pause_before_create_completed (a : aws_s3_auto_ranged_put) :
  create_multipart_upload_completed (synced_data a) = false ->
  s_s3_auto_ranged_put_pause a
  = Some (None,
          set_base (aws_s3_meta_request_set_fail_synced (base a) None AWS_ERROR_S3_PAUSED) a).
Proof. intros Hcreate. unfold s_s3_auto_ranged_put_pause. rewrite Hcreate. done. Qed.

(** Claim C7.  For a part number from 1 to [total_num_parts], the request
    body size is [part_size] for every part but the last; for the last part
    it is [content_length mod part_size] when that is not zero, and
    [part_size] when it is zero. *)
Theorem request_body_size_of_each_part (a : aws_s3_auto_ranged_put) (part_number : Z) :
  0 < part_size (base a) ->
  1 <= part_number <= total_num_parts (synced_data a) ->
  (part_number < total_num_parts (synced_data a) ->
   s_compute_request_body_size a part_number = part_size (base a)) /\
  (part_number = total_num_parts (synced_data a) ->
   (content_length a mod part_size (base a) <> 0 ->
    s_compute_request_body_size a part_number = content_length a mod part_size (base a)) /\
   (content_length a mod part_size (base a) = 0 ->
    s_compute_request_body_size a part_number = part_size (base a))).
Proof.
  intros Hsize Hrange. unfold s_compute_request_body_size. split.
  - intros Hlt. destruct (Z.eqb_spec part_number (total_num_parts (synced_data a))); [lia|done].
  - intros ->. rewrite Z.eqb_refl.
    pose proof (Z.mod_pos_bound (content_length a) _ Hsize) as Hmod.
    split; intros Hrem.
    + destruct (Z.ltb_spec 0 (content_length a mod part_size (base a))); [done|lia].
    + rewrite Hrem. done.
Qed.

(** The sizes of the parts add up to the content length when the part count
    is the one implied by the content length. *)
Lemma part_sizes_add_up (a : aws_s3_auto_ranged_put) :
  0 < part_size (base a) -> 0 < content_length a ->
  total_num_parts (synced_data a) = implied_num_parts (content_length a) (part_size (base a)) ->
  (total_num_parts (synced_data a) - 1) * part_size (base a)
  + s_compute_request_body_size a (total_num_parts (synced_data a))
  = content_length a.
Proof.
  intros Hsize Hlength Htotal. unfold s_compute_request_body_size.
  rewrite Z.eqb_refl. rewrite Htotal. unfold implied_num_parts.
  pose proof (Z.div_mod (content_length a) (part_size (base a)) ltac:(lia)) as Hdiv.
  pose proof (Z.mod_pos_bound (content_length a) (part_size (base a)) Hsize) as Hrem.
  destruct (Z.eqb_spec (content_length a mod part_size (base a)) 0) as [Hzero|Hnonzero].
  - rewrite Hzero. simpl. lia.
  - destruct (Z.ltb_spec 0 (content_length a mod part_size (base a))); lia.
Qed.

(** ** Concrete runs *)

Example fresh_put_part_sizes :
  exists a,
    sample_fresh_put = Some (inr a) /\
    map (s_compute_request_body_size a) [1; 2; 3; 4] = [8 * MiB; 8 * MiB; 8 * MiB; MiB].
Proof. eexists. split; [vm_compute; reflexivity|]. vm_compute. reflexivity. Qed.

(** The invariant of claim C1 on a fresh put after two parts, one of which
    failed. *)
Lemma counters_invariant_witness :
  exists a s,
    sample_fresh_put = Some (inr a) /\
    run (start a)
      [call_update 0;
       call_request_finished create_multipart_upload_request (created_response "abc")
         AWS_ERROR_SUCCESS AWS_ERROR_SUCCESS;
       call_update 0; call_update 0;
       call_request_finished (part_request 2)
         (plain_response 200 [("ETag"%string, "e2"%string)])
         AWS_ERROR_SUCCESS AWS_ERROR_SUCCESS;
       call_request_finished (part_request 1) (plain_response 500 [])
         (AWS_ERROR_OTHER 500) AWS_ERROR_SUCCESS] = Some s /\
    let d := synced_data (meta_request s) in
    0 <= num_parts_completed d /\
    num_parts_completed d <= num_parts_sent d /\
    num_parts_sent d <= total_num_parts d /\
    num_parts_successful d + num_parts_failed d <= num_parts_completed d /\
    (resume_token (sample_options None AWS_SCA_NONE) = None ->
     num_parts_successful d + num_parts_failed d = num_parts_completed d).
Proof.
  eexists _, _. split; [vm_compute; reflexivity|]. split; [vm_compute; reflexivity|].
  eapply (counters_invariant sample_min_upload_part_size sample_max_num_upload_parts
            (8 * MiB) (25 * MiB) 4 (sample_options None AWS_SCA_NONE) _
            [call_update 0;
       call_request_finished create_multipart_upload_request (created_response "abc")
         AWS_ERROR_SUCCESS AWS_ERROR_SUCCESS;
       call_update 0; call_update 0;
       call_request_finished (part_request 2)
         (plain_response 200 [("ETag"%string, "e2"%string)])
         AWS_ERROR_SUCCESS AWS_ERROR_SUCCESS;
       call_request_finished (part_request 1) (plain_response 500 [])
         (AWS_ERROR_OTHER 500) AWS_ERROR_SUCCESS]).
  - unfold UINT32_MODULUS. lia.
  - vm_compute. reflexivity.
  - vm_compute. reflexivity.
Defined.

(** Claim C1 as stated fails on a resumed upload: once the last ListParts
    page has reported part 1, [num_parts_completed] is 1 while
    [num_parts_successful] and [num_parts_failed] are both 0. *)
Lemma resumed_parts_are_not_counted_successful :
  exists a s,
    sample_resumed_put = Some (inr a) /\
    run (start a)
      [call_update 0;
       call_request_finished list_parts_request last_page_response
         AWS_ERROR_SUCCESS AWS_ERROR_SUCCESS] = Some s /\
    num_parts_completed (synced_data (meta_request s)) = 1 /\
    num_parts_successful (synced_data (meta_request s))
    + num_parts_failed (synced_data (meta_request s)) = 0 /\
    ~ (num_parts_successful (synced_data (meta_request s))
       + num_parts_failed (synced_data (meta_request s))
       = num_parts_completed (synced_data (meta_request s))).
Proof.
  eexists _, _. split; [vm_compute; reflexivity|]. split; [vm_compute; reflexivity|].
  vm_compute. repeat split; discriminate.
Qed.

(** Claim C2 on a token for four 8 MiB parts and a body of 25 MiB whose
    [total_num_parts] is the number 4.5: it is converted to 4. *)
Lemma resume_token_validation_witness :
  double_to_uint32 (binary_normalize 53 1024 9 (-1) false) = Some 4 /\
  (forall multipart_upload_id partition_size_value total_num_parts_value
          partition_size token_num_parts,
      resume_token_fields (Some sample_token_with_fraction)
      = Some (PUT_OBJECT_TOKEN_TYPE, multipart_upload_id,
              partition_size_value, total_num_parts_value) ->
      double_to_size_t partition_size_value = Some partition_size ->
      double_to_uint32 total_num_parts_value = Some token_num_parts ->
      sample_min_upload_part_size <= partition_size ->
      token_num_parts <= sample_max_num_upload_parts ->
      implied_num_parts (25 * MiB) partition_size = token_num_parts ->
      exists a,
        aws_s3_meta_request_auto_ranged_put_new sample_min_upload_part_size
          sample_max_num_upload_parts (5 * MiB) (25 * MiB) 5
          (sample_options (Some (Some sample_token_with_fraction)) AWS_SCA_NONE)
        = Some (inr a) /\
        upload_id a = Some multipart_upload_id /\
        part_size (base a) = partition_size /\
        total_num_parts (synced_data a) = token_num_parts) /\
  (~ token_acceptable sample_min_upload_part_size sample_max_num_upload_parts (25 * MiB)
       (Some sample_token_with_fraction) ->
   aws_s3_meta_request_auto_ranged_put_new sample_min_upload_part_size
     sample_max_num_upload_parts (5 * MiB) (25 * MiB) 5
     (sample_options (Some (Some sample_token_with_fraction)) AWS_SCA_NONE)
   = Some (inl AWS_ERROR_INVALID_ARGUMENT)).
Proof.
  split; [reflexivity|].
  apply (resume_token_validation sample_min_upload_part_size sample_max_num_upload_parts
           (5 * MiB) (25 * MiB) 5
           (sample_options (Some (Some sample_token_with_fraction)) AWS_SCA_NONE)
           (Some sample_token_with_fraction)).
  - vm_compute. reflexivity.
  - vm_compute. discriminate.
  - reflexivity.
  - reflexivity.
  - reflexivity.
  - intros type multipart_upload_id partition_size_value total_num_parts_value Hfields.
    vm_compute in Hfields. injection Hfields as <- <- <- <-.
    exists (8 * MiB), 4.
    vm_compute. repeat split; try discriminate; reflexivity.
Defined.

(** Claim C2 as stated fails on a token without [multipart_upload_id]: the
    four conditions the claim lists hold, and construction fails with
    [AWS_ERROR_INVALID_ARGUMENT] all the same. *)
Lemma resume_token_without_upload_id_is_refused :
  aws_json_value_get_from_object (Some sample_token_without_upload_id) "type"
  = Some (JString PUT_OBJECT_TOKEN_TYPE) /\
  aws_json_value_get_from_object (Some sample_token_without_upload_id) "partition_size"
  = Some (JNumber (size_t_to_double (8 * MiB))) /\
  double_to_size_t (size_t_to_double (8 * MiB)) = Some (8 * MiB) /\
  sample_min_upload_part_size <= 8 * MiB /\
  aws_json_value_get_from_object (Some sample_token_without_upload_id) "total_num_parts"
  = Some (JNumber (uint32_to_double 4)) /\
  double_to_uint32 (uint32_to_double 4) = Some 4 /\
  4 <= sample_max_num_upload_parts /\
  implied_num_parts (25 * MiB) (8 * MiB) = 4 /\
  aws_s3_meta_request_auto_ranged_put_new sample_min_upload_part_size
    sample_max_num_upload_parts (8 * MiB) (25 * MiB) 4
    (sample_options (Some (Some sample_token_without_upload_id)) AWS_SCA_NONE)
  = Some (inl AWS_ERROR_INVALID_ARGUMENT).
Proof. vm_compute. repeat split; try reflexivity; discriminate. Qed.

(** Claim C3 on a put that is cancelled after its upload was created. *)
Lemma abort_branch_witness :
  exists a s a',
    sample_fresh_put = Some (inr a) /\
    run (start a) sample_cancelled_calls = Some s /\
    s_s3_auto_ranged_put_update (meta_request s) 0 = Some (true, Some abort_request, a') /\
    finish_error (base (meta_request s)) = Some AWS_ERROR_S3_CANCELED /\
    Z.land (request_flags abort_request) AWS_S3_REQUEST_FLAG_ALWAYS_SEND <> 0 /\
    abort_multipart_upload_sent (synced_data a') = true /\
    forall flying acts s',
      run {| meta_request := a'; in_flight := flying; handed_out := []; callbacks := [] |}
        acts = Some s' ->
      count_tag AWS_S3_AUTO_RANGED_PUT_REQUEST_TAG_ABORT_MULTIPART_UPLOAD (handed_out s') = 0.
Proof.
  eexists _, _, _. split; [vm_compute; reflexivity|]. split; [vm_compute; reflexivity|].
  match goal with
  | |- ?U /\ _ => assert U as Hupdate by (vm_compute; reflexivity)
  end.
  split; [exact Hupdate|]. split; [vm_compute; reflexivity|].
  destruct (abort_branch _ _ _ _ _ Hupdate) as (_ & _ & Hemitted & Honce).
  destruct (Hemitted abort_request eq_refl eq_refl)
    as (Hflag & _ & _ & _ & _ & _ & _ & _ & _ & Hsent).
  split; [exact Hflag|]. split; [exact Hsent|].
  intros flying acts s' Hrun. exact (Honce abort_request flying acts s' eq_refl eq_refl Hrun).
Defined.

(** Claim C4 at a meta request whose CreateMultipartUpload has failed:
    [create_multipart_upload_completed] is true and the upload id is null,
    and [pause] reads through the null upload id instead of producing a
    token. *)
Lemma pause_after_failed_create_is_undefined :
  exists a s,
    sample_fresh_put = Some (inr a) /\
    run (start a) sample_failed_create_calls = Some s /\
    create_multipart_upload_completed (synced_data (meta_request s)) = true /\
    upload_id (meta_request s) = None /\
    s_s3_auto_ranged_put_pause (meta_request s) = None.
Proof.
  eexists _, _. split; [vm_compute; reflexivity|]. split; [vm_compute; reflexivity|].
  vm_compute. repeat split.
Qed.

(** Claim C5 on a resumed put whose part 1 was listed with a checksum and
    whose part 2 was not: skipping both parts fails when the first byte of
    the body has changed, and succeeds on the body as it was. *)
Lemma skipped_part_checksum_is_verified_witness :
  exists a s,
    tiny_resumed_put = Some (inr a) /\
    run (start a) tiny_listed_calls = Some s /\
    s_skip_parts_from_stream (list Byte.byte) memory_stream_read first_byte_digest
      (meta_request s) tiny_body_changed 0 2
    = skip_failed (Some AWS_ERROR_S3_RESUMED_PART_CHECKSUM_MISMATCH) /\
    s_skip_parts_from_stream (list Byte.byte) memory_stream_read first_byte_digest
      (meta_request s) tiny_body 0 2
    = skip_ok (drop 8 tiny_body).
Proof.
  eexists _, _. split; [vm_compute; reflexivity|]. split; [vm_compute; reflexivity|].
  match goal with
  | |- s_skip_parts_from_stream _ _ _ ?m _ _ _ = _ /\ _ =>
      destruct (skipped_part_checksum_is_verified (list Byte.byte) memory_stream_read
                  first_byte_digest m tiny_body_changed (drop 8 tiny_body_changed) 0 2
                  [take 4 tiny_body_changed; take 4 (drop 4 tiny_body_changed)]
                  eq_refl ltac:(lia) ltac:(vm_compute; discriminate) eq_refl
                  (fun k part _ _ _ => ex_intro _ (take 1 part) eq_refl))
        as (Hchanged & _ & _);
      destruct (skipped_part_checksum_is_verified (list Byte.byte) memory_stream_read
                  first_byte_digest m tiny_body (drop 8 tiny_body) 0 2
                  [take 4 tiny_body; take 4 (drop 4 tiny_body)]
                  eq_refl ltac:(lia) ltac:(vm_compute; discriminate) eq_refl
                  (fun k part _ _ _ => ex_intro _ (take 1 part) eq_refl))
        as (Hsame & Hsucceeds & _)
  end.
  split.
  - apply Hchanged. exists O, (take 4 tiny_body_changed), [Byte.x7a].
    repeat split; try reflexivity; discriminate.
  - apply Hsucceeds. intros Hfailed. apply Hsame in Hfailed.
    destruct Hfailed as (k & part & checksum & Hk & _ & Hstored & Hsum & Hne).
    destruct k as [|[|k]]; [| |done].
    + injection Hk as <-. injection Hsum as <-. by destruct Hne.
    + by destruct Hstored.
Defined.

(** Claim C6 on the resumed put whose ListParts page reports part 1. *)
Lemma list_parts_sweep_counts_witness :
  exists a s a',
    sample_resumed_put = Some (inr a) /\
    run (start a) [call_update 0] = Some s /\
    s_s3_auto_ranged_put_request_finished (meta_request s) list_parts_request
      last_page_response AWS_ERROR_SUCCESS AWS_ERROR_SUCCESS = Some (a', []) /\
    num_parts_sent (synced_data a') = 1 /\
    num_parts_completed (synced_data a') = 1 /\
    populated_slots (etag_list (synced_data a')) = 1 /\
    list_parts_completed (synced_data a') = true.
Proof.
  eexists _, _, _. split; [vm_compute; reflexivity|].
  match goal with
  | |- run (start ?a) _ = _ /\ _ =>
      split; [vm_compute; reflexivity|];
      match goal with
      | |- s_s3_auto_ranged_put_request_finished (meta_request ?s) _ _ _ _ = _ /\ _ =>
          destruct (list_parts_sweep_counts sample_min_upload_part_size
                      sample_max_num_upload_parts (8 * MiB) (25 * MiB) 4
                      (sample_options (Some (Some sample_token)) AWS_SCA_NONE)
                      a [call_update 0] s list_parts_request last_page_response
                      AWS_ERROR_SUCCESS)
            as (_ & a1 & Hfinished & Hsent & Hcompleted & Hlisted & _)
      end
  end.
  - vm_compute. split; [discriminate|reflexivity].
  - vm_compute. reflexivity.
  - vm_compute. reflexivity.
  - vm_compute. left. reflexivity.
  - reflexivity.
  - reflexivity.
  - reflexivity.
  - intros info [<-|[]]. vm_compute. split; discriminate.
  - vm_compute in Hfinished. injection Hfinished as <-.
    split; [vm_compute; reflexivity|].
    split; [exact Hsent|]. split; [exact Hcompleted|].
    split; [vm_compute; reflexivity|]. exact Hlisted.
Defined.

(** Claim C7 on a put of 25 MiB in parts of 8 MiB. *)
Lemma request_body_size_of_each_part_witness :
  exists a,
    sample_fresh_put = Some (inr a) /\
    s_compute_request_body_size a 2 = 8 * MiB /\
    s_compute_request_body_size a 4 = MiB.
Proof.
  eexists. split; [vm_compute; reflexivity|].
  match goal with
  | |- s_compute_request_body_size ?a _ = _ /\ _ =>
      destruct (request_body_size_of_each_part a 2) as [Hinner _];
      [vm_compute; reflexivity | vm_compute; split; discriminate |];
      destruct (request_body_size_of_each_part a 4) as [_ Hlast];
      [vm_compute; reflexivity | vm_compute; split; discriminate |]
  end.
  split.
  - rewrite Hinner; [reflexivity | vm_compute; reflexivity].
  - destruct (Hlast eq_refl) as [Hshort _].
    rewrite Hshort; [reflexivity | vm_compute; discriminate].
Defined.


(** Claim C9 on part 1 of a fresh put. *)
Lemma part_without_etag_fails_with_missing_upload_id_witness :
  exists a s,
    sample_fresh_put = Some (inr a) /\
    run (start a) sample_first_part_calls = Some s /\
    exists a',
      s_s3_auto_ranged_put_request_finished (meta_request s) (part_request 1)
        (plain_response 200 []) AWS_ERROR_SUCCESS AWS_ERROR_SUCCESS = Some (a', []) /\
      finish_error (base a') = Some AWS_ERROR_S3_MISSING_UPLOAD_ID /\
      num_parts_failed (synced_data a') = 1 /\
      num_parts_successful (synced_data a') = 0 /\
      al_data (etag_list (synced_data a')) = [None; None; None; None].
Proof.
  eexists _, _. split; [vm_compute; reflexivity|]. split; [vm_compute; reflexivity|].
  match goal with
  | |- exists a', s_s3_auto_ranged_put_request_finished ?m _ _ _ _ = _ /\ _ =>
      destruct (part_without_etag_fails_with_missing_upload_id m (part_request 1)
                  (plain_response 200 []) AWS_ERROR_SUCCESS eq_refl)
        as (a1 & Hfinished & _ & _ & Hfirst & Hfailed & Hsuccessful & _ & Hetags)
  end.
  - vm_compute. reflexivity.
  - reflexivity.
  - exists a1. split; [exact Hfinished|].
    split; [apply Hfirst; vm_compute; reflexivity|].
    split; [rewrite Hfailed; vm_compute; reflexivity|].
    split; [rewrite Hsuccessful; vm_compute; reflexivity|].
    rewrite Hetags. vm_compute. reflexivity.
Defined.

(** Claim C10 on the last part of a put of 25 MiB in parts of 8 MiB: the
    part holds 1 MiB and the progress report says 8 MiB. *)
Lemma part_progress_reports_part_size_witness :
  exists a s,
    sample_fresh_put = Some (inr a) /\
    run (start a) sample_first_part_calls = Some s /\
    s_compute_request_body_size (meta_request s) 4 = MiB /\
    exists a',
      s_s3_auto_ranged_put_request_finished (meta_request s) (part_request 4)
        (plain_response 200 [("ETag"%string, "e4"%string)]) AWS_ERROR_SUCCESS
        AWS_ERROR_SUCCESS
      = Some (a', [progress_callback_invoked
                     {| Progress.bytes_transferred := 8 * MiB;
                        Progress.content_length := 25 * MiB |}]).
Proof.
  eexists _, _. split; [vm_compute; reflexivity|]. split; [vm_compute; reflexivity|].
  split; [vm_compute; reflexivity|].
  match goal with
  | |- exists a', s_s3_auto_ranged_put_request_finished ?m _ _ _ _ = _ =>
      destruct (part_progress_reports_part_size m (part_request 4)
                  (plain_response 200 [("ETag"%string, "e4"%string)]) AWS_ERROR_SUCCESS
                  "e4"%string eq_refl)
        as (a1 & Hfinished)
  end.
  - vm_compute. reflexivity.
  - reflexivity.
  - reflexivity.
  - exists a1. rewrite Hfinished. vm_compute. reflexivity.
Defined.

(** * Further properties *)

(** ** The scan over the known ETags *)

Lemma populated_from_0 l : populated_from l 0 = populated_slots l.
Proof. unfold populated_from, populated_slots. rewrite drop_0. done. Qed.

Lemma populated_from_nonneg l i : 0 <= populated_from l i.
Proof. unfold populated_from. lia. Qed.

Lemma populated_from_step l (i : nat) slot :
  al_data l !! i = Some slot ->
  populated_from l i = (if bool_decide (slot <> None) then 1 else 0) + populated_from l (S i).
Proof.
  intros Hslot. unfold populated_from. rewrite (drop_S _ _ _ Hslot). simpl.
  destruct (bool_decide (slot <> None)); simpl; lia.
Qed.

Lemma populated_from_beyond l (i : nat) :
  (length (al_data l) <= i)%nat -> populated_from l i = 0.
Proof. intros Hi. unfold populated_from. rewrite drop_ge by lia. done. Qed.

(** The loop stops at the first null slot at or after its start: all slots
    it steps over are non-null, and the counter has moved by as many. *)
Lemma skip_known_etags_spec l capacity (i : nat) (npn : Z) :
  etag_list_ok l capacity ->
  0 <= npn -> npn + (capacity - Z.of_nat i) < UINT32_MODULUS ->
  (i <= Z.to_nat capacity)%nat ->
  exists k : nat,
    skip_known_etags (al_length l - i) l (Z.of_nat i) npn = npn + Z.of_nat k /\
    (i + k <= length (al_data l))%nat /\
    populated_from l i = Z.of_nat k + populated_from l (i + k) /\
    (forall etag, al_data l !! (i + k)%nat <> Some (Some etag)).
Proof.
  intros [Hcap Hlen Hnull].
  remember (al_length l - i)%nat as n eqn:Hn.
  revert i npn Hn. induction n as [|n IH]; intros i npn Hn Hnpn Hfit Hi; simpl.
  - exists O. rewrite Z.add_0_r, Nat.add_0_r.
    split; [done|]. split; [lia|]. split; [lia|].
    intros etag Hslot. apply Hnull in Hslot. lia.
  - rewrite get_at_nat. case_decide; [|lia].
    destruct (al_data l !! i) as [[etag|]|] eqn:Hslot.
    + replace (Z.of_nat i + 1) with (Z.of_nat (S i)) by lia.
      destruct (IH (S i) (incr_u32 npn)) as (k & Hskip & Hk & Hpop & Hstop).
      * lia.
      * unfold incr_u32. apply Z.mod_pos_bound. done.
      * rewrite incr_u32_small by lia. lia.
      * lia.
      * exists (S k). rewrite Hskip, incr_u32_small by lia.
        replace (i + S k)%nat with (S i + k)%nat by lia.
        split; [lia|]. split; [lia|]. split; [|done].
        rewrite (populated_from_step _ _ _ Hslot), Hpop.
        rewrite bool_decide_eq_true_2 by done. lia.
    + exists O. rewrite Z.add_0_r, Nat.add_0_r.
      split; [done|]. split; [lia|]. split; [lia|].
      intros etag. congruence.
    + apply lookup_ge_None in Hslot. lia.
Qed.

Lemma scanned_part_number_spec a :
  etag_list_ok (etag_list (synced_data a)) (total_num_parts (synced_data a)) ->
  total_num_parts (synced_data a) < 2 ^ 31 ->
  1 <= next_part_number a <= total_num_parts (synced_data a) + 1 ->
  exists k : nat,
    scanned_part_number a = next_part_number a + Z.of_nat k /\
    next_part_number a - 1 + Z.of_nat k <= total_num_parts (synced_data a) /\
    populated_from (etag_list (synced_data a)) (Z.to_nat (next_part_number a - 1))
    = Z.of_nat k
      + populated_from (etag_list (synced_data a))
          (Z.to_nat (next_part_number a - 1 + Z.of_nat k)) /\
    (forall etag,
        al_data (etag_list (synced_data a)) !! Z.to_nat (next_part_number a - 1 + Z.of_nat k)
        <> Some (Some etag)).
Proof.
  intros Hok Htotal Hnpn.
  pose proof Hok as [Hcap Hlen Hnull].
  unfold scanned_part_number.
  assert (UINT32_MODULUS = 2 ^ 32) as HM by reflexivity.
  assert (2 ^ 32 = 2 * 2 ^ 31) as H32 by reflexivity.
  rewrite decr_u32_small by lia.
  unfold uint32_to_int, int_to_size_t.
  destruct (Z.ltb_spec (next_part_number a - 1) (2 ^ 31)); [|lia].
  rewrite Z.mod_small by (unfold SIZE_MODULUS; lia).
  unfold aws_array_list_length.
  replace (Z.to_nat (Z.of_nat (al_length (etag_list (synced_data a)))
                     - (next_part_number a - 1)))
    with (al_length (etag_list (synced_data a)) - Z.to_nat (next_part_number a - 1))%nat
    by lia.
  destruct (skip_known_etags_spec _ _ (Z.to_nat (next_part_number a - 1))
              (next_part_number a) Hok) as (k & Hskip & Hk & Hpop & Hstop);
    [lia|lia|lia|].
  rewrite Z2Nat.id in Hskip by lia.
  exists k. split; [exact Hskip|]. split; [lia|].
  replace (Z.to_nat (next_part_number a - 1 + Z.of_nat k))
    with (Z.to_nat (next_part_number a - 1) + k)%nat by lia.
  split; [exact Hpop|exact Hstop].
Qed.

Lemma set_success_when_set m r status :
  finish_result m = Some r -> aws_s3_meta_request_set_success_synced m status = m.
Proof. intros Hset. unfold aws_s3_meta_request_set_success_synced. by rewrite Hset. Qed.

Lemma set_success_sets m status :
  finish_result (aws_s3_meta_request_set_success_synced m status) = None -> False.
Proof.
  unfold aws_s3_meta_request_set_success_synced.
  destruct (finish_result m) eqn:Hset; simpl; congruence.
Qed.

(** The ways in which [update] returns. *)
Lemma update_cases a flags work request a' :
  s_s3_auto_ranged_put_update a flags = Some (work, request, a') ->
  (finish_result (base a) = None /\
   list_parts_completed (synced_data a) = true /\
   create_multipart_upload_completed (synced_data a) = true /\
   num_parts_sent (synced_data a) < total_num_parts (synced_data a) /\
   scanned_part_number a <= total_num_parts (synced_data a) /\
   base a' = base a /\ upload_id a' = upload_id a /\
   ((request = Some (part_request (scanned_part_number a)) /\
     a' = synced (fun d => set_num_parts_sent (incr_u32 (num_parts_sent d)) d)
            (set_next_part_number (incr_u32 (scanned_part_number a))
               (set_next_part_number (scanned_part_number a) a))) \/
    (request = None /\ a' = set_next_part_number (scanned_part_number a) a))) \/
  (same_parts a a' /\ upload_id a' = upload_id a /\
   (finish_result (base a') = None -> base a' = base a) /\
   (finish_result (base a) <> None -> base a' = base a) /\
   forall r, request = Some r ->
     request_tag r <> AWS_S3_AUTO_RANGED_PUT_REQUEST_TAG_PART).
Proof.
  intros Hupdate.
  unfold s_s3_auto_ranged_put_update, has_work_remaining, no_work_remaining,
    aws_s3_meta_request_has_finish_result_synced in Hupdate.
  fold (scanned_part_number a) in Hupdate.
  destruct (finish_result (base a)) eqn:Hfinish; simpl in Hupdate.
  - right. repeat case_match; simplify_eq.
    all: rewrite ?(set_success_when_set _ _ _ Hfinish).
    all: split; [constructor; done|].
    all: split; [done|]. all: split; [done|]. all: split; [done|].
    all: intros r0 ?; by simplify_eq.
  - repeat case_match; simplify_eq; bool_hyps.
    all: try (left; repeat split; try done; try lia; [];
              first [left; split; reflexivity | right; split; reflexivity]).
    all: right.
    all: split; [constructor; done|].
    all: split; [done|].
    all: split; [simpl; try done; intros Hnone; by apply set_success_sets in Hnone|].
    all: split; [done|].
    all: intros r0 ?; by simplify_eq.
Qed.

(** ** Part numbers *)

Lemma part_numbers_app l1 l2 : part_numbers (l1 ++ l2) = part_numbers l1 ++ part_numbers l2.
Proof. unfold part_numbers. by rewrite List.filter_app, List.map_app. Qed.

Lemma part_numbers_cons r l :
  part_numbers (r :: l)
  = (if bool_decide (request_tag r = AWS_S3_AUTO_RANGED_PUT_REQUEST_TAG_PART)
     then [part_number r] else []) ++ part_numbers l.
Proof. unfold part_numbers. simpl. by destruct (bool_decide _). Qed.

Lemma in_part_numbers n l :
  In n (part_numbers l) <->
  exists r, In r l /\ request_tag r = AWS_S3_AUTO_RANGED_PUT_REQUEST_TAG_PART /\
            part_number r = n.
Proof.
  unfold part_numbers. rewrite in_map_iff. split.
  - intros (r & <- & Hin). apply filter_In in Hin as [Hin Htag].
    apply bool_decide_eq_true in Htag. eauto.
  - intros (r & Hin & Htag & <-). exists r. split; [done|].
    apply filter_In. split; [done|]. by apply bool_decide_eq_true.
Qed.

Lemma remove_first_split request l rest :
  remove_first request l = Some rest ->
  exists l1 l2, l = l1 ++ request :: l2 /\ rest = l1 ++ l2.
Proof.
  revert rest. induction l as [|r l IH]; intros rest; simpl; [done|].
  destruct (decide (r = request)) as [->|Hne].
  - rewrite bool_decide_eq_true_2 by done. intros [= <-]. by exists [], l.
  - rewrite bool_decide_eq_false_2 by done.
    destruct (remove_first request l) as [rest'|]; [|done].
    intros [= <-]. destruct (IH _ eq_refl) as (l1 & l2 & -> & ->).
    by exists (r :: l1), l2.
Qed.

Lemma increasing_snoc l x :
  increasing l -> (forall y, In y l -> y < x) -> increasing (l ++ [x]).
Proof.
  intros Hl Hx i j a b Hij Hi Hj.
  apply lookup_app_Some in Hj as [Hj|[Hlen Hj]].
  - rewrite lookup_app_l in Hi by (apply lookup_lt_Some in Hj; lia).
    eapply Hl; eauto.
  - destruct (j - length l)%nat eqn:E; simpl in Hj; [|by rewrite lookup_nil in Hj].
    simplify_eq. rewrite lookup_app_l in Hi by lia.
    apply Hx, list_elem_of_In. eapply list_elem_of_lookup_2; eauto.
Qed.

Lemma count_tag_none tag l r :
  count_tag tag l = 0 -> In r l -> request_tag r <> tag.
Proof.
  unfold count_tag. intros Hcount Hin Htag.
  assert (In r (List.filter (fun r => bool_decide (request_tag r = tag)) l)) as Hfiltered.
  { apply filter_In. split; [done|]. by apply bool_decide_eq_true. }
  destruct (List.filter _ l); [done|]. simpl in Hcount. lia.
Qed.

(** ** Populated slots under [aws_array_list_set_at] *)

Lemma populated_slots_set_null_slot l etag (index : Z) :
  0 <= index ->
  al_data l !! Z.to_nat index = Some None ->
  populated_slots (aws_array_list_set_at l (Some etag) index) = populated_slots l + 1.
Proof.
  intros Hindex Hslot. pose proof (lookup_lt_Some _ _ _ Hslot) as Hlt.
  unfold aws_array_list_set_at, populated_slots.
  destruct (Z.leb_spec 0 index); [|lia].
  destruct (Z.ltb_spec index (Z.of_nat (length (al_data l)))); [|lia].
  simpl. rewrite insert_take_drop by done.
  rewrite <- (take_drop_middle _ _ _ Hslot) at 3.
  rewrite !List.filter_app, !length_app. simpl. lia.
Qed.

Lemma populated_from_set_below l val (index : Z) (j : nat) :
  (Z.to_nat index < j)%nat ->
  populated_from (aws_array_list_set_at l val index) j = populated_from l j.
Proof.
  intros Hlt. unfold aws_array_list_set_at, populated_from.
  destruct (_ && _); [|done]. simpl. by rewrite drop_insert_lt.
Qed.

Lemma set_at_other_slot l val (index : Z) (j : nat) :
  Z.to_nat index <> j ->
  al_data (aws_array_list_set_at l val index) !! j = al_data l !! j.
Proof.
  intros Hne. unfold aws_array_list_set_at.
  destruct (_ && _); [|done]. simpl. by rewrite list_lookup_insert_ne.
Qed.

Lemma null_slot_in_storage l capacity (i : Z) :
  etag_list_ok l capacity -> 0 <= i < capacity ->
  (forall etag, al_data l !! Z.to_nat i <> Some (Some etag)) ->
  al_data l !! Z.to_nat i = Some None.
Proof.
  intros [Hcap _ _] Hi Hnull.
  destruct (lookup_lt_is_Some_2 (al_data l) (Z.to_nat i)) as [[etag|] Hslot]; [lia| |done].
  by destruct (Hnull etag).
Qed.

(** What [update] leaves alone. *)
Lemma update_flags_frame a flags work request a' :
  s_s3_auto_ranged_put_update a flags = Some (work, request, a') ->
  create_multipart_upload_completed (synced_data a')
  = create_multipart_upload_completed (synced_data a) /\
  complete_multipart_upload_completed (synced_data a')
  = complete_multipart_upload_completed (synced_data a) /\
  complete_multipart_upload_error_code (synced_data a')
  = complete_multipart_upload_error_code (synced_data a) /\
  (list_parts_sent (synced_data a') = false -> list_parts_sent (synced_data a) = false) /\
  (forall r, request = Some r ->
     request_tag r = AWS_S3_AUTO_RANGED_PUT_REQUEST_TAG_LIST_PARTS ->
     list_parts_sent (synced_data a) = false).
Proof.
  unfold s_s3_auto_ranged_put_update, has_work_remaining, no_work_remaining.
  intros Hupdate. repeat case_match; simplify_eq; bool_hyps.
  all: repeat split; try done.
  all: intros r0 ? ?; by simplify_eq.
Qed.

(** ** The part numbers under [update] *)

(** Where the scan of [update] stops: the slot of the part to send next is
    null, and [next_part_number] has moved over populated slots only. *)
Lemma scan_stops_at_null_slot fresh a flying handed :
  counters_ok fresh (synced_data a) flying ->
  parts_ok a flying handed ->
  running_ok a flying ->
  list_parts_completed (synced_data a) = true ->
  num_parts_sent (synced_data a) < total_num_parts (synced_data a) ->
  next_part_number a <= scanned_part_number a <= total_num_parts (synced_data a) /\
  al_data (etag_list (synced_data a)) !! Z.to_nat (scanned_part_number a - 1) = Some None /\
  num_parts_sent (synced_data a)
  = scanned_part_number a - 1
    + populated_from (etag_list (synced_data a)) (Z.to_nat (scanned_part_number a)).
Proof.
  intros [Htotal Hetags _ _ _ _ _ _ _ _ _ _ _ _] [Hfits Hrange _ _ _ _ _ _]
    [Hsent _ _ _ _] Hlisted Hless.
  specialize (Hsent Hlisted).
  destruct (scanned_part_number_spec a Hetags Hfits Hrange)
    as (k & Hscanned & Hbound & Hpopulated & Hstop).
  rewrite Hscanned.
  replace (next_part_number a + Z.of_nat k - 1) with (next_part_number a - 1 + Z.of_nat k)
    by lia.
  pose proof (populated_from_nonneg (etag_list (synced_data a))
                (Z.to_nat (next_part_number a - 1 + Z.of_nat k))).
  assert (next_part_number a - 1 + Z.of_nat k < total_num_parts (synced_data a)) by lia.
  assert (al_data (etag_list (synced_data a))
            !! Z.to_nat (next_part_number a - 1 + Z.of_nat k) = Some None) as Hslot.
  { eapply null_slot_in_storage; [exact Hetags|lia|exact Hstop]. }
  split; [lia|]. split; [exact Hslot|].
  rewrite (populated_from_step _ _ _ Hslot) in Hpopulated.
  rewrite bool_decide_eq_false_2 in Hpopulated by (intros Hne; by apply Hne).
  replace (Z.to_nat (next_part_number a + Z.of_nat k))
    with (S (Z.to_nat (next_part_number a - 1 + Z.of_nat k))) by lia.
  lia.
Qed.

Lemma update_preserves_parts fresh a flying handed flags work request a' :
  counters_ok fresh (synced_data a) flying ->
  parts_ok a flying handed ->
  (finish_result (base a) = None -> running_ok a flying) ->
  s_s3_auto_ranged_put_update a flags = Some (work, request, a') ->
  parts_ok a' (flying ++ match request with Some r => [r] | None => [] end)
    (handed ++ match request with Some r => [r] | None => [] end) /\
  (finish_result (base a') = None ->
   running_ok a' (flying ++ match request with Some r => [r] | None => [] end)).
Proof.
  intros Hcounters Hparts Hrunning Hupdate.
  destruct (update_flags_frame _ _ _ _ _ Hupdate)
    as (Hcreate & Hcomplete & Hcode & Hlist_sent & Hlist_request).
  destruct (update_cases _ _ _ _ _ Hupdate)
    as [(Hfinish & Hlisted & Hcreated & Hless & Hassert & Hbase & Hid & Hresult)
       |(Hsame & Hid & Hbase_none & Hbase_some & Hnot_part)].
  - (* a part is due *)
    specialize (Hrunning Hfinish).
    destruct (scan_stops_at_null_slot _ _ _ _ Hcounters Hparts Hrunning Hlisted Hless)
      as (Hscanned & Hslot & Hsent).
    destruct Hcounters as [Htotal Hetags Hcompleted_nonneg Hflight Hsent_le Hsuccessful
      Hfailed Houtcomes Hfresh Hresumed_created Honce Hunsent Hflying Hbefore].
    destruct Hparts as [Hfits Hrange Hbelow Hincreasing Hhanded Hdistinct Hfirst Hnone].
    destruct Hrunning as [_ Hetag_count Hnull Hupload Hsucceeded].
    assert (2 ^ 31 < UINT32_MODULUS) by done.
    pose proof (count_tag_nonneg AWS_S3_AUTO_RANGED_PUT_REQUEST_TAG_PART flying).
    destruct Hresult as [[-> ->]|[-> ->]].
    + (* handed out *)
      assert (forall r, In r flying ->
                request_tag r = AWS_S3_AUTO_RANGED_PUT_REQUEST_TAG_PART ->
                part_number r < scanned_part_number a) as Hflying_below.
      { intros r Hr Htag. specialize (Hbelow r (Hhanded r Hr) Htag). lia. }
      split; [constructor|intros _; constructor]; simpl.
      all: rewrite ?incr_u32_small by lia.
      * done.
      * lia.
      * intros r Hr Htag. apply in_app_iff in Hr as [Hr|[<-|[]]].
        -- specialize (Hbelow r Hr Htag). lia.
        -- simpl. lia.
      * rewrite part_numbers_app. apply increasing_snoc; [done|].
        intros y Hy. apply in_part_numbers in Hy as (r & Hr & Htag & <-).
        specialize (Hbelow r Hr Htag). simpl. lia.
      * intros r Hr. apply in_app_iff. apply in_app_iff in Hr as [Hr|Hr]; auto.
      * rewrite part_numbers_app. apply List.NoDup_app; [done| |].
        -- repeat constructor. simpl. tauto.
        -- intros n Hn [<-|[]]. apply in_part_numbers in Hn as (r & Hr & Htag & Heq).
           specialize (Hflying_below r Hr Htag). simpl in Heq. lia.
      * congruence.
      * rewrite count_tag_snoc. simpl. intros [Hunsent'|Hlist].
        -- destruct (Hunsent Hunsent'). congruence.
        -- rewrite Hflying in Hlisted by lia. done.
      * intros _. replace (scanned_part_number a + 1 - 1) with (scanned_part_number a) by lia.
        lia.
      * done.
      * intros r Hr Htag. apply in_app_iff in Hr as [Hr|[<-|[]]]; [by apply Hnull|done].
      * done.
      * done.
    + (* held back *)
      split; [constructor|intros _; constructor]; simpl; rewrite ?app_nil_r.
      * done.
      * lia.
      * intros r Hr Htag. specialize (Hbelow r Hr Htag). lia.
      * done.
      * done.
      * done.
      * congruence.
      * done.
      * intros _. rewrite Hsent.
        rewrite (populated_from_step _ _ _ Hslot).
        rewrite bool_decide_eq_false_2 by (intros Hne; by apply Hne).
        replace (S (Z.to_nat (scanned_part_number a - 1)))
          with (Z.to_nat (scanned_part_number a)) by lia.
        lia.
      * done.
      * done.
      * done.
      * done.
  - (* no part *)
    destruct Hsame as [Hnext Hetag_list Htotal' Hsent' Hcompleted' _ _ Hlisted'].
    destruct Hcounters as [Htotal Hetags Hcompleted_nonneg Hflight Hsent_le Hsuccessful
      Hfailed Houtcomes Hfresh Hresumed_created Honce Hunsent Hflying Hbefore].
    destruct Hparts as [Hfits Hrange Hbelow Hincreasing Hhanded Hdistinct Hfirst Hnone].
    assert (part_numbers (match request with Some r => [r] | None => [] end) = []) as Hno_part.
    { destruct request as [r|]; [|done]. specialize (Hnot_part r eq_refl).
      unfold part_numbers. simpl. by rewrite bool_decide_eq_false_2. }
    split; [constructor|intros Hfinish'; constructor];
      rewrite ?Hnext, ?Hetag_list, ?Htotal', ?Hsent', ?Hcompleted', ?Hlisted',
        ?Hcreate, ?Hcomplete, ?Hcode, ?Hid, ?part_numbers_app, ?Hno_part, ?app_nil_r.
    + done.
    + done.
    + intros r Hr Htag. apply in_app_iff in Hr as [Hr|Hr]; [by apply Hbelow|].
      destruct request as [r'|]; [|done]. destruct Hr as [<-|[]].
      by destruct (Hnot_part r' eq_refl).
    + done.
    + intros r Hr. apply in_app_iff. apply in_app_iff in Hr as [Hr|Hr]; auto.
    + done.
    + done.
    + intros [Hunsent'|Hlist]; apply Hnone; [auto|].
      destruct request as [r|]; [|rewrite app_nil_r in Hlist; auto].
      rewrite count_tag_snoc in Hlist.
      destruct (decide (request_tag r = AWS_S3_AUTO_RANGED_PUT_REQUEST_TAG_LIST_PARTS)).
      * left. by apply (Hlist_request r).
      * rewrite bool_decide_eq_false_2 in Hlist by done. right. lia.
    + rewrite (Hbase_none Hfinish') in Hfinish'. by destruct (Hrunning Hfinish').
    + rewrite (Hbase_none Hfinish') in Hfinish'. by destruct (Hrunning Hfinish').
    + rewrite (Hbase_none Hfinish') in Hfinish'.
      destruct (Hrunning Hfinish') as [_ _ Hnull _ _].
      intros r Hr Htag. apply in_app_iff in Hr as [Hr|Hr]; [by apply Hnull|].
      destruct request as [r'|]; [|done]. destruct Hr as [<-|[]].
      by destruct (Hnot_part r' eq_refl).
    + rewrite (Hbase_none Hfinish') in Hfinish'. by destruct (Hrunning Hfinish').
    + rewrite (Hbase_none Hfinish') in Hfinish'. by destruct (Hrunning Hfinish').
Qed.

(** ** The part numbers under the finish hook *)

Lemma fail_if_error_finish send_data e a :
  finish_result (base (fail_if_error send_data e a)) = None ->
  finish_result (base a) = None /\ is_success e = true.
Proof.
  unfold fail_if_error, fail_with. destruct (is_success e); simpl; [done|].
  intros Hnone. by destruct (proj1 (set_fail_synced_sets (base a) (Some (response_status send_data)) e)).
Qed.

Lemma process_parts_next_part_number infos a a' :
  process_parts infos a = Some a' -> next_part_number a' = next_part_number a.
Proof.
  revert a. induction infos as [|info infos IH]; intros a; simpl; [by intros [= <-]|].
  destruct (s_process_part_info info a) as [a1|] eqn:Hinfo; [|done].
  intros Hrest. rewrite (IH _ Hrest).
  unfold s_process_part_info in Hinfo. repeat case_match; by simplify_eq.
Qed.

Lemma is_success_true e : is_success e = true -> e = AWS_ERROR_SUCCESS.
Proof. by destruct e. Qed.

Ltac finished_flags :=
  simpl; rewrite ?count_resumed_parts_spec; simpl;
  repeat split; try done; try congruence; try (simpl in *; congruence);
  try (intros; simplify_eq; auto; fail);
  try (intros _; left; by apply is_success_true).

(** What the finish hook leaves alone, and what is known of the upload id
    and of the completion when it leaves no finish result behind. *)
Lemma request_finished_flags_frame a request send_data error_code headers_callback_error
  a' events :
  s_s3_auto_ranged_put_request_finished a request send_data error_code
    headers_callback_error = Some (a', events) ->
  next_part_number a' = next_part_number a /\
  list_parts_sent (synced_data a') = list_parts_sent (synced_data a) /\
  (finish_result (base a') = None ->
   finish_result (base a) = None /\
   (create_multipart_upload_completed (synced_data a') = true ->
    upload_id a' <> None \/
    create_multipart_upload_completed (synced_data a) = true /\
    upload_id a' = upload_id a) /\
   (complete_multipart_upload_completed (synced_data a') = true ->
    complete_multipart_upload_error_code (synced_data a') = AWS_ERROR_SUCCESS \/
    complete_multipart_upload_completed (synced_data a) = true /\
    complete_multipart_upload_error_code (synced_data a')
    = complete_multipart_upload_error_code (synced_data a))).
Proof.
  unfold s_s3_auto_ranged_put_request_finished.
  intros Hfinished. destruct (request_tag request).
  - destruct (is_success error_code) eqn:Hsuccess.
    + destruct (process_parts _ a) as [a1|] eqn:Hparse; [|done].
      pose proof (process_parts_next_part_number _ _ _ Hparse) as Hn.
      apply process_parts_frame in Hparse as (Hb & Hc & Hu & Hl & etags & Hd & Hok).
      unfold fail_if_error, fail_with, aws_s3_meta_request_set_fail_synced in Hfinished.
      repeat case_match; simplify_eq.
      all: simpl; rewrite ?Hd, ?Hb, ?Hu, ?Hn; finished_flags.
    + unfold fail_if_error, fail_with, aws_s3_meta_request_set_fail_synced in Hfinished.
      repeat case_match; simplify_eq. all: finished_flags.
  - unfold fail_if_error, fail_with, aws_s3_meta_request_set_fail_synced in Hfinished.
    repeat case_match; simplify_eq. all: finished_flags.
  - unfold fail_if_error, fail_with, aws_s3_meta_request_set_fail_synced in Hfinished.
    repeat case_match; simplify_eq. all: finished_flags.
  - unfold fail_if_error, fail_with, aws_s3_meta_request_set_fail_synced in Hfinished.
    repeat case_match; simplify_eq. all: finished_flags.
  - simplify_eq. finished_flags.
Qed.

Lemma remove_first_parts request flying rest :
  remove_first request flying = Some rest ->
  List.NoDup (part_numbers flying) ->
  (forall r, In r rest -> In r flying) /\
  List.NoDup (part_numbers rest) /\
  (request_tag request = AWS_S3_AUTO_RANGED_PUT_REQUEST_TAG_PART ->
   forall r, In r rest ->
     request_tag r = AWS_S3_AUTO_RANGED_PUT_REQUEST_TAG_PART ->
     part_number r <> part_number request).
Proof.
  intros Hremove Hdistinct.
  apply remove_first_split in Hremove as (l1 & l2 & -> & ->).
  rewrite part_numbers_app, part_numbers_cons in Hdistinct.
  rewrite part_numbers_app.
  split; [|destruct (decide (request_tag request = AWS_S3_AUTO_RANGED_PUT_REQUEST_TAG_PART))
             as [Htag|Htag]].
  - intros r Hr. apply in_app_iff. apply in_app_iff in Hr as [Hr|Hr]; [by left|].
    right. by right.
  - rewrite bool_decide_eq_true_2 in Hdistinct by done. simpl in Hdistinct.
    apply List.NoDup_remove in Hdistinct as [Hrest Hnot_in].
    split; [done|]. intros _ r Hr Htag_r Heq. apply Hnot_in.
    rewrite <- part_numbers_app. apply in_part_numbers. eauto.
  - rewrite bool_decide_eq_false_2 in Hdistinct by done. simpl in Hdistinct.
    split; [done|]. done.
Qed.

Lemma finished_other_same_parts a request send_data error_code headers_callback_error
  a' events :
  request_tag request <> AWS_S3_AUTO_RANGED_PUT_REQUEST_TAG_LIST_PARTS ->
  request_tag request <> AWS_S3_AUTO_RANGED_PUT_REQUEST_TAG_PART ->
  s_s3_auto_ranged_put_request_finished a request send_data error_code
    headers_callback_error = Some (a', events) ->
  same_parts a a'.
Proof.
  unfold s_s3_auto_ranged_put_request_finished, fail_if_error, fail_with.
  intros Hlist Hpart Hfinished. destruct (request_tag request); try done.
  all: repeat case_match; simplify_eq; by constructor.
Qed.

Lemma finished_part_cases a request send_data error_code headers_callback_error
  a' events :
  request_tag request = AWS_S3_AUTO_RANGED_PUT_REQUEST_TAG_PART ->
  s_s3_auto_ranged_put_request_finished a request send_data error_code
    headers_callback_error = Some (a', events) ->
  0 < part_number request /\
  total_num_parts (synced_data a') = total_num_parts (synced_data a) /\
  num_parts_sent (synced_data a') = num_parts_sent (synced_data a) /\
  list_parts_completed (synced_data a') = list_parts_completed (synced_data a) /\
  num_parts_completed (synced_data a') = incr_u32 (num_parts_completed (synced_data a)) /\
  (etag_list (synced_data a') = etag_list (synced_data a) /\
   finish_result (base a') <> None \/
   exists etag,
     etag_list (synced_data a')
     = aws_array_list_set_at (etag_list (synced_data a)) (Some etag)
         (part_number request - 1)).
Proof.
  unfold s_s3_auto_ranged_put_request_finished, fail_with.
  intros -> Hfinished.
  destruct (Z.ltb_spec 0 (part_number request)); simpl in Hfinished; [|done].
  repeat case_match; simplify_eq; simpl.
  all: repeat split; try done; try (simpl in *; congruence).
  all: try (right; eexists; reflexivity).
  all: left; split; [done|]; apply set_fail_synced_sets.
Qed.

Lemma finished_list_parts_cases a request send_data error_code headers_callback_error
  a' events :
  request_tag request = AWS_S3_AUTO_RANGED_PUT_REQUEST_TAG_LIST_PARTS ->
  etag_list_ok (etag_list (synced_data a)) (total_num_parts (synced_data a)) ->
  0 <= total_num_parts (synced_data a) < UINT32_MODULUS ->
  num_parts_sent (synced_data a) = 0 ->
  num_parts_completed (synced_data a) = 0 ->
  s_s3_auto_ranged_put_request_finished a request send_data error_code
    headers_callback_error = Some (a', events) ->
  total_num_parts (synced_data a') = total_num_parts (synced_data a) /\
  (finish_result (base a') = None ->
   list_parts_completed (synced_data a') = true ->
   num_parts_sent (synced_data a') = populated_slots (etag_list (synced_data a')) /\
   num_parts_completed (synced_data a') = populated_slots (etag_list (synced_data a'))).
Proof.
  unfold s_s3_auto_ranged_put_request_finished.
  intros -> Hetags Htotal Hsent Hcompleted Hfinished.
  destruct (is_success error_code) eqn:Hsuccess.
  - destruct (process_parts _ a) as [a1|] eqn:Hparse; [|done].
    apply process_parts_frame in Hparse as (Hb & Hc & Hu & Hl & etags & Hd & Hok).
    specialize (Hok _ Hetags).
    destruct (resumed_is_populated _ _ Hok) as [Hresumed Hbound].
    unfold fail_if_error, fail_with, aws_s3_meta_request_set_fail_synced in Hfinished.
    repeat case_match; simplify_eq.
    all: simpl; rewrite ?Hd; simpl; rewrite ?count_resumed_parts_spec; simpl;
      rewrite ?length_to_nat, ?Hsent, ?Hcompleted;
      rewrite ?iter_incr_u32 by lia.
    all: split; [done|]; try done; try (simpl in *; congruence).
    all: intros; lia.
  - unfold fail_if_error, fail_with, aws_s3_meta_request_set_fail_synced in Hfinished.
    rewrite Hsuccess in Hfinished.
    repeat case_match; simplify_eq; simpl.
    all: split; [done|]; try done; try (simpl in *; congruence).
Qed.

Lemma request_finished_preserves_parts fresh a flying handed request rest send_data
  error_code headers_callback_error a' events :
  counters_ok fresh (synced_data a) flying ->
  parts_ok a flying handed ->
  (finish_result (base a) = None -> running_ok a flying) ->
  remove_first request flying = Some rest ->
  s_s3_auto_ranged_put_request_finished a request send_data error_code
    headers_callback_error = Some (a', events) ->
  parts_ok a' rest handed /\ (finish_result (base a') = None -> running_ok a' rest).
Proof.
  intros Hcounters Hparts Hrunning Hremove Hfinished.
  pose proof (request_finished_preserves_counters _ _ _ _ _ _ _ _ _ _
                Hcounters Hremove Hfinished) as Hcounters'.
  destruct Hcounters as [Htotal Hetags Hcompleted_nonneg Hflight Hsent_le Hsuccessful
    Hfailed Houtcomes Hfresh Hresumed_created Honce Hunsent Hflying Hbefore].
  destruct Hparts as [Hfits Hrange Hbelow Hincreasing Hhanded Hdistinct Hfirst Hnone].
  destruct (remove_first_parts _ _ _ Hremove Hdistinct) as (Hrest & Hdistinct' & Hothers).
  pose proof (remove_first_count _ _ _ AWS_S3_AUTO_RANGED_PUT_REQUEST_TAG_PART Hremove)
    as Hparts_count.
  pose proof (remove_first_count _ _ _ AWS_S3_AUTO_RANGED_PUT_REQUEST_TAG_LIST_PARTS Hremove)
    as Hlist_count.
  pose proof (count_tag_nonneg AWS_S3_AUTO_RANGED_PUT_REQUEST_TAG_PART rest).
  pose proof (count_tag_nonneg AWS_S3_AUTO_RANGED_PUT_REQUEST_TAG_LIST_PARTS rest).
  destruct (request_finished_flags_frame _ _ _ _ _ _ _ Hfinished)
    as (Hnext & Hlist_sent & Hknown).
  assert (finish_result (base a') = None ->
          (create_multipart_upload_completed (synced_data a') = true -> upload_id a' <> None) /\
          (complete_multipart_upload_completed (synced_data a') = true ->
           complete_multipart_upload_error_code (synced_data a') = AWS_ERROR_SUCCESS))
    as Hknown'.
  { intros Hfinish'. destruct (Hknown Hfinish') as (Hfinish & Hcreate & Hcomplete).
    destruct (Hrunning Hfinish) as [_ _ _ Hupload Hsucceeded].
    split.
    - intros Hc. destruct (Hcreate Hc) as [?|[? ->]]; auto.
    - intros Hc. destruct (Hcomplete Hc) as [?|[? ->]]; auto. }
  assert (In request flying) as Hin.
  { apply remove_first_split in Hremove as (l1 & l2 & -> & _).
    apply in_app_iff. right. by left. }
  destruct (decide (request_tag request = AWS_S3_AUTO_RANGED_PUT_REQUEST_TAG_LIST_PARTS))
    as [Htag|Hnot_list];
    [|destruct (decide (request_tag request = AWS_S3_AUTO_RANGED_PUT_REQUEST_TAG_PART))
        as [Htag|Hnot_part]].
  - (* ListParts *)
    rewrite Htag in Hparts_count, Hlist_count. simpl in Hparts_count, Hlist_count.
    assert (list_parts_completed (synced_data a) = false) as Hwaiting
      by (apply Hflying; lia).
    destruct (Hbefore Hwaiting) as [Hsent Hcompleted].
    destruct (finished_list_parts_cases _ _ _ _ _ _ _ Htag Hetags Htotal Hsent Hcompleted
                Hfinished) as (Htotal' & Hswept).
    assert (list_parts_sent (synced_data a) = true) as Hlisted.
    { destruct (list_parts_sent (synced_data a)) eqn:E; [done|].
      destruct (Hunsent eq_refl). lia. }
    assert (forall r, In r rest ->
              request_tag r <> AWS_S3_AUTO_RANGED_PUT_REQUEST_TAG_PART) as Hno_parts.
    { intros r Hr. eapply count_tag_none; [|exact Hr]. lia. }
    split; [constructor|intros Hfinish'; constructor];
      rewrite ?Hnext, ?Htotal', ?Hlist_sent; try done.
    + auto.
    + intros _. by apply Hfirst.
    + intros [?|?]; [congruence|lia].
    + intros Hlisted'. destruct (Hswept Hfinish' Hlisted') as [-> _].
      rewrite (Hfirst Hwaiting). simpl. by rewrite populated_from_0.
    + intros Hlisted'. by destruct (Hswept Hfinish' Hlisted') as [_ ->].
    + intros r Hr Htag_r. by destruct (Hno_parts r Hr).
    + by apply Hknown'.
    + by apply Hknown'.
  - (* a part *)
    rewrite Htag in Hparts_count, Hlist_count. simpl in Hparts_count, Hlist_count.
    destruct (finished_part_cases _ _ _ _ _ _ _ Htag Hfinished)
      as (Hpositive & Htotal' & Hsent' & Hlisted' & Hcompleted' & Hetag).
    specialize (Hothers Htag).
    pose proof (Hbelow _ (Hhanded _ Hin) Htag) as Hnumber.
    assert (list_parts_completed (synced_data a) = true) as Hlisted.
    { destruct (list_parts_completed (synced_data a)) eqn:E; [done|].
      destruct (Hbefore eq_refl). lia. }
    assert (list_parts_sent (synced_data a) = true) as Hlist_was_sent.
    { destruct (list_parts_sent (synced_data a)) eqn:E; [done|].
      destruct (Hunsent eq_refl). congruence. }
    assert (count_tag AWS_S3_AUTO_RANGED_PUT_REQUEST_TAG_LIST_PARTS rest = 0) as Hno_list.
    { destruct (decide (0 < count_tag AWS_S3_AUTO_RANGED_PUT_REQUEST_TAG_LIST_PARTS flying))
        as [Hsome|?]; [|lia].
      rewrite (Hflying Hsome) in Hlisted. done. }
    split; [constructor|intros Hfinish'; constructor];
      rewrite ?Hnext, ?Htotal', ?Hlist_sent, ?Hsent', ?Hlisted'; try done.
    + auto.
    + intros [?|?]; [congruence|lia].
    + intros _. destruct (Hknown Hfinish') as (Hfinish & _).
      destruct (Hrunning Hfinish) as [Haccounts _ _ _ _].
      rewrite (Haccounts Hlisted).
      destruct Hetag as [[-> _]|[etag ->]]; [done|].
      rewrite populated_from_set_below by lia. done.
    + intros _. destruct (Hknown Hfinish') as (Hfinish & _).
      destruct (Hrunning Hfinish) as [_ Hetag_count Hnull _ _].
      destruct Hetag as [[_ ?]|[etag ->]]; [done|].
      rewrite populated_slots_set_null_slot by (auto; lia).
      rewrite Hcompleted', (Hetag_count Hlisted).
      rewrite incr_u32_small by lia. done.
    + intros r Hr Htag_r. destruct (Hknown Hfinish') as (Hfinish & _).
      destruct (Hrunning Hfinish) as [_ _ Hnull _ _].
      destruct Hetag as [[-> _]|[etag ->]]; [by auto|].
      rewrite set_at_other_slot; [by auto|].
      specialize (Hothers r Hr Htag_r).
      pose proof (Hbelow _ (Hhanded _ (Hrest _ Hr)) Htag_r). lia.
    + by apply Hknown'.
    + by apply Hknown'.
  - (* the other requests *)
    rewrite bool_decide_eq_false_2 in Hparts_count, Hlist_count by done.
    destruct (finished_other_same_parts _ _ _ _ _ _ _ Hnot_list Hnot_part Hfinished)
      as [Hnext' Hetag_list Htotal' Hsent' Hcompleted' _ _ Hlisted'].
    split; [constructor|intros Hfinish'; constructor];
      rewrite ?Hnext, ?Hetag_list, ?Htotal', ?Hlist_sent, ?Hsent', ?Hcompleted', ?Hlisted';
      try done.
    + auto.
    + intros [?|?]; apply Hnone; [auto|right; lia].
    + destruct (Hknown Hfinish') as (Hfinish & _). by destruct (Hrunning Hfinish).
    + destruct (Hknown Hfinish') as (Hfinish & _). by destruct (Hrunning Hfinish).
    + destruct (Hknown Hfinish') as (Hfinish & _).
      destruct (Hrunning Hfinish) as [_ _ Hnull _ _]. auto.
    + by apply Hknown'.
    + by apply Hknown'.
Qed.

(** ** Reachable states and the part numbers *)

Lemma populated_slots_init n : populated_slots (aws_array_list_init_static n) = 0.
Proof.
  unfold populated_slots, aws_array_list_init_static. simpl.
  induction (Z.to_nat n) as [|k IH]; simpl; done.
Qed.

Lemma increasing_nil : increasing [].
Proof. intros i j x y _ Hi. by rewrite lookup_nil in Hi. Qed.

Lemma constructed_upload_ok min max client_part_size body_length client_num_parts options a :
  0 <= client_num_parts < UINT32_MODULUS ->
  aws_s3_meta_request_auto_ranged_put_new min max client_part_size body_length
    client_num_parts options = Some (inr a) ->
  total_num_parts (synced_data a) < 2 ^ 31 ->
  upload_ok (is_fresh options) (start a).
Proof.
  intros Hrange Hnew Hfits.
  destruct (constructed_ok _ _ _ _ _ _ _ Hrange Hnew) as (Hstart & Hfinish & Hsent & Hcompleted).
  split; [done|].
  unfold aws_s3_meta_request_auto_ranged_put_new in Hnew.
  destruct (resume_token options) as [root|] eqn:Htoken.
  - rewrite parse_resume_info_spec in Hnew.
    unfold s_load_persistable_state in Hnew.
    repeat case_match; simplify_eq.
    all: simpl in Hfits.
    all: match goal with
         | H : double_to_uint32 _ = Some _ |- _ => pose proof (double_to_uint32_range _ _ H)
         end.
    all: split; [constructor|intros _; constructor]; simpl;
      rewrite ?populated_slots_init; try done; try lia.
    all: try apply increasing_nil; try constructor.
  - simpl in Hnew. repeat case_match; simplify_eq.
    all: simpl in Hfits.
    all: split; [constructor|intros _; constructor]; simpl;
      rewrite ?populated_slots_init; try done; try lia.
    all: try apply increasing_nil; try constructor.
    all: intros _; change (Z.to_nat (1 - 1)) with 0%nat;
      by rewrite populated_from_0, populated_slots_init.
Qed.

Lemma step_preserves_upload fresh s act s' :
  upload_ok fresh s -> step s act = Some s' -> upload_ok fresh s'.
Proof.
  intros (Hdriven & Hparts & Hrunning) Hstep.
  split; [eapply step_preserves; eassumption|].
  destruct Hdriven as [Hcounters _].
  destruct act as [flags|request send_data error_code headers_callback_error| |];
    simpl in Hstep.
  - destruct (s_s3_auto_ranged_put_update _ _) as [[[work request] a']|] eqn:Hupdate;
      [|done].
    simplify_eq. simpl. eapply update_preserves_parts; eassumption.
  - destruct (remove_first _ _) as [rest|] eqn:Hremove; [|done].
    destruct (s_s3_auto_ranged_put_request_finished _ _ _ _ _) as [[a' events]|]
      eqn:Hfinished; [|done].
    simplify_eq. simpl. eapply request_finished_preserves_parts; eassumption.
  - unfold s_s3_auto_ranged_put_pause in Hstep.
    destruct Hparts. repeat case_match; simplify_eq; simpl.
    all: split; [by constructor|].
    all: intros Hnone; by apply set_fail_synced_sets in Hnone.
  - simplify_eq. simpl. destruct Hparts. split; [by constructor|].
    intros Hnone; by apply set_fail_synced_sets in Hnone.
Qed.

Lemma run_preserves_upload fresh acts s s' :
  upload_ok fresh s -> run s acts = Some s' -> upload_ok fresh s'.
Proof.
  revert s. induction acts as [|act acts IH]; intros s Hok; simpl.
  - intros [= <-]. done.
  - destruct (step s act) as [s1|] eqn:Hstep; [|done].
    apply IH. eapply step_preserves_upload; eassumption.
Qed.

Lemma run_app s acts1 acts2 :
  run s (acts1 ++ acts2)
  = match run s acts1 with Some s1 => run s1 acts2 | None => None end.
Proof.
  revert s. induction acts1 as [|act acts1 IH]; intros s; simpl; [done|].
  destruct (step s act); [apply IH|done].
Qed.

Lemma reached_upload_ok min max client_part_size body_length client_num_parts options a
  acts s :
  0 <= client_num_parts < UINT32_MODULUS ->
  aws_s3_meta_request_auto_ranged_put_new min max client_part_size body_length
    client_num_parts options = Some (inr a) ->
  total_num_parts (synced_data a) < 2 ^ 31 ->
  run (start a) acts = Some s ->
  upload_ok (is_fresh options) s.
Proof.
  intros Hrange Hnew Hfits Hrun.
  eapply run_preserves_upload; [|exact Hrun].
  eapply constructed_upload_ok; eassumption.
Qed.

Lemma update_undefined a flags :
  s_s3_auto_ranged_put_update a flags = None ->
  finish_result (base a) = None /\
  list_parts_completed (synced_data a) = true /\
  num_parts_sent (synced_data a) < total_num_parts (synced_data a) /\
  total_num_parts (synced_data a) < scanned_part_number a.
Proof.
  unfold s_s3_auto_ranged_put_update, has_work_remaining, no_work_remaining,
    aws_s3_meta_request_has_finish_result_synced.
  fold (scanned_part_number a).
  intros Hupdate. repeat case_match; simplify_eq; bool_hyps.
  simpl in *. repeat split; try done; lia.
Qed.

(** X1.  In every state that a constructed meta request with fewer than
    [2 ^ 31] parts reaches, [update] has a result: the fatal assertion
    [next_part_number <= total_num_parts] that follows the scan over the
    known ETags does not fire. *)
Theorem update_assertion_holds (min max client_part_size body_length client_num_parts : Z)
  (options : aws_s3_meta_request_options) (a : aws_s3_auto_ranged_put)
  (acts : list action) (s : driven) (flags : Z) :
  0 <= client_num_parts < UINT32_MODULUS ->
  aws_s3_meta_request_auto_ranged_put_new min max client_part_size body_length
    client_num_parts options = Some (inr a) ->
  total_num_parts (synced_data a) < 2 ^ 31 ->
  run (start a) acts = Some s ->
  exists work request a',
    s_s3_auto_ranged_put_update (meta_request s) flags = Some (work, request, a').
Proof.
  intros Hrange Hnew Hfits Hrun.
  destruct (reached_upload_ok _ _ _ _ _ _ _ _ _ Hrange Hnew Hfits Hrun)
    as ([Hcounters _] & Hparts & Hrunning).
  destruct (s_s3_auto_ranged_put_update (meta_request s) flags) as [[[work request] a']|]
    eqn:Hupdate; [eauto|].
  apply update_undefined in Hupdate as (Hfinish & Hlisted & Hless & Hbeyond).
  destruct (scan_stops_at_null_slot _ _ _ _ Hcounters Hparts (Hrunning Hfinish) Hlisted Hless)
    as ([_ Hscanned] & _).
  lia.
Qed.

(** X2.  The part requests handed out carry part numbers between 1 and
    [total_num_parts], and a part handed out later carries a larger number:
    no part number is handed out twice. *)
Theorem part_numbers_handed_out_in_order
  (min max client_part_size body_length client_num_parts : Z)
  (options : aws_s3_meta_request_options) (a : aws_s3_auto_ranged_put)
  (acts : list action) (s : driven) :
  0 <= client_num_parts < UINT32_MODULUS ->
  aws_s3_meta_request_auto_ranged_put_new min max client_part_size body_length
    client_num_parts options = Some (inr a) ->
  total_num_parts (synced_data a) < 2 ^ 31 ->
  run (start a) acts = Some s ->
  increasing (part_numbers (handed_out s)) /\
  forall r, In r (handed_out s) ->
    request_tag r = AWS_S3_AUTO_RANGED_PUT_REQUEST_TAG_PART ->
    1 <= part_number r <= total_num_parts (synced_data (meta_request s)).
Proof.
  intros Hrange Hnew Hfits Hrun.
  destruct (reached_upload_ok _ _ _ _ _ _ _ _ _ Hrange Hnew Hfits Hrun)
    as (_ & [_ Hnext Hbelow Hincreasing _ _ _ _] & _).
  split; [done|]. intros r Hr Htag. specialize (Hbelow r Hr Htag). lia.
Qed.

(** X3.  A part request that [update] hands out is for a part whose slot in
    the ETag list is null: a part whose ETag is known, from ListParts or
    from its own upload, is not sent again.  While no finish result is set,
    the slot of every part in flight is null. *)
Theorem part_with_known_etag_is_not_sent
  (min max client_part_size body_length client_num_parts : Z)
  (options : aws_s3_meta_request_options) (a : aws_s3_auto_ranged_put)
  (acts : list action) (s : driven) (flags : Z) (work : bool) (r : aws_s3_request)
  (a' : aws_s3_auto_ranged_put) :
  0 <= client_num_parts < UINT32_MODULUS ->
  aws_s3_meta_request_auto_ranged_put_new min max client_part_size body_length
    client_num_parts options = Some (inr a) ->
  total_num_parts (synced_data a) < 2 ^ 31 ->
  run (start a) acts = Some s ->
  s_s3_auto_ranged_put_update (meta_request s) flags = Some (work, Some r, a') ->
  request_tag r = AWS_S3_AUTO_RANGED_PUT_REQUEST_TAG_PART ->
  al_data (etag_list (synced_data (meta_request s))) !! Z.to_nat (part_number r - 1)
  = Some None /\
  forall r', In r' (in_flight s) ->
    request_tag r' = AWS_S3_AUTO_RANGED_PUT_REQUEST_TAG_PART ->
    part_number r' < part_number r /\
    al_data (etag_list (synced_data (meta_request s))) !! Z.to_nat (part_number r' - 1)
    = Some None.
Proof.
  intros Hrange Hnew Hfits Hrun Hupdate Htag.
  destruct (reached_upload_ok _ _ _ _ _ _ _ _ _ Hrange Hnew Hfits Hrun)
    as ([Hcounters _] & Hparts & Hrunning).
  destruct (update_cases _ _ _ _ _ Hupdate)
    as [(Hfinish & Hlisted & Hcreated & Hless & Hassert & Hbase & Hid & Hresult)
       |(_ & _ & _ & _ & Hnot_part)].
  2:{ by destruct (Hnot_part r eq_refl). }
  destruct (scan_stops_at_null_slot _ _ _ _ Hcounters Hparts (Hrunning Hfinish) Hlisted Hless)
    as (Hscanned & Hslot & _).
  destruct Hresult as [[[= ->] _]|[[=] _]]. simpl.
  split; [done|]. intros r' Hr' Htag'.
  destruct Hparts as [_ _ Hbelow _ Hhanded _ _ _].
  destruct (Hrunning Hfinish) as [_ _ Hnull _ _].
  specialize (Hbelow r' (Hhanded r' Hr') Htag'). split; [lia|auto].
Qed.

Lemma filter_length_all {A} (f : A -> bool) (l : list A) :
  length (List.filter f l) = length l -> forall x, In x l -> f x = true.
Proof.
  induction l as [|y l IH]; simpl; [done|].
  pose proof (List.filter_length_le f l).
  destruct (f y) eqn:Hy; simpl; intros Hlen x [<-|Hx]; try done; try lia.
  apply IH; [lia|done].
Qed.

Lemma all_slots_populated l capacity (index : Z) :
  etag_list_ok l capacity ->
  populated_slots l = capacity ->
  0 <= index < capacity ->
  exists etag, aws_array_list_get_at l index = Some (Some etag).
Proof.
  intros [Hcap Hlen Hnull] Hall Hindex. unfold populated_slots in Hall.
  assert (length (List.filter (fun slot : option string => bool_decide (slot <> None))
                    (al_data l)) = length (al_data l)) as Hfull by lia.
  assert (forall i, (i < length (al_data l))%nat ->
            exists etag, al_data l !! i = Some (Some etag)) as Hslots.
  { intros i Hi. destruct (lookup_lt_is_Some_2 _ _ Hi) as [slot Hslot].
    assert (In slot (al_data l)) as Hin.
    { apply list_elem_of_In. eapply list_elem_of_lookup_2. exact Hslot. }
    pose proof (filter_length_all _ _ Hfull slot Hin) as Hsome. simpl in Hsome.
    apply bool_decide_eq_true in Hsome. destruct slot as [etag|]; [eauto|done]. }
  destruct (Hslots (Z.to_nat (capacity - 1))) as [last Hlast]; [lia|].
  apply Hnull in Hlast.
  destruct (Hslots (Z.to_nat index)) as [etag Hetag]; [lia|].
  exists etag. unfold aws_array_list_get_at, aws_array_list_length.
  destruct (Z.leb_spec 0 index); [|lia].
  destruct (Z.ltb_spec index (Z.of_nat (al_length l))); [done|lia].
Qed.

Lemma update_complete_cases a flags work r a' :
  s_s3_auto_ranged_put_update a flags = Some (work, Some r, a') ->
  request_tag r = AWS_S3_AUTO_RANGED_PUT_REQUEST_TAG_COMPLETE_MULTIPART_UPLOAD ->
  finish_result (base a) = None /\
  list_parts_completed (synced_data a) = true /\
  create_multipart_upload_completed (synced_data a) = true /\
  total_num_parts (synced_data a) <= num_parts_sent (synced_data a) /\
  num_parts_completed (synced_data a) = total_num_parts (synced_data a).
Proof.
  unfold s_s3_auto_ranged_put_update, has_work_remaining, no_work_remaining,
    aws_s3_meta_request_has_finish_result_synced.
  intros Hupdate Htag. repeat case_match; simplify_eq; bool_hyps; try done.
Qed.

(** X4.  When [update] hands out the CompleteMultipartUpload request, the
    ETag of every part is in the ETag list, the upload id is known, no
    finish result is set and no part is in flight. *)
Theorem complete_is_sent_with_every_etag
  (min max client_part_size body_length client_num_parts : Z)
  (options : aws_s3_meta_request_options) (a : aws_s3_auto_ranged_put)
  (acts : list action) (s : driven) (flags : Z) (work : bool) (r : aws_s3_request)
  (a' : aws_s3_auto_ranged_put) :
  0 <= client_num_parts < UINT32_MODULUS ->
  aws_s3_meta_request_auto_ranged_put_new min max client_part_size body_length
    client_num_parts options = Some (inr a) ->
  total_num_parts (synced_data a) < 2 ^ 31 ->
  run (start a) acts = Some s ->
  s_s3_auto_ranged_put_update (meta_request s) flags = Some (work, Some r, a') ->
  request_tag r = AWS_S3_AUTO_RANGED_PUT_REQUEST_TAG_COMPLETE_MULTIPART_UPLOAD ->
  (forall n, 1 <= n <= total_num_parts (synced_data (meta_request s)) ->
     exists etag,
       aws_array_list_get_at (etag_list (synced_data (meta_request s))) (n - 1)
       = Some (Some etag)) /\
  upload_id (meta_request s) <> None /\
  finish_result (base (meta_request s)) = None /\
  count_tag AWS_S3_AUTO_RANGED_PUT_REQUEST_TAG_PART (in_flight s) = 0.
Proof.
  intros Hrange Hnew Hfits Hrun Hupdate Htag.
  destruct (reached_upload_ok _ _ _ _ _ _ _ _ _ Hrange Hnew Hfits Hrun)
    as ([Hcounters _] & Hparts & Hrunning).
  destruct (update_complete_cases _ _ _ _ _ Hupdate Htag)
    as (Hfinish & Hlisted & Hcreated & Hsent & Hcompleted).
  destruct (Hrunning Hfinish) as [_ Hetag_count _ Hupload _].
  destruct Hcounters as [Htotal Hetags Hcompleted_nonneg Hflight Hsent_le _ _ _ _ _ _ _ _ _].
  repeat split; [|by auto|done|lia].
  intros n Hn. eapply all_slots_populated; [exact Hetags| |lia].
  rewrite (Hetag_count Hlisted). done.
Qed.

(** X5.  As long as no finish result is set, [pause] has a defined result
    in every reachable state, and it writes a token exactly when the
    multipart upload has been created. *)
Theorem pause_of_running_upload_is_defined
  (min max client_part_size body_length client_num_parts : Z)
  (options : aws_s3_meta_request_options) (a : aws_s3_auto_ranged_put)
  (acts : list action) (s : driven) :
  0 <= client_num_parts < UINT32_MODULUS ->
  aws_s3_meta_request_auto_ranged_put_new min max client_part_size body_length
    client_num_parts options = Some (inr a) ->
  total_num_parts (synced_data a) < 2 ^ 31 ->
  run (start a) acts = Some s ->
  finish_result (base (meta_request s)) = None ->
  exists token a',
    s_s3_auto_ranged_put_pause (meta_request s) = Some (token, a') /\
    finish_error (base a') = Some AWS_ERROR_S3_PAUSED /\
    (token <> None <->
     create_multipart_upload_completed (synced_data (meta_request s)) = true).
Proof.
  intros Hrange Hnew Hfits Hrun Hfinish.
  destruct (reached_upload_ok _ _ _ _ _ _ _ _ _ Hrange Hnew Hfits Hrun)
    as (_ & _ & Hrunning).
  destruct (Hrunning Hfinish) as [_ _ _ Hupload _].
  unfold s_s3_auto_ranged_put_pause.
  destruct (create_multipart_upload_completed (synced_data (meta_request s))) eqn:Hcreated.
  - destruct (upload_id (meta_request s)) as [id|] eqn:Hid; [|by destruct Hupload].
    eexists _, _. split; [reflexivity|]. simpl.
    split; [by apply set_fail_synced_sets|]. done.
  - eexists _, _. split; [reflexivity|]. simpl.
    split; [by apply set_fail_synced_sets|]. split; [done|]. done.
Qed.

(** ** The requests around the parts *)

Lemma update_preserves_phases fresh a flying handed flags work request a' :
  counters_ok fresh (synced_data a) flying ->
  (finish_result (base a) = None -> running_ok a flying) ->
  phases_ok fresh a flying handed ->
  s_s3_auto_ranged_put_update a flags = Some (work, request, a') ->
  phases_ok fresh a' (flying ++ match request with Some r => [r] | None => [] end)
    (handed ++ match request with Some r => [r] | None => [] end).
Proof.
  intros [Htotal Hetags Hcompleted_nonneg Hflight Hsent_le Hsuccessful Hfailed
          Houtcomes Hfresh Hresumed_created Honce Hunsent Hflying Hbefore]
    Hrunning
    [Hlist_once Hlist_none Hlist_fresh Hcreate_once Hcreate_none Hcreate_resumed Hcomplete_once Hcomplete_none
     Hcomplete_flying Hcomplete_done Habort_once Habort_none Hupload Hsuccess Hcomplete_handed]
    Hupdate.
  pose proof (count_tag_nonneg AWS_S3_AUTO_RANGED_PUT_REQUEST_TAG_PART handed).
  pose proof (count_tag_nonneg AWS_S3_AUTO_RANGED_PUT_REQUEST_TAG_COMPLETE_MULTIPART_UPLOAD
                handed).
  pose proof (count_tag_nonneg AWS_S3_AUTO_RANGED_PUT_REQUEST_TAG_ABORT_MULTIPART_UPLOAD
                handed).
  pose proof (count_tag_nonneg AWS_S3_AUTO_RANGED_PUT_REQUEST_TAG_COMPLETE_MULTIPART_UPLOAD
                flying).
  unfold s_s3_auto_ranged_put_update, has_work_remaining, no_work_remaining,
    aws_s3_meta_request_has_finish_result_synced,
    aws_s3_meta_request_set_success_synced in Hupdate.
  unfold finish_error in *.
  destruct (finish_result (base a)) as [result|] eqn:Hfinish; simpl in Hupdate.
  - clear Hrunning.
    repeat case_match; simplify_eq; bool_hyps.
    all: constructor; unfold finish_error; simpl; rewrite ?Hfinish; counters_field.
  - destruct (Hrunning eq_refl) as [_ _ _ Hknown Hsucceeded].
    repeat case_match; simplify_eq; bool_hyps.
    all: constructor; unfold finish_error; simpl; rewrite ?Hfinish; counters_field.
Qed.

Lemma request_finished_phases_frame a request send_data error_code headers_callback_error
  a' events :
  s_s3_auto_ranged_put_request_finished a request send_data error_code
    headers_callback_error = Some (a', events) ->
  create_multipart_upload_sent (synced_data a') = create_multipart_upload_sent (synced_data a) /\
  complete_multipart_upload_sent (synced_data a')
  = complete_multipart_upload_sent (synced_data a) /\
  abort_multipart_upload_sent (synced_data a') = abort_multipart_upload_sent (synced_data a) /\
  (upload_id a <> None -> upload_id a' <> None) /\
  (request_tag request <> AWS_S3_AUTO_RANGED_PUT_REQUEST_TAG_COMPLETE_MULTIPART_UPLOAD ->
   complete_multipart_upload_completed (synced_data a')
   = complete_multipart_upload_completed (synced_data a) /\
   complete_multipart_upload_error_code (synced_data a')
   = complete_multipart_upload_error_code (synced_data a)).
Proof.
  unfold s_s3_auto_ranged_put_request_finished.
  intros Hfinished. destruct (request_tag request).
  - destruct (is_success error_code) eqn:Hsuccess.
    + destruct (process_parts _ a) as [a1|] eqn:Hparse; [|done].
      apply process_parts_frame in Hparse as (Hb & Hc & Hu & Hl & etags & Hd & Hok).
      unfold fail_if_error, fail_with, aws_s3_meta_request_set_fail_synced in Hfinished.
      repeat case_match; simplify_eq.
      all: simpl; rewrite ?Hd, ?Hb, ?Hu; finished_flags.
    + unfold fail_if_error, fail_with, aws_s3_meta_request_set_fail_synced in Hfinished.
      repeat case_match; simplify_eq. all: finished_flags.
  - unfold fail_if_error, fail_with, aws_s3_meta_request_set_fail_synced in Hfinished.
    repeat case_match; simplify_eq. all: finished_flags.
  - unfold fail_if_error, fail_with, aws_s3_meta_request_set_fail_synced in Hfinished.
    repeat case_match; simplify_eq. all: finished_flags.
  - unfold fail_if_error, fail_with, aws_s3_meta_request_set_fail_synced in Hfinished.
    repeat case_match; simplify_eq. all: finished_flags.
  - simplify_eq. finished_flags.
Qed.

Lemma fail_with_keeps_success send_data e a :
  is_success e = false ->
  finish_error (base (fail_with send_data e a)) = Some AWS_ERROR_SUCCESS ->
  finish_error (base a) = Some AWS_ERROR_SUCCESS.
Proof.
  unfold fail_with, aws_s3_meta_request_set_fail_synced, finish_error. simpl.
  intros He. destruct (finish_result (base a)) eqn:Hfinish; simpl; [by rewrite Hfinish|].
  intros [= ->]. done.
Qed.

Lemma fail_if_error_keeps_success send_data e a :
  finish_error (base (fail_if_error send_data e a)) = Some AWS_ERROR_SUCCESS ->
  finish_error (base a) = Some AWS_ERROR_SUCCESS.
Proof.
  unfold fail_if_error. destruct (is_success e) eqn:He; [done|].
  by apply fail_with_keeps_success.
Qed.

(** The finish hook never sets a finish result of success. *)
Lemma request_finished_keeps_success a request send_data error_code headers_callback_error
  a' events :
  s_s3_auto_ranged_put_request_finished a request send_data error_code
    headers_callback_error = Some (a', events) ->
  finish_error (base a') = Some AWS_ERROR_SUCCESS ->
  finish_error (base a) = Some AWS_ERROR_SUCCESS.
Proof.
  unfold s_s3_auto_ranged_put_request_finished.
  intros Hfinished Hsuccess. destruct (request_tag request).
  - destruct (is_success error_code) eqn:Hcode.
    + destruct (process_parts _ a) as [a1|] eqn:Hparse; [|done].
      apply process_parts_frame in Hparse as (Hb & _).
      repeat case_match; simplify_eq.
      all: apply fail_if_error_keeps_success in Hsuccess; simpl in Hsuccess; congruence.
    + simplify_eq. by apply fail_if_error_keeps_success in Hsuccess.
  - repeat case_match; simplify_eq.
    all: by apply fail_if_error_keeps_success in Hsuccess.
  - repeat case_match; simplify_eq; try done.
    all: apply fail_with_keeps_success in Hsuccess; done.
  - repeat case_match; simplify_eq.
    all: by apply fail_if_error_keeps_success in Hsuccess.
  - by simplify_eq.
Qed.

Lemma request_finished_preserves_phases fresh a flying handed request rest send_data
  error_code headers_callback_error a' events :
  counters_ok fresh (synced_data a) flying ->
  phases_ok fresh a flying handed ->
  remove_first request flying = Some rest ->
  s_s3_auto_ranged_put_request_finished a request send_data error_code
    headers_callback_error = Some (a', events) ->
  phases_ok fresh a' rest handed.
Proof.
  intros Hcounters
    [Hlist_once Hlist_none Hlist_fresh Hcreate_once Hcreate_none Hcreate_resumed
     Hcomplete_once Hcomplete_none Hcomplete_flying Hcomplete_done Habort_once Habort_none
     Hupload Hsuccess Hcomplete_handed]
    Hremove Hfinished.
  pose proof (request_finished_preserves_counters _ _ _ _ _ _ _ _ _ _
                Hcounters Hremove Hfinished) as Hcounters'.
  destruct (request_finished_flags_frame _ _ _ _ _ _ _ Hfinished) as (_ & Hlist_sent & _).
  destruct (request_finished_phases_frame _ _ _ _ _ _ _ Hfinished)
    as (Hcreate_sent & Hcomplete_sent & Habort_sent & Hid & Hcomplete_same).
  destruct (request_finished_frame _ _ _ _ _ _ _ Hfinished) as [Htotal' _].
  pose proof (remove_first_count _ _ _
                AWS_S3_AUTO_RANGED_PUT_REQUEST_TAG_COMPLETE_MULTIPART_UPLOAD Hremove)
    as Hcomplete_count.
  pose proof (remove_first_count _ _ _ AWS_S3_AUTO_RANGED_PUT_REQUEST_TAG_PART Hremove)
    as Hpart_count.
  pose proof (remove_first_count _ _ _ AWS_S3_AUTO_RANGED_PUT_REQUEST_TAG_LIST_PARTS Hremove)
    as Hlist_count.
  pose proof (count_tag_nonneg AWS_S3_AUTO_RANGED_PUT_REQUEST_TAG_COMPLETE_MULTIPART_UPLOAD
                rest).
  pose proof (count_tag_nonneg AWS_S3_AUTO_RANGED_PUT_REQUEST_TAG_PART rest).
  pose proof (count_tag_nonneg AWS_S3_AUTO_RANGED_PUT_REQUEST_TAG_LIST_PARTS rest).
  assert (count_tag AWS_S3_AUTO_RANGED_PUT_REQUEST_TAG_COMPLETE_MULTIPART_UPLOAD rest
          <= count_tag AWS_S3_AUTO_RANGED_PUT_REQUEST_TAG_COMPLETE_MULTIPART_UPLOAD flying)
    as Hrest_le.
  { destruct (bool_decide _) in Hcomplete_count; lia. }
  constructor; rewrite ?Hlist_sent, ?Hcreate_sent, ?Hcomplete_sent, ?Habort_sent; try done.
  - lia.
  - intros Hdone.
    destruct (decide (request_tag request
                      = AWS_S3_AUTO_RANGED_PUT_REQUEST_TAG_COMPLETE_MULTIPART_UPLOAD))
      as [Htag|Htag].
    + rewrite bool_decide_eq_true_2 in Hcomplete_count by done.
      split; [|lia].
      destruct (complete_multipart_upload_sent (synced_data a)) eqn:E; [done|].
      specialize (Hcomplete_none eq_refl). lia.
    + rewrite bool_decide_eq_false_2 in Hcomplete_count by done.
      destruct (Hcomplete_same Htag) as [Hsame _]. rewrite Hsame in Hdone.
      destruct (Hcomplete_done Hdone). split; [done|lia].
  - auto.
  - intros Hsuccess'.
    apply (request_finished_keeps_success _ _ _ _ _ _ _ Hfinished) in Hsuccess'.
    destruct (Hsuccess Hsuccess') as (Hdone & Hcode & Hall).
    destruct (Hcomplete_done Hdone) as [_ Hnone].
    destruct Hcounters as [Htotal Hetags Hcompleted_nonneg Hflight Hsent_le _ _ _ _ _ _ _
                             Hflying Hbefore].
    destruct Hcounters' as [_ _ Hcompleted_nonneg' Hflight' Hsent_le' _ _ _ _ _ _ _ _ _].
    assert (request_tag request
            <> AWS_S3_AUTO_RANGED_PUT_REQUEST_TAG_COMPLETE_MULTIPART_UPLOAD) as Htag.
    { intros Htag. rewrite bool_decide_eq_true_2 in Hcomplete_count by done. lia. }
    destruct (Hcomplete_same Htag) as [-> ->]. split; [done|]. split; [done|].
    destruct (decide (request_tag request = AWS_S3_AUTO_RANGED_PUT_REQUEST_TAG_PART))
      as [Hpart|Hnot_part].
    { rewrite bool_decide_eq_true_2 in Hpart_count by done. lia. }
    destruct (decide (request_tag request = AWS_S3_AUTO_RANGED_PUT_REQUEST_TAG_LIST_PARTS))
      as [Hlist|Hnot_list].
    { rewrite bool_decide_eq_true_2 in Hlist_count by done.
      assert (list_parts_completed (synced_data a) = false) as Hwaiting
        by (apply Hflying; lia).
      destruct (Hbefore Hwaiting). lia. }
    destruct (finished_other_same_parts _ _ _ _ _ _ _ Hnot_list Hnot_part Hfinished)
      as [_ _ _ _ Hcompleted' _ _ _].
    lia.
Qed.

Lemma set_fail_keeps_success m status e :
  e <> AWS_ERROR_SUCCESS ->
  finish_error (aws_s3_meta_request_set_fail_synced m status e) = Some AWS_ERROR_SUCCESS ->
  finish_error m = Some AWS_ERROR_SUCCESS.
Proof.
  unfold aws_s3_meta_request_set_fail_synced, finish_error.
  intros He. destruct (finish_result m) eqn:Hfinish; simpl; [by rewrite Hfinish|].
  intros [= ->]. done.
Qed.

Lemma constructed_not_completed min max client_part_size body_length client_num_parts
  options a :
  aws_s3_meta_request_auto_ranged_put_new min max client_part_size body_length
    client_num_parts options = Some (inr a) ->
  complete_multipart_upload_completed (synced_data a) = false /\
  complete_multipart_upload_sent (synced_data a) = false.
Proof.
  intros Hnew. unfold aws_s3_meta_request_auto_ranged_put_new in Hnew.
  destruct (resume_token options) as [root|] eqn:Htoken.
  - rewrite parse_resume_info_spec in Hnew.
    unfold s_load_persistable_state in Hnew.
    repeat case_match; simplify_eq; done.
  - simpl in Hnew. repeat case_match; simplify_eq; done.
Qed.

Lemma constructed_requests_ok min max client_part_size body_length client_num_parts options a :
  0 <= client_num_parts < UINT32_MODULUS ->
  aws_s3_meta_request_auto_ranged_put_new min max client_part_size body_length
    client_num_parts options = Some (inr a) ->
  total_num_parts (synced_data a) < 2 ^ 31 ->
  requests_ok (is_fresh options) (start a).
Proof.
  intros Hrange Hnew Hfits.
  split; [eapply constructed_upload_ok; eassumption|].
  destruct (constructed_ok _ _ _ _ _ _ _ Hrange Hnew) as (_ & Hfinish & _).
  pose proof (constructed_not_completed _ _ _ _ _ _ _ Hnew) as [Hcompleted Hsent].
  constructor; simpl; try done.
  - by rewrite Hcompleted.
  - unfold finish_error. by rewrite Hfinish.
  - by rewrite Hsent.
Qed.

Lemma step_preserves_requests fresh s act s' :
  requests_ok fresh s -> step s act = Some s' -> requests_ok fresh s'.
Proof.
  intros [Hupload Hphases] Hstep.
  split; [eapply step_preserves_upload; eassumption|].
  destruct Hupload as ([Hcounters _] & _ & Hrunning).
  destruct act as [flags|request send_data error_code headers_callback_error| |];
    simpl in Hstep.
  - destruct (s_s3_auto_ranged_put_update _ _) as [[[work request] a']|] eqn:Hupdate;
      [|done].
    simplify_eq. simpl. eapply update_preserves_phases; eassumption.
  - destruct (remove_first _ _) as [rest|] eqn:Hremove; [|done].
    destruct (s_s3_auto_ranged_put_request_finished _ _ _ _ _) as [[a' events]|]
      eqn:Hfinished; [|done].
    simplify_eq. simpl. eapply request_finished_preserves_phases; eassumption.
  - unfold s_s3_auto_ranged_put_pause in Hstep.
    destruct Hphases. repeat case_match; simplify_eq; simpl.
    all: constructor; simpl; try done; try (intros _; congruence); try (by auto).
    all: intros Hsuccess; by apply set_fail_keeps_success in Hsuccess; auto.
  - simplify_eq. simpl. destruct Hphases. constructor; simpl; try done.
    intros Hsuccess; by apply set_fail_keeps_success in Hsuccess; auto.
Qed.

Lemma run_preserves_requests fresh acts s s' :
  requests_ok fresh s -> run s acts = Some s' -> requests_ok fresh s'.
Proof.
  revert s. induction acts as [|act acts IH]; intros s Hok; simpl.
  - intros [= <-]. done.
  - destruct (step s act) as [s1|] eqn:Hstep; [|done].
    apply IH. eapply step_preserves_requests; eassumption.
Qed.

Lemma reached_requests_ok min max client_part_size body_length client_num_parts options a
  acts s :
  0 <= client_num_parts < UINT32_MODULUS ->
  aws_s3_meta_request_auto_ranged_put_new min max client_part_size body_length
    client_num_parts options = Some (inr a) ->
  total_num_parts (synced_data a) < 2 ^ 31 ->
  run (start a) acts = Some s ->
  requests_ok (is_fresh options) s.
Proof.
  intros Hrange Hnew Hfits Hrun.
  eapply run_preserves_requests; [|exact Hrun].
  eapply constructed_requests_ok; eassumption.
Qed.

(** X6.  Each of the ListParts, CreateMultipartUpload,
    CompleteMultipartUpload and AbortMultipartUpload requests is handed out
    at most once; an upload constructed without a resume token is never
    handed a ListParts request, and a resumed upload never a
    CreateMultipartUpload request. *)
Theorem phase_requests_are_handed_out_once
  (min max client_part_size body_length client_num_parts : Z)
  (options : aws_s3_meta_request_options) (a : aws_s3_auto_ranged_put)
  (acts : list action) (s : driven) :
  0 <= client_num_parts < UINT32_MODULUS ->
  aws_s3_meta_request_auto_ranged_put_new min max client_part_size body_length
    client_num_parts options = Some (inr a) ->
  total_num_parts (synced_data a) < 2 ^ 31 ->
  run (start a) acts = Some s ->
  count_tag AWS_S3_AUTO_RANGED_PUT_REQUEST_TAG_LIST_PARTS (handed_out s) <= 1 /\
  count_tag AWS_S3_AUTO_RANGED_PUT_REQUEST_TAG_CREATE_MULTIPART_UPLOAD (handed_out s) <= 1 /\
  count_tag AWS_S3_AUTO_RANGED_PUT_REQUEST_TAG_COMPLETE_MULTIPART_UPLOAD (handed_out s) <= 1 /\
  count_tag AWS_S3_AUTO_RANGED_PUT_REQUEST_TAG_ABORT_MULTIPART_UPLOAD (handed_out s) <= 1 /\
  (resume_token options = None ->
   count_tag AWS_S3_AUTO_RANGED_PUT_REQUEST_TAG_LIST_PARTS (handed_out s) = 0) /\
  (resume_token options <> None ->
   count_tag AWS_S3_AUTO_RANGED_PUT_REQUEST_TAG_CREATE_MULTIPART_UPLOAD (handed_out s) = 0).
Proof.
  intros Hrange Hnew Hfits Hrun.
  destruct (reached_requests_ok _ _ _ _ _ _ _ _ _ Hrange Hnew Hfits Hrun)
    as [_ [Hlist_once _ Hlist_fresh Hcreate_once _ Hcreate_resumed Hcomplete_once _ _ _
           Habort_once _ _ _ _]].
  repeat split; try done.
  - intros Htoken. apply Hlist_fresh. unfold is_fresh. by rewrite Htoken.
  - intros Htoken. apply Hcreate_resumed. unfold is_fresh.
    by destruct (resume_token options).
Qed.

(** X7.  A request that is prepared with the upload id (a part, the
    CompleteMultipartUpload or the AbortMultipartUpload request) has been
    handed out only with the upload id known, and the upload id stays known
    from then on: the assertions on [upload_id] in the preparation of these
    requests hold. *)
Theorem upload_id_is_known_to_requests_that_need_it
  (min max client_part_size body_length client_num_parts : Z)
  (options : aws_s3_meta_request_options) (a : aws_s3_auto_ranged_put)
  (acts : list action) (s : driven) (r : aws_s3_request) :
  0 <= client_num_parts < UINT32_MODULUS ->
  aws_s3_meta_request_auto_ranged_put_new min max client_part_size body_length
    client_num_parts options = Some (inr a) ->
  total_num_parts (synced_data a) < 2 ^ 31 ->
  run (start a) acts = Some s ->
  In r (handed_out s) ->
  request_tag r = AWS_S3_AUTO_RANGED_PUT_REQUEST_TAG_PART \/
  request_tag r = AWS_S3_AUTO_RANGED_PUT_REQUEST_TAG_COMPLETE_MULTIPART_UPLOAD \/
  request_tag r = AWS_S3_AUTO_RANGED_PUT_REQUEST_TAG_ABORT_MULTIPART_UPLOAD ->
  exists id, upload_id (meta_request s) = Some id.
Proof.
  intros Hrange Hnew Hfits Hrun Hr Htag.
  destruct (reached_requests_ok _ _ _ _ _ _ _ _ _ Hrange Hnew Hfits Hrun)
    as [_ [_ _ _ _ _ _ _ _ _ _ _ _ Hupload _ _]].
  pose proof (count_tag_nonneg AWS_S3_AUTO_RANGED_PUT_REQUEST_TAG_PART (handed_out s)).
  pose proof (count_tag_nonneg AWS_S3_AUTO_RANGED_PUT_REQUEST_TAG_COMPLETE_MULTIPART_UPLOAD
                (handed_out s)).
  pose proof (count_tag_nonneg AWS_S3_AUTO_RANGED_PUT_REQUEST_TAG_ABORT_MULTIPART_UPLOAD
                (handed_out s)).
  assert (0 < count_tag (request_tag r) (handed_out s)) as Hcount.
  { destruct (decide (count_tag (request_tag r) (handed_out s) = 0)) as [Hzero|?].
    - by destruct (count_tag_none _ _ _ Hzero Hr).
    - pose proof (count_tag_nonneg (request_tag r) (handed_out s)). lia. }
  destruct (upload_id (meta_request s)) as [id|] eqn:Hid; [eauto|].
  exfalso. apply Hupload; [|done].
  destruct Htag as [Htag|[Htag|Htag]]; rewrite Htag in Hcount; lia.
Qed.

(** X8.  A finish result of success is set only after the
    CompleteMultipartUpload request has finished without error and with
    every part completed. *)
Theorem success_only_after_complete
  (min max client_part_size body_length client_num_parts : Z)
  (options : aws_s3_meta_request_options) (a : aws_s3_auto_ranged_put)
  (acts : list action) (s : driven) :
  0 <= client_num_parts < UINT32_MODULUS ->
  aws_s3_meta_request_auto_ranged_put_new min max client_part_size body_length
    client_num_parts options = Some (inr a) ->
  total_num_parts (synced_data a) < 2 ^ 31 ->
  run (start a) acts = Some s ->
  finish_error (base (meta_request s)) = Some AWS_ERROR_SUCCESS ->
  complete_multipart_upload_completed (synced_data (meta_request s)) = true /\
  complete_multipart_upload_error_code (synced_data (meta_request s)) = AWS_ERROR_SUCCESS /\
  num_parts_completed (synced_data (meta_request s))
  = total_num_parts (synced_data (meta_request s)) /\
  count_tag AWS_S3_AUTO_RANGED_PUT_REQUEST_TAG_COMPLETE_MULTIPART_UPLOAD (handed_out s) = 1.
Proof.
  intros Hrange Hnew Hfits Hrun Hsuccess.
  destruct (reached_requests_ok _ _ _ _ _ _ _ _ _ Hrange Hnew Hfits Hrun)
    as [_ [_ _ _ _ _ _ Hcomplete_once _ _ Hcomplete_done _ _ _ Hafter Hhanded]].
  destruct (Hafter Hsuccess) as (Hdone & Hcode & Hall).
  destruct (Hcomplete_done Hdone) as [Hsent _]. specialize (Hhanded Hsent).
  repeat split; try done. lia.
Qed.

(** ** Pause, the conservative flag and the ListParts pages *)

Lemma request_finished_keeps_finish a request send_data error_code headers_callback_error
  a' events result :
  s_s3_auto_ranged_put_request_finished a request send_data error_code
    headers_callback_error = Some (a', events) ->
  finish_result (base a) = Some result ->
  finish_result (base a') = Some result.
Proof.
  unfold s_s3_auto_ranged_put_request_finished.
  intros Hfinished Hfinish. destruct (request_tag request).
  - destruct (is_success error_code) eqn:Hsuccess.
    + destruct (process_parts _ a) as [a1|] eqn:Hparse; [|done].
      apply process_parts_frame in Hparse as (Hb & _).
      unfold fail_if_error, fail_with, aws_s3_meta_request_set_fail_synced in Hfinished.
      repeat case_match; simplify_eq; simpl in *; congruence.
    + unfold fail_if_error, fail_with, aws_s3_meta_request_set_fail_synced in Hfinished.
      repeat case_match; simplify_eq; simpl in *; congruence.
  - unfold fail_if_error, fail_with, aws_s3_meta_request_set_fail_synced in Hfinished.
    repeat case_match; simplify_eq; simpl in *; congruence.
  - unfold fail_with, aws_s3_meta_request_set_fail_synced in Hfinished.
    repeat case_match; simplify_eq; simpl in *; congruence.
  - unfold fail_if_error, fail_with, aws_s3_meta_request_set_fail_synced in Hfinished.
    repeat case_match; simplify_eq; simpl in *; congruence.
  - by simplify_eq.
Qed.

Lemma update_keeps_finish a flags work request a' result :
  s_s3_auto_ranged_put_update a flags = Some (work, request, a') ->
  finish_result (base a) = Some result ->
  finish_result (base a') = Some result.
Proof.
  intros Hupdate Hfinish.
  destruct (update_cases _ _ _ _ _ Hupdate)
    as [(Hnone & _)|(_ & _ & _ & Hbase & _)]; [congruence|].
  rewrite Hbase; [done|congruence].
Qed.

Lemma step_keeps_finish s act s' result :
  step s act = Some s' ->
  finish_result (base (meta_request s)) = Some result ->
  finish_result (base (meta_request s')) = Some result.
Proof.
  intros Hstep Hfinish.
  destruct act as [flags|request send_data error_code headers_callback_error| |];
    simpl in Hstep.
  - destruct (s_s3_auto_ranged_put_update _ _) as [[[work request] a']|] eqn:Hupdate;
      [|done].
    simplify_eq. simpl. eapply update_keeps_finish; eassumption.
  - destruct (remove_first _ _) as [rest|]; [|done].
    destruct (s_s3_auto_ranged_put_request_finished _ _ _ _ _) as [[a' events]|]
      eqn:Hfinished; [|done].
    simplify_eq. simpl. eapply request_finished_keeps_finish; eassumption.
  - destruct (s_s3_auto_ranged_put_pause _) as [[token a']|] eqn:Hpause; [|done].
    apply pause_frame in Hpause as (_ & _ & _ & Hbase).
    simplify_eq. simpl. rewrite Hbase.
    rewrite (proj2 (proj2 (set_fail_synced_sets _ _ _))); [done|congruence].
  - simplify_eq. simpl.
    rewrite (proj2 (proj2 (set_fail_synced_sets _ _ _))); [done|congruence].
Qed.

Lemma update_when_paused a flags work request a' result :
  finish_result (base a) = Some result ->
  error_code result = AWS_ERROR_S3_PAUSED \/ error_code result = AWS_ERROR_S3_RESUME_FAILED ->
  s_s3_auto_ranged_put_update a flags = Some (work, request, a') ->
  request = None.
Proof.
  unfold s_s3_auto_ranged_put_update, has_work_remaining, no_work_remaining,
    aws_s3_meta_request_has_finish_result_synced.
  intros Hfinish Hcode Hupdate. rewrite Hfinish in Hupdate. simpl in Hupdate.
  repeat case_match; simplify_eq; try done.
  all: destruct Hcode as [Hcode|Hcode]; rewrite Hcode in *; done.
Qed.

Lemma paused_run_hands_out_nothing acts s s' result :
  finish_result (base (meta_request s)) = Some result ->
  error_code result = AWS_ERROR_S3_PAUSED \/ error_code result = AWS_ERROR_S3_RESUME_FAILED ->
  run s acts = Some s' ->
  handed_out s' = handed_out s /\ finish_result (base (meta_request s')) = Some result.
Proof.
  revert s. induction acts as [|act acts IH]; intros s Hfinish Hcode; simpl.
  - intros [= <-]. done.
  - destruct (step s act) as [s1|] eqn:Hstep; [|done].
    intros Hrun.
    destruct (IH s1 (step_keeps_finish _ _ _ _ Hstep Hfinish) Hcode Hrun) as [-> ->].
    split; [|done].
    destruct act as [flags|request send_data error_code headers_callback_error| |];
      simpl in Hstep.
    + destruct (s_s3_auto_ranged_put_update _ _) as [[[work request] a']|] eqn:Hupdate;
        [|done].
      rewrite (update_when_paused _ _ _ _ _ _ Hfinish Hcode Hupdate) in Hstep.
      simplify_eq. simpl. by rewrite app_nil_r.
    + repeat case_match; by simplify_eq.
    + repeat case_match; by simplify_eq.
    + by simplify_eq.
Qed.

(** X9.  Once [pause] is called on a meta request that has no finish
    result, the finish result is [AWS_ERROR_S3_PAUSED] for good and [update]
    hands out no further request, whatever is called afterwards: the parts
    in flight are waited for, and the multipart upload is not aborted. *)
Theorem paused_upload_sends_nothing_more (s : driven) (acts : list action) (s' : driven) :
  finish_result (base (meta_request s)) = None ->
  run s (call_pause :: acts) = Some s' ->
  finish_error (base (meta_request s')) = Some AWS_ERROR_S3_PAUSED /\
  handed_out s' = handed_out s.
Proof.
  intros Hfinish Hrun. simpl in Hrun.
  destruct (s_s3_auto_ranged_put_pause (meta_request s)) as [[token a1]|] eqn:Hpause; [|done].
  pose proof (pause_frame _ _ _ Hpause) as (_ & _ & _ & Hbase).
  destruct (set_fail_synced_sets (base (meta_request s)) None AWS_ERROR_S3_PAUSED)
    as (_ & Hpaused & _).
  specialize (Hpaused Hfinish). rewrite <- Hbase in Hpaused. unfold finish_error in Hpaused.
  destruct (finish_result (base a1)) as [result|] eqn:Hresult; [|done].
  injection Hpaused as Hcode.
  apply (paused_run_hands_out_nothing _ _ _ result) in Hrun as [Hhanded Hfinish'];
    [|exact Hresult|left; exact Hcode].
  simpl in Hhanded. unfold finish_error. rewrite Hfinish', Hcode. done.
Qed.

Lemma update_conservative fresh a flying flags work request a' :
  counters_ok fresh (synced_data a) flying ->
  Z.land flags AWS_S3_META_REQUEST_UPDATE_FLAG_CONSERVATIVE <> 0 ->
  count_tag AWS_S3_AUTO_RANGED_PUT_REQUEST_TAG_PART flying <= 1 ->
  s_s3_auto_ranged_put_update a flags = Some (work, request, a') ->
  count_tag AWS_S3_AUTO_RANGED_PUT_REQUEST_TAG_PART
    (flying ++ match request with Some r => [r] | None => [] end) <= 1.
Proof.
  intros [Htotal Hetags Hcompleted_nonneg Hflight Hsent_le _ _ _ _ _ _ _ _ _]
    Hflag Hone Hupdate.
  pose proof (count_tag_nonneg AWS_S3_AUTO_RANGED_PUT_REQUEST_TAG_PART flying).
  unfold s_s3_auto_ranged_put_update, has_work_remaining, no_work_remaining in Hupdate.
  repeat case_match; simplify_eq; bool_hyps.
  all: rewrite ?count_tag_snoc, ?app_nil_r; simpl; try lia.
  match goal with
  | H : (_ && _)%bool = false |- _ =>
      apply andb_false_iff in H as [H|H];
      [apply negb_false_iff, Z.eqb_eq in H; done
      |apply Z.ltb_ge in H; rewrite Z.mod_small in H by lia; lia]
  end.
Qed.

Lemma conservative_run fresh acts s s' :
  driven_ok fresh s ->
  forallb is_conservative acts = true ->
  count_tag AWS_S3_AUTO_RANGED_PUT_REQUEST_TAG_PART (in_flight s) <= 1 ->
  run s acts = Some s' ->
  count_tag AWS_S3_AUTO_RANGED_PUT_REQUEST_TAG_PART (in_flight s') <= 1.
Proof.
  revert s. induction acts as [|act acts IH]; intros s Hok Hall Hone; simpl.
  - intros [= <-]. done.
  - destruct (step s act) as [s1|] eqn:Hstep; [|done].
    simpl in Hall. apply andb_true_iff in Hall as [Hact Hall].
    apply IH; [eapply step_preserves; eassumption|done|].
    destruct Hok as [Hcounters _].
    destruct act as [flags|request send_data error_code headers_callback_error| |];
      simpl in Hstep.
    + destruct (s_s3_auto_ranged_put_update _ _) as [[[work request] a']|] eqn:Hupdate;
        [|done].
      simplify_eq. simpl. eapply update_conservative; try eassumption.
      simpl in Hact. apply negb_true_iff, Z.eqb_neq in Hact. done.
    + destruct (remove_first _ _) as [rest|] eqn:Hremove; [|done].
      destruct (s_s3_auto_ranged_put_request_finished _ _ _ _ _) as [[a' events]|]; [|done].
      simplify_eq. simpl.
      pose proof (remove_first_count _ _ _ AWS_S3_AUTO_RANGED_PUT_REQUEST_TAG_PART Hremove).
      destruct (bool_decide _); lia.
    + repeat case_match; by simplify_eq.
    + by simplify_eq.
Qed.

(** X10.  When every [update] is called with the conservative flag, at most
    one part request is in flight at any time. *)
Theorem conservative_updates_send_one_part_at_a_time
  (min max client_part_size body_length client_num_parts : Z)
  (options : aws_s3_meta_request_options) (a : aws_s3_auto_ranged_put)
  (acts : list action) (s : driven) :
  0 <= client_num_parts < UINT32_MODULUS ->
  aws_s3_meta_request_auto_ranged_put_new min max client_part_size body_length
    client_num_parts options = Some (inr a) ->
  forallb is_conservative acts = true ->
  run (start a) acts = Some s ->
  count_tag AWS_S3_AUTO_RANGED_PUT_REQUEST_TAG_PART (in_flight s) <= 1.
Proof.
  intros Hrange Hnew Hall Hrun.
  destruct (constructed_ok _ _ _ _ _ _ _ Hrange Hnew) as [Hstart _].
  eapply conservative_run; [exact Hstart|exact Hall| |exact Hrun].
  simpl. unfold count_tag. simpl. lia.
Qed.

Lemma updates_leave_alone a flagss s :
  (forall flags, s_s3_auto_ranged_put_update a flags = Some (true, None, a)) ->
  meta_request s = a ->
  run s (updates flagss) = Some s.
Proof.
  intros Hwait Ha. induction flagss as [|flags flagss IH]; simpl; [done|].
  rewrite Ha, Hwait. rewrite !app_nil_r. rewrite <- Ha.
  destruct s. simpl in *. exact IH.
Qed.

(** X11.  When a ListParts page comes back in order but with more results
    to come, [list_parts_completed] stays false while [list_parts_sent]
    stays true: as long as no finish result is set, every [update] reports
    work remaining, hands out no request and leaves the state as it is, so
    no request for the next page is ever handed out. *)
Theorem list_parts_next_page_is_not_requested (s : driven)
  (request : aws_s3_request) (send_data : aws_s3_request_send_data)
  (headers_callback_error : aws_error) (s' : driven) (flagss : list Z) :
  request_tag request = AWS_S3_AUTO_RANGED_PUT_REQUEST_TAG_LIST_PARTS ->
  finish_result (base (meta_request s)) = None ->
  list_parts_sent (synced_data (meta_request s)) = true ->
  parse_failed (response_body_list_parts send_data) = false ->
  has_more_results (response_body_list_parts send_data) = true ->
  step s (call_request_finished request send_data AWS_ERROR_SUCCESS headers_callback_error)
  = Some s' ->
  list_parts_completed (synced_data (meta_request s')) = false /\
  list_parts_continuation_token (synced_data (meta_request s'))
  = next_continuation_token (response_body_list_parts send_data) /\
  (forall flags,
     s_s3_auto_ranged_put_update (meta_request s') flags = Some (true, None, meta_request s')) /\
  run s' (updates flagss) = Some s'.
Proof.
  intros Htag Hfinish Hsent Hparsed Hmore Hstep. simpl in Hstep.
  destruct (remove_first _ _) as [rest|]; [|done].
  destruct (s_s3_auto_ranged_put_request_finished _ _ _ _ _) as [[a' events]|]
    eqn:Hfinished; [|done].
  simplify_eq. simpl.
  unfold s_s3_auto_ranged_put_request_finished in Hfinished.
  rewrite Htag in Hfinished. simpl in Hfinished.
  destruct (process_parts _ _) as [a1|] eqn:Hparse; [|done].
  apply process_parts_frame in Hparse as (Hb & Hc & Hu & Hl & etags & Hd & Hok).
  rewrite Hparsed, Hmore in Hfinished. simpl in Hfinished. simplify_eq.
  assert (forall flags,
            s_s3_auto_ranged_put_update
              (synced
                 (fun d =>
                    set_create_multipart_upload_error_code AWS_ERROR_SUCCESS
                      (set_list_parts_completed false d))
                 (synced
                    (set_list_parts_continuation_token
                       (next_continuation_token (response_body_list_parts send_data)))
                    a1)) flags
            = Some (true, None,
                    synced
                      (fun d =>
                         set_create_multipart_upload_error_code AWS_ERROR_SUCCESS
                           (set_list_parts_completed false d))
                      (synced
                         (set_list_parts_continuation_token
                            (next_continuation_token (response_body_list_parts send_data)))
                         a1))) as Hwait.
  { intros flags. unfold s_s3_auto_ranged_put_update, has_work_remaining,
      aws_s3_meta_request_has_finish_result_synced. simpl.
    rewrite Hb, Hfinish, Hd. simpl. rewrite Hsent. simpl. done. }
  simpl. repeat split; try done.
  eapply updates_leave_alone; [exact Hwait|reflexivity].
Qed.

(** ** Pause and resume *)

(** X12.  The token that [pause] writes is accepted by the constructor: for
    an upload whose part size is below [2 ^ 53], so that the double that
    [pause] writes into the token holds it exactly, whose part count is the
    one the content length implies and whose part size and part count are
    within the limits, constructing a meta request for the same content
    length with this token succeeds and takes over the upload id, the part
    size and the part count; the new meta request starts with ListParts. *)
Theorem paused_upload_can_be_resumed (a : aws_s3_auto_ranged_put)
  (token : aws_json_value) (a_paused : aws_s3_auto_ranged_put)
  (min max client_part_size client_num_parts : Z)
  (options : aws_s3_meta_request_options) :
  s_s3_auto_ranged_put_pause a = Some (Some token, a_paused) ->
  0 < part_size (base a) < 2 ^ 53 ->
  0 <= content_length a ->
  0 <= total_num_parts (synced_data a) < UINT32_MODULUS ->
  implied_num_parts (content_length a) (part_size (base a))
  = total_num_parts (synced_data a) ->
  min <= part_size (base a) ->
  total_num_parts (synced_data a) <= max ->
  resume_token options = Some (Some token) ->
  init_base_error options = None ->
  request_path_readable options = true ->
  exists a_resumed,
    aws_s3_meta_request_auto_ranged_put_new min max client_part_size (content_length a)
      client_num_parts options = Some (inr a_resumed) /\
    upload_id a_resumed = upload_id a /\
    part_size (base a_resumed) = part_size (base a) /\
    total_num_parts (synced_data a_resumed) = total_num_parts (synced_data a) /\
    content_length a_resumed = content_length a /\
    list_parts_sent (synced_data a_resumed) = false /\
    create_multipart_upload_completed (synced_data a_resumed) = true /\
    next_part_number a_resumed = 1.
Proof.
  intros Hpause Hsize Hlength Htotal Himplied Hmin Hmax Htoken Hbase Hpath.
  unfold s_s3_auto_ranged_put_pause in Hpause.
  destruct (create_multipart_upload_completed (synced_data a)); [|done].
  destruct (upload_id a) as [id|] eqn:Hid; [|done].
  injection Hpause as <- <-.
  unfold aws_s3_meta_request_auto_ranged_put_new.
  rewrite Htoken, parse_resume_info_spec. cbn [resume_token_fields json_members_get].
  simpl. rewrite double_to_size_t_of_size_t, double_to_uint32_of_uint32 by lia.
  destruct (Z.ltb_spec (part_size (base a)) min); [lia|].
  destruct (Z.gtb_spec (total_num_parts (synced_data a)) max); [lia|].
  rewrite Hbase. unfold s_load_persistable_state.
  rewrite load_num_parts_is_implied by lia.
  rewrite Himplied, Z.eqb_refl, Hpath. simpl.
  eexists. split; [reflexivity|]. simpl. done.
Qed.

(** ** The parts of a ListParts page *)

(** X13.  A listed part whose number lies within the ETag list gets its
    ETag, with the quotes stripped, into the slot of its part number, where
    [aws_array_list_get_at] finds it; the other slots stay as they are. *)
Theorem listed_part_is_recorded (info : aws_s3_part_info)
  (a a' : aws_s3_auto_ranged_put) :
  s_process_part_info info a = Some a' ->
  1 <= part_info_part_number info
  <= Z.of_nat (length (al_data (etag_list (synced_data a)))) ->
  part_info_part_number info <= UINT32_MODULUS ->
  aws_array_list_get_at (etag_list (synced_data a')) (part_info_part_number info - 1)
  = Some (Some (aws_strip_quotes (e_tag info))) /\
  forall j : nat,
    Z.of_nat j <> part_info_part_number info - 1 ->
    al_data (etag_list (synced_data a')) !! j = al_data (etag_list (synced_data a)) !! j.
Proof.
  intros Hinfo Hnumber Hfits. unfold s_process_part_info in Hinfo.
  rewrite decr_u32_small in Hinfo by lia.
  assert (etag_list (synced_data a')
          = aws_array_list_set_at (etag_list (synced_data a))
              (Some (aws_strip_quotes (e_tag info))) (part_info_part_number info - 1))
    as ->.
  { repeat case_match; by simplify_eq. }
  split.
  - unfold aws_array_list_get_at, aws_array_list_set_at, aws_array_list_length.
    destruct (Z.leb_spec 0 (part_info_part_number info - 1)); [|lia].
    destruct (Z.ltb_spec (part_info_part_number info - 1)
                (Z.of_nat (length (al_data (etag_list (synced_data a)))))); [|lia].
    simpl.
    destruct (Z.ltb_spec (part_info_part_number info - 1)
                (Z.of_nat (Nat.max (al_length (etag_list (synced_data a)))
                             (S (Z.to_nat (part_info_part_number info - 1)))))); [|lia].
    apply list_lookup_insert_eq. lia.
  - intros j Hj. apply set_at_other_slot. lia.
Qed.

(** X14.  [s_process_part_info] writes the checksum of a listed part into
    [checksums_list] at the part's index without looking at the length of
    the array: with a checksum algorithm set, it has a defined result
    exactly when the part number lies between 1 and the number of parts.
    With no checksum algorithm it always returns, and a part number
    outside the ETag list leaves the ETag list as it is. *)
Theorem listed_part_number_out_of_range (info : aws_s3_part_info)
  (a : aws_s3_auto_ranged_put) :
  0 <= part_info_part_number info < UINT32_MODULUS ->
  Z.of_nat (length (checksums_list a)) < UINT32_MODULUS ->
  (checksum_algorithm (base a) <> AWS_SCA_NONE ->
   (s_process_part_info info a <> None <->
    1 <= part_info_part_number info <= Z.of_nat (length (checksums_list a)))) /\
  (checksum_algorithm (base a) = AWS_SCA_NONE ->
   exists a',
     s_process_part_info info a = Some a' /\
     (~ 1 <= part_info_part_number info
          <= Z.of_nat (length (al_data (etag_list (synced_data a)))) ->
      Z.of_nat (length (al_data (etag_list (synced_data a)))) < UINT32_MODULUS ->
      a' = a)).
Proof.
  intros Hnumber Hlength. unfold s_process_part_info.
  assert (decr_u32 (part_info_part_number info)
          = if part_info_part_number info =? 0 then UINT32_MODULUS - 1
            else part_info_part_number info - 1) as ->.
  { unfold decr_u32. destruct (Z.eqb_spec (part_info_part_number info) 0) as [->|]; [done|].
    apply Z.mod_small. lia. }
  split.
  - intros Halgorithm.
    destruct (Z.eqb_spec (part_info_part_number info) 0) as [Hzero|Hpositive].
    + destruct (Z.ltb_spec (UINT32_MODULUS - 1) (Z.of_nat (length (checksums_list a))));
        [lia|].
      destruct (checksum_algorithm (base a)); try done; split; try done; lia.
    + destruct (Z.ltb_spec (part_info_part_number info - 1)
                  (Z.of_nat (length (checksums_list a)))).
      * destruct (checksum_algorithm (base a)); try done; split; try done; lia.
      * destruct (checksum_algorithm (base a)); try done; split; try done; lia.
  - intros ->. eexists. split; [reflexivity|].
    intros Houtside Hstorage. unfold synced. simpl.
    assert (aws_array_list_set_at (etag_list (synced_data a))
              (Some (aws_strip_quotes (e_tag info)))
              (if part_info_part_number info =? 0 then UINT32_MODULUS - 1
               else part_info_part_number info - 1)
            = etag_list (synced_data a)) as ->.
    { unfold aws_array_list_set_at.
      destruct (Z.eqb_spec (part_info_part_number info) 0) as [Hzero|Hpositive].
      - destruct (Z.ltb_spec (UINT32_MODULUS - 1)
                    (Z.of_nat (length (al_data (etag_list (synced_data a)))))); [lia|].
        by rewrite andb_false_r.
      - destruct (Z.ltb_spec (part_info_part_number info - 1)
                    (Z.of_nat (length (al_data (etag_list (synced_data a)))))); [lia|].
        by rewrite andb_false_r. }
    by destruct a as [? ? ? ? ? ? []].
Qed.

(** ** Skipping and the sizes of the parts *)

Lemma skip_parts_loop_app (body_stream : Type)
  (read : body_stream -> Z -> option (list Byte.byte * body_stream))
  (checksum : aws_s3_checksum_algorithm -> list Byte.byte -> option (list Byte.byte))
  (count1 count2 : nat) (a : aws_s3_auto_ranged_put) (stream : body_stream) (part_index : Z) :
  skip_parts_loop body_stream read checksum (count1 + count2) a stream part_index
  = match skip_parts_loop body_stream read checksum count1 a stream part_index with
    | skip_ok stream' =>
        skip_parts_loop body_stream read checksum count2 a stream'
          (part_index + Z.of_nat count1)
    | skip_failed e => skip_failed e
    end.
Proof.
  revert stream part_index. induction count1 as [|count1 IH]; intros stream part_index.
  - simpl. by rewrite Z.add_0_r.
  - simpl. destruct (skip_one_part _ _ _ a stream part_index) as [stream'|e]; [|done].
    rewrite IH. replace (part_index + 1 + Z.of_nat count1)
      with (part_index + Z.pos (Pos.of_succ_nat count1)) by lia. done.
Qed.

(** X15.  Skipping the parts up to one part number and then on to a later
    one is the same as skipping to the later one at once: what
    [num_parts_read_from_stream] records lets a later call go on where the
    earlier one stopped. *)
Theorem skipping_goes_on_where_it_stopped (body_stream : Type)
  (read : body_stream -> Z -> option (list Byte.byte * body_stream))
  (checksum : aws_s3_checksum_algorithm -> list Byte.byte -> option (list Byte.byte))
  (a : aws_s3_auto_ranged_put) (stream : body_stream)
  (num_parts_read first_until then_until : Z) :
  0 <= num_parts_read <= first_until ->
  first_until <= then_until ->
  s_skip_parts_from_stream body_stream read checksum a stream num_parts_read then_until
  = match s_skip_parts_from_stream body_stream read checksum a stream num_parts_read
            first_until with
    | skip_ok stream' =>
        s_skip_parts_from_stream body_stream read checksum a stream' first_until then_until
    | skip_failed e => skip_failed e
    end.
Proof.
  intros Hfirst Hthen. unfold s_skip_parts_from_stream.
  destruct (Z.eqb_spec num_parts_read first_until) as [->|Hne1]; [done|].
  destruct (Z.eqb_spec num_parts_read then_until) as [->|Hne2]; [lia|].
  replace (Z.to_nat (then_until - num_parts_read))
    with (Z.to_nat (first_until - num_parts_read) + Z.to_nat (then_until - first_until))%nat
    by lia.
  rewrite skip_parts_loop_app.
  destruct (skip_parts_loop _ _ _ _ a stream num_parts_read) as [stream'|e]; [|done].
  rewrite Z2Nat.id by lia.
  replace (num_parts_read + (first_until - num_parts_read)) with first_until by lia.
  destruct (Z.eqb_spec first_until then_until) as [->|Hne3]; [|done].
  by rewrite Z.sub_diag.
Qed.

Lemma sum_of_equal_sizes (f : Z -> Z) (size first : Z) (count : nat) :
  (forall n, first <= n < first + Z.of_nat count -> f n = size) ->
  foldr Z.add 0 (map f (seqZ first (Z.of_nat count))) = Z.of_nat count * size.
Proof.
  revert first. induction count as [|count IH]; intros first Hsize; [done|].
  rewrite Nat2Z.inj_succ, seqZ_cons by lia. simpl.
  rewrite Hsize by lia.
  replace (Z.pred (Z.succ (Z.of_nat count))) with (Z.of_nat count) by lia.
  rewrite IH; [lia|]. intros n Hn. apply Hsize. lia.
Qed.

(** X16.  When the part count is the one the content length implies, every
    part has a size between 1 and the part size, and the sizes of parts 1
    to [total_num_parts] add up to the content length. *)
Theorem part_sizes_cover_the_content (a : aws_s3_auto_ranged_put) :
  0 < part_size (base a) ->
  0 < content_length a ->
  total_num_parts (synced_data a) = implied_num_parts (content_length a) (part_size (base a)) ->
  (forall n, 0 < s_compute_request_body_size a n <= part_size (base a)) /\
  foldr Z.add 0
    (map (s_compute_request_body_size a) (seqZ 1 (total_num_parts (synced_data a))))
  = content_length a.
Proof.
  intros Hsize Hlength Htotal.
  pose proof (Z.mod_pos_bound (content_length a) (part_size (base a)) Hsize) as Hrem.
  split.
  - intros n. unfold s_compute_request_body_size.
    destruct (n =? _); [|lia].
    destruct (Z.ltb_spec 0 (content_length a mod part_size (base a))); lia.
  - pose proof (part_sizes_add_up a Hsize Hlength Htotal) as Hsum.
    assert (1 <= total_num_parts (synced_data a)) as Hsome.
    { rewrite Htotal. unfold implied_num_parts.
      pose proof (Z.div_mod (content_length a) (part_size (base a)) ltac:(lia)).
      assert (0 <= content_length a / part_size (base a)) by (apply Z.div_pos; lia).
      destruct (Z.eqb_spec (content_length a mod part_size (base a)) 0); [|lia].
      destruct (decide (content_length a / part_size (base a) = 0)) as [Hzero|?]; [|lia].
      rewrite Hzero in *. lia. }
    replace (total_num_parts (synced_data a))
      with (Z.of_nat (Z.to_nat (total_num_parts (synced_data a) - 1)) + 1) at 1 by lia.
    rewrite seqZ_app by lia. rewrite List.map_app, foldr_app. simpl.
    rewrite Z.add_0_r.
    replace (1 + Z.of_nat (Z.to_nat (total_num_parts (synced_data a) - 1)))
      with (total_num_parts (synced_data a)) by lia.
    assert (forall (l : list Z) (x : Z), foldr Z.add x l = foldr Z.add 0 l + x) as Hshift.
    { induction l as [|y l IH]; intros x; simpl; [lia|]. rewrite IH. lia. }
    rewrite Hshift.
    rewrite (sum_of_equal_sizes _ (part_size (base a))).
    + rewrite Z2Nat.id by lia. change (Z.of_nat 0) with 0. rewrite Z.add_0_l. exact Hsum.
    + intros n Hn. unfold s_compute_request_body_size.
      destruct (Z.eqb_spec n (total_num_parts (synced_data a))); [lia|done].
Qed.

(** ** The first request *)

Lemma constructed_flags min max client_part_size body_length client_num_parts options a :
  aws_s3_meta_request_auto_ranged_put_new min max client_part_size body_length
    client_num_parts options = Some (inr a) ->
  finish_result (base a) = None /\ next_part_number a = 1 /\
  list_parts_sent (synced_data a) = is_fresh options /\
  list_parts_completed (synced_data a) = is_fresh options /\
  create_multipart_upload_sent (synced_data a) = negb (is_fresh options).
Proof.
  intros Hnew. unfold aws_s3_meta_request_auto_ranged_put_new in Hnew.
  unfold is_fresh.
  destruct (resume_token options) as [root|] eqn:Htoken.
  - rewrite parse_resume_info_spec in Hnew.
    unfold s_load_persistable_state in Hnew.
    repeat case_match; simplify_eq; done.
  - simpl in Hnew. repeat case_match; simplify_eq; done.
Qed.

(** X17.  The first [update] after construction reports work remaining and
    hands out the CreateMultipartUpload request when there is no resume
    token, and the ListParts request when there is one. *)
Theorem first_request_after_construction
  (min max client_part_size body_length client_num_parts : Z)
  (options : aws_s3_meta_request_options) (a : aws_s3_auto_ranged_put) (flags : Z) :
  aws_s3_meta_request_auto_ranged_put_new min max client_part_size body_length
    client_num_parts options = Some (inr a) ->
  exists a',
    s_s3_auto_ranged_put_update a flags
    = Some (true,
            Some (if is_fresh options then create_multipart_upload_request
                  else list_parts_request),
            a') /\
    (if is_fresh options
     then create_multipart_upload_sent (synced_data a') = true
     else list_parts_sent (synced_data a') = true) /\
    upload_id a' = upload_id a /\ next_part_number a' = 1.
Proof.
  intros Hnew.
  destruct (constructed_flags _ _ _ _ _ _ _ Hnew)
    as (Hfinish & Hnext & Hlist_sent & Hlisted & Hcreate_sent).
  unfold s_s3_auto_ranged_put_update, has_work_remaining,
    aws_s3_meta_request_has_finish_result_synced.
  rewrite Hfinish, Hlist_sent, Hlisted, Hcreate_sent.
  destruct (is_fresh options); simpl.
  - eexists. split; [reflexivity|]. done.
  - eexists. split; [reflexivity|]. done.
Qed.

(** ** Preparing requests *)

Lemma skip_parts_loop_memory
  (checksum : aws_s3_checksum_algorithm -> list Byte.byte -> option (list Byte.byte))
  (count : nat) (a : aws_s3_auto_ranged_put) (stream : list Byte.byte) (part_index : Z)
  (stream' : list Byte.byte) :
  part_index + Z.of_nat count < total_num_parts (synced_data a) ->
  skip_parts_loop (list Byte.byte) memory_stream_read checksum count a stream part_index
  = skip_ok stream' ->
  stream' = drop (count * Z.to_nat (part_size (base a))) stream.
Proof.
  revert stream part_index. induction count as [|count IH]; intros stream part_index Hlast;
    simpl.
  - by intros [= <-].
  - unfold skip_one_part, memory_stream_read. simpl.
    assert (s_compute_request_body_size a (part_index + 1) = part_size (base a)) as ->.
    { unfold s_compute_request_body_size.
      destruct (Z.eqb_spec (part_index + 1) (total_num_parts (synced_data a))); [lia|done]. }
    intros Hskip.
    assert (skip_parts_loop (list Byte.byte) memory_stream_read checksum count a
              (drop (Z.to_nat (part_size (base a))) stream) (part_index + 1)
            = skip_ok stream') as Hrest.
    { repeat case_match; simplify_eq; done. }
    apply IH in Hrest; [|lia]. rewrite Hrest, drop_drop. f_equal; lia.
Qed.

(** X18.  With the body held in memory and the stream standing behind the
    parts read so far, the first preparation of a part request that
    succeeds puts into the request body the bytes of the part's own range,
    [(part_number - 1) * part_size] bytes into the body and as long as the
    part, whichever earlier parts had to be skipped; the stream is left
    behind the part and [num_parts_read_from_stream] is the part number. *)
Theorem part_request_carries_its_byte_range (content : list Byte.byte)
  (checksum : aws_s3_checksum_algorithm -> list Byte.byte -> option (list Byte.byte))
  (aws_http_message : Type) (excluded excluded_with_checksum : list string)
  (construct_next : option string -> option aws_http_message)
  (copy_headers : list string -> aws_http_message -> aws_http_message)
  (create_message : aws_s3_checksum_algorithm -> option aws_http_message)
  (upload_part_message :
     list Byte.byte -> Z -> option string -> aws_s3_checksum_algorithm -> list Byte.byte ->
     option aws_http_message * list Byte.byte)
  (complete_message :
     string -> aws_array_list -> list (list Byte.byte) -> aws_s3_checksum_algorithm ->
     option aws_http_message * list Byte.byte)
  (abort_message : string -> option aws_http_message)
  (a : aws_s3_auto_ranged_put) (request : aws_s3_request) (request_body : list Byte.byte)
  (a' : aws_s3_auto_ranged_put) (stream' body' : list Byte.byte)
  (message : aws_http_message) :
  request_tag request = AWS_S3_AUTO_RANGED_PUT_REQUEST_TAG_PART ->
  0 <= part_size (base a) ->
  total_num_parts (synced_data a) < UINT32_MODULUS ->
  1 <= part_number request <= total_num_parts (synced_data a) ->
  0 <= num_parts_read_from_stream a < part_number request ->
  s_s3_auto_ranged_put_prepare_request (list Byte.byte) memory_stream_read checksum
    aws_http_message excluded excluded_with_checksum construct_next copy_headers
    create_message upload_part_message complete_message abort_message
    a (drop (Z.to_nat (num_parts_read_from_stream a * part_size (base a))) content)
    request 0 request_body
  = Some (prepare_ok a' stream' body' message) ->
  body'
  = take (Z.to_nat (s_compute_request_body_size a (part_number request)))
      (drop (Z.to_nat ((part_number request - 1) * part_size (base a))) content) /\
  stream'
  = drop (Z.to_nat ((part_number request - 1) * part_size (base a)
                    + s_compute_request_body_size a (part_number request))) content /\
  num_parts_read_from_stream a' = part_number request.
Proof.
  intros Htag Hsize Hfits Hnumber Hread Hprepare.
  unfold s_s3_auto_ranged_put_prepare_request in Hprepare.
  rewrite Htag in Hprepare. simpl in Hprepare.
  rewrite decr_u32_small in Hprepare by (unfold UINT32_MODULUS in *; lia).
  assert (0 <= s_compute_request_body_size a (part_number request)) as Hbody_size.
  { unfold s_compute_request_body_size.
    destruct (_ =? _); [|done].
    destruct (Z.ltb_spec 0 (content_length a mod part_size (base a))); lia. }
  destruct (s_skip_parts_from_stream _ _ _ _ _ _ _) as [skipped|e] eqn:Hskip; [|done].
  assert (skipped = drop (Z.to_nat ((part_number request - 1) * part_size (base a))) content)
    as ->.
  { unfold s_skip_parts_from_stream in Hskip.
    destruct (Z.eqb_spec (num_parts_read_from_stream a) (part_number request - 1))
      as [Heq|Hne].
    - injection Hskip as <-. by rewrite Heq.
    - apply skip_parts_loop_memory in Hskip; [|lia].
      rewrite Hskip, drop_drop. f_equal.
      rewrite <- Z2Nat.inj_mul by lia. rewrite <- Z2Nat.inj_add by nia.
      f_equal. ring. }
  unfold memory_stream_read in Hprepare. simpl in Hprepare.
  rewrite incr_u32_small in Hprepare by (unfold UINT32_MODULUS in *; lia).
  destruct (checksums_list a !! _) as [encoded|]; [|done].
  destruct (upload_part_message _ _ _ _ _) as [[built|] output]; [|done].
  simpl in Hprepare. injection Hprepare as <- <- <- <-. simpl.
  split; [done|]. split; [|lia].
  assert (0 <= (part_number request - 1) * part_size (base a)) by nia.
  rewrite drop_drop. f_equal. lia.
Qed.

(** X19.  A preparation that is not the first for its request
    ([num_times_prepared] is not 0) does not read from the body stream and
    leaves [num_parts_read_from_stream] as it is; a part request keeps its
    request body. *)
Theorem later_preparation_does_not_read (body_stream : Type)
  (read : body_stream -> Z -> option (list Byte.byte * body_stream))
  (checksum : aws_s3_checksum_algorithm -> list Byte.byte -> option (list Byte.byte))
  (aws_http_message : Type) (excluded excluded_with_checksum : list string)
  (construct_next : option string -> option aws_http_message)
  (copy_headers : list string -> aws_http_message -> aws_http_message)
  (create_message : aws_s3_checksum_algorithm -> option aws_http_message)
  (upload_part_message :
     list Byte.byte -> Z -> option string -> aws_s3_checksum_algorithm -> list Byte.byte ->
     option aws_http_message * list Byte.byte)
  (complete_message :
     string -> aws_array_list -> list (list Byte.byte) -> aws_s3_checksum_algorithm ->
     option aws_http_message * list Byte.byte)
  (abort_message : string -> option aws_http_message)
  (a : aws_s3_auto_ranged_put) (stream : body_stream) (request : aws_s3_request)
  (num_times_prepared : Z) (request_body : list Byte.byte)
  (result : prepare_result body_stream aws_http_message) :
  num_times_prepared <> 0 ->
  s_s3_auto_ranged_put_prepare_request body_stream read checksum
    aws_http_message excluded excluded_with_checksum construct_next copy_headers
    create_message upload_part_message complete_message abort_message
    a stream request num_times_prepared request_body
  = Some result ->
  match result with
  | prepare_ok a' stream' body' _ =>
      stream' = stream /\
      num_parts_read_from_stream a' = num_parts_read_from_stream a /\
      (request_tag request = AWS_S3_AUTO_RANGED_PUT_REQUEST_TAG_PART -> body' = request_body)
  | prepare_err a' stream' body' _ =>
      stream' = Some stream /\
      num_parts_read_from_stream a' = num_parts_read_from_stream a /\
      (request_tag request = AWS_S3_AUTO_RANGED_PUT_REQUEST_TAG_PART ->
       body' = Some request_body)
  end.
Proof.
  intros Hagain Hprepare.
  unfold s_s3_auto_ranged_put_prepare_request, message_created in Hprepare.
  destruct (Z.eqb_spec num_times_prepared 0); [done|].
  destruct (request_tag request); repeat case_match; simplify_eq; done.
Qed.

(** X20.  For a meta request with a positive part size (the size of the
    last part is a remainder of a division by it), every request that
    [update] has handed out can be prepared, whatever the stream and however
    often it has been prepared before: the part number of a part request is
    that of a buffer of [checksums_list], and the upload id is there for the
    requests whose preparation asserts it. *)
Theorem handed_out_request_can_be_prepared
  (min max client_part_size body_length client_num_parts : Z)
  (options : aws_s3_meta_request_options) (a : aws_s3_auto_ranged_put)
  (acts : list action) (s : driven) (r : aws_s3_request)
  (body_stream : Type)
  (read : body_stream -> Z -> option (list Byte.byte * body_stream))
  (checksum : aws_s3_checksum_algorithm -> list Byte.byte -> option (list Byte.byte))
  (aws_http_message : Type) (excluded excluded_with_checksum : list string)
  (construct_next : option string -> option aws_http_message)
  (copy_headers : list string -> aws_http_message -> aws_http_message)
  (create_message : aws_s3_checksum_algorithm -> option aws_http_message)
  (upload_part_message :
     list Byte.byte -> Z -> option string -> aws_s3_checksum_algorithm -> list Byte.byte ->
     option aws_http_message * list Byte.byte)
  (complete_message :
     string -> aws_array_list -> list (list Byte.byte) -> aws_s3_checksum_algorithm ->
     option aws_http_message * list Byte.byte)
  (abort_message : string -> option aws_http_message)
  (stream : body_stream) (num_times_prepared : Z) (request_body : list Byte.byte) :
  0 <= client_num_parts < UINT32_MODULUS ->
  aws_s3_meta_request_auto_ranged_put_new min max client_part_size body_length
    client_num_parts options = Some (inr a) ->
  0 < part_size (base a) ->
  total_num_parts (synced_data a) < 2 ^ 31 ->
  run (start a) acts = Some s ->
  In r (handed_out s) ->
  exists result,
    s_s3_auto_ranged_put_prepare_request body_stream read checksum
      aws_http_message excluded excluded_with_checksum construct_next copy_headers
      create_message upload_part_message complete_message abort_message
      (meta_request s) stream r num_times_prepared request_body
    = Some result.
Proof.
  intros Hrange Hnew Hsize Hfits Hrun Hr.
  destruct (reached_requests_ok _ _ _ _ _ _ _ _ _ Hrange Hnew Hfits Hrun)
    as [([[Htotal _ _ _ _ _ _ _ _ _ _ _ _ _] Hchecksums]
         & [Hint Hnext Hbelow _ _ _ _ _] & _)
        [_ _ _ _ _ _ _ _ _ _ _ _ Hupload _ _]].
  pose proof (count_tag_nonneg AWS_S3_AUTO_RANGED_PUT_REQUEST_TAG_PART (handed_out s)).
  pose proof (count_tag_nonneg AWS_S3_AUTO_RANGED_PUT_REQUEST_TAG_COMPLETE_MULTIPART_UPLOAD
                (handed_out s)).
  pose proof (count_tag_nonneg AWS_S3_AUTO_RANGED_PUT_REQUEST_TAG_ABORT_MULTIPART_UPLOAD
                (handed_out s)).
  assert (0 < count_tag (request_tag r) (handed_out s)) as Hcount.
  { destruct (decide (count_tag (request_tag r) (handed_out s) = 0)) as [Hzero|?].
    - by destruct (count_tag_none _ _ _ Hzero Hr).
    - pose proof (count_tag_nonneg (request_tag r) (handed_out s)). lia. }
  unfold s_s3_auto_ranged_put_prepare_request.
  destruct (request_tag r) eqn:Htag.
  - destruct (construct_next _); eauto.
  - eauto.
  - specialize (Hbelow r Hr Htag).
    rewrite decr_u32_small by (unfold UINT32_MODULUS in *; lia).
    assert (forall a', length (checksums_list a') = length (checksums_list (meta_request s)) ->
              exists encoded, checksums_list a' !! Z.to_nat (part_number r - 1) = Some encoded)
      as Hbuffer.
    { intros a' Hlength. apply lookup_lt_is_Some_2. lia. }
    destruct (num_times_prepared =? 0).
    + destruct (s_skip_parts_from_stream _ _ _ _ _ _ _); [|eauto].
      destruct (read _ _) as [[body stream']|]; [|eauto]. simpl.
      destruct (Hbuffer (meta_request s) eq_refl) as [encoded ->].
      destruct (upload_part_message _ _ _ _ _). eauto.
    + destruct (Hbuffer (meta_request s) eq_refl) as [encoded ->].
      destruct (upload_part_message _ _ _ _ _). eauto.
  - destruct (upload_id (meta_request s)) as [id|] eqn:Hid; [|destruct Hupload; [lia|done]].
    destruct (num_times_prepared =? 0).
    + destruct (s_skip_parts_from_stream _ _ _ _ _ _ _); [|eauto]. simpl. rewrite Hid.
      destruct (complete_message _ _ _ _). eauto.
    + rewrite Hid. destruct (complete_message _ _ _ _). eauto.
  - destruct (upload_id (meta_request s)) as [id|] eqn:Hid; [|destruct Hupload; [lia|done]].
    eauto.
Qed.

(** X27.  The first preparation of a part request or of the
    CompleteMultipartUpload request skips the parts that have not been read
    yet.  For a positive part size and parts that have their buffers in
    [checksums_list], when these parts can be read, the checksum function
    yields a checksum for each part that is verified and one of the parts
    has a stored checksum that the checksum of its bytes differs from (the
    algorithm not being [AWS_SCA_NONE]), the preparation fails with
    [AWS_ERROR_S3_RESUMED_PART_CHECKSUM_MISMATCH]: no message is built, the
    request body is kept and [num_parts_read_from_stream] stays as it is. *)
Theorem preparation_fails_on_checksum_mismatch (body_stream : Type)
  (read : body_stream -> Z -> option (list Byte.byte * body_stream))
  (checksum : aws_s3_checksum_algorithm -> list Byte.byte -> option (list Byte.byte))
  (aws_http_message : Type) (excluded excluded_with_checksum : list string)
  (construct_next : option string -> option aws_http_message)
  (copy_headers : list string -> aws_http_message -> aws_http_message)
  (create_message : aws_s3_checksum_algorithm -> option aws_http_message)
  (upload_part_message :
     list Byte.byte -> Z -> option string -> aws_s3_checksum_algorithm -> list Byte.byte ->
     option aws_http_message * list Byte.byte)
  (complete_message :
     string -> aws_array_list -> list (list Byte.byte) -> aws_s3_checksum_algorithm ->
     option aws_http_message * list Byte.byte)
  (abort_message : string -> option aws_http_message)
  (a : aws_s3_auto_ranged_put) (stream stream_end : body_stream) (request : aws_s3_request)
  (request_body : list Byte.byte) (skip_until : Z) (parts : list (list Byte.byte))
  (k : nat) (part sum : list Byte.byte) :
  (request_tag request = AWS_S3_AUTO_RANGED_PUT_REQUEST_TAG_PART /\
   skip_until = decr_u32 (part_number request)) \/
  (request_tag request = AWS_S3_AUTO_RANGED_PUT_REQUEST_TAG_COMPLETE_MULTIPART_UPLOAD /\
   skip_until = total_num_parts (synced_data a)) ->
  0 < part_size (base a) ->
  0 <= num_parts_read_from_stream a <= skip_until ->
  skip_until <= Z.of_nat (length (checksums_list a)) ->
  read_parts read a (Z.to_nat (skip_until - num_parts_read_from_stream a)) stream
    (num_parts_read_from_stream a)
  = Some (parts, stream_end) ->
  (forall (j : nat) (read_part : list Byte.byte),
      parts !! j = Some read_part ->
      checksum_algorithm (base a) <> AWS_SCA_NONE ->
      stored_checksum a (num_parts_read_from_stream a + Z.of_nat j) <> [] ->
      is_Some (checksum (checksum_algorithm (base a)) read_part)) ->
  parts !! k = Some part ->
  checksum_algorithm (base a) <> AWS_SCA_NONE ->
  stored_checksum a (num_parts_read_from_stream a + Z.of_nat k) <> [] ->
  checksum (checksum_algorithm (base a)) part = Some sum ->
  sum <> stored_checksum a (num_parts_read_from_stream a + Z.of_nat k) ->
  s_s3_auto_ranged_put_prepare_request body_stream read checksum
    aws_http_message excluded excluded_with_checksum construct_next copy_headers
    create_message upload_part_message complete_message abort_message
    a stream request 0 request_body
  = Some (prepare_err a None (Some request_body)
            (Some AWS_ERROR_S3_RESUMED_PART_CHECKSUM_MISMATCH)).
Proof.
  intros Htag Hsize Hrange Hbuffers Hread Hcompute Hk Halgorithm Hstored Hsum Hne.
  assert (s_skip_parts_from_stream body_stream read checksum a stream
            (num_parts_read_from_stream a) skip_until
          = skip_failed (Some AWS_ERROR_S3_RESUMED_PART_CHECKSUM_MISMATCH)) as Hskip.
  { unfold s_skip_parts_from_stream.
    destruct (Z.eqb_spec (num_parts_read_from_stream a) skip_until) as [Heq|_].
    - rewrite <- Heq, Z.sub_diag in Hread. simpl in Hread. injection Hread as <- <-.
      by rewrite lookup_nil in Hk.
    - destruct (skip_parts_loop_checks body_stream read checksum a _ _ _ _ _ Hread Hcompute)
        as [(Hloop & _)|(_ & Hall)]; [done|].
      rewrite (Hall k part Hk Halgorithm Hstored) in Hsum. by injection Hsum as <-. }
  unfold s_s3_auto_ranged_put_prepare_request.
  destruct Htag as [[Htag ->]|[Htag ->]]; rewrite Htag; simpl; by rewrite Hskip.
Qed.

(** ** The persisted part count *)

(** X21.  [s_load_persistable_state] computes the part count that the
    content length implies on [uint32_t]: the token's [total_num_parts] is
    compared with the implied part count modulo [2 ^ 32].  The state is
    loaded exactly when the two agree modulo [2 ^ 32] and the request path
    can be read; otherwise the error is [AWS_ERROR_INVALID_ARGUMENT]. *)
Theorem persisted_part_count_is_compared_modulo_2_32
  (options : aws_s3_meta_request_options) (a : aws_s3_auto_ranged_put)
  (body_length : Z) (id : option string) (partition_size token_num_parts : Z) :
  0 <= body_length ->
  0 < partition_size ->
  0 <= token_num_parts < UINT32_MODULUS ->
  (token_num_parts = implied_num_parts body_length partition_size mod UINT32_MODULUS /\
   request_path_readable options = true ->
   exists a',
     s_load_persistable_state options a body_length id partition_size token_num_parts
     = inr a' /\
     upload_id a' = id /\
     create_multipart_upload_completed (synced_data a') = true) /\
  (~ (token_num_parts = implied_num_parts body_length partition_size mod UINT32_MODULUS /\
      request_path_readable options = true) ->
   s_load_persistable_state options a body_length id partition_size token_num_parts
   = inl AWS_ERROR_INVALID_ARGUMENT).
Proof.
  intros Hlength Hsize Htoken. unfold s_load_persistable_state.
  assert ((if body_length mod partition_size >? 0
           then incr_u32 ((body_length / partition_size) mod UINT32_MODULUS)
           else (body_length / partition_size) mod UINT32_MODULUS)
          = implied_num_parts body_length partition_size mod UINT32_MODULUS) as ->.
  { unfold implied_num_parts, incr_u32.
    pose proof (Z.mod_pos_bound body_length partition_size Hsize) as Hrem.
    destruct (Z.eqb_spec (body_length mod partition_size) 0) as [Hzero|Hnonzero].
    - rewrite Hzero. simpl. by rewrite Z.add_0_r.
    - destruct (Z.gtb_spec (body_length mod partition_size) 0); [|lia].
      apply Zplus_mod_idemp_l. }
  split.
  - intros [-> ->]. rewrite Z.eqb_refl. simpl. eexists. split; [reflexivity|]. done.
  - intros Hrefused.
    destruct (Z.eqb_spec token_num_parts
                (implied_num_parts body_length partition_size mod UINT32_MODULUS));
      simpl; [|done].
    destruct (request_path_readable options); simpl; [|done].
    by destruct Hrefused.
Qed.

(** ** The finish hook on the requests in flight *)

Lemma update_preserves_headers fresh a flying handed flags work request a' :
  counters_ok fresh (synced_data a) flying ->
  phases_ok fresh a flying handed ->
  headers_ok a flying handed ->
  s_s3_auto_ranged_put_update a flags = Some (work, request, a') ->
  headers_ok a' (flying ++ match request with Some r => [r] | None => [] end)
    (handed ++ match request with Some r => [r] | None => [] end).
Proof.
  intros [Htotal Hetags Hcompleted_nonneg Hflight Hsent_le Hsuccessful Hfailed
          Houtcomes Hfresh Hresumed_created Honce Hunsent Hflying Hbefore]
    [Hlist_once Hlist_none Hlist_fresh Hcreate_once Hcreate_none Hcreate_resumed
     Hcomplete_once Hcomplete_none Hcomplete_flying Hcomplete_done Habort_once Habort_none
     Hupload Hsuccess Hcomplete_handed]
    [Hcreate_flying Hcreate_done Hneeded Hrunning]
    Hupdate.
  pose proof (count_tag_nonneg AWS_S3_AUTO_RANGED_PUT_REQUEST_TAG_CREATE_MULTIPART_UPLOAD
                flying).
  pose proof (count_tag_nonneg AWS_S3_AUTO_RANGED_PUT_REQUEST_TAG_COMPLETE_MULTIPART_UPLOAD
                handed).
  unfold s_s3_auto_ranged_put_update, has_work_remaining, no_work_remaining,
    aws_s3_meta_request_has_finish_result_synced,
    aws_s3_meta_request_set_success_synced in Hupdate.
  clear Hsuccess.
  destruct (finish_result (base a)) as [result|] eqn:Hfinish; simpl in Hupdate.
  - repeat case_match; simplify_eq; bool_hyps.
    all: constructor; simpl; rewrite ?Hfinish; counters_field.
  - repeat case_match; simplify_eq; bool_hyps.
    all: constructor; simpl; rewrite ?Hfinish; counters_field.
Qed.

Lemma request_finished_headers_frame a request send_data error_code headers_callback_error
  a' events :
  s_s3_auto_ranged_put_request_finished a request send_data error_code
    headers_callback_error = Some (a', events) ->
  (request_tag request <> AWS_S3_AUTO_RANGED_PUT_REQUEST_TAG_CREATE_MULTIPART_UPLOAD ->
   needed_response_headers (synced_data a') = needed_response_headers (synced_data a) /\
   create_multipart_upload_completed (synced_data a')
   = create_multipart_upload_completed (synced_data a)) /\
  (request_tag request = AWS_S3_AUTO_RANGED_PUT_REQUEST_TAG_CREATE_MULTIPART_UPLOAD ->
   create_multipart_upload_completed (synced_data a') = true /\
   (finish_result (base a') = None -> needed_response_headers (synced_data a') <> None)).
Proof.
  unfold s_s3_auto_ranged_put_request_finished.
  intros Hfinished. destruct (request_tag request).
  - destruct (is_success error_code) eqn:Hsuccess.
    + destruct (process_parts _ a) as [a1|] eqn:Hparse; [|done].
      apply process_parts_frame in Hparse as (Hb & Hc & Hu & Hl & etags & Hd & Hok).
      unfold fail_if_error, fail_with, aws_s3_meta_request_set_fail_synced in Hfinished.
      repeat case_match; simplify_eq.
      all: simpl; rewrite ?Hd, ?Hb, ?Hu; finished_flags.
    + unfold fail_if_error, fail_with, aws_s3_meta_request_set_fail_synced in Hfinished.
      repeat case_match; simplify_eq. all: finished_flags.
  - unfold fail_if_error, fail_with, aws_s3_meta_request_set_fail_synced in Hfinished.
    repeat case_match; simplify_eq. all: finished_flags.
  - unfold fail_if_error, fail_with, aws_s3_meta_request_set_fail_synced in Hfinished.
    repeat case_match; simplify_eq. all: finished_flags.
  - unfold fail_if_error, fail_with, aws_s3_meta_request_set_fail_synced in Hfinished.
    repeat case_match; simplify_eq. all: finished_flags.
  - simplify_eq. finished_flags.
Qed.

Lemma request_finished_preserves_headers fresh a flying handed request rest send_data
  error_code headers_callback_error a' events :
  phases_ok fresh a flying handed ->
  headers_ok a flying handed ->
  remove_first request flying = Some rest ->
  s_s3_auto_ranged_put_request_finished a request send_data error_code
    headers_callback_error = Some (a', events) ->
  headers_ok a' rest handed.
Proof.
  intros [_ _ _ Hcreate_once Hcreate_none _ _ _ _ _ _ _ _ _ _]
    [Hcreate_flying Hcreate_done Hneeded Hrunning] Hremove Hfinished.
  destruct (request_finished_flags_frame _ _ _ _ _ _ _ Hfinished) as (_ & _ & Hknown).
  destruct (request_finished_phases_frame _ _ _ _ _ _ _ Hfinished)
    as (Hcreate_sent & _ & _ & _ & _).
  destruct (request_finished_headers_frame _ _ _ _ _ _ _ Hfinished) as [Hother Hcreate].
  pose proof (remove_first_count _ _ _
                AWS_S3_AUTO_RANGED_PUT_REQUEST_TAG_CREATE_MULTIPART_UPLOAD Hremove)
    as Hcount.
  pose proof (count_tag_nonneg AWS_S3_AUTO_RANGED_PUT_REQUEST_TAG_CREATE_MULTIPART_UPLOAD
                rest).
  destruct (decide (request_tag request
                    = AWS_S3_AUTO_RANGED_PUT_REQUEST_TAG_CREATE_MULTIPART_UPLOAD))
    as [Htag|Htag].
  - rewrite bool_decide_eq_true_2 in Hcount by done.
    destruct (Hcreate Htag) as [Hdone Hheaders].
    assert (create_multipart_upload_completed (synced_data a) = false) as Hnot_done.
    { destruct (create_multipart_upload_completed (synced_data a)) eqn:E; [|done].
      destruct (Hcreate_done eq_refl). lia. }
    constructor; rewrite ?Hcreate_sent.
    + lia.
    + intros _. split; [|lia].
      destruct (create_multipart_upload_sent (synced_data a)) eqn:E; [done|].
      specialize (Hcreate_none eq_refl). lia.
    + intros Hcomplete. destruct (Hneeded Hcomplete). congruence.
    + intros Hfinish' _. by apply Hheaders.
  - rewrite bool_decide_eq_false_2 in Hcount by done.
    destruct (Hother Htag) as [Hneeded_same Hdone_same].
    constructor; rewrite ?Hcreate_sent, ?Hneeded_same, ?Hdone_same.
    + lia.
    + intros Hdone. destruct (Hcreate_done Hdone). split; [done|lia].
    + done.
    + intros Hfinish'. destruct (Hknown Hfinish') as (Hfinish & _). by apply Hrunning.
Qed.

Lemma constructed_finishing_ok min max client_part_size body_length client_num_parts options a :
  0 <= client_num_parts < UINT32_MODULUS ->
  aws_s3_meta_request_auto_ranged_put_new min max client_part_size body_length
    client_num_parts options = Some (inr a) ->
  total_num_parts (synced_data a) < 2 ^ 31 ->
  finishing_ok (is_fresh options) (start a).
Proof.
  intros Hrange Hnew Hfits.
  split; [eapply constructed_requests_ok; eassumption|].
  assert (create_multipart_upload_completed (synced_data a) = true ->
          create_multipart_upload_sent (synced_data a) = true /\
          needed_response_headers (synced_data a) <> None) as Hloaded.
  { unfold aws_s3_meta_request_auto_ranged_put_new in Hnew.
    destruct (resume_token options) as [root|] eqn:Htoken.
    - rewrite parse_resume_info_spec in Hnew.
      unfold s_load_persistable_state in Hnew.
      repeat case_match; simplify_eq; done.
    - simpl in Hnew. repeat case_match; simplify_eq; done. }
  constructor; simpl; try done.
  - intros Hdone. by destruct (Hloaded Hdone).
  - intros _ Hdone. by destruct (Hloaded Hdone).
Qed.

Lemma step_preserves_finishing fresh s act s' :
  finishing_ok fresh s -> step s act = Some s' -> finishing_ok fresh s'.
Proof.
  intros [Hrequests Hheaders] Hstep.
  split; [eapply step_preserves_requests; eassumption|].
  destruct Hrequests as [([Hcounters _] & _ & _) Hphases].
  destruct act as [flags|request send_data error_code headers_callback_error| |];
    simpl in Hstep.
  - destruct (s_s3_auto_ranged_put_update _ _) as [[[work request] a']|] eqn:Hupdate;
      [|done].
    simplify_eq. simpl. eapply update_preserves_headers; eassumption.
  - destruct (remove_first _ _) as [rest|] eqn:Hremove; [|done].
    destruct (s_s3_auto_ranged_put_request_finished _ _ _ _ _) as [[a' events]|]
      eqn:Hfinished; [|done].
    simplify_eq. simpl. eapply request_finished_preserves_headers; eassumption.
  - destruct (s_s3_auto_ranged_put_pause _) as [[token a']|] eqn:Hpause; [|done].
    apply pause_frame in Hpause as (Hd & _ & _ & Hb). simplify_eq. simpl.
    destruct Hheaders as [Hcreate_flying Hcreate_done Hneeded Hrunning].
    constructor; rewrite ?Hd, ?Hb; try done.
    intros Hnone; by apply set_fail_synced_sets in Hnone.
  - simplify_eq. simpl. destruct Hheaders. constructor; simpl; try done.
    intros Hnone; by apply set_fail_synced_sets in Hnone.
Qed.

Lemma run_preserves_finishing fresh acts s s' :
  finishing_ok fresh s -> run s acts = Some s' -> finishing_ok fresh s'.
Proof.
  revert s. induction acts as [|act acts IH]; intros s Hok; simpl.
  - intros [= <-]. done.
  - destruct (step s act) as [s1|] eqn:Hstep; [|done].
    apply IH. eapply step_preserves_finishing; eassumption.
Qed.

(** X22.  For every request in flight the finish hook has a defined
    result: the fatal assertion on the part number of a part request holds,
    and the response headers kept at the creation are there when the
    CompleteMultipartUpload request finishes.  (The parts of a ListParts
    page are taken to have part numbers between 1 and
    [total_num_parts].) *)
Theorem finish_hook_is_defined_for_requests_in_flight
  (min max client_part_size body_length client_num_parts : Z)
  (options : aws_s3_meta_request_options) (a : aws_s3_auto_ranged_put)
  (acts : list action) (s : driven) (r : aws_s3_request)
  (send_data : aws_s3_request_send_data) (error_code headers_callback_error : aws_error) :
  0 <= client_num_parts < UINT32_MODULUS ->
  aws_s3_meta_request_auto_ranged_put_new min max client_part_size body_length
    client_num_parts options = Some (inr a) ->
  total_num_parts (synced_data a) < 2 ^ 31 ->
  run (start a) acts = Some s ->
  In r (in_flight s) ->
  (forall info, In info (parts (response_body_list_parts send_data)) ->
     1 <= part_info_part_number info <= total_num_parts (synced_data (meta_request s))) ->
  exists a' events,
    s_s3_auto_ranged_put_request_finished (meta_request s) r send_data error_code
      headers_callback_error = Some (a', events).
Proof.
  intros Hrange Hnew Hfits Hrun Hr Hparts.
  pose proof (constructed_finishing_ok _ _ _ _ _ _ _ Hrange Hnew Hfits) as Hstart.
  destruct (run_preserves_finishing _ _ _ _ Hstart Hrun)
    as [[([[Htotal _ _ _ _ _ _ _ _ _ _ _ _ _] Hchecksums]
          & [_ _ Hbelow _ Hhanded _ _ _] & _) _]
        [_ _ Hneeded _]].
  unfold s_s3_auto_ranged_put_request_finished.
  destruct (request_tag r) eqn:Htag.
  - destruct (process_parts_defined (parts (response_body_list_parts send_data))
                (meta_request s)) as [a1 ->].
    { rewrite Hchecksums. lia. }
    { intros info Hinfo. rewrite Hchecksums. by apply Hparts. }
    destruct (is_success error_code); repeat case_match; simplify_eq; eauto.
  - repeat case_match; simplify_eq; eauto.
  - specialize (Hbelow r (Hhanded r Hr) Htag).
    destruct (Z.ltb_spec 0 (part_number r)); [|lia]. simpl.
    repeat case_match; simplify_eq; eauto.
  - assert (0 < count_tag AWS_S3_AUTO_RANGED_PUT_REQUEST_TAG_COMPLETE_MULTIPART_UPLOAD
                  (handed_out s)) as Hcount.
    { pose proof (count_tag_nonneg
                    AWS_S3_AUTO_RANGED_PUT_REQUEST_TAG_COMPLETE_MULTIPART_UPLOAD
                    (handed_out s)).
      destruct (decide (count_tag
                          AWS_S3_AUTO_RANGED_PUT_REQUEST_TAG_COMPLETE_MULTIPART_UPLOAD
                          (handed_out s) = 0)) as [Hzero|?]; [|lia].
      by destruct (count_tag_none _ _ _ Hzero (Hhanded r Hr)). }
    destruct (Hneeded Hcount) as [Hheaders _].
    destruct (needed_response_headers (synced_data (meta_request s))); [|done].
    repeat case_match; simplify_eq; eauto.
  - eauto.
Qed.

(** ** The callbacks *)

Lemma reported_bytes_app events1 events2 :
  reported_bytes (events1 ++ events2) = reported_bytes events1 + reported_bytes events2.
Proof.
  induction events1 as [|event events1 IH]; simpl; [done|].
  destruct event; simpl; lia.
Qed.

Lemma headers_calls_app events1 events2 :
  headers_calls (events1 ++ events2) = headers_calls events1 + headers_calls events2.
Proof.
  induction events1 as [|event events1 IH]; simpl; [done|].
  destruct event; simpl; lia.
Qed.

Lemma update_callbacks_frame a flags work request a' :
  s_s3_auto_ranged_put_update a flags = Some (work, request, a') ->
  part_size (base a') = part_size (base a) /\
  progress_callback (base a') = progress_callback (base a) /\
  headers_callback (base a') = headers_callback (base a) /\
  num_parts_successful (synced_data a') = num_parts_successful (synced_data a).
Proof.
  unfold s_s3_auto_ranged_put_update, has_work_remaining, no_work_remaining,
    aws_s3_meta_request_set_success_synced.
  intros Hupdate. repeat case_match; simplify_eq; done.
Qed.

Ltac callbacks_flags :=
  simpl; rewrite ?count_resumed_parts_spec; simpl;
  repeat split; try done; try congruence;
  try (left; split; [done|]; split; [done|]; congruence);
  try (left; split; [done|]; congruence);
  try (left; done).

(** What the finish hook reports: the part size for a part that succeeded,
    where there is a progress callback, and the headers at most once. *)
Lemma request_finished_reports a request send_data error_code headers_callback_error
  a' events :
  s_s3_auto_ranged_put_request_finished a request send_data error_code
    headers_callback_error = Some (a', events) ->
  part_size (base a') = part_size (base a) /\
  progress_callback (base a') = progress_callback (base a) /\
  (num_parts_successful (synced_data a') = num_parts_successful (synced_data a) /\
   reported_bytes events = 0 \/
   request_tag request = AWS_S3_AUTO_RANGED_PUT_REQUEST_TAG_PART /\
   num_parts_successful (synced_data a') = incr_u32 (num_parts_successful (synced_data a)) /\
   reported_bytes events = if progress_callback (base a) then part_size (base a) else 0) /\
  (headers_calls events = 0 /\
   (headers_callback (base a) = false -> headers_callback (base a') = false) \/
   headers_calls events = 1 /\ headers_callback (base a) = true /\
   headers_callback (base a') = false).
Proof.
  unfold s_s3_auto_ranged_put_request_finished.
  intros Hfinished. destruct (request_tag request) eqn:Htag.
  - destruct (is_success error_code) eqn:Hsuccess.
    + destruct (process_parts _ a) as [a1|] eqn:Hparse; [|done].
      apply process_parts_frame in Hparse as (Hb & Hc & Hu & Hl & etags & Hd & Hok).
      unfold fail_if_error, fail_with, aws_s3_meta_request_set_fail_synced in Hfinished.
      repeat case_match; simplify_eq.
      all: simpl; rewrite ?Hd, ?Hb, ?Hu; callbacks_flags.
    + unfold fail_if_error, fail_with, aws_s3_meta_request_set_fail_synced in Hfinished.
      repeat case_match; simplify_eq. all: callbacks_flags.
  - unfold fail_if_error, fail_with, aws_s3_meta_request_set_fail_synced in Hfinished.
    repeat case_match; simplify_eq. all: callbacks_flags.
  - unfold fail_if_error, fail_with, aws_s3_meta_request_set_fail_synced in Hfinished.
    repeat case_match; simplify_eq; bool_hyps. all: callbacks_flags.
    all: try (right; repeat split; try done;
              repeat match goal with H : _ = _ |- _ => rewrite H end; simpl; lia).
    all: try (left; simpl; split; [done|]; done).
  - unfold fail_if_error, fail_with, aws_s3_meta_request_set_fail_synced in Hfinished.
    repeat case_match; simplify_eq; bool_hyps. all: callbacks_flags.
    all: try (right; done).
  - simplify_eq. callbacks_flags.
Qed.

Lemma step_preserves_callbacks fresh a0 s act s' :
  driven_ok fresh s -> callbacks_ok a0 s -> step s act = Some s' -> callbacks_ok a0 s'.
Proof.
  intros [Hcounters _] [Hsize Hprogress Hreported Hheaders Hcleared] Hstep.
  destruct act as [flags|request send_data error_code headers_callback_error| |];
    simpl in Hstep.
  - destruct (s_s3_auto_ranged_put_update _ _) as [[[work request] a']|] eqn:Hupdate;
      [|done].
    apply update_callbacks_frame in Hupdate as (Hs & Hp & Hh & Hn).
    simplify_eq. constructor; simpl; rewrite ?Hs, ?Hp, ?Hh, ?Hn; done.
  - destruct (remove_first _ _) as [rest|] eqn:Hremove; [|done].
    destruct (s_s3_auto_ranged_put_request_finished _ _ _ _ _) as [[a' events]|]
      eqn:Hfinished; [|done].
    apply request_finished_reports in Hfinished as (Hs & Hp & Hbytes & Hcalls).
    pose proof (remove_first_count _ _ _ AWS_S3_AUTO_RANGED_PUT_REQUEST_TAG_PART Hremove)
      as Hparts.
    pose proof (count_tag_nonneg AWS_S3_AUTO_RANGED_PUT_REQUEST_TAG_PART rest).
    destruct Hcounters as [Htotal _ _ Hflight Hsent_le Hsuccessful Hfailed Houtcomes
                             _ _ _ _ _ _].
    simplify_eq. constructor; simpl;
      rewrite ?Hs, ?Hp, ?reported_bytes_app, ?headers_calls_app; try done.
    + destruct Hbytes as [[-> ->]|(Htag & -> & ->)]; [lia|].
      rewrite bool_decide_eq_true_2 in Hparts by done.
      rewrite incr_u32_small by lia.
      rewrite Hreported, Hprogress, Hsize.
      destruct (progress_callback (base a0)); lia.
    + destruct Hcalls as [[-> _]|(-> & Hset & _)]; [lia|].
      destruct (decide (0 < headers_calls (callbacks s))) as [Hcalled|?]; [|lia].
      specialize (Hcleared Hcalled). congruence.
    + destruct Hcalls as [[-> Hkeep]|(_ & _ & ->)]; [|done].
      intros Hcalled. apply Hkeep, Hcleared. lia.
  - destruct (s_s3_auto_ranged_put_pause _) as [[token a']|] eqn:Hpause; [|done].
    apply pause_frame in Hpause as (Hd & _ & _ & Hb). simplify_eq.
    constructor; simpl; rewrite ?Hd, ?Hb; try done.
    all: unfold aws_s3_meta_request_set_fail_synced;
      destruct (finish_result (base (meta_request s))); simpl; done.
  - simplify_eq. constructor; simpl; try done.
    all: unfold aws_s3_meta_request_set_fail_synced;
      destruct (finish_result (base (meta_request s))); simpl; done.
Qed.

Lemma run_preserves_callbacks fresh a0 acts s s' :
  driven_ok fresh s -> callbacks_ok a0 s -> run s acts = Some s' -> callbacks_ok a0 s'.
Proof.
  revert s. induction acts as [|act acts IH]; intros s Hok Hcallbacks; simpl.
  - intros [= <-]. done.
  - destruct (step s act) as [s1|] eqn:Hstep; [|done].
    apply IH; [eapply step_preserves; eassumption|].
    eapply step_preserves_callbacks; eassumption.
Qed.

(** X23.  The progress callback is called once for each part that succeeds
    and reports [part_size] each time, so the bytes reported add up to
    [num_parts_successful * part_size]; the headers callback is called at
    most once. *)
Theorem progress_reports_add_up_to_successful_parts
  (min max client_part_size body_length client_num_parts : Z)
  (options : aws_s3_meta_request_options) (a : aws_s3_auto_ranged_put)
  (acts : list action) (s : driven) :
  0 <= client_num_parts < UINT32_MODULUS ->
  aws_s3_meta_request_auto_ranged_put_new min max client_part_size body_length
    client_num_parts options = Some (inr a) ->
  run (start a) acts = Some s ->
  reported_bytes (callbacks s)
  = (if progress_callback (base a)
     then num_parts_successful (synced_data (meta_request s)) else 0)
    * part_size (base a) /\
  0 <= headers_calls (callbacks s) <= 1.
Proof.
  intros Hrange Hnew Hrun.
  destruct (constructed_ok _ _ _ _ _ _ _ Hrange Hnew) as (Hstart & _).
  assert (num_parts_successful (synced_data a) = 0) as Hzero.
  { unfold aws_s3_meta_request_auto_ranged_put_new in Hnew.
    destruct (resume_token options) as [root|] eqn:Htoken.
    - rewrite parse_resume_info_spec in Hnew.
      unfold s_load_persistable_state in Hnew.
      repeat case_match; simplify_eq; done.
    - simpl in Hnew. repeat case_match; simplify_eq; done. }
  assert (callbacks_ok a (start a)) as Hcallbacks.
  { constructor; simpl; try done; try lia.
    rewrite Hzero. by destruct (progress_callback (base a)). }
  destruct (run_preserves_callbacks _ _ _ _ _ Hstart Hcallbacks Hrun)
    as [_ _ Hreported Hheaders _].
  done.
Qed.

(** ** The end of the body and a failed ListParts *)

(** X24.  With the body held in memory and the stream standing behind the
    parts read so far, the first preparation of the CompleteMultipartUpload
    request that succeeds has read the body to its end, skipping the parts
    that were uploaded before the resume, the last one included, and sets
    [num_parts_read_from_stream] to [total_num_parts]. *)
Theorem complete_preparation_reads_to_the_end (content : list Byte.byte)
  (checksum : aws_s3_checksum_algorithm -> list Byte.byte -> option (list Byte.byte))
  (aws_http_message : Type) (excluded excluded_with_checksum : list string)
  (construct_next : option string -> option aws_http_message)
  (copy_headers : list string -> aws_http_message -> aws_http_message)
  (create_message : aws_s3_checksum_algorithm -> option aws_http_message)
  (upload_part_message :
     list Byte.byte -> Z -> option string -> aws_s3_checksum_algorithm -> list Byte.byte ->
     option aws_http_message * list Byte.byte)
  (complete_message :
     string -> aws_array_list -> list (list Byte.byte) -> aws_s3_checksum_algorithm ->
     option aws_http_message * list Byte.byte)
  (abort_message : string -> option aws_http_message)
  (a : aws_s3_auto_ranged_put) (request : aws_s3_request) (request_body : list Byte.byte)
  (a' : aws_s3_auto_ranged_put) (stream' body' : list Byte.byte)
  (message : aws_http_message) :
  request_tag request = AWS_S3_AUTO_RANGED_PUT_REQUEST_TAG_COMPLETE_MULTIPART_UPLOAD ->
  0 < part_size (base a) ->
  0 < content_length a ->
  total_num_parts (synced_data a) = implied_num_parts (content_length a) (part_size (base a)) ->
  Z.of_nat (length content) = content_length a ->
  0 <= num_parts_read_from_stream a <= total_num_parts (synced_data a) ->
  s_s3_auto_ranged_put_prepare_request (list Byte.byte) memory_stream_read checksum
    aws_http_message excluded excluded_with_checksum construct_next copy_headers
    create_message upload_part_message complete_message abort_message
    a (drop (Z.to_nat (num_parts_read_from_stream a * part_size (base a))) content)
    request 0 request_body
  = Some (prepare_ok a' stream' body' message) ->
  stream' = [] /\
  num_parts_read_from_stream a' = total_num_parts (synced_data a).
Proof.
  intros Htag Hsize Hlength Htotal Hcontent Hread Hprepare.
  pose proof (part_sizes_add_up a Hsize Hlength Htotal) as Hsum.
  assert (0 < s_compute_request_body_size a (total_num_parts (synced_data a))
          <= part_size (base a)) as Hlast.
  { unfold s_compute_request_body_size. rewrite Z.eqb_refl.
    pose proof (Z.mod_pos_bound (content_length a) (part_size (base a)) Hsize).
    destruct (Z.ltb_spec 0 (content_length a mod part_size (base a))); lia. }
  unfold s_s3_auto_ranged_put_prepare_request in Hprepare.
  rewrite Htag in Hprepare. simpl in Hprepare.
  destruct (s_skip_parts_from_stream _ _ _ _ _ _ _) as [skipped|e] eqn:Hskip; [|done].
  assert (skipped = []) as ->.
  { destruct (decide (num_parts_read_from_stream a = total_num_parts (synced_data a)))
      as [Hall|Hsome].
    - unfold s_skip_parts_from_stream in Hskip.
      rewrite Hall, Z.eqb_refl in Hskip. injection Hskip as <-.
      apply drop_ge. nia.
    - rewrite (skipping_goes_on_where_it_stopped _ _ _ _ _ _
                 (total_num_parts (synced_data a) - 1)) in Hskip by lia.
      destruct (s_skip_parts_from_stream _ _ _ _ _ _ (total_num_parts (synced_data a) - 1))
        as [before_last|e] eqn:Hfirst; [|done].
      assert (before_last
              = drop (Z.to_nat ((total_num_parts (synced_data a) - 1) * part_size (base a)))
                  content) as ->.
      { unfold s_skip_parts_from_stream in Hfirst.
        destruct (Z.eqb_spec (num_parts_read_from_stream a)
                    (total_num_parts (synced_data a) - 1)) as [Heq|Hne].
        - injection Hfirst as <-. by rewrite Heq.
        - apply skip_parts_loop_memory in Hfirst; [|lia].
          rewrite Hfirst, drop_drop. f_equal.
          rewrite <- Z2Nat.inj_mul by lia. rewrite <- Z2Nat.inj_add by nia.
          f_equal. ring. }
      unfold s_skip_parts_from_stream in Hskip.
      destruct (Z.eqb_spec (total_num_parts (synced_data a) - 1)
                  (total_num_parts (synced_data a))); [lia|].
      replace (Z.to_nat (total_num_parts (synced_data a)
                         - (total_num_parts (synced_data a) - 1))) with 1%nat in Hskip by lia.
      simpl in Hskip. unfold skip_one_part, memory_stream_read in Hskip.
      replace (total_num_parts (synced_data a) - 1 + 1)
        with (total_num_parts (synced_data a)) in Hskip by lia.
      assert (skipped
              = drop (Z.to_nat (s_compute_request_body_size a
                                  (total_num_parts (synced_data a))))
                  (drop (Z.to_nat ((total_num_parts (synced_data a) - 1)
                                   * part_size (base a))) content)) as ->.
      { repeat case_match; by simplify_eq. }
      rewrite drop_drop. apply drop_ge.
      assert (0 <= (total_num_parts (synced_data a) - 1) * part_size (base a)) by nia.
      lia. }
  destruct (upload_id _) as [id|]; [|done].
  destruct (complete_message _ _ _ _) as [[built|] output]; [|done].
  simpl in Hprepare. injection Hprepare as <- <- <- <-. done.
Qed.

Lemma resumed_construction min max client_part_size body_length client_num_parts options a :
  aws_s3_meta_request_auto_ranged_put_new min max client_part_size body_length
    client_num_parts options = Some (inr a) ->
  resume_token options <> None ->
  (exists id, upload_id a = Some id) /\
  create_multipart_upload_completed (synced_data a) = true /\
  num_parts_sent (synced_data a) = 0 /\ num_parts_completed (synced_data a) = 0 /\
  complete_multipart_upload_sent (synced_data a) = false /\
  complete_multipart_upload_completed (synced_data a) = false /\
  abort_multipart_upload_sent (synced_data a) = false.
Proof.
  intros Hnew Htoken. unfold aws_s3_meta_request_auto_ranged_put_new in Hnew.
  destruct (resume_token options) as [root|] eqn:Hroot; [|done].
  rewrite parse_resume_info_spec in Hnew.
  unfold s_load_persistable_state in Hnew.
  repeat case_match; simplify_eq; simpl; eauto 10.
Qed.

(** X25.  When the ListParts request of a resumed upload finishes with an
    error (other than a pause or a failed resume), the error becomes the
    finish result, and the next [update] hands out the
    AbortMultipartUpload request for the upload id of the token: the
    multipart upload that was to be resumed is aborted. *)
Theorem failed_list_parts_aborts_the_resumed_upload
  (min max client_part_size body_length client_num_parts : Z)
  (options : aws_s3_meta_request_options) (a : aws_s3_auto_ranged_put)
  (flags flags' : Z) (send_data : aws_s3_request_send_data)
  (error_code headers_callback_error : aws_error) :
  aws_s3_meta_request_auto_ranged_put_new min max client_part_size body_length
    client_num_parts options = Some (inr a) ->
  resume_token options <> None ->
  is_success error_code = false ->
  error_code <> AWS_ERROR_S3_PAUSED ->
  error_code <> AWS_ERROR_S3_RESUME_FAILED ->
  exists s a',
    run (start a)
      [call_update flags;
       call_request_finished list_parts_request send_data error_code headers_callback_error]
    = Some s /\
    finish_error (base (meta_request s)) = Some error_code /\
    upload_id (meta_request s) = upload_id a /\
    s_s3_auto_ranged_put_update (meta_request s) flags' = Some (true, Some abort_request, a').
Proof.
  intros Hnew Htoken Hfailed Hpaused Hresume.
  destruct (constructed_flags _ _ _ _ _ _ _ Hnew)
    as (Hfinish & Hnext & Hlist_sent & Hlisted & Hcreate_sent).
  destruct (resumed_construction _ _ _ _ _ _ _ Hnew Htoken)
    as ([id Hid] & Hcreated & Hsent & Hcompleted & Hcomplete_sent & Hcomplete_done
        & Habort_sent).
  assert (is_fresh options = false) as Hresumed.
  { unfold is_fresh. by destruct (resume_token options). }
  rewrite Hresumed in *. simpl in Hcreate_sent.
  assert (s_s3_auto_ranged_put_update a flags
          = Some (true, Some list_parts_request, synced (set_list_parts_sent true) a))
    as Hfirst.
  { unfold s_s3_auto_ranged_put_update, has_work_remaining,
      aws_s3_meta_request_has_finish_result_synced.
    by rewrite Hfinish, Hlist_sent. }
  simpl. rewrite Hfirst. simpl.
  unfold s_s3_auto_ranged_put_request_finished. simpl. rewrite Hfailed.
  unfold fail_if_error, fail_with. rewrite Hfailed.
  unfold aws_s3_meta_request_set_fail_synced. simpl. rewrite Hfinish.
  eexists _, _. split; [reflexivity|]. simpl.
  split; [done|]. split; [done|].
  unfold s_s3_auto_ranged_put_update, has_work_remaining,
    aws_s3_meta_request_has_finish_result_synced. simpl.
  rewrite Hcreate_sent, Hcreated, Hsent, Hcompleted, Hcomplete_sent, Hcomplete_done,
    Habort_sent, Hid. simpl.
  rewrite bool_decide_eq_false_2 by done. rewrite bool_decide_eq_false_2 by done.
  simpl. reflexivity.
Qed.

Lemma update_when_finished a flags work request a' :
  finish_result (base a) <> None ->
  s_s3_auto_ranged_put_update a flags = Some (work, request, a') ->
  request = None \/ request = Some abort_request.
Proof.
  unfold s_s3_auto_ranged_put_update, has_work_remaining, no_work_remaining,
    aws_s3_meta_request_has_finish_result_synced.
  intros Hfinish Hupdate.
  destruct (finish_result (base a)) as [result|]; [|done]. simpl in Hupdate.
  repeat case_match; simplify_eq; auto.
Qed.

(** X26.  Once a finish result is set, whatever is called afterwards, the
    only request that [update] still hands out is the AbortMultipartUpload
    request: no further part and no CompleteMultipartUpload request is sent
    for a meta request that has failed, was cancelled or was paused. *)
Theorem finished_upload_only_sends_abort (s : driven) (acts : list action) (s' : driven) :
  finish_result (base (meta_request s)) <> None ->
  run s acts = Some s' ->
  finish_result (base (meta_request s')) = finish_result (base (meta_request s)) /\
  exists new,
    handed_out s' = handed_out s ++ new /\
    forall r, In r new -> r = abort_request.
Proof.
  revert s. induction acts as [|act acts IH]; intros s Hfinish; simpl.
  - intros [= <-]. split; [done|]. exists []. by rewrite app_nil_r.
  - destruct (step s act) as [s1|] eqn:Hstep; [|done].
    intros Hrun.
    destruct (finish_result (base (meta_request s))) as [result|] eqn:Hresult; [|done].
    pose proof (step_keeps_finish _ _ _ _ Hstep Hresult) as Hkept.
    destruct (IH s1) as (Hsame & new & Hhanded & Honly); [congruence|done|].
    split; [congruence|].
    destruct act as [flags|request send_data error_code headers_callback_error| |];
      simpl in Hstep.
    + destruct (s_s3_auto_ranged_put_update _ _) as [[[work request] a']|] eqn:Hupdate;
        [|done].
      assert (finish_result (base (meta_request s)) <> None) as Hset by congruence.
      destruct (update_when_finished _ _ _ _ _ Hset Hupdate) as [->| ->].
      * simplify_eq. simpl in Hhanded. rewrite app_nil_r in Hhanded. eauto.
      * simplify_eq. simpl in Hhanded. exists (abort_request :: new).
        split; [by rewrite Hhanded, <- app_assoc|].
        intros r [<-|Hr]; auto.
    + repeat case_match; simplify_eq; simpl in *; eauto.
    + repeat case_match; simplify_eq; simpl in *; eauto.
    + simplify_eq; simpl in *; eauto.
Qed.

(** ** Further concrete runs *)

(** X1 on the resumed put once the ListParts page has reported part 1: the
    scan steps over part 1 and [update] hands out part 2. *)
Lemma update_assertion_holds_witness :
  exists a s,
    sample_resumed_put = Some (inr a) /\
    run (start a) sample_resumed_calls = Some s /\
    exists work request a',
      s_s3_auto_ranged_put_update (meta_request s) 0 = Some (work, request, a').
Proof.
  eexists _, _. split; [vm_compute; reflexivity|]. split; [vm_compute; reflexivity|].
  eapply (update_assertion_holds sample_min_upload_part_size sample_max_num_upload_parts
            (8 * MiB) (25 * MiB) 4 (sample_options (Some (Some sample_token)) AWS_SCA_NONE)
            _ sample_resumed_calls _ 0).
  - unfold UINT32_MODULUS. lia.
  - vm_compute. reflexivity.
  - vm_compute. reflexivity.
  - vm_compute. reflexivity.
Defined.

(** X2 on the fresh put with all four parts handed out. *)
Lemma part_numbers_handed_out_in_order_witness :
  exists a s,
    sample_fresh_put = Some (inr a) /\
    run (start a) sample_all_parts_calls = Some s /\
    part_numbers (handed_out s) = [1; 2; 3; 4] /\
    increasing (part_numbers (handed_out s)) /\
    forall r, In r (handed_out s) ->
      request_tag r = AWS_S3_AUTO_RANGED_PUT_REQUEST_TAG_PART ->
      1 <= part_number r <= total_num_parts (synced_data (meta_request s)).
Proof.
  eexists _, _. split; [vm_compute; reflexivity|]. split; [vm_compute; reflexivity|].
  split; [vm_compute; reflexivity|].
  eapply (part_numbers_handed_out_in_order sample_min_upload_part_size
            sample_max_num_upload_parts (8 * MiB) (25 * MiB) 4
            (sample_options None AWS_SCA_NONE) _ sample_all_parts_calls _).
  - unfold UINT32_MODULUS. lia.
  - vm_compute. reflexivity.
  - vm_compute. reflexivity.
  - vm_compute. reflexivity.
Defined.

(** X3 on the resumed put once the ListParts page has reported part 1:
    part 2 is handed out, and its slot is null. *)
Lemma part_with_known_etag_is_not_sent_witness :
  exists a s a',
    sample_resumed_put = Some (inr a) /\
    run (start a) sample_resumed_calls = Some s /\
    aws_array_list_get_at (etag_list (synced_data (meta_request s))) 0 = Some (Some "e1"%string) /\
    s_s3_auto_ranged_put_update (meta_request s) 0 = Some (true, Some (part_request 2), a') /\
    al_data (etag_list (synced_data (meta_request s))) !! Z.to_nat (2 - 1) = Some None.
Proof.
  eexists _, _, _. split; [vm_compute; reflexivity|]. split; [vm_compute; reflexivity|].
  split; [vm_compute; reflexivity|]. split; [vm_compute; reflexivity|].
  eapply (part_with_known_etag_is_not_sent sample_min_upload_part_size
            sample_max_num_upload_parts (8 * MiB) (25 * MiB) 4
            (sample_options (Some (Some sample_token)) AWS_SCA_NONE)
            _ sample_resumed_calls _ 0 true (part_request 2) _).
  - unfold UINT32_MODULUS. lia.
  - vm_compute. reflexivity.
  - vm_compute. reflexivity.
  - vm_compute. reflexivity.
  - vm_compute. reflexivity.
  - reflexivity.
Defined.

(** X4 on the fresh put with all four parts uploaded. *)
Lemma complete_is_sent_with_every_etag_witness :
  exists a s a',
    sample_fresh_put = Some (inr a) /\
    run (start a) sample_all_parts_calls = Some s /\
    s_s3_auto_ranged_put_update (meta_request s) 0
    = Some (true, Some complete_multipart_upload_request, a') /\
    (forall n, 1 <= n <= total_num_parts (synced_data (meta_request s)) ->
       exists etag,
         aws_array_list_get_at (etag_list (synced_data (meta_request s))) (n - 1)
         = Some (Some etag)) /\
    upload_id (meta_request s) <> None /\
    finish_result (base (meta_request s)) = None /\
    count_tag AWS_S3_AUTO_RANGED_PUT_REQUEST_TAG_PART (in_flight s) = 0.
Proof.
  eexists _, _, _. split; [vm_compute; reflexivity|]. split; [vm_compute; reflexivity|].
  split; [vm_compute; reflexivity|].
  eapply (complete_is_sent_with_every_etag sample_min_upload_part_size
            sample_max_num_upload_parts (8 * MiB) (25 * MiB) 4
            (sample_options None AWS_SCA_NONE) _ sample_all_parts_calls _ 0 true
            complete_multipart_upload_request _).
  - unfold UINT32_MODULUS. lia.
  - vm_compute. reflexivity.
  - vm_compute. reflexivity.
  - vm_compute. reflexivity.
  - vm_compute. reflexivity.
  - reflexivity.
Defined.

(** X5 on the fresh put with part 1 in flight. *)
Lemma pause_of_running_upload_is_defined_witness :
  exists a s,
    sample_fresh_put = Some (inr a) /\
    run (start a) sample_first_part_calls = Some s /\
    exists token a',
      s_s3_auto_ranged_put_pause (meta_request s) = Some (token, a') /\
      finish_error (base a') = Some AWS_ERROR_S3_PAUSED /\
      (token <> None <->
       create_multipart_upload_completed (synced_data (meta_request s)) = true).
Proof.
  eexists _, _. split; [vm_compute; reflexivity|]. split; [vm_compute; reflexivity|].
  eapply (pause_of_running_upload_is_defined sample_min_upload_part_size
            sample_max_num_upload_parts (8 * MiB) (25 * MiB) 4
            (sample_options None AWS_SCA_NONE) _ sample_first_part_calls _).
  - unfold UINT32_MODULUS. lia.
  - vm_compute. reflexivity.
  - vm_compute. reflexivity.
  - vm_compute. reflexivity.
  - vm_compute. reflexivity.
Defined.

(** X6 on the fresh put run to its end. *)
Lemma phase_requests_are_handed_out_once_witness :
  exists a s,
    sample_fresh_put = Some (inr a) /\
    run (start a) sample_completed_calls = Some s /\
    count_tag AWS_S3_AUTO_RANGED_PUT_REQUEST_TAG_LIST_PARTS (handed_out s) <= 1 /\
    count_tag AWS_S3_AUTO_RANGED_PUT_REQUEST_TAG_CREATE_MULTIPART_UPLOAD (handed_out s) <= 1 /\
    count_tag AWS_S3_AUTO_RANGED_PUT_REQUEST_TAG_COMPLETE_MULTIPART_UPLOAD (handed_out s) <= 1 /\
    count_tag AWS_S3_AUTO_RANGED_PUT_REQUEST_TAG_ABORT_MULTIPART_UPLOAD (handed_out s) <= 1 /\
    (resume_token (sample_options None AWS_SCA_NONE) = None ->
     count_tag AWS_S3_AUTO_RANGED_PUT_REQUEST_TAG_LIST_PARTS (handed_out s) = 0) /\
    (resume_token (sample_options None AWS_SCA_NONE) <> None ->
     count_tag AWS_S3_AUTO_RANGED_PUT_REQUEST_TAG_CREATE_MULTIPART_UPLOAD (handed_out s) = 0).
Proof.
  eexists _, _. split; [vm_compute; reflexivity|]. split; [vm_compute; reflexivity|].
  eapply (phase_requests_are_handed_out_once sample_min_upload_part_size
            sample_max_num_upload_parts (8 * MiB) (25 * MiB) 4
            (sample_options None AWS_SCA_NONE) _ sample_completed_calls _).
  - unfold UINT32_MODULUS. lia.
  - vm_compute. reflexivity.
  - vm_compute. reflexivity.
  - vm_compute. reflexivity.
Defined.

(** X7 on the fresh put with part 1 handed out. *)
Lemma upload_id_is_known_to_requests_that_need_it_witness :
  exists a s,
    sample_fresh_put = Some (inr a) /\
    run (start a) sample_first_part_calls = Some s /\
    In (part_request 1) (handed_out s) /\
    exists id, upload_id (meta_request s) = Some id.
Proof.
  eexists _, _. split; [vm_compute; reflexivity|]. split; [vm_compute; reflexivity|].
  split; [vm_compute; right; left; reflexivity|].
  eapply (upload_id_is_known_to_requests_that_need_it sample_min_upload_part_size
            sample_max_num_upload_parts (8 * MiB) (25 * MiB) 4
            (sample_options None AWS_SCA_NONE) _ sample_first_part_calls _ (part_request 1)).
  - unfold UINT32_MODULUS. lia.
  - vm_compute. reflexivity.
  - vm_compute. reflexivity.
  - vm_compute. reflexivity.
  - vm_compute. right. left. reflexivity.
  - left. reflexivity.
Defined.

(** X8 on the fresh put run to its end. *)
Lemma success_only_after_complete_witness :
  exists a s,
    sample_fresh_put = Some (inr a) /\
    run (start a) sample_completed_calls = Some s /\
    finish_error (base (meta_request s)) = Some AWS_ERROR_SUCCESS /\
    complete_multipart_upload_completed (synced_data (meta_request s)) = true /\
    complete_multipart_upload_error_code (synced_data (meta_request s)) = AWS_ERROR_SUCCESS /\
    num_parts_completed (synced_data (meta_request s))
    = total_num_parts (synced_data (meta_request s)) /\
    count_tag AWS_S3_AUTO_RANGED_PUT_REQUEST_TAG_COMPLETE_MULTIPART_UPLOAD (handed_out s) = 1.
Proof.
  eexists _, _. split; [vm_compute; reflexivity|]. split; [vm_compute; reflexivity|].
  split; [vm_compute; reflexivity|].
  eapply (success_only_after_complete sample_min_upload_part_size
            sample_max_num_upload_parts (8 * MiB) (25 * MiB) 4
            (sample_options None AWS_SCA_NONE) _ sample_completed_calls _).
  - unfold UINT32_MODULUS. lia.
  - vm_compute. reflexivity.
  - vm_compute. reflexivity.
  - vm_compute. reflexivity.
  - vm_compute. reflexivity.
Defined.

(** X9 on the fresh put, paused with part 1 in flight: the later calls of
    [update] hand out nothing, also once part 1 has finished. *)
Lemma paused_upload_sends_nothing_more_witness :
  exists a s s',
    sample_fresh_put = Some (inr a) /\
    run (start a) sample_first_part_calls = Some s /\
    run s (call_pause :: sample_calls_after_pause) = Some s' /\
    finish_error (base (meta_request s')) = Some AWS_ERROR_S3_PAUSED /\
    handed_out s' = handed_out s.
Proof.
  eexists _, _, _. split; [vm_compute; reflexivity|]. split; [vm_compute; reflexivity|].
  split; [vm_compute; reflexivity|].
  eapply (paused_upload_sends_nothing_more _ sample_calls_after_pause _).
  - vm_compute. reflexivity.
  - vm_compute. reflexivity.
Defined.

(** X10 on the fresh put driven with the conservative flag: the second
    [update] after the creation hands out nothing. *)
Lemma conservative_updates_send_one_part_at_a_time_witness :
  exists a s,
    sample_fresh_put = Some (inr a) /\
    run (start a) sample_conservative_calls = Some s /\
    in_flight s = [part_request 1] /\
    count_tag AWS_S3_AUTO_RANGED_PUT_REQUEST_TAG_PART (in_flight s) <= 1.
Proof.
  eexists _, _. split; [vm_compute; reflexivity|]. split; [vm_compute; reflexivity|].
  split; [vm_compute; reflexivity|].
  eapply (conservative_updates_send_one_part_at_a_time sample_min_upload_part_size
            sample_max_num_upload_parts (8 * MiB) (25 * MiB) 4
            (sample_options None AWS_SCA_NONE) _ sample_conservative_calls _).
  - unfold UINT32_MODULUS. lia.
  - vm_compute. reflexivity.
  - vm_compute. reflexivity.
  - vm_compute. reflexivity.
Defined.

(** X11 on the resumed put whose first ListParts page announces a further
    page. *)
Lemma list_parts_next_page_is_not_requested_witness :
  exists a s s',
    sample_resumed_put = Some (inr a) /\
    run (start a) [call_update 0] = Some s /\
    step s (call_request_finished list_parts_request first_page_response
              AWS_ERROR_SUCCESS AWS_ERROR_SUCCESS) = Some s' /\
    list_parts_completed (synced_data (meta_request s')) = false /\
    list_parts_continuation_token (synced_data (meta_request s'))
    = next_continuation_token (response_body_list_parts first_page_response) /\
    (forall flags,
       s_s3_auto_ranged_put_update (meta_request s') flags
       = Some (true, None, meta_request s')) /\
    run s' (updates [0; AWS_S3_META_REQUEST_UPDATE_FLAG_CONSERVATIVE; 0]) = Some s'.
Proof.
  eexists _, _, _. split; [vm_compute; reflexivity|]. split; [vm_compute; reflexivity|].
  match goal with
  | |- step ?s _ = _ /\ _ =>
      split; [vm_compute; reflexivity|];
      eapply (list_parts_next_page_is_not_requested s list_parts_request
                first_page_response AWS_ERROR_SUCCESS _
                [0; AWS_S3_META_REQUEST_UPDATE_FLAG_CONSERVATIVE; 0])
  end.
  - reflexivity.
  - vm_compute. reflexivity.
  - vm_compute. reflexivity.
  - reflexivity.
  - reflexivity.
  - vm_compute. reflexivity.
Defined.

(** X12 on the fresh put with part 1 in flight: the token of its pause is
    [sample_token], with which the put is constructed again. *)
Lemma paused_upload_can_be_resumed_witness :
  exists a s a_paused,
    sample_fresh_put = Some (inr a) /\
    run (start a) sample_first_part_calls = Some s /\
    s_s3_auto_ranged_put_pause (meta_request s) = Some (Some sample_token, a_paused) /\
    exists a_resumed,
      aws_s3_meta_request_auto_ranged_put_new sample_min_upload_part_size
        sample_max_num_upload_parts (8 * MiB) (content_length (meta_request s)) 4
        (sample_options (Some (Some sample_token)) AWS_SCA_NONE) = Some (inr a_resumed) /\
      upload_id a_resumed = upload_id (meta_request s) /\
      part_size (base a_resumed) = part_size (base (meta_request s)) /\
      total_num_parts (synced_data a_resumed) = total_num_parts (synced_data (meta_request s)) /\
      content_length a_resumed = content_length (meta_request s) /\
      list_parts_sent (synced_data a_resumed) = false /\
      create_multipart_upload_completed (synced_data a_resumed) = true /\
      next_part_number a_resumed = 1.
Proof.
  eexists _, _, _. split; [vm_compute; reflexivity|]. split; [vm_compute; reflexivity|].
  split; [vm_compute; reflexivity|].
  eapply (paused_upload_can_be_resumed _ sample_token _ sample_min_upload_part_size
            sample_max_num_upload_parts (8 * MiB) 4
            (sample_options (Some (Some sample_token)) AWS_SCA_NONE)).
  - vm_compute. reflexivity.
  - vm_compute. split; reflexivity.
  - vm_compute. discriminate.
  - vm_compute. split; [discriminate|reflexivity].
  - vm_compute. reflexivity.
  - vm_compute. discriminate.
  - vm_compute. discriminate.
  - reflexivity.
  - reflexivity.
  - reflexivity.
Defined.

(** X13 on the resumed put and the listed part 1. *)
Lemma listed_part_is_recorded_witness :
  exists a a',
    sample_resumed_put = Some (inr a) /\
    s_process_part_info listed_part_1 a = Some a' /\
    aws_array_list_get_at (etag_list (synced_data a')) (1 - 1) = Some (Some "e1"%string) /\
    forall j : nat,
      Z.of_nat j <> 1 - 1 ->
      al_data (etag_list (synced_data a')) !! j = al_data (etag_list (synced_data a)) !! j.
Proof.
  eexists _, _. split; [vm_compute; reflexivity|]. split; [vm_compute; reflexivity|].
  eapply (listed_part_is_recorded listed_part_1 _ _).
  - vm_compute. reflexivity.
  - vm_compute. split; discriminate.
  - vm_compute. discriminate.
Defined.

(** X14 on the tiny resumed put, which has CRC32 checksums, and a listed
    part with part number 0: the checksum would be written outside
    [checksums_list]. *)
Lemma listed_part_number_out_of_range_witness :
  exists a,
    tiny_resumed_put = Some (inr a) /\
    checksum_algorithm (base a) = AWS_SCA_CRC32 /\
    (checksum_algorithm (base a) <> AWS_SCA_NONE ->
     (s_process_part_info listed_part_0 a <> None <->
      1 <= part_info_part_number listed_part_0 <= Z.of_nat (length (checksums_list a)))) /\
    (checksum_algorithm (base a) = AWS_SCA_NONE ->
     exists a',
       s_process_part_info listed_part_0 a = Some a' /\
       (~ 1 <= part_info_part_number listed_part_0
            <= Z.of_nat (length (al_data (etag_list (synced_data a)))) ->
        Z.of_nat (length (al_data (etag_list (synced_data a)))) < UINT32_MODULUS ->
        a' = a)).
Proof.
  eexists. split; [vm_compute; reflexivity|]. split; [vm_compute; reflexivity|].
  eapply (listed_part_number_out_of_range listed_part_0 _).
  - vm_compute. split; [discriminate|reflexivity].
  - vm_compute. reflexivity.
Defined.

(** X15 on the tiny body: skipping parts 1 and 2 at once, or part 1 and
    then part 2. *)
Lemma skipping_goes_on_where_it_stopped_witness :
  exists a,
    tiny_resumed_put = Some (inr a) /\
    s_skip_parts_from_stream (list Byte.byte) memory_stream_read first_byte_digest a
      tiny_body 0 2
    = skip_ok (drop 8 tiny_body) /\
    s_skip_parts_from_stream (list Byte.byte) memory_stream_read first_byte_digest a
      tiny_body 0 2
    = match s_skip_parts_from_stream (list Byte.byte) memory_stream_read first_byte_digest a
              tiny_body 0 1 with
      | skip_ok stream' =>
          s_skip_parts_from_stream (list Byte.byte) memory_stream_read first_byte_digest a
            stream' 1 2
      | skip_failed e => skip_failed e
      end.
Proof.
  eexists. split; [vm_compute; reflexivity|]. split; [vm_compute; reflexivity|].
  eapply (skipping_goes_on_where_it_stopped (list Byte.byte) memory_stream_read
            first_byte_digest _ tiny_body 0 1 2).
  - lia.
  - lia.
Defined.

(** X16 on the put of 25 MiB in parts of 8 MiB. *)
Lemma part_sizes_cover_the_content_witness :
  exists a,
    sample_fresh_put = Some (inr a) /\
    (forall n, 0 < s_compute_request_body_size a n <= part_size (base a)) /\
    foldr Z.add 0
      (map (s_compute_request_body_size a) (seqZ 1 (total_num_parts (synced_data a))))
    = content_length a.
Proof.
  eexists. split; [vm_compute; reflexivity|].
  eapply (part_sizes_cover_the_content _).
  - vm_compute. reflexivity.
  - vm_compute. reflexivity.
  - vm_compute. reflexivity.
Defined.

(** X17 on the resumed put. *)
Lemma first_request_after_construction_witness :
  exists a,
    sample_resumed_put = Some (inr a) /\
    exists a',
      s_s3_auto_ranged_put_update a 0
      = Some (true,
              Some (if is_fresh (sample_options (Some (Some sample_token)) AWS_SCA_NONE)
                    then create_multipart_upload_request else list_parts_request),
              a') /\
      (if is_fresh (sample_options (Some (Some sample_token)) AWS_SCA_NONE)
       then create_multipart_upload_sent (synced_data a') = true
       else list_parts_sent (synced_data a') = true) /\
      upload_id a' = upload_id a /\ next_part_number a' = 1.
Proof.
  eexists. split; [vm_compute; reflexivity|].
  eapply (first_request_after_construction sample_min_upload_part_size
            sample_max_num_upload_parts (8 * MiB) (25 * MiB) 4
            (sample_options (Some (Some sample_token)) AWS_SCA_NONE) _ 0).
  vm_compute. reflexivity.
Defined.

(** X18 on the tiny put of 10 bytes in parts of 4: the first preparation of
    part 2, with nothing read so far, skips part 1 and sends bytes 4 to 7;
    that of part 3 sends the last two bytes. *)
Lemma part_request_carries_its_byte_range_witness :
  exists a a' stream' message,
    tiny_resumed_put = Some (inr a) /\
    sample_prepare_request a tiny_body (part_request 2) 0 []
    = Some (prepare_ok a' stream' [Byte.x65; Byte.x66; Byte.x67; Byte.x68] message) /\
    [Byte.x65; Byte.x66; Byte.x67; Byte.x68]
    = take (Z.to_nat (s_compute_request_body_size a 2))
        (drop (Z.to_nat ((2 - 1) * part_size (base a))) tiny_body) /\
    stream'
    = drop (Z.to_nat ((2 - 1) * part_size (base a) + s_compute_request_body_size a 2))
        tiny_body /\
    num_parts_read_from_stream a' = 2.
Proof.
  eexists _, _, _, _. split; [vm_compute; reflexivity|].
  split; [vm_compute; reflexivity|].
  eapply (part_request_carries_its_byte_range tiny_body first_byte_digest
            sample_http_message [] [] sample_construct_next sample_copy_headers
            sample_create_message sample_upload_part_message sample_complete_message
            sample_abort_message _ (part_request 2) [] _ _ _ _).
  - reflexivity.
  - vm_compute. discriminate.
  - vm_compute. reflexivity.
  - vm_compute. split; discriminate.
  - vm_compute. split; [discriminate|reflexivity].
  - vm_compute. reflexivity.
Defined.

(** X19 on the tiny put: a second preparation of part 2 leaves the stream
    and the request body alone. *)
Lemma later_preparation_does_not_read_witness :
  exists a a' message,
    tiny_resumed_put = Some (inr a) /\
    sample_prepare_request a (drop 8 tiny_body) (part_request 2) 1
      [Byte.x65; Byte.x66; Byte.x67; Byte.x68]
    = Some (prepare_ok a' (drop 8 tiny_body) [Byte.x65; Byte.x66; Byte.x67; Byte.x68] message) /\
    num_parts_read_from_stream a' = num_parts_read_from_stream a.
Proof.
  eexists _, _, _. split; [vm_compute; reflexivity|].
  split; [vm_compute; reflexivity|].
  match goal with
  | |- num_parts_read_from_stream ?a' = num_parts_read_from_stream ?a =>
      pose proof (later_preparation_does_not_read (list Byte.byte) memory_stream_read
                    first_byte_digest sample_http_message [] [] sample_construct_next
                    sample_copy_headers sample_create_message sample_upload_part_message
                    sample_complete_message sample_abort_message a (drop 8 tiny_body)
                    (part_request 2) 1 [Byte.x65; Byte.x66; Byte.x67; Byte.x68]
                    (prepare_ok a' (drop 8 tiny_body)
                       [Byte.x65; Byte.x66; Byte.x67; Byte.x68]
                       ("UploadPart"%string, [Byte.x65; Byte.x66; Byte.x67; Byte.x68]))
                    ltac:(discriminate) ltac:(vm_compute; reflexivity)) as Hlater
  end.
  simpl in Hlater. exact (proj1 (proj2 Hlater)).
Defined.

(** X20 on the fresh put with part 1 handed out. *)
Lemma handed_out_request_can_be_prepared_witness :
  exists a s,
    sample_fresh_put = Some (inr a) /\
    run (start a) sample_first_part_calls = Some s /\
    In (part_request 1) (handed_out s) /\
    exists result,
      sample_prepare_request (meta_request s) tiny_body (part_request 1) 0 [] = Some result.
Proof.
  eexists _, _. split; [vm_compute; reflexivity|]. split; [vm_compute; reflexivity|].
  split; [vm_compute; right; left; reflexivity|].
  eapply (handed_out_request_can_be_prepared sample_min_upload_part_size
            sample_max_num_upload_parts (8 * MiB) (25 * MiB) 4
            (sample_options None AWS_SCA_NONE) _ sample_first_part_calls _ (part_request 1)
            (list Byte.byte) memory_stream_read first_byte_digest
            sample_http_message [] [] sample_construct_next sample_copy_headers
            sample_create_message sample_upload_part_message sample_complete_message
            sample_abort_message tiny_body 0 []).
  - unfold UINT32_MODULUS. lia.
  - vm_compute. reflexivity.
  - vm_compute. reflexivity.
  - vm_compute. reflexivity.
  - vm_compute. reflexivity.
  - vm_compute. right. left. reflexivity.
Defined.

(** X21 on a content of [2 ^ 32 + 3] bytes in parts of one byte: a part
    count of 3 is taken for it. *)
Lemma persisted_part_count_is_compared_modulo_2_32_witness :
  exists a,
    sample_fresh_put = Some (inr a) /\
    implied_num_parts (2 ^ 32 + 3) 1 = 2 ^ 32 + 3 /\
    exists a',
      s_load_persistable_state (sample_options (Some (Some sample_token)) AWS_SCA_NONE) a
        (2 ^ 32 + 3) (Some "abc"%string) 1 3 = inr a' /\
      upload_id a' = Some "abc"%string /\
      create_multipart_upload_completed (synced_data a') = true.
Proof.
  eexists. split; [vm_compute; reflexivity|]. split; [vm_compute; reflexivity|].
  eapply (persisted_part_count_is_compared_modulo_2_32
            (sample_options (Some (Some sample_token)) AWS_SCA_NONE) _
            (2 ^ 32 + 3) (Some "abc"%string) 1 3).
  - vm_compute. discriminate.
  - lia.
  - vm_compute. split; [discriminate|reflexivity].
  - split; vm_compute; reflexivity.
Defined.

(** X22 on the fresh put with CompleteMultipartUpload in flight. *)
Lemma finish_hook_is_defined_for_requests_in_flight_witness :
  exists a s,
    sample_fresh_put = Some (inr a) /\
    run (start a) (sample_all_parts_calls ++ [call_update 0]) = Some s /\
    In complete_multipart_upload_request (in_flight s) /\
    exists a' events,
      s_s3_auto_ranged_put_request_finished (meta_request s)
        complete_multipart_upload_request (plain_response 200 [])
        AWS_ERROR_SUCCESS AWS_ERROR_SUCCESS = Some (a', events).
Proof.
  eexists _, _. split; [vm_compute; reflexivity|]. split; [vm_compute; reflexivity|].
  split; [vm_compute; left; reflexivity|].
  eapply (finish_hook_is_defined_for_requests_in_flight sample_min_upload_part_size
            sample_max_num_upload_parts (8 * MiB) (25 * MiB) 4
            (sample_options None AWS_SCA_NONE) _ (sample_all_parts_calls ++ [call_update 0])
            _ complete_multipart_upload_request (plain_response 200 [])
            AWS_ERROR_SUCCESS AWS_ERROR_SUCCESS).
  - unfold UINT32_MODULUS. lia.
  - vm_compute. reflexivity.
  - vm_compute. reflexivity.
  - vm_compute. reflexivity.
  - vm_compute. left. reflexivity.
  - intros info [].
Defined.

(** X23 on the fresh put of 25 MiB run to its end: the four progress
    reports add up to 32 MiB. *)
Lemma progress_reports_add_up_to_successful_parts_witness :
  exists a s,
    sample_fresh_put = Some (inr a) /\
    run (start a) sample_completed_calls = Some s /\
    num_parts_successful (synced_data (meta_request s)) = 4 /\
    content_length a = 25 * MiB /\
    reported_bytes (callbacks s)
    = (if progress_callback (base a)
       then num_parts_successful (synced_data (meta_request s)) else 0)
      * part_size (base a) /\
    0 <= headers_calls (callbacks s) <= 1.
Proof.
  eexists _, _. split; [vm_compute; reflexivity|]. split; [vm_compute; reflexivity|].
  split; [vm_compute; reflexivity|]. split; [vm_compute; reflexivity|].
  eapply (progress_reports_add_up_to_successful_parts sample_min_upload_part_size
            sample_max_num_upload_parts (8 * MiB) (25 * MiB) 4
            (sample_options None AWS_SCA_NONE) _ sample_completed_calls _).
  - unfold UINT32_MODULUS. lia.
  - vm_compute. reflexivity.
  - vm_compute. reflexivity.
Defined.

(** X24 on the tiny put of 10 bytes in parts of 4, resumed with all three
    parts uploaded before: the body is read to its end. *)
Lemma complete_preparation_reads_to_the_end_witness :
  exists a a' stream' body' message,
    tiny_resumed_put = Some (inr a) /\
    sample_prepare_request a tiny_body complete_multipart_upload_request 0 []
    = Some (prepare_ok a' stream' body' message) /\
    stream' = [] /\
    num_parts_read_from_stream a' = total_num_parts (synced_data a).
Proof.
  eexists _, _, _, _, _. split; [vm_compute; reflexivity|].
  split; [vm_compute; reflexivity|].
  eapply (complete_preparation_reads_to_the_end tiny_body first_byte_digest
            sample_http_message [] [] sample_construct_next sample_copy_headers
            sample_create_message sample_upload_part_message sample_complete_message
            sample_abort_message _ complete_multipart_upload_request [] _ _ _ _).
  - reflexivity.
  - vm_compute. reflexivity.
  - vm_compute. reflexivity.
  - vm_compute. reflexivity.
  - vm_compute. reflexivity.
  - vm_compute. split; discriminate.
  - vm_compute. reflexivity.
Defined.

(** X25 on the resumed put whose ListParts request fails with a server
    error. *)
Lemma failed_list_parts_aborts_the_resumed_upload_witness :
  exists a s a',
    sample_resumed_put = Some (inr a) /\
    run (start a)
      [call_update 0;
       call_request_finished list_parts_request (plain_response 500 []) (AWS_ERROR_OTHER 500)
         AWS_ERROR_SUCCESS]
    = Some s /\
    finish_error (base (meta_request s)) = Some (AWS_ERROR_OTHER 500) /\
    upload_id (meta_request s) = Some "abc"%string /\
    s_s3_auto_ranged_put_update (meta_request s) 0 = Some (true, Some abort_request, a').
Proof.
  eexists _, _, _. split; [vm_compute; reflexivity|].
  match goal with
  | |- run (start ?a) _ = _ /\ _ =>
      destruct (failed_list_parts_aborts_the_resumed_upload sample_min_upload_part_size
                  sample_max_num_upload_parts (8 * MiB) (25 * MiB) 4
                  (sample_options (Some (Some sample_token)) AWS_SCA_NONE) a 0 0
                  (plain_response 500 []) (AWS_ERROR_OTHER 500) AWS_ERROR_SUCCESS)
        as (s & a' & Hrun & Hfinish & Hid & Hupdate)
  end.
  - vm_compute. reflexivity.
  - discriminate.
  - reflexivity.
  - discriminate.
  - discriminate.
  - vm_compute in Hrun. injection Hrun as <-.
    split; [vm_compute; reflexivity|]. split; [exact Hfinish|].
    split; [exact Hid|]. vm_compute in Hupdate. injection Hupdate as <-.
    vm_compute. reflexivity.
Defined.

(** X26 on the fresh put, cancelled once the upload is created: the next
    [update] hands out the abort, and nothing else follows. *)
Lemma finished_upload_only_sends_abort_witness :
  exists a s s',
    sample_fresh_put = Some (inr a) /\
    run (start a) sample_cancelled_calls = Some s /\
    run s [call_update 0; call_update 0] = Some s' /\
    handed_out s' = handed_out s ++ [abort_request] /\
    finish_result (base (meta_request s')) = finish_result (base (meta_request s)) /\
    exists new,
      handed_out s' = handed_out s ++ new /\
      forall r, In r new -> r = abort_request.
Proof.
  eexists _, _, _. split; [vm_compute; reflexivity|]. split; [vm_compute; reflexivity|].
  split; [vm_compute; reflexivity|]. split; [vm_compute; reflexivity|].
  eapply (finished_upload_only_sends_abort _ [call_update 0; call_update 0] _).
  - vm_compute. discriminate.
  - vm_compute. reflexivity.
Defined.

(** X27 on the resumed put whose part 1 was listed with a checksum: the
    preparation of part 2 fails when the first byte of the body has
    changed. *)
Lemma preparation_fails_on_checksum_mismatch_witness :
  exists a s,
    tiny_resumed_put = Some (inr a) /\
    run (start a) tiny_listed_calls = Some s /\
    sample_prepare_request (meta_request s) tiny_body_changed (part_request 2) 0 []
    = Some (prepare_err (meta_request s) None (Some [])
              (Some AWS_ERROR_S3_RESUMED_PART_CHECKSUM_MISMATCH)).
Proof.
  eexists _, _. split; [vm_compute; reflexivity|]. split; [vm_compute; reflexivity|].
  eapply (preparation_fails_on_checksum_mismatch (list Byte.byte) memory_stream_read
            first_byte_digest sample_http_message [] [] sample_construct_next
            sample_copy_headers sample_create_message sample_upload_part_message
            sample_complete_message sample_abort_message _ tiny_body_changed
            (drop 4 tiny_body_changed) (part_request 2) [] 1 [take 4 tiny_body_changed]
            O (take 4 tiny_body_changed) [Byte.x7a]).
  - left. split; reflexivity.
  - vm_compute. reflexivity.
  - vm_compute. split; discriminate.
  - vm_compute. discriminate.
  - vm_compute. reflexivity.
  - intros j read_part _ _ _. by eexists.
  - reflexivity.
  - vm_compute. discriminate.
  - vm_compute. discriminate.
  - reflexivity.
  - vm_compute. discriminate.
Defined.
